(** * FundDance: the incremental fetch-and-patch pipeline

    A shallow embedding of the board pipeline found in
    [bk/bk_vis/bk_fetch_data.py], [round/bk_data_ind.py],
    [bk/backup/rank_get_value.py] and [bk/bk_vis/bk_top_range.py]:
    the cell encoder [fmt_cell], the ranking used for the [rank] field,
    the wide table with its [patch_today] upsert, the [build_csv] driver
    and the visualiser's [parse_triplet]; then the fetchers that feed
    them ([fetch_board_list_basic], [fetch_board_list_today],
    [_parse_klines], [get_latest_trade_date]) and what the visualiser
    reads of the table before it parses the cells.

    Conventions.
    - A Python [str] is a [string] of bytes (UTF-8), so that comparing two
      strings byte by byte is comparing them by code point.
    - A pandas cell is an [option string]: [None] is NaN (a missing value).
    - A Python [float] is a [pyfloat]: NaN, an infinity, or the exact dyadic
      number [(-1)^neg * m * 2^e].
    - Code that can raise returns an [exc]; a [try ... except Exception]
      is a [match] on it.
    - The network is an oracle: a fetcher is a function of the answers
      to its requests, and returns the requests it made where their
      number matters. *)

From Stdlib Require Import List String Ascii Bool Arith ZArith NArith QArith Qabs Lia
  Permutation Sorted.
Import ListNotations.

Close Scope Q_scope.
Open Scope string_scope.
Open Scope list_scope.

(** ** Python strings *)

Module PyStr.

(** [s.rstrip(c)] for a one-character set [c]. *)
Fixpoint rstrip (c : ascii) (s : string) : string :=
  match s with
  | EmptyString => EmptyString
  | String a t =>
      let t' := rstrip c t in
      if (t' =? EmptyString) && Ascii.eqb a c then EmptyString else String a t'
  end.

(** [s.split(c)] for a one-character separator: never the empty list. *)
Fixpoint split (c : ascii) (s : string) : list string :=
  match s with
  | EmptyString => [EmptyString]
  | String a t =>
      let r := split c t in
      if Ascii.eqb a c then EmptyString :: r
      else match r with
           | h :: tl => String a h :: tl
           | [] => [String a EmptyString]
           end
  end.

(** [sep.join(parts)]. *)
Definition join (sep : string) (parts : list string) : string :=
  String.concat sep parts.

Definition digit_char (d : N) : ascii := ascii_of_N (48 + d).

(** The decimal digits of [n], most significant first; [fuel] bounds their
    number. *)
Fixpoint digits_fuel (fuel : nat) (n : N) : string :=
  match fuel with
  | O => EmptyString
  | S f =>
      (if (n <? 10)%N then EmptyString else digits_fuel f (n / 10)%N)
      ++ String (digit_char (n mod 10)%N) EmptyString
  end.

(** [str(n)] for a natural number. *)
Definition str_N (n : N) : string :=
  digits_fuel (S (N.to_nat (N.log2 n))) n.

(** [str(z)] for a Python [int]. *)
Definition str_int (z : Z) : string :=
  if (z <? 0)%Z then "-" ++ str_N (Z.abs_N z) else str_N (Z.abs_N z).

(** Exactly [d] decimal digits of [k], zero padded on the left. *)
Fixpoint pad_digits (d : nat) (k : N) : string :=
  match d with
  | O => EmptyString
  | S d' => pad_digits d' (k / 10)%N ++ String (digit_char (k mod 10)%N) EmptyString
  end.

(** [len(set(keys)) < len(keys)]. *)
Fixpoint has_dup (keys : list string) : bool :=
  match keys with
  | [] => false
  | k :: t => existsb (String.eqb k) t || has_dup t
  end.

Definition mem (k : string) (l : list string) : bool := existsb (String.eqb k) l.

(** Insertion into a list sorted by [String.leb]; [sorted] is the order
    pandas' [safe_sort] gives an index of strings. *)
Fixpoint insert_sorted (k : string) (l : list string) : list string :=
  match l with
  | [] => [k]
  | h :: t => if String.leb k h then k :: l else h :: insert_sorted k t
  end.

Definition sorted (l : list string) : list string :=
  fold_right insert_sorted [] l.

(** The first value bound to [k] in an association list. *)
Fixpoint assoc {A : Type} (k : string) (l : list (string * A)) : option A :=
  match l with
  | [] => None
  | (k', v) :: t => if String.eqb k k' then Some v else assoc k t
  end.

End PyStr.

(** ** Python floats *)

Module PyFloat.

Inductive pyfloat : Type :=
| FNaN
| FInf (neg : bool)
| FFin (neg : bool) (m : N) (e : Z).

(** [math.isnan], [pd.isna] and the negation of [pd.notna] on a float. *)
Definition isnan (x : pyfloat) : bool :=
  match x with FNaN => true | _ => false end.

(** [num / den] rounded to the nearest integer, ties to even. *)
Definition round_half_even (num den : N) : N :=
  let q := (num / den)%N in
  let r := (num mod den)%N in
  if (2 * r <? den)%N then q
  else if (2 * r =? den)%N then (if N.even q then q else q + 1)%N
  else (q + 1)%N.

(** [m * 2^e * 10^d] rounded to an integer. *)
Definition scaled (d : nat) (m : N) (e : Z) : N :=
  let n := (m * 10 ^ N.of_nat d)%N in
  if (0 <=? e)%Z then (n * 2 ^ Z.to_N e)%N
  else round_half_even n (2 ^ Z.to_N (- e))%N.

(** [f"{x:.{d}f}"] for [d >= 1]: the exact value rounded half-even to [d]
    decimals, the sign kept when the digits are all zero. *)
Definition format_fixed (d : nat) (x : pyfloat) : string :=
  match x with
  | FNaN => "nan"
  | FInf neg => if neg then "-inf" else "inf"
  | FFin neg m e =>
      let n := scaled d m e in
      (if neg then "-" else EmptyString)
      ++ PyStr.str_N (n / 10 ^ N.of_nat d)%N
      ++ "." ++ PyStr.pad_digits d (n mod 10 ^ N.of_nat d)%N
  end.

(** The value of a finite float as a rational. *)
Definition to_Q (neg : bool) (m : N) (e : Z) : Q :=
  let z := if neg then (- Z.of_N m)%Z else Z.of_N m in
  if (0 <=? e)%Z then inject_Z (z * 2 ^ e)%Z
  else Qmake z (Z.to_pos (2 ^ (- e))%Z).

(** A float that is not NaN, as a point of the extended rational line. *)
Inductive xval : Type :=
| XNegInf
| XFin (q : Q)
| XPosInf.

Definition key (x : pyfloat) : option xval :=
  match x with
  | FNaN => None
  | FInf true => Some XNegInf
  | FInf false => Some XPosInf
  | FFin neg m e => Some (XFin (to_Q neg m e))
  end.

(** [a < b] on values that are not NaN. *)
Definition xlt (a b : xval) : bool :=
  match a, b with
  | XNegInf, XNegInf => false
  | XNegInf, _ => true
  | XFin p, XFin q => negb (Qle_bool q p)
  | XFin _, XPosInf => true
  | _, _ => false
  end.

(** [x > y]: false when either is NaN. *)
Definition fgt (x y : pyfloat) : bool :=
  match key x, key y with
  | Some a, Some b => xlt b a
  | _, _ => false
  end.

(** Small constructors for the examples: [of_Z z] is the float [z.0] and
    [of_scaled z k] is [z / 2^k]. *)
Definition of_Z (z : Z) : pyfloat := FFin (z <? 0)%Z (Z.abs_N z) 0.
Definition of_scaled (z : Z) (k : N) : pyfloat :=
  FFin (z <? 0)%Z (Z.abs_N z) (- Z.of_N k).

End PyFloat.

Export PyFloat.

(** ** Ranking: [Series.rank(ascending=False, method="first")] *)

Module Rank.

Section Generic.

Variable V : Type.
(** [ltb a b] is [a < b]; a missing value ([NaN]) is [None]. *)
Variable ltb : V -> V -> bool.

(** [o] is a value strictly greater than [v]. *)
Definition above (v : V) (o : option V) : bool :=
  match o with Some y => ltb v y | None => false end.

(** [o] is a value that compares equal to [v]. *)
Definition tied (v : V) (o : option V) : bool :=
  match o with Some y => negb (ltb v y) && negb (ltb y v) | None => false end.

Definition count_above (v : V) (l : list (option V)) : nat :=
  List.length (filter (above v) l).

Definition count_tied (v : V) (l : list (option V)) : nat :=
  List.length (filter (tied v) l).

(** The rank of [v] standing after the prefix [pre] in the column [all]:
    one more than the number of greater values, ties in order of
    appearance. *)
Definition rank_at (all pre : list (option V)) (v : V) : nat :=
  1 + count_above v all + count_tied v pre.

Fixpoint rank_from (all pre post : list (option V)) : list (option nat) :=
  match post with
  | [] => []
  | None :: t => None :: rank_from all (pre ++ [None]) t
  | Some v :: t => Some (rank_at all pre v) :: rank_from all (pre ++ [Some v]) t
  end.

(** A missing value keeps a missing rank ([na_option="keep"]). *)
Definition rank_first_desc (xs : list (option V)) : list (option nat) :=
  rank_from xs [] xs.

(** [groupby(key)[col].rank(ascending=False, method="first")]: each row is
    ranked inside the rows that share its key. *)
Variable K : Type.
Variable keqb : K -> K -> bool.

Definition group (d : K) (rows : list (K * option V)) : list (option V) :=
  map snd (filter (fun r => keqb d (fst r)) rows).

Fixpoint group_rank_from (all pre post : list (K * option V)) : list (option nat) :=
  match post with
  | [] => []
  | (d, None) :: t => None :: group_rank_from all (pre ++ [(d, None)]) t
  | (d, Some v) :: t =>
      Some (rank_at (group d all) (group d pre) v)
      :: group_rank_from all (pre ++ [(d, Some v)]) t
  end.

Definition group_rank (rows : list (K * option V)) : list (option nat) :=
  group_rank_from rows [] rows.

End Generic.

Arguments rank_first_desc {V} ltb xs.
Arguments rank_from {V} ltb all pre post.
Arguments rank_at {V} ltb all pre v.
Arguments count_above {V} ltb v l.
Arguments count_tied {V} ltb v l.
Arguments above {V} ltb v o.
Arguments tied {V} ltb v o.
Arguments group {V K} keqb d rows.
Arguments group_rank {V} ltb {K} keqb rows.
Arguments group_rank_from {V} ltb {K} keqb all pre post.

(** The ranking of a float column. *)
Definition rank_floats (xs : list pyfloat) : list (option nat) :=
  rank_first_desc xlt (map key xs).

End Rank.

(** ** Exceptions *)

Inductive pyerr : Type :=
| ValueError
| IndexError
| IndexingError
| KeyError
| OverflowError
| HTTPError.

Inductive exc (A : Type) : Type :=
| Ok (a : A)
| Raise (e : pyerr).

Arguments Ok {A} a.
Arguments Raise {A} e.

Definition bind {A B : Type} (m : exc A) (k : A -> exc B) : exc B :=
  match m with
  | Ok a => k a
  | Raise e => Raise e
  end.

Notation "x <- m ;; k" := (bind m (fun x => k))
  (at level 61, m at next level, right associativity).

(** ** The wide table: a [DataFrame] of cells with a string index *)

Module Frame.

(** A cell: [None] is NaN. *)
Definition cell : Type := option string.

(** The labels of a table the pipeline reads or writes are distinct (a
    pivot's index is, [read_csv] renames a repeated column); [cell_at]
    reads the first cell of a label. *)

Record frame : Type := mkFrame {
  index : list string;        (* row labels ([row_key]) *)
  columns : list string;      (* column labels *)
  body : list (list cell)     (* one row of cells per label *)
}.

Fixpoint position (k : string) (l : list string) : option nat :=
  match l with
  | [] => None
  | h :: t => if String.eqb k h then Some O else option_map S (position k t)
  end.

(** [w.at[k, c]], NaN where the table has no such cell. *)
Definition cell_at (w : frame) (k c : string) : cell :=
  match position k (index w), position c (columns w) with
  | Some i, Some j =>
      match nth_error (body w) i with
      | Some row => match nth_error row j with Some v => v | None => None end
      | None => None
      end
  | _, _ => None
  end.

(** The table of index [idx] and columns [cols] whose cell at [(k, c)] is
    [f k c]. *)
Definition build (idx cols : list string) (f : string -> string -> cell) : frame :=
  mkFrame idx cols (map (fun k => map (f k) cols) idx).

(** [pd.DataFrame()]. *)
Definition empty_frame : frame := mkFrame [] [] [].

(** [w.empty]: some axis has length 0. *)
Definition empty (w : frame) : bool :=
  match index w, columns w with
  | [], _ => true
  | _, [] => true
  | _, _ => false
  end.

(** [w.reindex(idx)]: the rows of [idx], NaN rows for labels [w] lacks. *)
Definition reindex (w : frame) (idx : list string) : frame :=
  build idx (columns w)
    (fun k c => if PyStr.mem k (index w) then cell_at w k c else None).

(** [pd.concat([w, pd.DataFrame(index=ks, columns=w.columns)])]. *)
Definition append_rows (w : frame) (ks : list string) : frame :=
  build (index w ++ ks) (columns w)
    (fun k c => if PyStr.mem k (index w) then cell_at w k c else None).

(** [w[c] = col], the column appended when [c] is new. *)
Definition set_col (w : frame) (c : string) (col : string -> cell) : frame :=
  build (index w)
    (if PyStr.mem c (columns w) then columns w else columns w ++ [c])
    (fun k c' => if String.eqb c' c then col k else cell_at w k c').

(** [w[cols]]. *)
Definition select (w : frame) (cols : list string) : frame :=
  build (index w) cols (cell_at w).

(** What [pd.read_csv(path, index_col=0)] gives back for a table written by
    [to_csv]: an empty field is read as NaN. *)
Definition read_csv (w : frame) : frame :=
  build (index w) (columns w)
    (fun k c => match cell_at w k c with
                | Some s => if s =? EmptyString then None else Some s
                | None => None
                end).

Section ColumnOrder.

(** [_to_dt]: [pd.to_datetime(x)] as nanoseconds since the epoch, [None]
    when it raises or gives [NaT]. *)
Variable to_dt : string -> option Z.

Definition is_date (c : string) : bool :=
  match to_dt c with Some _ => true | None => false end.

Definition date_leb (a b : string) : bool :=
  match to_dt a, to_dt b with
  | Some x, Some y => (x <=? y)%Z
  | _, _ => true
  end.

Fixpoint insert_by_date (c : string) (l : list string) : list string :=
  match l with
  | [] => [c]
  | h :: t => if date_leb c h then c :: l else h :: insert_by_date c t
  end.

(** [cols_dt[cols_dt.notna()].sort_values().index.tolist()]. *)
Definition date_cols (cols : list string) : list string :=
  fold_right insert_by_date [] (filter is_date cols).

Definition other_cols (cols : list string) : list string :=
  filter (fun c => negb (PyStr.mem c (date_cols cols))) cols.

(** The date columns in date order, then the others. *)
Definition sort_columns (w : frame) : frame :=
  select w (date_cols (columns w) ++ other_cols (columns w)).

End ColumnOrder.

(** A table from its rows, for the examples. *)
Definition of_rows (cols : list string) (rows : list (string * list cell)) : frame :=
  mkFrame (map fst rows) cols (map snd rows).

End Frame.

Export Frame.

(** ** The today snapshot ([df_today]) *)

(** A JSON scalar as [fetch_board_list_today] keeps it. *)
Inductive pyval : Type :=
| VNone
| VStr (s : string)
| VInt (z : Z).

(** One board of the snapshot.  [close] and [pct_chg] are floats, a failed
    or absent value being NaN; the last four fields are the extra columns of
    [round/bk_data_ind.py]. *)
Record board_row : Type := mkRow {
  bk_code : string;
  bk_name : string;
  close : pyfloat;
  pct_chg : pyfloat;
  turnover : pyfloat;
  up_count : pyval;
  down_count : pyval;
  leader : string
}.

(** [df_today]; [extra_cols] says whether the frame has the columns
    [turnover], [up_count], [down_count] and [leader] at all.  Every
    snapshot is [pd.DataFrame(rows)] of a list of dicts, so one without
    rows has no column at all. *)
Record today_df : Type := mkToday {
  rows : list board_row;
  extra_cols : bool
}.

(** [df_today["pct_chg"].rank(...)] when some [pct_chg] is present, else
    [pd.NA] in every row. *)
Definition today_ranks (df : today_df) : list (option nat) :=
  let pcts := map pct_chg (rows df) in
  if existsb (fun x => negb (isnan x)) pcts then Rank.rank_floats pcts
  else map (fun _ => None) pcts.

(** [bk_code + "|" + bk_name]. *)
Definition row_key (code name : string) : string := code ++ "|" ++ name.

(** [int(r["rank"]) if pd.notna(r["rank"]) else None]. *)
Definition rank_arg (rk : option nat) : option Z := option_map Z.of_nat rk.

(** [mask = s.notna() & (s.str.len() > 0)] at one label. *)
Definition nonblank (c : cell) : bool :=
  match c with
  | Some s => negb (s =? EmptyString)
  | None => false
  end.

(** ** Writing a table: [to_csv(out_csv, encoding=..., index_label=...)] *)

Module Csv.

Inductive encoding : Type := Utf8 | Utf8Sig.

Definition quote_char : ascii := "034"%char.
Definition newline : string := String "010"%char EmptyString.

(** The byte order mark [EF BB BF] that [utf-8-sig] writes first. *)
Definition bom : string :=
  String "239"%char (String "187"%char (String "191"%char EmptyString)).

Fixpoint needs_quote (s : string) : bool :=
  match s with
  | EmptyString => false
  | String a t =>
      Ascii.eqb a ","%char || Ascii.eqb a quote_char
      || Ascii.eqb a "010"%char || Ascii.eqb a "013"%char || needs_quote t
  end.

Fixpoint escape (s : string) : string :=
  match s with
  | EmptyString => EmptyString
  | String a t =>
      if Ascii.eqb a quote_char then String a (String a (escape t))
      else String a (escape t)
  end.

(** One field under [QUOTE_MINIMAL]. *)
Definition field (s : string) : string :=
  if needs_quote s
  then String quote_char (escape s ++ String quote_char EmptyString)
  else s.

(** NaN is written as the empty field ([na_rep=""]). *)
Definition cell_field (c : cell) : string :=
  match c with Some s => field s | None => EmptyString end.

Definition line (fields : list string) : string :=
  PyStr.join "," fields ++ newline.

Definition text (index_label : string) (w : frame) : string :=
  line (field index_label :: map field (columns w))
  ++ String.concat EmptyString
       (map (fun k => line (field k :: map (fun c => cell_field (cell_at w k c))
                                        (columns w)))
            (index w)).

Definition to_csv (w : frame) (enc : encoding) (index_label : string) : string :=
  match enc with
  | Utf8 => text index_label w
  | Utf8Sig => bom ++ text index_label w
  end.

End Csv.

(** ** The long table of the baseline and its pivot *)

Module Long.

(** A [datetime.date]. *)
Record date : Type := mkDate { year : N; month : N; day : N }.

Definition date_eqb (a b : date) : bool :=
  (year a =? year b)%N && (month a =? month b)%N && (day a =? day b)%N.

Definition date_ltb (a b : date) : bool :=
  (year a <? year b)%N
  || ((year a =? year b)%N
      && ((month a <? month b)%N
          || ((month a =? month b)%N && (day a <? day b)%N))).

(** A Gregorian date whose year has four digits, as every pandas
    [Timestamp] (1677 to 2262) has. *)
Definition valid_date (d : date) : bool :=
  (1000 <=? year d)%N && (year d <=? 9999)%N
  && (1 <=? month d)%N && (month d <=? 12)%N
  && (1 <=? day d)%N && (day d <=? 31)%N.

(** [d.strftime("%Y-%m-%d")]. *)
Definition strftime (d : date) : string :=
  PyStr.pad_digits 4 (year d) ++ "-" ++ PyStr.pad_digits 2 (month d)
  ++ "-" ++ PyStr.pad_digits 2 (day d).

(** One kline record as [_parse_klines] returns it: [(date, pct, close)]. *)
Definition krec : Type := (string * pyfloat * pyfloat)%type.

(** One element of [all_rows]: the records of a board with its code and
    name. *)
Record board_hist : Type := mkHist {
  h_code : string;
  h_name : string;
  h_recs : list krec
}.

(** A row of [all_df]. *)
Record long_row : Type := mkLong {
  l_date : date;
  l_pct : pyfloat;
  l_close : pyfloat;
  l_code : string;
  l_name : string
}.

Section Dates.

(** [pd.to_datetime(s).date()]: [None] when the string is refused. *)
Variable to_date : string -> option date.

(** [pd.concat(all_rows)] with [trade_date] converted; a refused date
    raises. *)
Fixpoint convert (code name : string) (recs : list krec) : exc (list long_row) :=
  match recs with
  | [] => Ok []
  | (d, pct, cl) :: t =>
      match to_date d with
      | None => Raise ValueError
      | Some dd =>
          rest <- convert code name t ;;
          Ok (mkLong dd pct cl code name :: rest)
      end
  end.

Fixpoint concat (all_rows : list board_hist) : exc (list long_row) :=
  match all_rows with
  | [] => Ok []
  | h :: t =>
      rows <- convert (h_code h) (h_name h) (h_recs h) ;;
      rest <- concat t ;;
      Ok (rows ++ rest)
  end.

End Dates.

(** [all_df.groupby("trade_date")["pct_chg"].rank(ascending=False,
    method="first")]. *)
Definition long_ranks (rows : list long_row) : list (option nat) :=
  Rank.group_rank xlt date_eqb (map (fun r => (l_date r, key (l_pct r))) rows).

(** The sorted distinct dates: the columns [pivot_table] builds. *)
Fixpoint insert_date (d : date) (l : list date) : list date :=
  match l with
  | [] => [d]
  | h :: t =>
      if date_ltb d h then d :: l
      else if date_eqb d h then l
      else h :: insert_date d t
  end.

Definition distinct_dates (ds : list date) : list date :=
  fold_right insert_date [] ds.

Section Pivot.

(** The cell encoder of the file at hand, called as
    [fmt_cell(rank, pct_chg, close)]. *)
Variable fmt : option Z -> option pyfloat -> option pyfloat -> string.

(** [(row_key, trade_date, cell)] of every row. *)
Definition cells (rows : list long_row) : list (string * date * string) :=
  map (fun rr : long_row * option nat =>
         let (r, rk) := rr in
         (row_key (l_code r) (l_name r), l_date r,
          fmt (rank_arg rk) (Some (l_pct r)) (Some (l_close r))))
      (combine rows (long_ranks rows)).

(** [aggfunc="first"] at one (row_key, date). *)
Fixpoint first_cell (k : string) (d : date) (cs : list (string * date * string))
  : cell :=
  match cs with
  | [] => None
  | (k', d', c) :: t =>
      if String.eqb k k' && date_eqb d d' then Some c else first_cell k d t
  end.

(** [pivot_table(index="row_key", columns="trade_date", values="cell",
    aggfunc="first")], its columns renamed by [strftime] and sorted as
    strings. *)
Definition pivot (rows : list long_row) : frame :=
  let cs := cells rows in
  let idx := PyStr.sorted (nodup string_dec (map (fun c => fst (fst c)) cs)) in
  let dates := distinct_dates (map (fun c => snd (fst c)) cs) in
  let pv := build idx (map strftime dates)
              (fun k c =>
                 match find (fun d => String.eqb (strftime d) c) dates with
                 | Some d => first_cell k d cs
                 | None => None
                 end) in
  select pv (PyStr.sorted (columns pv)).

Variable to_date : string -> option date.

(** [write_baseline(all_rows, out_csv)]: the table handed to [to_csv]. *)
Definition write_baseline (all_rows : list board_hist) : exc frame :=
  rows <- concat to_date all_rows ;;
  Ok (pivot rows).

End Pivot.

End Long.

Export Long.
(** ** The driver [build_csv], shared by both files *)

Module Pipeline.

(** [RETRY_TIMES]. *)
Definition RETRY_TIMES : nat := 4.

(** The three [[stage]] lines of the log. *)
Inductive stage : Type :=
| Bootstrap        (* bootstrap baseline (push2his) *)
| TodayList        (* fetch TODAY via clist/get *)
| TodayHis.        (* fetch TODAY via push2his per-board *)

(** What the run prints of its stage and asks of the network. *)
Inductive event : Type :=
| EvStage (s : stage)                          (* print("[stage] ...") *)
| EvBoardList                                  (* fetch_board_list_basic *)
| EvListToday                                  (* fetch_board_list_today *)
| EvKline (code : string) (beg end_ : Z).      (* _fetch_range *)

(** The outside world of one run.  A request is numbered by the events
    before it; [interrupted n] is the [INTERRUPTED] flag read after [n]
    events. *)
Record world : Type := mkWorld {
  today : Z;                                   (* today, as a day number *)
  today_col : string;                          (* today as YYYY-MM-DD *)
  board_list : exc (list (string * string));   (* fetch_board_list_basic *)
  list_today : exc today_df;                   (* fetch_board_list_today *)
  fetch_range : nat -> string -> Z -> Z -> exc (list krec);
  interrupted : nat -> bool
}.

(** The outcome of a run: the requests made, the CSV file afterwards
    ([None]: no file), and the exception that ended the run, if any. *)
Record run : Type := mkRun {
  trace : list event;
  csv : option frame;
  error : option pyerr
}.

(** The retry loop around [_fetch_range]: [Some recs] when a try
    succeeded. *)
Fixpoint fetch_retry (w : world) (tries : nat) (tr : list event)
    (code : string) (beg end_ : Z) : option (list krec) * list event :=
  match tries with
  | O => (None, tr)
  | S t =>
      let tr' := tr ++ [EvKline code beg end_] in
      match fetch_range w (List.length tr) code beg end_ with
      | Ok recs => (Some recs, tr')
      | Raise _ => fetch_retry w t tr' code beg end_
      end
  end.

(** The baseline loop: one history request (with retries) per board,
    stopped by [INTERRUPTED]. *)
Fixpoint baseline_loop (w : world) (n_days : Z) (boards : list (string * string))
    (tr : list event) (all_rows : list board_hist)
  : list board_hist * list event :=
  match boards with
  | [] => (all_rows, tr)
  | (code, name) :: rest =>
      if interrupted w (List.length tr) then (all_rows, tr)
      else
        let (r, tr') :=
          fetch_retry w RETRY_TIMES tr code (today w - n_days * 2)%Z (today w) in
        match r with
        | Some (rec :: recs) =>
            baseline_loop w n_days rest tr'
              (all_rows ++ [mkHist code name (rec :: recs)])
        | _ => baseline_loop w n_days rest tr' all_rows
        end
  end.

(** [rows_today[code] = row]: a dict keeps the place of a key it has. *)
Fixpoint dict_set (d : list (string * board_row)) (code : string) (row : board_row)
  : list (string * board_row) :=
  match d with
  | [] => [(code, row)]
  | (c, r) :: t =>
      if String.eqb c code then (c, row) :: t else (c, r) :: dict_set t code row
  end.

(** The row of a board in the per-board mode; a failed fetch leaves
    [pct_chg] and [close] missing. *)
Definition his_row (code name : string) (rec : option krec) : board_row :=
  match rec with
  | Some (_, pct, cl) => mkRow code name cl pct FNaN VNone VNone EmptyString
  | None => mkRow code name FNaN FNaN FNaN VNone VNone EmptyString
  end.

(** Pass 1 of the per-board mode. *)
Fixpoint pass1 (w : world) (boards : list (string * string)) (tr : list event)
    (rows_today : list (string * board_row)) (fails : list (string * string))
  : list (string * board_row) * list (string * string) * list event :=
  match boards with
  | [] => (rows_today, fails, tr)
  | (code, name) :: rest =>
      if interrupted w (List.length tr) then (rows_today, fails, tr)
      else
        let (r, tr') := fetch_retry w RETRY_TIMES tr code (today w) (today w) in
        match r with
        | Some (rec :: _) =>
            pass1 w rest tr' (dict_set rows_today code (his_row code name (Some rec)))
              fails
        | _ =>
            pass1 w rest tr' (dict_set rows_today code (his_row code name None))
              (fails ++ [(code, name)])
        end
  end.

(** Pass 2: the failed boards once more, with one more try each. *)
Fixpoint pass2 (w : world) (fails : list (string * string)) (tr : list event)
    (rows_today : list (string * board_row))
  : list (string * board_row) * list event :=
  match fails with
  | [] => (rows_today, tr)
  | (code, name) :: rest =>
      if interrupted w (List.length tr) then (rows_today, tr)
      else
        let (r, tr') :=
          fetch_retry w (S RETRY_TIMES) tr code (today w) (today w) in
        match r with
        | Some (rec :: _) =>
            pass2 w rest tr' (dict_set rows_today code (his_row code name (Some rec)))
        | _ => pass2 w rest tr' rows_today
        end
  end.

Section Driver.

(** The two writers of the file at hand. *)
Variable write_baseline : list board_hist -> exc frame.
Variable patch_today : frame -> today_df -> string -> exc frame.

(** [build_csv(..., n_days, out_csv, ..., today_mode)] run on the CSV file
    [file] ([None] when [out_csv] does not exist). *)
Definition build_csv (w : world) (n_days : Z) (today_mode : string)
    (file : option frame) : run :=
  let wide := match file with
              | Some f => read_csv f
              | None => empty_frame
              end in
  if Frame.empty wide then
    (* bootstrap the baseline *)
    let tr := [EvStage Bootstrap; EvBoardList] in
    match board_list w with
    | Raise e => mkRun tr file (Some e)
    | Ok boards =>
        let (all_rows, tr') := baseline_loop w n_days boards tr [] in
        match all_rows with
        | [] => mkRun tr' file None
        | _ :: _ =>
            match write_baseline all_rows with
            | Ok t => mkRun tr' (Some t) None
            | Raise e => mkRun tr' file (Some e)
            end
        end
    end
  else if today_mode =? "list" then
    (* today from one list request; every exception is caught *)
    let tr := [EvStage TodayList; EvListToday] in
    match list_today w with
    | Raise _ => mkRun tr file None
    | Ok df_today =>
        match rows df_today with
        | [] => mkRun tr file None
        | _ :: _ =>
            match patch_today wide df_today (today_col w) with
            | Ok t => mkRun tr (Some t) None
            | Raise _ => mkRun tr file None
            end
        end
    end
  else
    (* today from one kline request per board *)
    let tr := [EvStage TodayHis; EvBoardList] in
    match board_list w with
    | Raise e => mkRun tr file (Some e)
    | Ok boards =>
        let '(rows_today, fails, tr1) := pass1 w boards tr [] [] in
        let (rows_today2, tr2) :=
          match fails with
          | [] => (rows_today, tr1)
          | _ :: _ =>
              if interrupted w (List.length tr1) then (rows_today, tr1)
              else pass2 w fails tr1 rows_today
          end in
        let all_index := map (fun b => row_key (fst b) (snd b)) boards in
        let wide' := reindex wide all_index in
        match rows_today2 with
        | [] => mkRun tr2 file None
        | _ :: _ =>
            match patch_today wide' (mkToday (map snd rows_today2) false)
                    (today_col w) with
            | Ok t => mkRun tr2 (Some t) None
            | Raise e => mkRun tr2 file (Some e)
            end
        end
    end.

End Driver.

End Pipeline.
(** ** What the Eastmoney endpoints answer *)

(** The exceptions met outside the writers: [AttributeError] ([None] has
    no [get]), [RuntimeError] (raised by the scripts themselves), or one
    of those above, [KeyError] (a frame has no such column) among them. *)
Inductive raised : Type :=
| AttributeError
| RuntimeError
| Lib (e : pyerr).

Coercion Lib : pyerr >-> raised.

Inductive outcome (A : Type) : Type :=
| Returns (a : A)
| Raises (e : raised).

Arguments Returns {A} a.
Arguments Raises {A} e.

(** [l[-n:]]: the last [n] elements for a positive [n], the whole list
    for [n = 0], the list less its first [-n] elements for a negative
    [n]. *)
Definition last_n {A : Type} (n : Z) (l : list A) : list A :=
  if (0 <? n)%Z then skipn (List.length l - Z.to_nat n) l
  else skipn (Z.to_nat (- n)) l.

Module Eastmoney.

(** A number field of a list item ([f2], [f3], [f8]): JSON [null] or no
    such key, a string, an integer or a float. *)
Inductive jnum : Type :=
| NNull
| NStr (s : string)
| NInt (z : Z)
| NFloat (x : pyfloat).

(** One element of [diff].  [f12] (code), [f14] (name) and [f128] (leader)
    are strings, [f104] and [f105] (the counts) integers or strings; [None]
    and [VNone] stand for [null] and for a missing key, which [it.get]
    reads alike. *)
Record list_item : Type := mkItem {
  f12 : option string;
  f14 : option string;
  f2 : jnum;
  f3 : jnum;
  f8 : jnum;
  f104 : pyval;
  f105 : pyval;
  f128 : option string
}.

(** The object under ["data"]: [diff] is a list, or [null] or missing;
    [total] an integer, or [null] or missing. *)
Record page : Type := mkPage {
  diff : option (list list_item);
  total : option Z
}.

(** [r.json()] of a list request: no ["data"] key, ["data": null], or an
    object. *)
Inductive body : Type :=
| NoData
| NullData
| Data (p : page).

(** [p.get("diff") or []]. *)
Definition items (p : page) : list list_item :=
  match diff p with
  | Some l => l
  | None => []
  end.

(** [r.json().get("data") or {}]. *)
Definition data_or_empty (b : body) : page :=
  match b with
  | Data p => p
  | NoData | NullData => mkPage None None
  end.

(** The code and the name of an item when neither is falsy
    ([if not code or not name: continue]). *)
Definition named (it : list_item) : option (string * string) :=
  match f12 it, f14 it with
  | Some code, Some name =>
      if (code =? EmptyString) || (name =? EmptyString) then None
      else Some (code, name)
  | _, _ => None
  end.

(** [key in seen] for a key [(code, name)]. *)
Definition key_eqb (a b : string * string) : bool :=
  String.eqb (fst a) (fst b) && String.eqb (snd a) (snd b).

Definition seen_mem (k : string * string) (seen : list (string * string)) : bool :=
  existsb (key_eqb k) seen.

(** [x or ""] for a count: [None], [""] and [0] are falsy. *)
Definition or_empty (v : pyval) : pyval :=
  match v with
  | VNone => VStr EmptyString
  | VStr s => VStr s
  | VInt z => if (z =? 0)%Z then VStr EmptyString else VInt z
  end.

(** [x or ""] for a string. *)
Definition or_empty_str (o : option string) : string :=
  match o with
  | Some s => s
  | None => EmptyString
  end.

Section Floats.

(** [float(s)] of a string: [None] when it raises [ValueError]. *)
Variable float_of_str : string -> option pyfloat.
(** [float(z)] of an integer: [None] when it raises [OverflowError]. *)
Variable float_of_int : Z -> option pyfloat.

(** [float(v) if v not in (None, "", "--") else math.nan], NaN as well
    when [float] raises. *)
Definition num_field (v : jnum) : pyfloat :=
  match v with
  | NNull => FNaN
  | NStr s =>
      if (s =? EmptyString) || (s =? "--") then FNaN
      else match float_of_str s with
           | Some x => x
           | None => FNaN
           end
  | NInt z =>
      match float_of_int z with
      | Some x => x
      | None => FNaN
      end
  | NFloat x => x
  end.

(** [float(s) if s != "" else math.nan], NaN on [ValueError]: a field of
    a kline row. *)
Definition kline_num (s : string) : pyfloat :=
  if s =? EmptyString then FNaN
  else match float_of_str s with
       | Some x => x
       | None => FNaN
       end.

(** [_parse_klines(kl)] of [bk_fetch_data.py] and [bk_data_ind.py]: a row
    of at least eleven fields gives [(date, pct, close)]. *)
Definition kline_rec (row : string) : option krec :=
  let parts := PyStr.split "," row in
  if (11 <=? List.length parts)%nat then
    Some (nth 0 parts EmptyString, kline_num (nth 8 parts EmptyString),
          kline_num (nth 2 parts EmptyString))
  else None.

Fixpoint _parse_klines_from (rows : list string) (recs : list krec) : list krec :=
  match rows with
  | [] => recs
  | row :: t =>
      match kline_rec row with
      | Some r => _parse_klines_from t (recs ++ [r])
      | None => _parse_klines_from t recs
      end
  end.

(** [kl] is the ["klines"] of the answer: a list, or [None]. *)
Definition _parse_klines (kl : option (list string)) : list krec :=
  _parse_klines_from (match kl with Some l => l | None => [] end) [].

End Floats.

End Eastmoney.
(** ** [bk/bk_vis/bk_fetch_data.py] *)

Module bk_fetch_data.

(** [fetch_board_list_basic(session, fs, verbose_http)]; [resp] is what
    [http_get], [raise_for_status] and [r.json()] give for the one
    request.  [r.json().get("data", {})] is [None] on ["data": null], and
    [None.get] raises. *)
Definition fetch_board_list_basic (resp : exc Eastmoney.body)
  : outcome (list (string * string)) :=
  match resp with
  | Raise e => Raises (Lib e)
  | Ok Eastmoney.NullData => Raises AttributeError
  | Ok Eastmoney.NoData => Returns []
  | Ok (Eastmoney.Data p) =>
      Returns (flat_map (fun it => match Eastmoney.named it with
                                   | Some b => [b]
                                   | None => []
                                   end)
                 (Eastmoney.items p))
  end.

Section Today.

Variable float_of_str : string -> option pyfloat.
Variable float_of_int : Z -> option pyfloat.

(** The row kept for an item: the frame has the columns [bk_code],
    [bk_name], [close] and [pct_chg] only. *)
Definition today_row (it : Eastmoney.list_item) (code name : string) : board_row :=
  mkRow code name
    (Eastmoney.num_field float_of_str float_of_int (Eastmoney.f2 it))
    (Eastmoney.num_field float_of_str float_of_int (Eastmoney.f3 it))
    FNaN VNone VNone EmptyString.

Fixpoint today_rows (l : list Eastmoney.list_item) (rows : list board_row)
  : list board_row :=
  match l with
  | [] => rows
  | it :: t =>
      match Eastmoney.named it with
      | Some (code, name) => today_rows t (rows ++ [today_row it code name])
      | None => today_rows t rows
      end
  end.

(** [fetch_board_list_today(session, fs, verbose_http)]. *)
Definition fetch_board_list_today (resp : exc Eastmoney.body) : outcome today_df :=
  match resp with
  | Raise e => Raises (Lib e)
  | Ok Eastmoney.NullData => Raises AttributeError
  | Ok Eastmoney.NoData => Returns (mkToday [] false)
  | Ok (Eastmoney.Data p) => Returns (mkToday (today_rows (Eastmoney.items p) []) false)
  end.

End Today.

(** [_parse_klines(kl)]. *)
Definition _parse_klines := Eastmoney._parse_klines.

(** [fmt_cell(rank, pct, close)]: [rank: Optional[int]], [pct] and [close]
    [Optional[float]]. *)
Definition fmt_cell (rank : option Z) (pct close : option pyfloat) : string :=
  let r := match rank with None => EmptyString | Some k => PyStr.str_int k end in
  let p := match pct with
           | None => EmptyString
           | Some x => if isnan x then EmptyString else format_fixed 2 x
           end in
  let c := match close with
           | None => EmptyString
           | Some x =>
               if isnan x then EmptyString
               else PyStr.rstrip "." (PyStr.rstrip "0" (format_fixed 4 x))
           end in
  if (r =? EmptyString) && (p =? EmptyString) && (c =? EmptyString)
  then EmptyString
  else r ++ "|" ++ p ++ "|" ++ c.

(** [df_today.set_index("row_key")["cell_new"]]. *)
Definition series_new (df : today_df) : list (string * string) :=
  map (fun rr : board_row * option nat =>
         let (r, rk) := rr in
         (row_key (bk_code r) (bk_name r),
          fmt_cell (rank_arg rk) (Some (pct_chg r)) (Some (close r))))
      (combine (rows df) (today_ranks df)).

Section Patch.

Variable to_dt : string -> option Z.

(** [patch_today(wide, df_today, today_col, out_csv)]: [Ok w] is the table
    handed to [to_csv]; [Raise] leaves the file as it was.  A snapshot
    without rows has no [pct_chg] to read; aligning on an index with a
    repeated label raises. *)
Definition patch_today (wide : frame) (df_today : today_df) (today_col : string)
  : exc frame :=
  match rows df_today with
  | [] => Raise KeyError                  (* df_today["pct_chg"] *)
  | _ :: _ =>
      let ns := series_new df_today in
      let keys := map fst ns in
      if negb (PyStr.mem today_col (columns wide)) then
        (* old_col is None: wide[today_col] = series_new *)
        if PyStr.has_dup keys then Raise ValueError
        else Ok (sort_columns to_dt
                   (set_col wide today_col (fun k => PyStr.assoc k ns)))
      else
        (* combined.loc[mask] = series_new.loc[mask] *)
        if PyStr.has_dup keys then Raise ValueError
        else if negb (forallb (fun k => PyStr.mem k keys) (index wide))
        then Raise IndexingError
        else
          Ok (sort_columns to_dt
                (set_col wide today_col
                   (fun k => if nonblank (PyStr.assoc k ns) then PyStr.assoc k ns
                             else cell_at wide k today_col)))
  end.

End Patch.

(** [write_baseline(all_rows, out_csv)]. *)
Definition write_baseline (to_date : string -> option date)
    (all_rows : list board_hist) : exc frame :=
  Long.write_baseline fmt_cell to_date all_rows.

(** Both writers end in
    [to_csv(out_csv, encoding="utf-8-sig", index_label="row_key")]. *)
Definition to_csv (w : frame) : string := Csv.to_csv w Csv.Utf8Sig "row_key".

(** [build_csv]. *)
Definition build_csv (to_dt : string -> option Z) (to_date : string -> option date)
  : Pipeline.world -> Z -> string -> option frame -> Pipeline.run :=
  Pipeline.build_csv (write_baseline to_date) (patch_today to_dt).

End bk_fetch_data.

(** ** [round/bk_data_ind.py] *)

Module bk_data_ind.

Section Paging.

(** [fetch_board_list_basic] and [fetch_board_list_today] run the same
    paging loop; [make] is the row each keeps for an item, and [http pn]
    what [http_get], [raise_for_status] and [r.json()] give for the
    request of page [pn]. *)
Variable R : Type.
Variable make : Eastmoney.list_item -> string -> string -> R.
Variable http : nat -> exc Eastmoney.body.

(** The body of [for it in diff]: [rows] and the set [seen]. *)
Definition add_item (st : list R * list (string * string))
    (it : Eastmoney.list_item) : list R * list (string * string) :=
  match Eastmoney.named it with
  | Some (code, name) =>
      if Eastmoney.seen_mem (code, name) (snd st) then st
      else (fst st ++ [make it code name], snd st ++ [(code, name)])
  | None => st
  end.

(** [total and len(rows) >= total]. *)
Definition got_all (total : option Z) (rows : list R) : bool :=
  match total with
  | Some t => negb (t =? 0)%Z && (t <=? Z.of_nat (List.length rows))%Z
  | None => false
  end.

(** [for pn in range(pn, pn + left)]; [asked] lists the pages requested
    so far. *)
Fixpoint pages (left pn : nat) (st : list R * list (string * string))
    (asked : list nat) : outcome (list R) * list nat :=
  match left with
  | O => (Returns (fst st), asked)
  | S left' =>
      match http pn with
      | Raise e => (Raises (Lib e), asked ++ [pn])
      | Ok b =>
          let data := Eastmoney.data_or_empty b in
          match Eastmoney.items data with
          | [] => (Returns (fst st), asked ++ [pn])                (* break *)
          | _ :: _ =>
              let st' := fold_left add_item (Eastmoney.items data) st in
              if got_all (Eastmoney.total data) (fst st')
              then (Returns (fst st'), asked ++ [pn])               (* break *)
              else pages left' (S pn) st' (asked ++ [pn])
          end
      end
  end.

Definition paged (max_pages : nat) : outcome (list R) * list nat :=
  pages max_pages 1 ([], []) [].

End Paging.

Arguments add_item {R} make st it.
Arguments got_all {R} total rows.
Arguments pages {R} make http left pn st asked.
Arguments paged {R} make http max_pages.

(** [fetch_board_list_basic(session, fs, verbose_http, page_size,
    max_pages)]: the boards, and the pages requested. *)
Definition fetch_board_list_basic (http : nat -> exc Eastmoney.body)
    (max_pages : nat) : outcome (list (string * string)) * list nat :=
  paged (fun _ code name => (code, name)) http max_pages.

Section Today.

Variable float_of_str : string -> option pyfloat.
Variable float_of_int : Z -> option pyfloat.

(** The row kept for an item. *)
Definition today_row (it : Eastmoney.list_item) (code name : string) : board_row :=
  mkRow code name
    (Eastmoney.num_field float_of_str float_of_int (Eastmoney.f2 it))
    (Eastmoney.num_field float_of_str float_of_int (Eastmoney.f3 it))
    (Eastmoney.num_field float_of_str float_of_int (Eastmoney.f8 it))
    (Eastmoney.or_empty (Eastmoney.f104 it))
    (Eastmoney.or_empty (Eastmoney.f105 it))
    (Eastmoney.or_empty_str (Eastmoney.f128 it)).

(** [fetch_board_list_today(session, fs, verbose_http, page_size,
    max_pages)]: [pd.DataFrame(rows)], and the pages requested. *)
Definition fetch_board_list_today (http : nat -> exc Eastmoney.body)
    (max_pages : nat) : outcome today_df * list nat :=
  match paged today_row http max_pages with
  | (Returns rows, asked) =>
      (* a frame of no rows has no columns *)
      (Returns (mkToday rows (match rows with [] => false | _ :: _ => true end)),
       asked)
  | (Raises e, asked) => (Raises e, asked)
  end.

End Today.

(** [_parse_klines(kl)]. *)
Definition _parse_klines := Eastmoney._parse_klines.

(** [get_latest_trade_date()]: [today] is
    [datetime.now().strftime("%Y-%m-%d")] and [cal] the list
    [trade_dates] of the calendar's days as strings, or the exception met
    on the way to it. *)
Definition get_latest_trade_date (today : string) (cal : exc (list string))
  : string :=
  match cal with
  | Raise _ => today                       (* except Exception *)
  | Ok trade_dates =>
      if PyStr.mem today trade_dates then today
      else match find (fun d => String.ltb d today) (rev trade_dates) with
           | Some d => d
           | None => today
           end
  end.

(** [fmt_cell(rank, pct, close, turnover=None, up=None, down=None,
    leader=None)].  [up] and [down] are the JSON scalars [f104] and [f105]
    (an [int] or a [str]), [leader] the stock name [f128]. *)
Definition fmt_cell (rank : option Z) (pct close turnover : option pyfloat)
    (up down : pyval) (leader : option string) : string :=
  let r := match rank with None => EmptyString | Some k => PyStr.str_int k end in
  let p := match pct with
           | None => EmptyString
           | Some x => if isnan x then EmptyString else format_fixed 2 x
           end in
  let c := match close with
           | None => EmptyString
           | Some x =>
               if isnan x then EmptyString
               else PyStr.rstrip "." (PyStr.rstrip "0" (format_fixed 4 x))
           end in
  let t := match turnover with
           | None => EmptyString
           | Some x => if isnan x then EmptyString else format_fixed 2 x
           end in
  let str_val v := match v with
                   | VNone => EmptyString
                   | VStr s => s
                   | VInt z => PyStr.str_int z
                   end in
  let u := str_val up in
  let d := str_val down in
  let l := match leader with None => EmptyString | Some s => s end in
  let parts := [r; p; c; t; u; d; l] in
  if forallb (fun x => x =? EmptyString) parts then EmptyString
  else PyStr.join "|" parts.

(** [df_today.set_index("row_key")["cell_new"]]; [r.get(col)] is [None]
    when the frame has no such column. *)
Definition new_series (df : today_df) : list (string * string) :=
  map (fun rr : board_row * option nat =>
         let (r, rk) := rr in
         (row_key (bk_code r) (bk_name r),
          if extra_cols df then
            fmt_cell (rank_arg rk) (Some (pct_chg r)) (Some (close r))
              (Some (turnover r)) (up_count r) (down_count r) (Some (leader r))
          else
            fmt_cell (rank_arg rk) (Some (pct_chg r)) (Some (close r))
              None VNone VNone None))
      (combine (rows df) (today_ranks df)).

(** [new_series.index.difference(wide.index)]: unique and sorted. *)
Definition difference (keys idx : list string) : list string :=
  PyStr.sorted (nodup string_dec (filter (fun k => negb (PyStr.mem k idx)) keys)).

Section Patch.

Variable to_dt : string -> option Z.

(** [patch_today(wide, df_today, today_col, out_csv)]: [Ok w] is the table
    handed to [to_csv]; [Raise] leaves the file as it was (a snapshot
    without rows has no [pct_chg] to read; [new_series.reindex] refuses a
    repeated label). *)
Definition patch_today (wide : frame) (df_today : today_df) (today_col : string)
  : exc frame :=
  match rows df_today with
  | [] => Raise KeyError                  (* 1. df_today["pct_chg"] *)
  | _ :: _ =>
      let ns := new_series df_today in
      let keys := map fst ns in
      (* 3. append the new boards *)
      let new_keys := difference keys (index wide) in
      let wide1 := match new_keys with
                   | [] => wide
                   | _ :: _ => append_rows wide new_keys
                   end in
      (* 4. write the today column *)
      let wide2 := if PyStr.mem today_col (columns wide1) then wide1
                   else set_col wide1 today_col (fun _ => Some EmptyString) in
      if PyStr.has_dup keys then Raise ValueError
      else
        let aligned_new k := PyStr.assoc k ns in
        let wide3 :=
          set_col wide2 today_col
            (fun k => if nonblank (aligned_new k) then aligned_new k
                      else cell_at wide2 k today_col) in
        (* 5. date columns in order *)
        Ok (sort_columns to_dt wide3)
  end.

End Patch.

(** [write_baseline(all_rows, out_csv)]: [fmt_cell] called with its first
    three arguments, the others left at [None]. *)
Definition write_baseline (to_date : string -> option date)
    (all_rows : list board_hist) : exc frame :=
  Long.write_baseline
    (fun rank pct close => fmt_cell rank pct close None VNone VNone None)
    to_date all_rows.

(** Both writers end in
    [to_csv(out_csv, encoding="utf-8-sig", index_label="row_key")]. *)
Definition to_csv (w : frame) : string := Csv.to_csv w Csv.Utf8Sig "row_key".

(** [build_csv]. *)
Definition build_csv (to_dt : string -> option Z) (to_date : string -> option date)
  : Pipeline.world -> Z -> string -> option frame -> Pipeline.run :=
  Pipeline.build_csv (write_baseline to_date) (patch_today to_dt).

End bk_data_ind.


(** ** [bk/backup/rank_get_value.py]: the long-format assembler *)

Module rank_get_value.

Definition row_leb (a b : long_row) : bool :=
  date_ltb (l_date a) (l_date b)
  || (date_eqb (l_date a) (l_date b) && String.leb (l_code a) (l_code b)).

Fixpoint insert_row (r : long_row) (l : list long_row) : list long_row :=
  match l with
  | [] => [r]
  | h :: t => if row_leb r h then r :: l else h :: insert_row r t
  end.

(** [all_df.sort_values(["trade_date", "bk_code"])]. *)
Definition sort_values (rows : list long_row) : list long_row :=
  fold_right insert_row [] rows.

(** The [rank] column of [build_csv]: the sorted rows ranked inside their
    [trade_date]. *)
Definition ranks (rows : list long_row) : list (option nat) :=
  long_ranks (sort_values rows).

(** The inner [fmt_cell(row)]: ["rank|pct_chg"]. *)
Definition fmt_cell (rank : option nat) (pct : pyfloat) : string :=
  let rs := match rank with None => EmptyString | Some k => PyStr.str_int (Z.of_nat k) end in
  let ps := if isnan pct then EmptyString else format_fixed 2 pct in
  if (rs =? EmptyString) && (ps =? EmptyString) then EmptyString
  else rs ++ "|" ++ ps.

(** The [cell] column of [build_csv]: [all_df.apply(fmt_cell, axis=1)] on
    the sorted and ranked rows. *)
Definition cells (rows : list long_row) : list string :=
  map (fun rr : long_row * option nat => fmt_cell (snd rr) (l_pct (fst rr)))
    (combine (sort_values rows) (ranks rows)).

(** [fetch_board_list(session, fs)]: the one request of the board list. *)
Definition fetch_board_list (resp : exc Eastmoney.body)
  : outcome (list (string * string)) :=
  match resp with
  | Raise e => Raises (Lib e)
  | Ok Eastmoney.NullData => Raises AttributeError
  | Ok Eastmoney.NoData => Returns []
  | Ok (Eastmoney.Data p) =>
      Returns (flat_map (fun it => match Eastmoney.named it with
                                   | Some b => [b]
                                   | None => []
                                   end)
                 (Eastmoney.items p))
  end.

Section Klines.

Variable float_of_str : string -> option pyfloat.

(** One row of [_parse_klines]: at least nine fields give
    [(date, pct)]. *)
Definition kline_rec (row : string) : option (string * pyfloat) :=
  let parts := PyStr.split "," row in
  if (9 <=? List.length parts)%nat then
    Some (nth 0 parts EmptyString,
          Eastmoney.kline_num float_of_str (nth 8 parts EmptyString))
  else None.

Fixpoint _parse_klines_from (rows : list string) (recs : list (string * pyfloat))
  : list (string * pyfloat) :=
  match rows with
  | [] => recs
  | row :: t =>
      match kline_rec row with
      | Some r => _parse_klines_from t (recs ++ [r])
      | None => _parse_klines_from t recs
      end
  end.

(** [_parse_klines(kl)]. *)
Definition _parse_klines (kl : option (list string)) : list (string * pyfloat) :=
  _parse_klines_from (match kl with Some l => l | None => [] end) [].

(** [_fetch_lmt(session, bk_code, n)]; [resp] is the ["klines"] of the
    answer or the exception of the request. *)
Definition _fetch_lmt (resp : exc (option (list string)))
  : exc (list (string * pyfloat)) :=
  kl <- resp ;; Ok (_parse_klines kl).

(** [_fetch_beg_end(session, bk_code, n)]: the whole history, cut to
    [recs[-n:]]. *)
Definition _fetch_beg_end (resp : exc (option (list string))) (n : Z)
  : exc (list (string * pyfloat)) :=
  kl <- resp ;;
  let recs := _parse_klines kl in
  Ok (match recs with
      | [] => recs
      | _ :: _ => last_n n recs
      end).

End Klines.

End rank_get_value.

(** ** [bk/bk_vis/bk_top_range.py]: reading a cell back *)

Module bk_top_range.

(** The [rank] of a parsed cell: an [int] or [np.nan]. *)
Inductive rank_val : Type :=
| RankNaN
| RankInt (z : Z).

Definition triple : Type := (rank_val * pyfloat * pyfloat)%type.

Definition nan3 : triple := (RankNaN, FNaN, FNaN).

(** [int(x)]: truncation, refused for NaN and the infinities. *)
Definition int_of_float (x : pyfloat) : exc Z :=
  match x with
  | FNaN => Raise ValueError
  | FInf _ => Raise OverflowError
  | FFin neg m e =>
      let a := if (0 <=? e)%Z then (Z.of_N m * 2 ^ e)%Z
               else (Z.of_N m / 2 ^ (- e))%Z in
      Ok (if neg then (- a)%Z else a)
  end.

(** [x > 0]. *)
Definition gt0 (x : pyfloat) : bool :=
  match x with
  | FNaN => false
  | FInf neg => negb neg
  | FFin neg m _ => negb neg && negb (m =? 0)%N
  end.

(** The double [1e-9], which is [4835703278458517 / 2^82]. *)
Definition eps : Q := Qmake 4835703278458517 (2 ^ 82).

(** [abs(x - i) < 1e-9] for a finite [x] and [i = int(x)]; the difference
    of a float and its integer part is exact. *)
Definition near (x : pyfloat) (i : Z) : bool :=
  match x with
  | FFin neg m e => negb (Qle_bool eps (Qabs (to_Q neg m e - inject_Z i)%Q))
  | _ => false
  end.

(** [parts[i]]. *)
Definition item (parts : list string) (i : nat) : exc string :=
  match nth_error parts i with
  | Some s => Ok s
  | None => Raise IndexError
  end.

Section Floats.

(** [float(s)]: [None] when it raises [ValueError]. *)
Variable float_of_str : string -> option pyfloat.
(** [x / 100.0]. *)
Variable div100 : pyfloat -> pyfloat.

Definition to_float (s : string) : exc pyfloat :=
  match float_of_str s with
  | Some x => Ok x
  | None => Raise ValueError
  end.

(** The body of the [try]. *)
Definition parse_body (s : string) : exc triple :=
  let parts := PyStr.split "|" s in
  p0 <- item parts 0 ;;
  rank_raw <- to_float p0 ;;
  rank <- (if gt0 rank_raw then
             i <- int_of_float rank_raw ;;
             if near rank_raw i then
               j <- int_of_float rank_raw ;; Ok (RankInt j)
             else Ok RankNaN
           else Ok RankNaN) ;;
  p1 <- item parts 1 ;;
  x1 <- to_float p1 ;;
  p2 <- item parts 2 ;;
  val <- to_float p2 ;;
  Ok (rank, div100 x1, val).

(** [parse_triplet(cell)]; the cell is NaN ([None]) or [str(cell)]. *)
Definition parse_triplet (cell : option string) : exc triple :=
  match cell with
  | None => Ok nan3
  | Some s =>
      match parse_body s with
      | Ok t => Ok t
      | Raise _ => Ok nan3        (* except Exception *)
      end
  end.

End Floats.

(** [N_DAYS]. *)
Definition N_DAYS : Z := 90.

(** [s.split(c, 1)]: the text before the first [c], and the text after it
    when there is a [c]. *)
Fixpoint split1 (c : ascii) (s : string) : string * option string :=
  match s with
  | EmptyString => (EmptyString, None)
  | String a t =>
      if Ascii.eqb a c then (EmptyString, Some t)
      else let (h, r) := split1 c t in (String a h, r)
  end.

(** The pairs [(c, d)] with [pd.notna(d)]. *)
Fixpoint valid_pairs (l : list (string * option Z)) : list (string * Z) :=
  match l with
  | [] => []
  | (c, Some d) :: t => (c, d) :: valid_pairs t
  | (_, None) :: t => valid_pairs t
  end.

Fixpoint insert_pair (p : string * Z) (l : list (string * Z)) : list (string * Z) :=
  match l with
  | [] => [p]
  | h :: t => if (snd p <=? snd h)%Z then p :: l else h :: insert_pair p t
  end.

(** [l.sort(key=lambda x: x[1])]: stable. *)
Definition sort_pairs (l : list (string * Z)) : list (string * Z) :=
  fold_right insert_pair [] l.

Section Main.

(** [pd.to_datetime(cols, errors="coerce")] as nanoseconds, [NaT] being
    [None]. *)
Variable to_datetime : list string -> list (option Z).
(** [s.strip()]. *)
Variable strip : string -> string.

(** The column [board_name] that [main] adds: [cols] are the columns of
    the CSV read and [keys] the strings [df["row_key"].astype(str)].  The
    split frame has a column [1] only when some key has a ['|']. *)
Definition board_names (cols keys : list string) : outcome (list string) :=
  if negb (PyStr.mem "row_key" cols) then Raises RuntimeError
  else
    let key_split := map (split1 "|") keys in
    if existsb (fun p => match snd p with Some _ => true | None => false end)
         key_split
    then Returns (map (fun p => strip (match snd p with
                                       | Some name => name
                                       | None => fst p       (* fillna *)
                                       end))
                    key_split)
    else Raises KeyError.

(** The date columns [main] shows, each with its date: the columns that
    read as dates, in date order, the last [N_DAYS] of them. *)
Definition date_columns (all_cols : list string) : outcome (list (string * Z)) :=
  let raw_date_cols :=
    filter (fun c => negb (PyStr.mem c ["row_key"; "board_code"; "board_name"]))
      all_cols in
  match valid_pairs (combine raw_date_cols (to_datetime raw_date_cols)) with
  | [] => Raises RuntimeError
  | p :: ps =>
      let sorted := sort_pairs (p :: ps) in
      Returns (if (0 <? N_DAYS)%Z then last_n N_DAYS sorted else sorted)
  end.

End Main.

End bk_top_range.
(** An ISO [YYYY-MM-DD] reading of a column name, for the examples:
    [to_datetime] agrees with it on the names the pipeline writes. *)
Definition digit_of (a : ascii) : option Z :=
  let n := Z.of_N (N_of_ascii a) in
  if ((48 <=? n) && (n <=? 57))%Z then Some (n - 48)%Z else None.

Fixpoint number_of (acc : Z) (s : string) : option Z :=
  match s with
  | EmptyString => Some acc
  | String a t =>
      match digit_of a with
      | Some d => number_of (10 * acc + d)%Z t
      | None => None
      end
  end.

Definition iso_day (s : string) : option Z :=
  if (String.length s =? 10)%nat
     && (substring 4 1 s =? "-") && (substring 7 1 s =? "-")
  then
    match number_of 0 (substring 0 4 s), number_of 0 (substring 5 2 s),
          number_of 0 (substring 8 2 s) with
    | Some y, Some m, Some d => Some (y * 10000 + m * 100 + d)%Z
    | _, _, _ => None
    end
  else None.

Definition ex_wide : frame :=
  of_rows ["2024-01-03"; "note"; "2024-01-02"]
    [("BK1|A", [Some "2|1.00|10"; Some "x"; Some "1|2.00|9"]);
     ("BK2|B", [Some "1|3.00|20"; None; None])].

Definition ex_row (code name : string) (c p : pyfloat) : board_row :=
  mkRow code name c p FNaN VNone VNone EmptyString.

Definition ex_today : today_df :=
  mkToday [ex_row "BK3" "C" (of_Z 7) (of_scaled 5 1);
           ex_row "BK1" "A" (of_Z 11) (of_Z 4);
            ex_row "BK0" "Z" FNaN FNaN] false.


(** A snapshot that has every board of [ex_wide]. *)
Definition ex_full : today_df :=
  mkToday [ex_row "BK1" "A" (of_Z 11) (of_Z 4);
           ex_row "BK2" "B" FNaN FNaN;
           ex_row "BK3" "C" (of_Z 7) (of_scaled 5 1)] false.

(** [float] and [/ 100.0] on the few values the examples use. *)
Definition ex_float (s : string) : option pyfloat :=
  if s =? "3" then Some (of_Z 3)
  else if s =? "150" then Some (of_Z 150)
  else if s =? "1024.5" then Some (of_scaled 2049 1)
  else if s =? "inf" then Some (FInf false)
  else None.

Definition ex_div100 (x : pyfloat) : pyfloat :=
  match x with
  | FFin false 150%N 0%Z => of_scaled 3 1
  | _ => FNaN
  end.

(** A canonical [YYYY-MM-DD] reading of a kline date, for the examples. *)
Definition iso_date (s : string) : option date :=
  if (String.length s =? 10)%nat
     && (substring 4 1 s =? "-") && (substring 7 1 s =? "-")
  then
    match number_of 0 (substring 0 4 s), number_of 0 (substring 5 2 s),
          number_of 0 (substring 8 2 s) with
    | Some y, Some m, Some d => Some (mkDate (Z.to_N y) (Z.to_N m) (Z.to_N d))
    | _, _, _ => None
    end
  else None.

(** A world whose board list has lost the board [BK2|B] and where every
    kline request succeeds. *)
Definition ex_world : Pipeline.world :=
  Pipeline.mkWorld 19727 "2024-01-04"
    (Ok [("BK1", "A"); ("BK3", "C")])
    (Ok ex_today)
    (fun _ code _ _ => Ok [("2024-01-04", of_Z 1, of_Z 10)])
    (fun _ => false).

(** The history of two boards over two days. *)
Definition ex_hist : list board_hist :=
  [mkHist "BK1" "A" [("2024-01-03", of_Z 1, of_Z 10); ("2024-01-02", of_Z 2, of_Z 9)];
   mkHist "BK2" "B" [("2024-01-03", of_Z 3, of_Z 20)]].

(** Three boards on one day and one board on the next. *)
Definition ex_long : list long_row :=
  [mkLong (mkDate 2024 1 2) (of_Z 1) (of_Z 10) "BK1" "A";
   mkLong (mkDate 2024 1 2) (of_Z 3) (of_Z 20) "BK2" "B";
   mkLong (mkDate 2024 1 3) (of_Z 2) (of_Z 11) "BK1" "A";
   mkLong (mkDate 2024 1 2) FNaN (of_Z 5) "BK3" "C"].
(** ** Sample answers of the list endpoint *)

Definition ex_item (code name : string) (price change : Eastmoney.jnum)
  : Eastmoney.list_item :=
  Eastmoney.mkItem (Some code) (Some name) price change Eastmoney.NNull
    VNone VNone None.

(** Page 1 has the boards [BK1] and [BK2] (suspended) and an item without
    a name; page 2 has [BK2] again and [BK3]; three boards in all. *)
Definition ex_http (pn : nat) : exc Eastmoney.body :=
  match pn with
  | 1 => Ok (Eastmoney.Data (Eastmoney.mkPage
               (Some [ex_item "BK1" "A" (Eastmoney.NInt 11) (Eastmoney.NInt 4);
                      ex_item "BK2" "B" (Eastmoney.NStr "--") (Eastmoney.NStr "--");
                      ex_item "BK9" EmptyString Eastmoney.NNull Eastmoney.NNull])
               (Some 3%Z)))
  | 2 => Ok (Eastmoney.Data (Eastmoney.mkPage
               (Some [ex_item "BK2" "B" (Eastmoney.NStr "--") (Eastmoney.NStr "--");
                      ex_item "BK3" "C" (Eastmoney.NInt 7) (Eastmoney.NFloat (of_scaled 5 1))])
               (Some 3%Z)))
  | _ => Ok Eastmoney.NullData
  end.

(** The one page of [bk_vis/bk_fetch_data.py]. *)
Definition ex_page : Eastmoney.page :=
  Eastmoney.mkPage
    (Some [ex_item "BK1" "A" (Eastmoney.NInt 11) (Eastmoney.NInt 4);
           ex_item "BK2" "B" (Eastmoney.NStr "--") (Eastmoney.NStr "--")])
    None.

(** [float] of a small integer. *)
Definition ex_float_of_int (z : Z) : option pyfloat := Some (of_Z z).

(** Kline rows: one complete, one short, one whose change is not a
    number. *)
Definition ex_klines : list string :=
  ["2024-01-02,1,10,1,1,1,1,1,3,1,1";
   "2024-01-03,1,10";
   "2024-01-04,1,,1,1,1,1,1,x,1,1"].

(** [float] on the fields of the cell ["3|150.00|1024.5"]. *)
Definition ex_float_cell (s : string) : option pyfloat :=
  if s =? "3" then Some (of_Z 3)
  else if s =? "150.00" then Some (of_Z 150)
  else if s =? "1024.5" then Some (of_scaled 2049 1)
  else None.

(** A table that has the column of today, of the boards [BK1] and [BK2]. *)
Definition ex_patched : frame :=
  of_rows ["2024-01-04"]
    [("BK1|A", [Some "1|1.00|10"]); ("BK2|B", [Some "2|0.50|20"])].

(** A world where no kline request for [BK1] is answered. *)
Definition ex_world_down : Pipeline.world :=
  Pipeline.mkWorld 19727 "2024-01-04"
    (Ok [("BK1", "A"); ("BK2", "B")])
    (Ok ex_today)
    (fun _ code _ _ =>
       if code =? "BK1" then Raise HTTPError
       else Ok [("2024-01-04", of_Z 3, of_Z 21)])
    (fun _ => false).

(** The world of [ex_world_down] with every kline answered, and the
    [INTERRUPTED] flag set once the first board has been asked. *)
Definition ex_world_stopped : Pipeline.world :=
  Pipeline.mkWorld 19727 "2024-01-04"
    (Ok [("BK1", "A"); ("BK2", "B")])
    (Ok ex_today)
    (fun _ _ _ _ => Ok [("2024-01-04", of_Z 3, of_Z 21)])
    (fun n => (3 <=? n)%nat).

(** ** The properties of [patch_today] *)

(** The CSV file after a call of [patch_today] on the table [W] read from
    it: an exception leaves the file as it was. *)
Definition file_after (W : frame) (r : exc frame) : frame :=
  match r with
  | Ok w => w
  | Raise _ => W
  end.

(** The new cell of board [k] in each file: NaN ([None]) when the snapshot
    has no such board. *)
Definition round_new_cell (D : today_df) (k : string) : cell :=
  PyStr.assoc k (bk_data_ind.new_series D).

Definition vis_new_cell (D : today_df) (k : string) : cell :=
  PyStr.assoc k (bk_fetch_data.series_new D).

(** The row keys of a snapshot. *)
Definition today_keys (D : today_df) : list string :=
  map (fun r => row_key (bk_code r) (bk_name r)) (rows D).

(** A blank new cell (NaN or the empty string) leaves the today cell of a
    board of the table as it was (a today column that did not exist is
    created blank there); any other new cell is written. *)
Definition today_kept_on_blank
    (patch : frame -> today_df -> string -> exc frame)
    (new_cell : today_df -> string -> cell) : Prop :=
  forall W D today W' k,
    patch W D today = Ok W' ->
    In k (index W) ->
    (nonblank (new_cell D k) = false ->
       (In today (columns W) -> cell_at W' k today = cell_at W k today)
       /\ (~ In today (columns W) -> nonblank (cell_at W' k today) = false))
    /\ (nonblank (new_cell D k) = true -> cell_at W' k today = new_cell D k).

(** No cell outside the today column changes for a board of the table. *)
Definition past_cells_kept
    (patch : frame -> today_df -> string -> exc frame) : Prop :=
  forall W D today W' k c,
    patch W D today = Ok W' ->
    In k (index W) -> In c (columns W) -> c <> today ->
    In k (index W') /\ In c (columns W') /\ cell_at W' k c = cell_at W k c.

(** One new row per new board, empty outside the today column; the rows of
    boards the snapshot lacks are kept. *)
Definition appends_new_boards
    (patch : frame -> today_df -> string -> exc frame) : Prop :=
  forall W D today W',
    patch W D today = Ok W' ->
    exists new,
      index W' = index W ++ new
      /\ NoDup new
      /\ (forall k, In k new <-> In k (today_keys D) /\ ~ In k (index W))
      /\ (forall k c, In k new -> c <> today -> cell_at W' k c = None)
      /\ (forall k c, In k (index W) -> ~ In k (today_keys D) ->
                      In c (columns W) -> cell_at W' k c = cell_at W k c).

(** Patching the file twice with the same snapshot leaves what patching
    it once leaves. *)
Definition idempotent_on_file
    (patch : frame -> today_df -> string -> exc frame) : Prop :=
  forall W D today,
    let W1 := file_after W (patch W D today) in
    file_after W1 (patch W1 D today) = W1.

(** ** The cell format, in the words of the specification *)

Module CellSpec.

(** A float field is absent when it is [None] or NaN. *)
Definition absent (o : option pyfloat) : bool :=
  match o with
  | None => true
  | Some x => isnan x
  end.

(** A count field ([up], [down]) is absent when it is [None] or empty. *)
Definition absent_val (v : pyval) : bool :=
  match v with
  | VNone => true
  | VStr s => s =? EmptyString
  | VInt _ => false
  end.

(** The [leader] field is absent when it is [None] or empty. *)
Definition absent_str (o : option string) : bool :=
  match o with
  | None => true
  | Some s => s =? EmptyString
  end.

(** The rank as an integer. *)
Definition render_rank (rank : option Z) : string :=
  match rank with
  | None => EmptyString
  | Some k => PyStr.str_int k
  end.

(** Two decimals. *)
Definition render_pct (pct : option pyfloat) : string :=
  if absent pct then EmptyString
  else match pct with Some x => format_fixed 2 x | None => EmptyString end.

(** Four decimals, the trailing zeros and then a trailing point removed. *)
Definition render_value (v : option pyfloat) : string :=
  if absent v then EmptyString
  else match v with
       | Some x => PyStr.rstrip "." (PyStr.rstrip "0" (format_fixed 4 x))
       | None => EmptyString
       end.

Definition render_val (v : pyval) : string :=
  match v with
  | VNone => EmptyString
  | VStr s => s
  | VInt z => PyStr.str_int z
  end.

Definition render_str (o : option string) : string :=
  match o with
  | None => EmptyString
  | Some s => s
  end.

(** The three-field cell: empty when every field is absent, else the
    renderings joined by ['|']. *)
Definition cell3 (rank : option Z) (pct close : option pyfloat) : string :=
  match rank with
  | None =>
      if absent pct && absent close then EmptyString
      else PyStr.join "|" [render_rank rank; render_pct pct; render_value close]
  | Some _ => PyStr.join "|" [render_rank rank; render_pct pct; render_value close]
  end.

(** The seven-field cell. *)
Definition cell7 (rank : option Z) (pct close turnover : option pyfloat)
    (up down : pyval) (leader : option string) : string :=
  let fields := [render_rank rank; render_pct pct; render_value close;
                 render_pct turnover; render_val up; render_val down;
                 render_str leader] in
  match rank with
  | None =>
      if absent pct && absent close && absent turnover && absent_val up
         && absent_val down && absent_str leader
      then EmptyString
      else PyStr.join "|" fields
  | Some _ => PyStr.join "|" fields
  end.

(** [s] is made of decimal digits only. *)
Fixpoint all_digits (s : string) : bool :=
  match s with
  | EmptyString => true
  | String a t =>
      (48 <=? N_of_ascii a)%N && (N_of_ascii a <=? 57)%N && all_digits t
  end.

(** [s] is made of the character [c] only. *)
Fixpoint all_char (c : ascii) (s : string) : bool :=
  match s with
  | EmptyString => true
  | String a t => Ascii.eqb a c && all_char c t
  end.

End CellSpec.

(** ** The ranks of a date *)

(** The present values of a column. *)
Fixpoint somes {A : Type} (l : list (option A)) : list A :=
  match l with
  | [] => []
  | Some a :: t => a :: somes t
  | None :: t => somes t
  end.

(** The (date, pct) pairs the ranking reads; a NaN [pct_chg] is [None]. *)
Definition dated (rows : list long_row) : list (date * option xval) :=
  map (fun r => (l_date r, key (l_pct r))) rows.

(** The ranks given on date [d]. *)
Definition ranks_of_date (rows : list long_row) (d : date) : list nat :=
  somes (map snd (filter (fun rr : (date * option xval) * option nat =>
                            date_eqb d (fst (fst rr)))
                    (combine (dated rows) (long_ranks rows)))).

(** The number of boards with a [pct_chg] on date [d]. *)
Definition present_on (rows : list long_row) (d : date) : nat :=
  List.length (somes (Rank.group date_eqb d (dated rows))).

(** The ranks of a date are 1, ..., k; a greater [pct_chg] has a smaller
    rank; a missing [pct_chg] has no rank. *)
Definition ranked_by_date (rows : list long_row) (ranks : list (option nat)) : Prop :=
  (forall d, Permutation
               (somes (map snd (filter (fun rr : (date * option xval) * option nat =>
                                          date_eqb d (fst (fst rr)))
                                  (combine (dated rows) ranks))))
               (seq 1 (present_on rows d)))
  /\ (forall i j ri rj,
        nth_error rows i = Some ri -> nth_error rows j = Some rj ->
        l_date ri = l_date rj ->
        fgt (l_pct ri) (l_pct rj) = true ->
        exists a b,
          nth_error ranks i = Some (Some a)
          /\ nth_error ranks j = Some (Some b)
          /\ a < b)
  /\ (forall i r,
        nth_error rows i = Some r -> isnan (l_pct r) = true ->
        nth_error ranks i = Some None).

(** ** Reading a cell back *)

Module TripletSpec.

Import bk_top_range.

(** The rank read from the float [x]: [int(x)] when [x] is positive and
    within [1e-9] of an integer, else NaN. *)
Definition rank_of (x : pyfloat) : rank_val :=
  match int_of_float x with
  | Ok i => if gt0 x && near x i then RankInt i else RankNaN
  | Raise _ => RankNaN
  end.

(** The float [x] is the integer [i]. *)
Definition is_int (x : pyfloat) (i : Z) : Prop :=
  match x with
  | FFin neg m e => (to_Q neg m e == inject_Z i)%Q
  | _ => False
  end.

(** A cell is malformed when it has fewer than three ['|']-separated
    fields or one of the first three is not a number. *)
Definition malformed (float_of_str : string -> option pyfloat) (s : string) : Prop :=
  let parts := PyStr.split "|" s in
  List.length parts < 3
  \/ exists i p, i < 3 /\ nth_error parts i = Some p /\ float_of_str p = None.

End TripletSpec.

(** ** The two kinds of run *)

Module RunSpec.

Import Pipeline.

(** The CSV file does not exist or reads back as an empty table. *)
Definition needs_baseline (file : option frame) : bool :=
  match file with
  | None => true
  | Some f => Frame.empty (read_csv f)
  end.

(** A kline request for the history: [2 * n_days] days up to today. *)
Definition history_request (w : world) (n_days : Z) (e : event) : bool :=
  match e with
  | EvKline _ b e' => (b =? today w - n_days * 2)%Z && (e' =? today w)%Z
  | _ => false
  end.

(** A kline request for the single current day. *)
Definition today_request (w : world) (e : event) : bool :=
  match e with
  | EvKline _ b e' => (b =? today w)%Z && (e' =? today w)%Z
  | _ => false
  end.

(** The table read from the CSV file. *)
Definition table (file : option frame) : frame :=
  match file with
  | Some f => read_csv f
  | None => empty_frame
  end.

(** What the requests of a run gave for [code]: the records of the first
    kline request of [tr] for it that the network answered with some.
    The request behind the [n]-th event is request [n]. *)
Fixpoint fetched_from (w : world) (n : nat) (tr : list event) (code : string)
  : option (list krec) :=
  match tr with
  | [] => None
  | EvKline c b e :: t =>
      if c =? code then
        match fetch_range w n c b e with
        | Ok (rec :: recs) => Some (rec :: recs)
        | _ => fetched_from w (S n) t code
        end
      else fetched_from w (S n) t code
  | _ :: t => fetched_from w (S n) t code
  end.

Definition fetched (w : world) (tr : list event) (code : string)
  : option (list krec) :=
  fetched_from w 0 tr code.

(** The run asked for a kline of [code]. *)
Definition asked (tr : list event) (code : string) : bool :=
  existsb (fun ev => match ev with
                     | EvKline c _ _ => c =? code
                     | _ => false
                     end) tr.

(** The history to write: the boards of the list for which the run
    fetched records, in the order of the list, each with its records. *)
Definition histories (w : world) (tr : list event) (boards : list (string * string))
  : list board_hist :=
  flat_map (fun b => match fetched w tr (fst b) with
                     | Some recs => [mkHist (fst b) (snd b) recs]
                     | None => []
                     end) boards.

(** The quote of a board: the first record of what was fetched for it,
    if anything. *)
Definition quote (w : world) (tr : list event) (code : string) : option krec :=
  match fetched w tr code with
  | Some (rec :: _) => Some rec
  | _ => None
  end.

(** The snapshot row of a board with or without a quote. *)
Definition board_quote (code name : string) (q : option krec) : board_row :=
  match q with
  | Some (_, pct, cl) => mkRow code name cl pct FNaN VNone VNone EmptyString
  | None => mkRow code name FNaN FNaN FNaN VNone VNone EmptyString
  end.

(** The snapshot to merge in the per-board mode: a row for every board of
    the list the run asked for, in the order of the list, with the quote
    it fetched. *)
Definition snapshot (w : world) (tr : list event) (boards : list (string * string))
  : today_df :=
  mkToday (map (fun b => board_quote (fst b) (snd b) (quote w tr (fst b)))
             (filter (fun b => asked tr (fst b)) boards))
          false.

(** The row keys of the boards of the list. *)
Definition listed_keys (boards : list (string * string)) : list string :=
  map (fun b => row_key (fst b) (snd b)) boards.

(** The run wrote nothing and ended without an exception. *)
Definition untouched (file : option frame) (r : run) : Prop :=
  csv r = file /\ error r = None.

(** The run called a writer: the file is its table, or is left as it was
    and the run ends with the writer's exception. *)
Definition leaves (file : option frame) (out : exc frame) (r : run) : Prop :=
  match out with
  | Ok t => csv r = Some t /\ error r = None
  | Raise e => csv r = file /\ error r = Some e
  end.

(** A baseline run.  When the board list fails the run ends with its
    exception.  Otherwise it asks, after the board list, history requests
    only, at least one for every board when nothing interrupts; the file
    is left as it was or is a table [write_baseline] made; and, the codes
    of the list being distinct, [write_baseline] is called on the
    histories the run fetched, unless there are none. *)
Definition baseline_run (write_baseline : list board_hist -> exc frame)
    (w : world) (n_days : Z) (file : option frame) (r : run) : Prop :=
  match board_list w with
  | Raise e =>
      trace r = [EvStage Bootstrap; EvBoardList] /\ csv r = file /\ error r = Some e
  | Ok boards =>
      exists evs,
        trace r = EvStage Bootstrap :: EvBoardList :: evs
        /\ forallb (history_request w n_days) evs = true
        /\ ((forall n, interrupted w n = false) ->
            forall code name, In (code, name) boards ->
              In (EvKline code (today w - n_days * 2) (today w)) evs)
        /\ (csv r = file
            \/ exists all_rows t,
                 all_rows <> [] /\ write_baseline all_rows = Ok t /\ csv r = Some t)
        /\ (NoDup (map fst boards) ->
            match histories w (trace r) boards with
            | [] => untouched file r
            | all_rows => leaves file (write_baseline all_rows) r
            end)
  end.

(** A patch run in the list mode: one list request, no exception, and
    the file is [patch_today] of the table read and the snapshot the
    request gave; it is left as it was when the request fails, gives no
    row, or [patch_today] raises. *)
Definition list_run (patch_today : frame -> today_df -> string -> exc frame)
    (w : world) (file : option frame) (r : run) : Prop :=
  trace r = [EvStage TodayList; EvListToday]
  /\ error r = None
  /\ csv r = match list_today w with
             | Ok D =>
                 match rows D with
                 | [] => file
                 | _ :: _ =>
                     match patch_today (table file) D (today_col w) with
                     | Ok t => Some t
                     | Raise _ => file
                     end
                 end
             | Raise _ => file
             end.

(** A patch run in the per-board mode.  When the board list fails the
    run ends with its exception.  Otherwise it asks, after the board
    list, single-day requests only, at least one for every board when
    nothing interrupts; the file is left as it was or is a table
    [patch_today] made of the rows of the listed boards in the table
    read; and, the codes of the list being distinct, [patch_today] is
    called on those rows and on the snapshot of the quotes the run
    fetched, unless it has no row. *)
Definition his_run (patch_today : frame -> today_df -> string -> exc frame)
    (w : world) (file : option frame) (r : run) : Prop :=
  match board_list w with
  | Raise e =>
      trace r = [EvStage TodayHis; EvBoardList] /\ csv r = file /\ error r = Some e
  | Ok boards =>
      exists evs,
        trace r = EvStage TodayHis :: EvBoardList :: evs
        /\ forallb (today_request w) evs = true
        /\ ((forall n, interrupted w n = false) ->
            forall code name, In (code, name) boards ->
              In (EvKline code (today w) (today w)) evs)
        /\ (csv r = file
            \/ exists D t,
                 rows D <> []
                 /\ patch_today (reindex (table file) (listed_keys boards)) D
                      (today_col w) = Ok t
                 /\ csv r = Some t)
        /\ (NoDup (map fst boards) ->
            let D := snapshot w (trace r) boards in
            match rows D with
            | [] => untouched file r
            | _ :: _ =>
                leaves file
                  (patch_today (reindex (table file) (listed_keys boards)) D
                     (today_col w)) r
            end)
  end.

(** A patch run: the today column is fetched by one list request in the
    list mode and by single-day requests otherwise. *)
Definition patch_run (patch_today : frame -> today_df -> string -> exc frame)
    (w : world) (today_mode : string) (file : option frame) (r : run) : Prop :=
  if today_mode =? "list" then list_run patch_today w file r
  else his_run patch_today w file r.

(** The branch [build_csv] takes, and what the run then fetches and
    writes. *)
Definition baseline_iff_no_table
    (build : world -> Z -> string -> option frame -> run)
    (write_baseline : list board_hist -> exc frame)
    (patch_today : frame -> today_df -> string -> exc frame) : Prop :=
  forall w n_days today_mode file,
    let r := build w n_days today_mode file in
    (In (EvStage Bootstrap) (trace r) <-> needs_baseline file = true)
    /\ (needs_baseline file = true -> baseline_run write_baseline w n_days file r)
    /\ (needs_baseline file = false -> patch_run patch_today w today_mode file r).

(** ** The state of the per-board loops *)

(** The rows of [rows_today] after the boards [done], the boards [rest]
    not yet reached: one row under the code of each board done, with the
    quote fetched so far. *)
Definition his_state (w : world) (done rest : list (string * string))
    (tr : list event) (rows_today : list (string * board_row)) : Prop :=
  NoDup (map fst (done ++ rest))
  /\ (forall b, In b rest -> asked tr (fst b) = false)
  /\ (forall b, In b done -> asked tr (fst b) = true)
  /\ rows_today
     = map (fun b => (fst b, board_quote (fst b) (snd b) (quote w tr (fst b)))) done.

(** The boards of [fails]: boards done, of distinct codes, without
    records so far. *)
Definition his_failed (w : world) (done : list (string * string))
    (tr : list event) (fails : list (string * string)) : Prop :=
  incl fails done
  /\ NoDup (map fst fails)
  /\ forall b, In b fails -> fetched w tr (fst b) = None.

End RunSpec.

(** ** The order of the columns *)

Module ColumnSpec.

Section Names.

Variable to_dt : string -> option Z.

(** The date of [a] is strictly before the date of [b]. *)
Definition name_ltb (a b : string) : bool :=
  match to_dt a, to_dt b with
  | Some x, Some y => (x <? y)%Z
  | _, _ => false
  end.

Definition name_lt (a b : string) : Prop := name_ltb a b = true.

(** The date of [a] is not after the date of [b]; a name that is no date
    is in order with every name. *)
Definition date_le (a b : string) : Prop := date_leb to_dt a b = true.

(** [a] and [b] stand for different dates. *)
Definition dates_differ (a b : string) : Prop :=
  match to_dt a, to_dt b with
  | Some x, Some y => x <> y
  | _, _ => True
  end.

(** Each column is strictly before the next. *)
Fixpoint ascending (cols : list string) : bool :=
  match cols with
  | a :: ((b :: _) as t) => name_ltb a b && ascending t
  | _ => true
  end.

(** No two columns stand for the same date. *)
Fixpoint distinct_dates (cols : list string) : bool :=
  match cols with
  | [] => true
  | c :: t =>
      forallb (fun c' => match to_dt c, to_dt c' with
                         | Some x, Some y => negb (x =? y)%Z
                         | _, _ => true
                         end) t
      && distinct_dates t
  end.

(** The date columns first, in strictly ascending date order, then the
    columns that are no dates. *)
Definition dates_first (cols : list string) : Prop :=
  exists ds os,
    cols = ds ++ os
    /\ forallb (is_date to_dt) ds = true
    /\ ascending ds = true
    /\ forallb (fun c => negb (is_date to_dt c)) os = true.

End Names.

(** The columns of the table [patch_today] writes. *)
Definition final_columns (W : frame) (today : string) : list string :=
  if PyStr.mem today (columns W) then columns W else columns W ++ [today].

Definition date_lt (a b : date) : Prop := date_ltb a b = true.

Fixpoint dates_ascending (ds : list date) : bool :=
  match ds with
  | a :: ((b :: _) as t) => date_ltb a b && dates_ascending t
  | _ => true
  end.

(** Every [trade_date] of the input is read as a date of four-digit
    year. *)
Definition valid_input (to_date : string -> option date)
    (all_rows : list board_hist) : bool :=
  forallb (fun h =>
             forallb (fun rec : krec =>
                        match to_date (fst (fst rec)) with
                        | Some d => valid_date d
                        | None => false
                        end)
               (h_recs h))
    all_rows.

(** The bytes of a file written as UTF-8 with BOM and index label
    [row_key]. *)
Definition bom_row_key (bytes : string) : Prop :=
  exists rest, bytes = (Csv.bom ++ "row_key" ++ rest)%string.

End ColumnSpec.
(** ** Words for the properties of the fetchers and the readers *)

(** The number of occurrences of [c] in [s]. *)
Fixpoint count_char (c : ascii) (s : string) : nat :=
  match s with
  | EmptyString => 0
  | String a t => (if Ascii.eqb a c then 1 else 0) + count_char c t
  end.

(** [s] has no [c]. *)
Definition free_of (c : ascii) (s : string) : Prop := count_char c s = 0.

(** The text of [s] before its first [c] (all of [s] when it has none). *)
Fixpoint before (c : ascii) (s : string) : string :=
  match s with
  | EmptyString => EmptyString
  | String a t => if Ascii.eqb a c then EmptyString else String a (before c t)
  end.

(** The items of page [pn], none when the request fails. *)
Definition page_items (http : nat -> exc Eastmoney.body) (pn : nat)
  : list Eastmoney.list_item :=
  match http pn with
  | Ok b => Eastmoney.items (Eastmoney.data_or_empty b)
  | Raise _ => []
  end.

(** The row [r] was made for the key [k] from an item that [src] holds
    of. *)
Definition made_from {R : Type}
    (make : Eastmoney.list_item -> string -> string -> R)
    (src : Eastmoney.list_item -> Prop) (r : R) (k : string * string) : Prop :=
  exists it, src it /\ Eastmoney.named it = Some k /\ r = make it (fst k) (snd k).

(** The item [it] is on one of the pages [pns]. *)
Definition on_pages (http : nat -> exc Eastmoney.body) (pns : list nat)
    (it : Eastmoney.list_item) : Prop :=
  exists pn, In pn pns /\ In it (page_items http pn).

(** A number field that holds no number: [null], [""] or ["--"]. *)
Definition blank_num (v : Eastmoney.jnum) : bool :=
  match v with
  | Eastmoney.NNull => true
  | Eastmoney.NStr s => (s =? EmptyString) || (s =? "--")
  | Eastmoney.NInt _ | Eastmoney.NFloat _ => false
  end.

(** A count that [x or ""] turns into [""]: [null], [""] or [0]. *)
Definition falsy_count (v : pyval) : bool :=
  match v with
  | VNone => true
  | VStr s => s =? EmptyString
  | VInt z => (z =? 0)%Z
  end.

(** An item without price and change. *)
Definition no_quote (it : Eastmoney.list_item) : Prop :=
  blank_num (Eastmoney.f2 it) = true /\ blank_num (Eastmoney.f3 it) = true.

(** An item that has none of the seven fields of a cell. *)
Definition no_fields (it : Eastmoney.list_item) : Prop :=
  no_quote it
  /\ blank_num (Eastmoney.f8 it) = true
  /\ falsy_count (Eastmoney.f104 it) = true
  /\ falsy_count (Eastmoney.f105 it) = true
  /\ Eastmoney.or_empty_str (Eastmoney.f128 it) = EmptyString.

(** The last page asked. *)
Definition last_asked (asked : list nat) : nat := List.length asked.

(** A cell that is empty, or whose rank field is empty exactly when its
    [pct_chg] field is. *)
Definition rank_with_pct (cell : string) : Prop :=
  cell = EmptyString
  \/ exists r p rest,
       PyStr.split "|" cell = r :: p :: rest
       /\ (r = EmptyString <-> p = EmptyString).

(** The rank of a row is missing exactly when its [pct_chg] is. *)
Definition rank_fits (pct : pyfloat) (rk : option nat) : Prop :=
  (isnan pct = true -> rk = None)
  /\ (isnan pct = false -> exists n, rk = Some n /\ 1 <= n).

(** ** Words for the properties of a run *)

Definition is_kline (e : Pipeline.event) : bool :=
  match e with
  | Pipeline.EvKline _ _ _ => true
  | _ => false
  end.

(** The number of kline requests of a run. *)
Definition kline_requests (r : Pipeline.run) : nat :=
  List.length (filter is_kline (Pipeline.trace r)).

(** The number of boards the board list gives ([0] when it fails). *)
Definition listed (w : Pipeline.world) : nat :=
  match Pipeline.board_list w with
  | Ok boards => List.length boards
  | Raise _ => 0
  end.

(** No kline request for [code] ever gives a record: each one raises or
    answers without records. *)
Definition no_kline (w : Pipeline.world) (code : string) : Prop :=
  forall n b e,
    match Pipeline.fetch_range w n code b e with
    | Ok (_ :: _) => False
    | _ => True
    end.

(** A row of [rows_today] comes from a board of the list, and has a quote
    only when some request for that board gave a record. *)
Definition his_made (w : Pipeline.world) (boards : list (string * string))
    (r : board_row) : Prop :=
  exists code name o,
    In (code, name) boards
    /\ r = Pipeline.his_row code name o
    /\ match o with
       | Some rec =>
           exists n b e recs, Pipeline.fetch_range w n code b e = Ok (rec :: recs)
       | None => True
       end.

(** A world where every kline request gives records and nothing
    interrupts the run. *)
Definition healthy (w : Pipeline.world) : Prop :=
  (forall n code b e,
      exists rec recs, Pipeline.fetch_range w n code b e = Ok (rec :: recs))
  /\ forall n, Pipeline.interrupted w n = false.

(** A row of [rows_today] under its code: it comes from a board of the
    list with that code, for which the run has asked today's kline. *)
Definition his_asked (w : Pipeline.world) (boards : list (string * string))
    (tr : list Pipeline.event) (kr : string * board_row) : Prop :=
  exists name o,
    In (fst kr, name) boards
    /\ snd kr = Pipeline.his_row (fst kr) name o
    /\ In (Pipeline.EvKline (fst kr) (Pipeline.today w) (Pipeline.today w)) tr.

(** * Facts about the embedding *)

(** ** Lists of labels *)

Lemma mem_In (k : string) (l : list string) : PyStr.mem k l = true <-> In k l.
Proof.
  unfold PyStr.mem. rewrite existsb_exists. split.
  - intros [x [Hin Heq]]. apply String.eqb_eq in Heq. now subst.
  - intros Hin. exists k. split; [assumption | apply String.eqb_refl].
Qed.

Lemma mem_notin (k : string) (l : list string) : PyStr.mem k l = false <-> ~ In k l.
Proof.
  rewrite <- mem_In. destruct (PyStr.mem k l); split; congruence.
Qed.

Lemma position_In (k : string) (l : list string) :
  In k l -> exists i, position k l = Some i /\ nth_error l i = Some k.
Proof.
  induction l as [|h t IH]; simpl; [tauto|].
  intros Hin. destruct (String.eqb_spec k h) as [->|Hne].
  - exists O. now split.
  - destruct Hin as [Heq|Hin]; [congruence|].
    destruct (IH Hin) as [i [Hp Hn]]. exists (S i). rewrite Hp. now split.
Qed.

Lemma position_notin (k : string) (l : list string) :
  ~ In k l -> position k l = None.
Proof.
  induction l as [|h t IH]; simpl; [reflexivity|].
  intros Hn. destruct (String.eqb_spec k h) as [->|Hne]; [tauto|].
  rewrite IH; [reflexivity | tauto].
Qed.

(** ** Reading a cell after each table operation *)

Lemma cell_at_no_row (w : frame) (k c : string) :
  ~ In k (index w) -> cell_at w k c = None.
Proof.
  intros Hn. unfold cell_at. now rewrite (position_notin _ _ Hn).
Qed.

Lemma cell_at_no_col (w : frame) (k c : string) :
  ~ In c (columns w) -> cell_at w k c = None.
Proof.
  intros Hn. unfold cell_at. rewrite (position_notin _ _ Hn).
  now destruct (position k (index w)).
Qed.

Lemma cell_at_build (idx cols : list string) (f : string -> string -> cell)
    (k c : string) :
  cell_at (build idx cols f) k c
  = if PyStr.mem k idx && PyStr.mem c cols then f k c else None.
Proof.
  destruct (PyStr.mem k idx) eqn:Hk; simpl.
  - destruct (PyStr.mem c cols) eqn:Hc.
    + apply mem_In in Hk, Hc.
      destruct (position_In _ _ Hk) as [i [Hpi Hni]].
      destruct (position_In _ _ Hc) as [j [Hpj Hnj]].
      unfold cell_at, build; simpl. rewrite Hpi, Hpj.
      rewrite (map_nth_error (fun k0 => map (f k0) cols) _ _ Hni).
      now rewrite (map_nth_error (f k) _ _ Hnj).
    + apply cell_at_no_col. simpl. now apply mem_notin.
  - apply cell_at_no_row. simpl. now apply mem_notin.
Qed.

Lemma build_ext (idx cols : list string) (f g : string -> string -> cell) :
  (forall k c, In k idx -> In c cols -> f k c = g k c) ->
  build idx cols f = build idx cols g.
Proof.
  intros H. unfold build. f_equal.
  apply map_ext_in. intros k Hk. apply map_ext_in. intros c Hc. now apply H.
Qed.

Lemma cell_at_set_col_other (w : frame) (c : string) (col : string -> cell)
    (k c' : string) :
  c' <> c -> cell_at (set_col w c col) k c' = cell_at w k c'.
Proof.
  intros Hne. unfold set_col. rewrite cell_at_build.
  destruct (String.eqb_spec c' c) as [|_]; [congruence|].
  destruct (PyStr.mem k (index w)) eqn:Hk; simpl.
  - destruct (PyStr.mem c' _) eqn:Hc; [reflexivity|].
    symmetry. apply cell_at_no_col. apply mem_notin in Hc. intros Hin. apply Hc.
    destruct (PyStr.mem c (columns w)); [assumption | apply in_or_app; now left].
  - symmetry. apply cell_at_no_row. now apply mem_notin.
Qed.

Lemma columns_set_col (w : frame) (c : string) (col : string -> cell) (c' : string) :
  In c' (columns (set_col w c col)) <-> c' = c \/ In c' (columns w).
Proof.
  unfold set_col; simpl. destruct (PyStr.mem c (columns w)) eqn:Hc.
  - apply mem_In in Hc. split; [tauto | intros [->|H]; assumption].
  - rewrite in_app_iff. simpl. split; intros H; intuition congruence.
Qed.

Lemma cell_at_set_col_same (w : frame) (c : string) (col : string -> cell)
    (k : string) :
  cell_at (set_col w c col) k c = if PyStr.mem k (index w) then col k else None.
Proof.
  assert (Hc : PyStr.mem c (columns (set_col w c col)) = true).
  { apply mem_In, columns_set_col. now left. }
  unfold set_col in *. rewrite cell_at_build. simpl in Hc. rewrite Hc.
  rewrite String.eqb_refl. now destruct (PyStr.mem k (index w)).
Qed.

Lemma cell_at_select (w : frame) (cols : list string) (k c : string) :
  cell_at (select w cols) k c = if PyStr.mem c cols then cell_at w k c else None.
Proof.
  unfold select. rewrite cell_at_build.
  destruct (PyStr.mem k (index w)) eqn:Hk; simpl; [reflexivity|].
  apply mem_notin in Hk. rewrite (cell_at_no_row _ _ _ Hk).
  now destruct (PyStr.mem c cols).
Qed.

Lemma cell_at_append_rows (w : frame) (ks : list string) (k c : string) :
  cell_at (append_rows w ks) k c = cell_at w k c.
Proof.
  unfold append_rows. rewrite cell_at_build.
  destruct (PyStr.mem k (index w)) eqn:Hk.
  - assert (Hk' : PyStr.mem k (index w ++ ks) = true).
    { apply mem_In, in_or_app. left. now apply mem_In. }
    rewrite Hk'. simpl.
    destruct (PyStr.mem c (columns w)) eqn:Hc; [reflexivity|].
    apply mem_notin in Hc. now rewrite (cell_at_no_col _ _ _ Hc).
  - apply mem_notin in Hk. rewrite (cell_at_no_row _ _ _ Hk).
    now destruct (PyStr.mem k (index w ++ ks) && PyStr.mem c (columns w)).
Qed.

(** ** The column order *)

Section ColumnOrderFacts.

Variable to_dt : string -> option Z.

Lemma In_insert_by_date (c x : string) (l : list string) :
  In c (insert_by_date to_dt x l) <-> c = x \/ In c l.
Proof.
  induction l as [|h t IH]; simpl.
  - intuition.
  - destruct (date_leb to_dt x h); simpl; [intuition|].
    rewrite IH. intuition.
Qed.

Lemma In_sort_by_date (c : string) (l : list string) :
  In c (fold_right (insert_by_date to_dt) [] l) <-> In c l.
Proof.
  induction l as [|h t IH]; simpl; [tauto|].
  rewrite In_insert_by_date, IH. intuition.
Qed.

Lemma In_date_cols (c : string) (cols : list string) :
  In c (date_cols to_dt cols) <-> In c cols /\ is_date to_dt c = true.
Proof.
  unfold date_cols. rewrite In_sort_by_date. apply filter_In.
Qed.

Lemma In_other_cols (c : string) (cols : list string) :
  In c (other_cols to_dt cols) <-> In c cols /\ is_date to_dt c = false.
Proof.
  unfold other_cols. rewrite filter_In. split; intros [Hin H]; split; try assumption.
  - destruct (is_date to_dt c) eqn:Hd; [|reflexivity].
    apply negb_true_iff, mem_notin in H. exfalso. apply H.
    apply In_date_cols. now split.
  - apply negb_true_iff, mem_notin. rewrite In_date_cols. intros [_ Hd]. congruence.
Qed.

Lemma In_sorted_columns (c : string) (cols : list string) :
  In c (date_cols to_dt cols ++ other_cols to_dt cols) <-> In c cols.
Proof.
  rewrite in_app_iff, In_date_cols, In_other_cols.
  destruct (is_date to_dt c); intuition congruence.
Qed.

Lemma columns_sort_columns (w : frame) (c : string) :
  In c (columns (sort_columns to_dt w)) <-> In c (columns w).
Proof. apply In_sorted_columns. Qed.

Lemma cell_at_sort_columns (w : frame) (k c : string) :
  cell_at (sort_columns to_dt w) k c = cell_at w k c.
Proof.
  unfold sort_columns. rewrite cell_at_select.
  destruct (PyStr.mem c _) eqn:Hc; [reflexivity|].
  apply mem_notin in Hc. rewrite In_sorted_columns in Hc.
  symmetry. now apply cell_at_no_col.
Qed.

End ColumnOrderFacts.

(** ** What [patch_today] writes *)

Lemma In_insert_sorted (k x : string) (l : list string) :
  In k (PyStr.insert_sorted x l) <-> k = x \/ In k l.
Proof.
  induction l as [|h t IH]; simpl.
  - intuition.
  - destruct (String.leb x h); simpl; [intuition|].
    rewrite IH. intuition.
Qed.

Lemma In_sorted (k : string) (l : list string) : In k (PyStr.sorted l) <-> In k l.
Proof.
  unfold PyStr.sorted. induction l as [|h t IH]; simpl; [tauto|].
  rewrite In_insert_sorted, IH. intuition.
Qed.

Lemma In_difference (k : string) (keys idx : list string) :
  In k (bk_data_ind.difference keys idx) <-> In k keys /\ ~ In k idx.
Proof.
  unfold bk_data_ind.difference.
  rewrite In_sorted, nodup_In, filter_In, negb_true_iff, mem_notin. tauto.
Qed.

Lemma assoc_In {A : Type} (k : string) (l : list (string * A)) :
  In k (map fst l) -> exists v, PyStr.assoc k l = Some v.
Proof.
  induction l as [|[k' v] t IH]; simpl; [tauto|].
  intros H. destruct (String.eqb_spec k k') as [->|Hne]; [now exists v|].
  destruct H as [H|H]; [congruence | now apply IH].
Qed.

Lemma assoc_notin {A : Type} (k : string) (l : list (string * A)) :
  ~ In k (map fst l) -> PyStr.assoc k l = None.
Proof.
  induction l as [|[k' v] t IH]; simpl; [reflexivity|].
  intros H. destruct (String.eqb_spec k k') as [->|Hne]; [tauto|].
  apply IH. tauto.
Qed.

Lemma build_normal (idx cols : list string) (f : string -> string -> cell) :
  let w := build idx cols f in
  w = build (index w) (columns w) (cell_at w).
Proof.
  simpl. apply build_ext. intros k c Hk Hc. rewrite cell_at_build.
  apply mem_In in Hk, Hc. now rewrite Hk, Hc.
Qed.

Lemma columns_sort_columns_eq (to_dt : string -> option Z) (w : frame) :
  columns (sort_columns to_dt w)
  = date_cols to_dt (columns w) ++ other_cols to_dt (columns w).
Proof. reflexivity. Qed.

Lemma columns_set_col_eq (w : frame) (c : string) (col : string -> cell) :
  columns (set_col w c col)
  = if PyStr.mem c (columns w) then columns w else columns w ++ [c].
Proof. reflexivity. Qed.

Section PatchFacts.

Variable to_dt : string -> option Z.

(** The table [round/bk_data_ind.py] writes, cell by cell. *)
Lemma round_patch_inv (W : frame) (D : today_df) (today : string) (W' : frame) :
  bk_data_ind.patch_today to_dt W D today = Ok W' ->
  let ns := bk_data_ind.new_series D in
  PyStr.has_dup (map fst ns) = false
  /\ index W' = index W ++ bk_data_ind.difference (map fst ns) (index W)
  /\ (forall c, In c (columns W') <-> c = today \/ In c (columns W))
  /\ (forall k c, c <> today -> cell_at W' k c = cell_at W k c)
  /\ (forall k, In k (index W') ->
        cell_at W' k today
        = if nonblank (PyStr.assoc k ns) then PyStr.assoc k ns
          else if PyStr.mem today (columns W) then cell_at W k today
               else Some EmptyString)
  /\ (let cols := if PyStr.mem today (columns W) then columns W
                  else columns W ++ [today] in
      columns W' = date_cols to_dt cols ++ other_cols to_dt cols)
  /\ W' = build (index W') (columns W') (cell_at W').
Proof.
  intros H ns. unfold bk_data_ind.patch_today in H.
  destruct (rows D) as [|r0 rs] eqn:Hrows; [discriminate|]. fold ns in H.
  set (new_keys := bk_data_ind.difference (map fst ns) (index W)) in *.
  set (wide1 := match new_keys with [] => W | _ :: _ => append_rows W new_keys end) in *.
  set (wide2 := if PyStr.mem today (columns wide1) then wide1
                else set_col wide1 today (fun _ => Some EmptyString)) in *.
  destruct (PyStr.has_dup (map fst ns)) eqn:Hdup; [discriminate|].
  injection H as <-.
  assert (Hi1 : index wide1 = index W ++ new_keys).
  { unfold wide1. destruct new_keys; simpl; [now rewrite app_nil_r | reflexivity]. }
  assert (Hc1 : columns wide1 = columns W).
  { unfold wide1. now destruct new_keys. }
  assert (Hv1 : forall k c, cell_at wide1 k c = cell_at W k c).
  { intros k c. unfold wide1. destruct new_keys; [reflexivity|].
    apply cell_at_append_rows. }
  assert (Hi2 : index wide2 = index wide1).
  { unfold wide2. now destruct (PyStr.mem today (columns wide1)). }
  assert (Hc2 : forall c, In c (columns wide2) <-> c = today \/ In c (columns W)).
  { intros c. unfold wide2. destruct (PyStr.mem today (columns wide1)) eqn:Hm.
    - rewrite Hc1 in *. apply mem_In in Hm. split; [tauto | intros [->|]; assumption].
    - rewrite columns_set_col, Hc1. tauto. }
  split; [reflexivity|]. split; [|split; [|split; [|split; [|split]]]].
  - simpl. now rewrite Hi2.
  - intros c. rewrite columns_sort_columns, columns_set_col, Hc2. tauto.
  - intros k c Hne. rewrite cell_at_sort_columns, cell_at_set_col_other by assumption.
    unfold wide2. destruct (PyStr.mem today (columns wide1)).
    + apply Hv1.
    + rewrite cell_at_set_col_other by assumption. apply Hv1.
  - intros k Hk. simpl in Hk. rewrite cell_at_sort_columns, cell_at_set_col_same.
    apply mem_In in Hk. rewrite Hk.
    destruct (nonblank (PyStr.assoc k ns)); [reflexivity|].
    unfold wide2. rewrite Hc1.
    destruct (PyStr.mem today (columns W)); [apply Hv1|].
    rewrite cell_at_set_col_same. rewrite Hi2 in Hk. now rewrite Hk.
  - assert (Hcols : columns (set_col wide2 today
                       (fun k => if nonblank (PyStr.assoc k ns) then PyStr.assoc k ns
                                 else cell_at wide2 k today))
                    = if PyStr.mem today (columns W) then columns W
                      else columns W ++ [today]).
    { rewrite columns_set_col_eq. unfold wide2. rewrite Hc1.
      destruct (PyStr.mem today (columns W)) eqn:Hm.
      - rewrite Hc1. now rewrite Hm.
      - rewrite columns_set_col_eq, Hc1, Hm.
        assert (Ht : PyStr.mem today (columns W ++ [today]) = true).
        { apply mem_In, in_or_app. right. now left. }
        now rewrite Ht. }
    rewrite columns_sort_columns_eq. now rewrite Hcols.
  - unfold sort_columns, select. apply build_normal.
Qed.

(** The table [bk_vis/bk_fetch_data.py] writes, cell by cell. *)
Lemma vis_patch_inv (W : frame) (D : today_df) (today : string) (W' : frame) :
  bk_fetch_data.patch_today to_dt W D today = Ok W' ->
  let ns := bk_fetch_data.series_new D in
  PyStr.has_dup (map fst ns) = false
  /\ index W' = index W
  /\ (forall c, In c (columns W') <-> c = today \/ In c (columns W))
  /\ (forall k c, c <> today -> cell_at W' k c = cell_at W k c)
  /\ (forall k, In k (index W) ->
        cell_at W' k today
        = if PyStr.mem today (columns W)
          then (if nonblank (PyStr.assoc k ns) then PyStr.assoc k ns
                else cell_at W k today)
          else PyStr.assoc k ns)
  /\ (PyStr.mem today (columns W) = true ->
      forall k, In k (index W) -> In k (map fst ns))
  /\ (let cols := if PyStr.mem today (columns W) then columns W
                  else columns W ++ [today] in
      columns W' = date_cols to_dt cols ++ other_cols to_dt cols)
  /\ W' = build (index W') (columns W') (cell_at W').
Proof.
  intros H ns. unfold bk_fetch_data.patch_today in H.
  destruct (rows D) as [|r0 rs] eqn:Hrows; [discriminate|]. fold ns in H.
  destruct (PyStr.mem today (columns W)) eqn:Hm; simpl in H;
    (destruct (PyStr.has_dup (map fst ns)) eqn:Hdup; [discriminate|]).
  - destruct (forallb _ (index W)) eqn:Hall; simpl in H; [|discriminate].
    injection H as <-.
    split; [reflexivity|]. split; [reflexivity|].
    split; [|split; [|split; [|split; [|split]]]].
    + intros c. rewrite columns_sort_columns, columns_set_col. tauto.
    + intros k c Hne. now rewrite cell_at_sort_columns, cell_at_set_col_other.
    + intros k Hk. rewrite cell_at_sort_columns, cell_at_set_col_same.
      apply mem_In in Hk. now rewrite Hk.
    + intros _ k Hk. rewrite forallb_forall in Hall. apply mem_In. now apply Hall.
    + now rewrite columns_sort_columns_eq, columns_set_col_eq, Hm.
    + unfold sort_columns, select. apply build_normal.
  - injection H as <-.
    split; [reflexivity|]. split; [reflexivity|].
    split; [|split; [|split; [|split; [|split]]]].
    + intros c. rewrite columns_sort_columns, columns_set_col. tauto.
    + intros k c Hne. now rewrite cell_at_sort_columns, cell_at_set_col_other.
    + intros k Hk. rewrite cell_at_sort_columns, cell_at_set_col_same.
      apply mem_In in Hk. now rewrite Hk.
    + discriminate.
    + now rewrite columns_sort_columns_eq, columns_set_col_eq, Hm.
    + unfold sort_columns, select. apply build_normal.
Qed.

End PatchFacts.

(** ** Sorting the columns twice *)

Lemma filter_all {A : Type} (f : A -> bool) (l : list A) :
  (forall x, In x l -> f x = true) -> filter f l = l.
Proof.
  induction l as [|h t IH]; simpl; intros H; [reflexivity|].
  rewrite (H h) by now left. f_equal. apply IH. intros x Hx. apply H. now right.
Qed.

Lemma filter_none {A : Type} (f : A -> bool) (l : list A) :
  (forall x, In x l -> f x = false) -> filter f l = [].
Proof.
  induction l as [|h t IH]; simpl; intros H; [reflexivity|].
  rewrite (H h) by now left. apply IH. intros x Hx. apply H. now right.
Qed.

Section SortFacts.

Variable to_dt : string -> option Z.

Local Abbreviation date_le := (ColumnSpec.date_le to_dt).

Lemma date_leb_total (a b : string) :
  date_leb to_dt a b = false -> date_leb to_dt b a = true.
Proof.
  unfold date_leb. destruct (to_dt a), (to_dt b); try discriminate.
  intros H. apply Z.leb_gt in H. apply Z.leb_le. lia.
Qed.

Lemma insert_by_date_HdRel (x a : string) (l : list string) :
  date_le a x -> HdRel date_le a l -> HdRel date_le a (insert_by_date to_dt x l).
Proof.
  intros Hax Hal. destruct l as [|h t]; simpl.
  - now constructor.
  - destruct (date_leb to_dt x h); constructor; [assumption|].
    now inversion Hal.
Qed.

Lemma insert_by_date_Sorted (x : string) (l : list string) :
  Sorted date_le l -> Sorted date_le (insert_by_date to_dt x l).
Proof.
  induction l as [|h t IH]; simpl; intros Hs.
  - repeat constructor.
  - destruct (date_leb to_dt x h) eqn:Hxh.
    + constructor; [assumption | now constructor].
    + inversion Hs; subst. constructor; [now apply IH|].
      apply insert_by_date_HdRel; [|assumption].
      now apply date_leb_total.
Qed.

Lemma sort_by_date_Sorted (l : list string) :
  Sorted date_le (fold_right (insert_by_date to_dt) [] l).
Proof.
  induction l as [|h t IH]; simpl; [constructor|].
  now apply insert_by_date_Sorted.
Qed.

Lemma sort_by_date_id (l : list string) :
  Sorted date_le l -> fold_right (insert_by_date to_dt) [] l = l.
Proof.
  induction l as [|h t IH]; simpl; intros Hs; [reflexivity|].
  inversion Hs as [|? ? Hst Hhd]; subst. rewrite (IH Hst).
  destruct t as [|h' t']; [reflexivity|]. simpl.
  inversion Hhd as [|? ? Hle]; subst. unfold ColumnSpec.date_le in Hle. now rewrite Hle.
Qed.

(** Sorting the columns of a table whose columns are already sorted
    changes nothing. *)
Lemma resort_columns (cols : list string) :
  let cols' := date_cols to_dt cols ++ other_cols to_dt cols in
  date_cols to_dt cols' ++ other_cols to_dt cols' = cols'.
Proof.
  intros cols'.
  assert (Hd : date_cols to_dt cols' = date_cols to_dt cols).
  { unfold date_cols at 1. unfold cols'. rewrite filter_app.
    rewrite (filter_all (is_date to_dt) (date_cols to_dt cols)).
    - rewrite (filter_none (is_date to_dt) (other_cols to_dt cols)).
      + rewrite app_nil_r. apply sort_by_date_id. apply sort_by_date_Sorted.
      + intros x Hx. now apply In_other_cols in Hx.
    - intros x Hx. now apply In_date_cols in Hx. }
  assert (Ho : other_cols to_dt cols' = other_cols to_dt cols).
  { unfold other_cols at 1. rewrite Hd. unfold cols'. rewrite filter_app.
    rewrite (filter_none _ (date_cols to_dt cols)).
    - simpl. apply filter_all. intros x Hx.
      apply negb_true_iff, mem_notin. intros Hin.
      apply In_other_cols in Hx. apply In_date_cols in Hin.
      destruct Hx, Hin. congruence.
    - intros x Hx. apply negb_false_iff. now apply mem_In. }
  now rewrite Hd, Ho.
Qed.

End SortFacts.

(** ** Patching twice *)

Lemma no_elements {A : Type} (l : list A) : (forall x, ~ In x l) -> l = [].
Proof.
  destruct l as [|h t]; [reflexivity|]. intros H. exfalso. apply (H h). now left.
Qed.

Lemma rank_from_length {V : Type} (ltb : V -> V -> bool)
    (all pre post : list (option V)) :
  List.length (Rank.rank_from ltb all pre post) = List.length post.
Proof.
  revert pre. induction post as [|[v|] t IH]; intros pre; simpl;
    [reflexivity | now rewrite IH | now rewrite IH].
Qed.

Lemma today_ranks_length (D : today_df) :
  List.length (today_ranks D) = List.length (rows D).
Proof.
  unfold today_ranks. destruct (existsb _ _).
  - unfold Rank.rank_floats, Rank.rank_first_desc.
    now rewrite rank_from_length, !length_map.
  - now rewrite !length_map.
Qed.

Lemma map_fst_combine {A B C : Type} (f : A -> C) (g : A * B -> C)
    (l : list A) (l' : list B) :
  List.length l' = List.length l ->
  (forall a b, g (a, b) = f a) ->
  map g (combine l l') = map f l.
Proof.
  intros Hlen Hg. revert l' Hlen.
  induction l as [|a t IH]; intros [|b t'] Hlen; simpl in *; try discriminate;
    [reflexivity|].
  rewrite Hg. f_equal. apply IH. now injection Hlen.
Qed.

Lemma round_keys (D : today_df) :
  map fst (bk_data_ind.new_series D) = today_keys D.
Proof.
  unfold bk_data_ind.new_series, today_keys. rewrite map_map.
  apply map_fst_combine; [apply today_ranks_length | reflexivity].
Qed.

Lemma vis_keys (D : today_df) :
  map fst (bk_fetch_data.series_new D) = today_keys D.
Proof.
  unfold bk_fetch_data.series_new, today_keys. rewrite map_map.
  apply map_fst_combine; [apply today_ranks_length | reflexivity].
Qed.

Section IdemFacts.

Variable to_dt : string -> option Z.

(** Both writers refuse a snapshot without rows. *)
Lemma round_patch_rows (W : frame) (D : today_df) (today : string) (W' : frame) :
  bk_data_ind.patch_today to_dt W D today = Ok W' -> rows D <> [].
Proof.
  unfold bk_data_ind.patch_today. destruct (rows D); [discriminate|]. discriminate.
Qed.

Lemma vis_patch_rows (W : frame) (D : today_df) (today : string) (W' : frame) :
  bk_fetch_data.patch_today to_dt W D today = Ok W' -> rows D <> [].
Proof.
  unfold bk_fetch_data.patch_today. destruct (rows D); [discriminate|]. discriminate.
Qed.

Lemma round_patch_total (W : frame) (D : today_df) (today : string) :
  rows D <> [] ->
  PyStr.has_dup (today_keys D) = false ->
  exists W', bk_data_ind.patch_today to_dt W D today = Ok W'.
Proof.
  intros Hr H. unfold bk_data_ind.patch_today.
  destruct (rows D) as [|r0 rs]; [contradiction|]. rewrite round_keys, H. eauto.
Qed.

(** [round/bk_data_ind.py]: a table it wrote is a fixed point. *)
Lemma round_patch_twice (W : frame) (D : today_df) (today : string) (W1 : frame) :
  bk_data_ind.patch_today to_dt W D today = Ok W1 ->
  bk_data_ind.patch_today to_dt W1 D today = Ok W1.
Proof.
  intros H1.
  destruct (round_patch_inv to_dt _ _ _ _ H1)
    as (Hdup & Hidx & Hcols & Hother & Htoday & Hceq & Hnorm).
  rewrite round_keys in Hdup, Hidx.
  destruct (round_patch_total W1 D today (round_patch_rows _ _ _ _ H1) Hdup)
    as [W2 H2].
  rewrite H2. f_equal.
  destruct (round_patch_inv to_dt _ _ _ _ H2)
    as (_ & Hidx2 & _ & Hother2 & Htoday2 & Hceq2 & Hnorm2).
  rewrite round_keys in Hidx2.
  assert (Hmem : PyStr.mem today (columns W1) = true).
  { apply mem_In, Hcols. now left. }
  assert (Hnew : bk_data_ind.difference (today_keys D) (index W1) = []).
  { apply no_elements. intros k Hk. apply In_difference in Hk.
    destruct Hk as [Hk Hn]. apply Hn. rewrite Hidx. apply in_or_app.
    destruct (PyStr.mem k (index W)) eqn:Hm.
    - left. now apply mem_In.
    - right. apply In_difference. split; [assumption | now apply mem_notin]. }
  rewrite Hnew, app_nil_r in Hidx2.
  assert (Hc2 : columns W2 = columns W1).
  { simpl in Hceq2. rewrite Hmem in Hceq2. rewrite Hceq2. simpl in Hceq.
    rewrite Hceq. apply resort_columns. }
  rewrite Hnorm2, Hnorm. rewrite Hidx2, Hc2. apply build_ext.
  intros k c Hk Hc. destruct (String.eqb_spec c today) as [->|Hne].
  - rewrite Htoday2 by now rewrite Hidx2.
    rewrite Hmem.
    destruct (nonblank (PyStr.assoc k (bk_data_ind.new_series D))) eqn:Hnb;
      [|reflexivity].
    rewrite (Htoday k Hk). now rewrite Hnb.
  - now apply Hother2.
Qed.

(** [bk_vis/bk_fetch_data.py]: on a table it wrote, a second call writes
    the same table or raises. *)
Lemma vis_patch_twice (W : frame) (D : today_df) (today : string) (W1 W2 : frame) :
  bk_fetch_data.patch_today to_dt W D today = Ok W1 ->
  bk_fetch_data.patch_today to_dt W1 D today = Ok W2 ->
  W2 = W1.
Proof.
  intros H1 H2.
  destruct (vis_patch_inv to_dt _ _ _ _ H1)
    as (_ & Hidx & Hcols & Hother & Htoday & _ & Hceq & Hnorm).
  destruct (vis_patch_inv to_dt _ _ _ _ H2)
    as (_ & Hidx2 & _ & Hother2 & Htoday2 & _ & Hceq2 & Hnorm2).
  assert (Hmem : PyStr.mem today (columns W1) = true).
  { apply mem_In, Hcols. now left. }
  assert (Hc2 : columns W2 = columns W1).
  { simpl in Hceq2. rewrite Hmem in Hceq2. rewrite Hceq2. simpl in Hceq.
    rewrite Hceq. apply resort_columns. }
  rewrite Hnorm2, Hnorm. rewrite Hidx2, Hc2. apply build_ext.
  intros k c Hk Hc. destruct (String.eqb_spec c today) as [->|Hne].
  - rewrite (Htoday2 k Hk), Hmem.
    destruct (nonblank (PyStr.assoc k (bk_fetch_data.series_new D))) eqn:Hnb;
      [|reflexivity].
    rewrite Hidx in Hk. rewrite (Htoday k Hk). rewrite Hnb.
    now destruct (PyStr.mem today (columns W)).
  - now apply Hother2.
Qed.

End IdemFacts.

(** ** Patching the file read back *)

Lemma cell_at_read_csv (w : frame) (k c : string) :
  cell_at (read_csv w) k c
  = match cell_at w k c with
    | Some s => if s =? EmptyString then None else Some s
    | None => None
    end.
Proof.
  unfold read_csv. rewrite cell_at_build.
  destruct (PyStr.mem k (index w)) eqn:Hk; simpl.
  - destruct (PyStr.mem c (columns w)) eqn:Hc; [reflexivity|].
    apply mem_notin in Hc. now rewrite (cell_at_no_col _ _ _ Hc).
  - apply mem_notin in Hk. now rewrite (cell_at_no_row _ _ _ Hk).
Qed.

(** NaN and the empty string are written alike. *)
Lemma cell_field_read_csv (w : frame) (k c : string) :
  Csv.cell_field (cell_at (read_csv w) k c) = Csv.cell_field (cell_at w k c).
Proof.
  rewrite cell_at_read_csv. destruct (cell_at w k c) as [s|]; [|reflexivity].
  destruct (String.eqb_spec s EmptyString) as [->|]; reflexivity.
Qed.

Lemma text_ext (label : string) (w w' : frame) :
  index w' = index w -> columns w' = columns w ->
  (forall k c, In k (index w) -> In c (columns w) ->
     Csv.cell_field (cell_at w' k c) = Csv.cell_field (cell_at w k c)) ->
  Csv.text label w' = Csv.text label w.
Proof.
  intros Hi Hc Hcell. unfold Csv.text. rewrite Hi, Hc. f_equal. f_equal.
  apply map_ext_in. intros k Hk. f_equal. f_equal.
  apply map_ext_in. intros c Hcin. now apply Hcell.
Qed.

Section CsvIdemFacts.

Variable to_dt : string -> option Z.

(** [round/bk_data_ind.py]: patching the file read back writes the same
    bytes. *)
Lemma round_patch_reread (W : frame) (D : today_df) (today : string) (W1 : frame) :
  bk_data_ind.patch_today to_dt W D today = Ok W1 ->
  exists W2,
    bk_data_ind.patch_today to_dt (read_csv W1) D today = Ok W2
    /\ bk_data_ind.to_csv W2 = bk_data_ind.to_csv W1.
Proof.
  intros H1.
  destruct (round_patch_inv to_dt _ _ _ _ H1)
    as (Hdup & Hidx & Hcols & Hother & Htoday & Hceq & _).
  rewrite round_keys in Hdup, Hidx.
  destruct (round_patch_total to_dt (read_csv W1) D today
              (round_patch_rows to_dt _ _ _ _ H1) Hdup) as [W2 H2].
  exists W2. split; [assumption|].
  destruct (round_patch_inv to_dt _ _ _ _ H2)
    as (_ & Hidx2 & _ & Hother2 & Htoday2 & Hceq2 & _).
  rewrite round_keys in Hidx2. change (index (read_csv W1)) with (index W1) in Hidx2.
  change (columns (read_csv W1)) with (columns W1) in Hceq2, Htoday2.
  assert (Hmem : PyStr.mem today (columns W1) = true).
  { apply mem_In, Hcols. now left. }
  assert (Hnew : bk_data_ind.difference (today_keys D) (index W1) = []).
  { apply no_elements. intros k Hk. apply In_difference in Hk.
    destruct Hk as [Hk Hn]. apply Hn. rewrite Hidx. apply in_or_app.
    destruct (PyStr.mem k (index W)) eqn:Hm.
    - left. now apply mem_In.
    - right. apply In_difference. split; [assumption | now apply mem_notin]. }
  rewrite Hnew, app_nil_r in Hidx2.
  assert (Hc2 : columns W2 = columns W1).
  { simpl in Hceq2. rewrite Hmem in Hceq2. rewrite Hceq2. simpl in Hceq.
    rewrite Hceq. apply resort_columns. }
  unfold bk_data_ind.to_csv, Csv.to_csv. f_equal.
  apply text_ext; try assumption.
  intros k c Hk Hc. destruct (String.eqb_spec c today) as [->|Hne].
  - rewrite Htoday2 by now rewrite Hidx2. rewrite Hmem.
    destruct (nonblank (PyStr.assoc k (bk_data_ind.new_series D))) eqn:Hnb.
    + rewrite (Htoday k Hk). now rewrite Hnb.
    + apply cell_field_read_csv.
  - rewrite (Hother2 k c Hne). apply cell_field_read_csv.
Qed.

(** [bk_vis/bk_fetch_data.py]: when patching the file read back writes,
    it writes the same bytes. *)
Lemma vis_patch_reread (W : frame) (D : today_df) (today : string) (W1 W2 : frame) :
  bk_fetch_data.patch_today to_dt W D today = Ok W1 ->
  bk_fetch_data.patch_today to_dt (read_csv W1) D today = Ok W2 ->
  bk_fetch_data.to_csv W2 = bk_fetch_data.to_csv W1.
Proof.
  intros H1 H2.
  destruct (vis_patch_inv to_dt _ _ _ _ H1)
    as (_ & Hidx & Hcols & Hother & Htoday & _ & Hceq & _).
  destruct (vis_patch_inv to_dt _ _ _ _ H2)
    as (_ & Hidx2 & _ & Hother2 & Htoday2 & _ & Hceq2 & _).
  change (index (read_csv W1)) with (index W1) in Hidx2, Htoday2.
  change (columns (read_csv W1)) with (columns W1) in Hceq2, Htoday2.
  assert (Hmem : PyStr.mem today (columns W1) = true).
  { apply mem_In, Hcols. now left. }
  assert (Hc2 : columns W2 = columns W1).
  { simpl in Hceq2. rewrite Hmem in Hceq2. rewrite Hceq2. simpl in Hceq.
    rewrite Hceq. apply resort_columns. }
  unfold bk_fetch_data.to_csv, Csv.to_csv. f_equal.
  apply text_ext; try assumption.
  intros k c Hk Hc. destruct (String.eqb_spec c today) as [->|Hne].
  - rewrite (Htoday2 k Hk), Hmem.
    destruct (nonblank (PyStr.assoc k (bk_fetch_data.series_new D))) eqn:Hnb.
    + rewrite Hidx in Hk. rewrite (Htoday k Hk). rewrite Hnb.
      now destruct (PyStr.mem today (columns W)).
    + apply cell_field_read_csv.
  - rewrite (Hother2 k c Hne). apply cell_field_read_csv.
Qed.

End CsvIdemFacts.

(** ** New boards *)

Lemma NoDup_insert_sorted (x : string) (l : list string) :
  ~ In x l -> NoDup l -> NoDup (PyStr.insert_sorted x l).
Proof.
  induction l as [|h t IH]; simpl; intros Hn Hd.
  - constructor; [tauto | constructor].
  - destruct (String.leb x h).
    + constructor; assumption.
    + inversion Hd; subst. constructor.
      * rewrite In_insert_sorted. intuition.
      * apply IH; [tauto | assumption].
Qed.

Lemma NoDup_sorted (l : list string) : NoDup l -> NoDup (PyStr.sorted l).
Proof.
  unfold PyStr.sorted. induction l as [|h t IH]; simpl; intros Hd; [constructor|].
  inversion Hd; subst. apply NoDup_insert_sorted; [|now apply IH].
  now rewrite (In_sorted h t).
Qed.

Lemma NoDup_difference (keys idx : list string) :
  NoDup (bk_data_ind.difference keys idx).
Proof.
  unfold bk_data_ind.difference. apply NoDup_sorted, NoDup_nodup.
Qed.

Lemma round_appends (to_dt : string -> option Z) :
  appends_new_boards (bk_data_ind.patch_today to_dt).
Proof.
  intros W D today W' H.
  destruct (round_patch_inv to_dt _ _ _ _ H)
    as (_ & Hidx & Hcols & Hother & Htoday & _ & _).
  rewrite round_keys in Hidx.
  exists (bk_data_ind.difference (today_keys D) (index W)).
  split; [assumption|]. split; [apply NoDup_difference|].
  split; [intros k; apply In_difference|]. split.
  - intros k c Hk Hne. rewrite (Hother k c Hne).
    apply cell_at_no_row. now apply In_difference in Hk.
  - intros k c Hk Hnk Hc. destruct (String.eqb_spec c today) as [->|Hne].
    + rewrite Htoday by (rewrite Hidx; apply in_or_app; now left).
      rewrite assoc_notin by now rewrite round_keys.
      simpl. apply mem_In in Hc. now rewrite Hc.
    + now apply Hother.
Qed.

(** ** The renderings of the fields *)

Section CellFacts.

Local Open Scope string_scope.

Lemma append_nonempty_r (s : string) (a : ascii) (t : string) :
  s ++ String a t <> EmptyString.
Proof. destruct s; discriminate. Qed.

Lemma append_empty (s t : string) :
  s ++ t = EmptyString <-> s = EmptyString /\ t = EmptyString.
Proof.
  destruct s; simpl; split; try tauto; try discriminate.
  intros [H _]. discriminate.
Qed.

Lemma eqb_empty (s : string) : (s =? EmptyString) = true <-> s = EmptyString.
Proof. apply String.eqb_eq. Qed.

Lemma str_N_nonempty (n : N) : PyStr.str_N n <> EmptyString.
Proof. unfold PyStr.str_N. simpl. apply append_nonempty_r. Qed.

Lemma str_int_nonempty (z : Z) : PyStr.str_int z <> EmptyString.
Proof.
  unfold PyStr.str_int. destruct (z <? 0)%Z; [discriminate | apply str_N_nonempty].
Qed.

Lemma digit_char_code (d : N) :
  (d < 10)%N -> N_of_ascii (PyStr.digit_char d) = (48 + d)%N.
Proof.
  intros H. unfold PyStr.digit_char. apply N_ascii_embedding. lia.
Qed.

Lemma digit_char_not (d : N) (c : ascii) :
  (d < 10)%N -> (N_of_ascii c < 48)%N -> PyStr.digit_char d <> c.
Proof.
  intros Hd Hc Heq. apply (f_equal N_of_ascii) in Heq.
  rewrite digit_char_code in Heq by assumption. lia.
Qed.

Lemma mod10_lt (n : N) : (n mod 10 < 10)%N.
Proof. apply N.mod_lt. discriminate. Qed.

Lemma append_assoc (s t u : string) : (s ++ t) ++ u = s ++ t ++ u.
Proof. induction s as [|a s IH]; simpl; [reflexivity | now rewrite IH]. Qed.

Lemma length_append (s t : string) :
  String.length (s ++ t) = String.length s + String.length t.
Proof. induction s as [|a s IH]; simpl; [reflexivity | now rewrite IH]. Qed.

Lemma pad_digits_length (d : nat) (k : N) : String.length (PyStr.pad_digits d k) = d.
Proof.
  revert k. induction d as [|d IH]; intros k; simpl; [reflexivity|].
  rewrite length_append, IH. simpl. lia.
Qed.

Lemma all_digits_app (s t : string) :
  CellSpec.all_digits (s ++ t) = CellSpec.all_digits s && CellSpec.all_digits t.
Proof.
  induction s as [|a s IH]; simpl; [reflexivity|].
  rewrite IH. now rewrite !andb_assoc.
Qed.

Lemma all_digits_digit (d : N) :
  CellSpec.all_digits (String (PyStr.digit_char (d mod 10)) EmptyString) = true.
Proof.
  pose proof (mod10_lt d) as Hlt.
  cbn [CellSpec.all_digits]. rewrite (digit_char_code _ Hlt).
  rewrite andb_true_r. apply andb_true_intro.
  split; apply N.leb_le; [apply N.le_add_r | lia].
Qed.

Lemma pad_digits_digits (d : nat) (k : N) :
  CellSpec.all_digits (PyStr.pad_digits d k) = true.
Proof.
  revert k. induction d as [|d IH]; intros k; simpl; [reflexivity|].
  now rewrite all_digits_app, IH, all_digits_digit.
Qed.

Lemma digits_fuel_digits (fuel : nat) (n : N) :
  CellSpec.all_digits (PyStr.digits_fuel fuel n) = true.
Proof.
  revert n. induction fuel as [|f IH]; intros n; simpl; [reflexivity|].
  rewrite all_digits_app, all_digits_digit.
  destruct (n <? 10)%N; [reflexivity | now rewrite IH].
Qed.

Lemma str_N_digits (n : N) : CellSpec.all_digits (PyStr.str_N n) = true.
Proof. apply digits_fuel_digits. Qed.

(** ** [rstrip] *)

Lemma rstrip_empty_iff (c : ascii) (s : string) :
  PyStr.rstrip c s = EmptyString <-> CellSpec.all_char c s = true.
Proof.
  induction s as [|a t IH]; simpl; [tauto|].
  destruct (String.eqb_spec (PyStr.rstrip c t) EmptyString) as [He|Hne]; simpl.
  - destruct (Ascii.eqb a c); simpl.
    + split; [intros _; now apply IH | reflexivity].
    + split; discriminate.
  - rewrite andb_comm. destruct (CellSpec.all_char c t) eqn:Hall.
    + exfalso. apply Hne. now apply IH.
    + simpl. split; discriminate.
Qed.

Lemma all_char_app (c : ascii) (s t : string) :
  CellSpec.all_char c (s ++ t) = CellSpec.all_char c s && CellSpec.all_char c t.
Proof.
  induction s as [|a s IH]; simpl; [reflexivity|].
  now rewrite IH, andb_assoc.
Qed.

Lemma rstrip_app (c : ascii) (s t : string) :
  PyStr.rstrip c t <> EmptyString ->
  PyStr.rstrip c (s ++ t) = s ++ PyStr.rstrip c t.
Proof.
  intros Hne. induction s as [|a s IH]; simpl; [reflexivity|].
  rewrite IH.
  destruct (String.eqb_spec (s ++ PyStr.rstrip c t) EmptyString) as [He|_];
    [|reflexivity].
  apply append_empty in He. tauto.
Qed.

(** What [rstrip] removes is a run of the stripped character. *)
Lemma rstrip_prefix (c : ascii) (s : string) :
  exists z, s = PyStr.rstrip c s ++ z /\ CellSpec.all_char c z = true.
Proof.
  induction s as [|a t [z [Hz Hall]]]; simpl.
  - exists EmptyString. now split.
  - destruct (String.eqb_spec (PyStr.rstrip c t) EmptyString) as [He|Hne]; simpl.
    + destruct (Ascii.eqb_spec a c) as [->|Hac].
      * exists (String c t). split; [reflexivity|]. simpl.
        rewrite Ascii.eqb_refl. now apply rstrip_empty_iff.
      * exists z. split; [simpl; now f_equal | assumption].
    + exists z. split; [simpl; now f_equal | assumption].
Qed.

(** ** [format_fixed] *)

(** A finite float is written as a sign, integer digits, a point and
    exactly [d] decimals. *)
Lemma format_fixed_shape (d : nat) (neg : bool) (m : N) (e : Z) :
  exists i f,
    format_fixed d (FFin neg m e)
    = (if neg then "-" else EmptyString) ++ i ++ "." ++ f
    /\ i <> EmptyString /\ CellSpec.all_digits i = true
    /\ String.length f = d /\ CellSpec.all_digits f = true.
Proof.
  eexists. eexists. split; [reflexivity|].
  split; [apply str_N_nonempty|]. split; [apply str_N_digits|].
  split; [apply pad_digits_length | apply pad_digits_digits].
Qed.

Lemma format_fixed_nonempty (d : nat) (x : pyfloat) :
  format_fixed d x <> EmptyString.
Proof.
  destruct x as [|[|]|[|] m e]; simpl; try discriminate.
  intros H. apply append_empty in H. destruct H as [H _].
  now apply str_N_nonempty in H.
Qed.

Lemma all_digits_not_char (c : ascii) (s : string) :
  (N_of_ascii c < 48)%N -> s <> EmptyString ->
  CellSpec.all_digits s = true -> CellSpec.all_char c s = false.
Proof.
  intros Hc Hne Hd. destruct s as [|a t]; [congruence|]. simpl in *.
  destruct (Ascii.eqb_spec a c) as [->|]; [|reflexivity].
  apply andb_true_iff in Hd. destruct Hd as [Hd _].
  apply andb_true_iff in Hd. destruct Hd as [Hd _]. apply N.leb_le in Hd. lia.
Qed.

Lemma strip_value_nonempty (sign i f : string) :
  i <> EmptyString -> CellSpec.all_digits i = true ->
  PyStr.rstrip "." (PyStr.rstrip "0" (sign ++ i ++ "." ++ f)) <> EmptyString.
Proof.
  intros Hi Hd.
  assert (Hdot : PyStr.rstrip "0" ("." ++ f) = String "." (PyStr.rstrip "0" f)).
  { simpl. now rewrite andb_false_r. }
  assert (Hs : PyStr.rstrip "0" (sign ++ i ++ "." ++ f)
               = (sign ++ i) ++ String "." (PyStr.rstrip "0" f)).
  { rewrite <- Hdot. rewrite <- rstrip_app by (rewrite Hdot; discriminate).
    now rewrite append_assoc. }
  rewrite Hs. intros H. apply rstrip_empty_iff in H.
  rewrite !all_char_app in H. apply andb_true_iff in H. destruct H as [H _].
  apply andb_true_iff in H. destruct H as [_ H].
  rewrite (all_digits_not_char "." i) in H; [discriminate | reflexivity | | ];
    assumption.
Qed.

(** The value field of a float that is not NaN is never empty. *)
Lemma value_nonempty (x : pyfloat) :
  isnan x = false ->
  PyStr.rstrip "." (PyStr.rstrip "0" (format_fixed 4 x)) <> EmptyString.
Proof.
  destruct x as [|[|]|neg m e]; intros Hn; try discriminate.
  destruct (format_fixed_shape 4 neg m e) as (i & f & Heq & Hi & Hd & _ & _).
  rewrite Heq. now apply strip_value_nonempty.
Qed.

(** The value field is the four-decimal form without a run of trailing
    zeros and then of trailing points. *)
Lemma value_prefix (x : pyfloat) :
  exists z1 z2,
    format_fixed 4 x
    = PyStr.rstrip "." (PyStr.rstrip "0" (format_fixed 4 x)) ++ z1 ++ z2
    /\ CellSpec.all_char "." z1 = true /\ CellSpec.all_char "0" z2 = true.
Proof.
  destruct (rstrip_prefix "0" (format_fixed 4 x)) as [z2 [H2 Ha2]].
  destruct (rstrip_prefix "." (PyStr.rstrip "0" (format_fixed 4 x))) as [z1 [H1 Ha1]].
  exists z1, z2. split; [|now split].
  rewrite <- append_assoc, <- H1. exact H2.
Qed.

(** ** A field renders empty exactly when it is absent *)

Lemma eqb_empty_false (s : string) : s <> EmptyString -> (s =? EmptyString) = false.
Proof. intros H. now apply String.eqb_neq. Qed.

Lemma render_rank_eqb (rank : option Z) :
  (CellSpec.render_rank rank =? EmptyString)
  = match rank with None => true | Some _ => false end.
Proof.
  destruct rank; simpl; [|reflexivity].
  apply eqb_empty_false, str_int_nonempty.
Qed.

Lemma render_pct_eqb (o : option pyfloat) :
  (CellSpec.render_pct o =? EmptyString) = CellSpec.absent o.
Proof.
  unfold CellSpec.render_pct. destruct o as [x|]; simpl; [|reflexivity].
  destruct (isnan x); [reflexivity|].
  apply eqb_empty_false, format_fixed_nonempty.
Qed.

Lemma render_value_eqb (o : option pyfloat) :
  (CellSpec.render_value o =? EmptyString) = CellSpec.absent o.
Proof.
  unfold CellSpec.render_value. destruct o as [x|]; simpl; [|reflexivity].
  destruct (isnan x) eqn:Hn; [reflexivity|].
  now apply eqb_empty_false, value_nonempty.
Qed.

Lemma render_val_eqb (v : pyval) :
  (CellSpec.render_val v =? EmptyString) = CellSpec.absent_val v.
Proof.
  destruct v; simpl; try reflexivity.
  apply eqb_empty_false, str_int_nonempty.
Qed.

Lemma render_str_eqb (o : option string) :
  (CellSpec.render_str o =? EmptyString) = CellSpec.absent_str o.
Proof. now destruct o. Qed.

Lemma render_pct_eq (o : option pyfloat) :
  CellSpec.render_pct o
  = match o with
    | None => EmptyString
    | Some x => if isnan x then EmptyString else format_fixed 2 x
    end.
Proof. unfold CellSpec.render_pct. now destruct o. Qed.

Lemma render_value_eq (o : option pyfloat) :
  CellSpec.render_value o
  = match o with
    | None => EmptyString
    | Some x =>
        if isnan x then EmptyString
        else PyStr.rstrip "." (PyStr.rstrip "0" (format_fixed 4 x))
    end.
Proof. unfold CellSpec.render_value. now destruct o. Qed.

Lemma join_nonempty (a b : string) (l : list string) :
  PyStr.join "|" (a :: b :: l) <> EmptyString.
Proof.
  unfold PyStr.join. simpl. intros H. apply append_empty in H.
  destruct H as [_ H]. discriminate.
Qed.

Lemma fmt_cell3_spec (rank : option Z) (pct close : option pyfloat) :
  bk_fetch_data.fmt_cell rank pct close = CellSpec.cell3 rank pct close.
Proof.
  unfold bk_fetch_data.fmt_cell, CellSpec.cell3.
  rewrite <- render_pct_eq, <- render_value_eq.
  change (match rank with None => EmptyString | Some k => PyStr.str_int k end)
    with (CellSpec.render_rank rank).
  rewrite render_rank_eqb, render_pct_eqb, render_value_eqb.
  destruct rank; simpl; [reflexivity|].
  now destruct (CellSpec.absent pct && CellSpec.absent close).
Qed.

Lemma fmt_cell7_spec (rank : option Z) (pct close turnover : option pyfloat)
    (up down : pyval) (leader : option string) :
  bk_data_ind.fmt_cell rank pct close turnover up down leader
  = CellSpec.cell7 rank pct close turnover up down leader.
Proof.
  unfold bk_data_ind.fmt_cell, CellSpec.cell7.
  rewrite <- !render_pct_eq, <- render_value_eq.
  change (match rank with None => EmptyString | Some k => PyStr.str_int k end)
    with (CellSpec.render_rank rank).
  change (match up with VNone => EmptyString | VStr s => s | VInt z => PyStr.str_int z end)
    with (CellSpec.render_val up).
  change (match down with VNone => EmptyString | VStr s => s | VInt z => PyStr.str_int z end)
    with (CellSpec.render_val down).
  change (match leader with None => EmptyString | Some s => s end)
    with (CellSpec.render_str leader).
  cbn [forallb].
  rewrite render_rank_eqb, !render_pct_eqb, render_value_eqb, !render_val_eqb,
    render_str_eqb, andb_true_r.
  destruct rank; simpl; [reflexivity|].
  rewrite !andb_assoc. reflexivity.
Qed.

End CellFacts.

(** ** The ranking *)

Lemma filter_length_sum {A : Type} (f g h : A -> bool) (l : list A) :
  (forall y, In y l -> Nat.b2n (f y) + Nat.b2n (g y) <= Nat.b2n (h y)) ->
  List.length (filter f l) + List.length (filter g l) <= List.length (filter h l).
Proof.
  induction l as [|y t IH]; simpl; intros H; [lia|].
  assert (Hy := H y (or_introl eq_refl)).
  assert (Ht : forall z, In z t -> Nat.b2n (f z) + Nat.b2n (g z) <= Nat.b2n (h z))
    by (intros z Hz; apply H; now right).
  specialize (IH Ht).
  destruct (f y), (g y), (h y); simpl in *; lia.
Qed.

Lemma filter_length_eq {A : Type} (f g : A -> bool) (l : list A) :
  (forall y, In y l -> f y = g y) ->
  List.length (filter f l) = List.length (filter g l).
Proof.
  intros H. f_equal. now apply filter_ext_in.
Qed.

Lemma somes_app {A : Type} (l1 l2 : list (option A)) :
  somes (l1 ++ l2) = somes l1 ++ somes l2.
Proof.
  induction l1 as [|[a|] t IH]; simpl; [reflexivity | now rewrite IH | assumption].
Qed.

Section RankFacts.

Variable V : Type.
Variable ltb : V -> V -> bool.

(** [ltb] is a strict weak order. *)
Hypothesis ltb_irrefl : forall a, ltb a a = false.
Hypothesis ltb_trans : forall a b c, ltb a b = true -> ltb b c = true -> ltb a c = true.
Hypothesis ltb_negtrans :
  forall a b c, ltb a b = false -> ltb b c = false -> ltb a c = false.

Let above := Rank.above ltb.
Let tied := Rank.tied ltb.
Let count_above := Rank.count_above ltb.
Let count_tied := Rank.count_tied ltb.
Let rank_at := Rank.rank_at ltb.
Let rank_from := Rank.rank_from ltb.

Lemma tied_self (v : V) : tied v (Some v) = true.
Proof. unfold tied, Rank.tied. now rewrite ltb_irrefl. Qed.

Lemma above_tied_le (a b : V) (y : option V) :
  ltb b a = true ->
  Nat.b2n (above a y) + Nat.b2n (tied a y) <= Nat.b2n (above b y).
Proof.
  intros Hba. destruct y as [y|]; simpl; [|lia].
  destruct (ltb a y) eqn:Hay; simpl.
  - rewrite (ltb_trans _ _ _ Hba Hay). simpl. lia.
  - destruct (ltb y a) eqn:Hya; simpl; [lia|].
    destruct (ltb b y) eqn:Hby; simpl; [lia|].
    rewrite (ltb_negtrans _ _ _ Hby Hya) in Hba. discriminate.
Qed.

Lemma above_tied_disjoint (a : V) (y : option V) :
  Nat.b2n (above a y) + Nat.b2n (tied a y)
  <= Nat.b2n (match y with Some _ => true | None => false end).
Proof.
  destruct y as [y|]; simpl; [|lia].
  destruct (ltb a y); simpl; [lia|]. destruct (ltb y a); simpl; lia.
Qed.

Lemma tied_congr (a b : V) (y : option V) :
  ltb a b = false -> ltb b a = false ->
  above a y = above b y /\ tied a y = tied b y.
Proof.
  intros Hab Hba. destruct y as [y|]; simpl; [|now split].
  assert (H1 : ltb a y = ltb b y).
  { destruct (ltb a y) eqn:Hay, (ltb b y) eqn:Hby; try reflexivity.
    - rewrite (ltb_negtrans _ _ _ Hab Hby) in Hay. discriminate.
    - rewrite (ltb_negtrans _ _ _ Hba Hay) in Hby. discriminate. }
  assert (H2 : ltb y a = ltb y b).
  { destruct (ltb y a) eqn:Hya, (ltb y b) eqn:Hyb; try reflexivity.
    - rewrite (ltb_negtrans _ _ _ Hyb Hba) in Hya. discriminate.
    - rewrite (ltb_negtrans _ _ _ Hya Hab) in Hyb. discriminate. }
  now rewrite H1, H2.
Qed.

Lemma count_above_app (v : V) (l1 l2 : list (option V)) :
  count_above v (l1 ++ l2) = count_above v l1 + count_above v l2.
Proof.
  unfold count_above, Rank.count_above. now rewrite filter_app, length_app.
Qed.

Lemma count_tied_app (v : V) (l1 l2 : list (option V)) :
  count_tied v (l1 ++ l2) = count_tied v l1 + count_tied v l2.
Proof.
  unfold count_tied, Rank.count_tied. now rewrite filter_app, length_app.
Qed.

Lemma count_tied_self (v : V) (l : list (option V)) :
  count_tied v (Some v :: l) = S (count_tied v l).
Proof.
  unfold count_tied, Rank.count_tied. simpl.
  fold (Rank.tied ltb v (Some v)). fold tied. now rewrite tied_self.
Qed.

(** A greater value has a strictly smaller rank, wherever the two stand. *)
Lemma rank_at_lt (xs l1 l2 m1 : list (option V)) (a b : V) :
  xs = l1 ++ Some a :: l2 ->
  ltb b a = true ->
  rank_at xs l1 a < rank_at xs m1 b.
Proof.
  intros Hxs Hba. unfold rank_at, Rank.rank_at.
  fold count_above count_tied.
  assert (H1 : count_above a xs + count_tied a xs <= count_above b xs).
  { apply filter_length_sum. intros y _. now apply above_tied_le. }
  assert (H2 : count_tied a l1 < count_tied a xs).
  { rewrite Hxs, count_tied_app, count_tied_self. lia. }
  lia.
Qed.

(** Of two tied values the first has the smaller rank. *)
Lemma rank_at_tie (xs l1 l2 l3 : list (option V)) (a b : V) :
  xs = l1 ++ Some a :: l2 ++ Some b :: l3 ->
  ltb a b = false -> ltb b a = false ->
  rank_at xs l1 a < rank_at xs (l1 ++ Some a :: l2) b.
Proof.
  intros Hxs Hab Hba. unfold rank_at, Rank.rank_at.
  fold count_above count_tied.
  assert (H1 : count_above a xs = count_above b xs).
  { apply filter_length_eq. intros y _. now apply tied_congr. }
  assert (H2 : count_tied a l1 = count_tied b l1).
  { apply filter_length_eq. intros y _. now apply tied_congr. }
  assert (H3 : count_tied b (Some a :: l2) >= 1).
  { unfold count_tied, Rank.count_tied. simpl. rewrite Hab, Hba. simpl. lia. }
  rewrite count_tied_app. lia.
Qed.

Lemma rank_at_distinct (xs l1 l2 l3 : list (option V)) (a b : V) :
  xs = l1 ++ Some a :: l2 ++ Some b :: l3 ->
  rank_at xs l1 a <> rank_at xs (l1 ++ Some a :: l2) b.
Proof.
  intros Hxs. destruct (ltb a b) eqn:Hab.
  - assert (H := rank_at_lt xs (l1 ++ Some a :: l2) l3 l1 b a).
    rewrite <- app_assoc in H. simpl in H. specialize (H Hxs Hab). lia.
  - destruct (ltb b a) eqn:Hba.
    + assert (H := rank_at_lt xs l1 (l2 ++ Some b :: l3) (l1 ++ Some a :: l2) a b Hxs Hba).
      lia.
    + assert (H := rank_at_tie xs l1 l2 l3 a b Hxs Hab Hba). lia.
Qed.

(** A rank lies between 1 and the number of present values. *)
Lemma rank_at_bounds (xs l1 l2 : list (option V)) (a : V) :
  xs = l1 ++ Some a :: l2 ->
  1 <= rank_at xs l1 a <= List.length (somes xs).
Proof.
  intros Hxs. unfold rank_at, Rank.rank_at. fold count_above count_tied.
  assert (H1 : count_above a xs + count_tied a xs
               <= List.length (filter (fun y : option V =>
                                         match y with Some _ => true | None => false end)
                                 xs)).
  { apply filter_length_sum. intros y _. apply above_tied_disjoint. }
  assert (H2 : count_tied a l1 < count_tied a xs).
  { rewrite Hxs, count_tied_app, count_tied_self. lia. }
  assert (H3 : List.length (filter (fun y : option V =>
                                      match y with Some _ => true | None => false end) xs)
               = List.length (somes xs)).
  { clear. induction xs as [|[v|] t IH]; simpl; [reflexivity | now rewrite IH | assumption]. }
  lia.
Qed.

(** Where each rank of [rank_from] comes from. *)
Lemma rank_from_In (xs pre post : list (option V)) (r : nat) :
  In r (somes (rank_from xs pre post)) ->
  exists p1 v p2, post = p1 ++ Some v :: p2 /\ r = rank_at xs (pre ++ p1) v.
Proof.
  revert pre. induction post as [|[v|] t IH]; intros pre; simpl; [tauto| |].
  - intros [<-|Hin].
    + exists [], v, t. rewrite app_nil_r. now split.
    + destruct (IH _ Hin) as (p1 & w & p2 & -> & ->).
      exists (Some v :: p1), w, p2. rewrite <- app_assoc. now split.
  - intros Hin. destruct (IH _ Hin) as (p1 & w & p2 & -> & ->).
    exists (None :: p1), w, p2. rewrite <- app_assoc. now split.
Qed.

Lemma rank_from_NoDup (xs pre post : list (option V)) :
  xs = pre ++ post -> NoDup (somes (rank_from xs pre post)).
Proof.
  revert pre. induction post as [|[v|] t IH]; intros pre Hxs; simpl.
  - constructor.
  - constructor.
    + intros Hin. apply rank_from_In in Hin.
      destruct Hin as (p1 & w & p2 & -> & Heq).
      rewrite <- app_assoc in Heq. simpl in Heq.
      now apply (rank_at_distinct xs pre p1 p2 v w) in Heq.
    + apply IH. now rewrite <- app_assoc.
  - apply IH. now rewrite <- app_assoc.
Qed.

Lemma rank_from_bounds (xs pre post : list (option V)) (r : nat) :
  xs = pre ++ post ->
  In r (somes (rank_from xs pre post)) -> 1 <= r <= List.length (somes xs).
Proof.
  intros Hxs Hin. apply rank_from_In in Hin.
  destruct Hin as (p1 & v & p2 & -> & ->).
  apply (rank_at_bounds xs (pre ++ p1) p2). now rewrite <- app_assoc.
Qed.

Lemma rank_from_somes_length (xs pre post : list (option V)) :
  List.length (somes (rank_from xs pre post)) = List.length (somes post).
Proof.
  revert pre. induction post as [|[v|] t IH]; intros pre; simpl;
    [reflexivity | now rewrite IH | apply IH].
Qed.

(** The ranks of the present values are exactly 1, ..., k. *)
Theorem rank_first_desc_perm (xs : list (option V)) :
  Permutation (somes (Rank.rank_first_desc ltb xs))
    (seq 1 (List.length (somes xs))).
Proof.
  unfold Rank.rank_first_desc. fold rank_from.
  apply NoDup_Permutation_bis.
  - now apply rank_from_NoDup.
  - rewrite length_seq, rank_from_somes_length. lia.
  - intros r Hr. apply in_seq.
    apply (rank_from_bounds xs [] xs r eq_refl) in Hr. lia.
Qed.

(** The rank at each place. *)
Lemma rank_from_nth (xs pre post : list (option V)) (i : nat) :
  nth_error (rank_from xs pre post) i
  = option_map (option_map (rank_at xs (pre ++ firstn i post))) (nth_error post i).
Proof.
  revert pre i. induction post as [|o t IH]; intros pre i.
  - destruct i; reflexivity.
  - destruct i as [|i].
    + simpl. rewrite app_nil_r. now destruct o.
    + destruct o as [v|]; simpl; rewrite IH, <- app_assoc; reflexivity.
Qed.

End RankFacts.

(** ** The order of the floats *)

Lemma xlt_fin (p q : Q) : xlt (XFin p) (XFin q) = true <-> (p < q)%Q.
Proof.
  simpl. rewrite negb_true_iff. split.
  - intros H. apply Qnot_le_lt. intros Hle. apply Qle_bool_iff in Hle. congruence.
  - intros H. destruct (Qle_bool q p) eqn:Hle; [|reflexivity].
    apply Qle_bool_iff in Hle. exfalso. now apply (Qlt_not_le p q).
Qed.

Lemma xlt_fin_false (p q : Q) : xlt (XFin p) (XFin q) = false <-> (q <= p)%Q.
Proof.
  simpl. rewrite negb_false_iff. apply Qle_bool_iff.
Qed.

Lemma xlt_irrefl (a : xval) : xlt a a = false.
Proof.
  destruct a as [|q|]; try reflexivity. apply xlt_fin_false, Qle_refl.
Qed.

Lemma xlt_trans (a b c : xval) : xlt a b = true -> xlt b c = true -> xlt a c = true.
Proof.
  destruct a as [|p|], b as [|q|], c as [|r|]; try reflexivity; try discriminate.
  rewrite !xlt_fin. apply Qlt_trans.
Qed.

Lemma xlt_negtrans (a b c : xval) :
  xlt a b = false -> xlt b c = false -> xlt a c = false.
Proof.
  destruct a as [|p|], b as [|q|], c as [|r|]; try reflexivity; try discriminate.
  rewrite !xlt_fin_false. intros H1 H2. now apply (Qle_trans _ q).
Qed.

Lemma date_eqb_refl (d : date) : date_eqb d d = true.
Proof. unfold date_eqb. now rewrite !N.eqb_refl. Qed.

Lemma date_eqb_eq (a b : date) : date_eqb a b = true -> a = b.
Proof.
  unfold date_eqb. destruct a, b; simpl. intros H.
  apply andb_true_iff in H. destruct H as [H H3].
  apply andb_true_iff in H. destruct H as [H1 H2].
  apply N.eqb_eq in H1, H2, H3. now subst.
Qed.

(** ** Ranking inside groups *)

Section GroupFacts.

Variable V : Type.
Variable ltb : V -> V -> bool.
Variable K : Type.
Variable keqb : K -> K -> bool.

Hypothesis keqb_refl : forall a, keqb a a = true.
Hypothesis keqb_eq : forall a b, keqb a b = true -> a = b.

Let group := Rank.group (V := V) keqb.

Lemma group_app (d : K) (l1 l2 : list (K * option V)) :
  group d (l1 ++ l2) = group d l1 ++ group d l2.
Proof. unfold group, Rank.group. now rewrite filter_app, map_app. Qed.

Lemma group_one (d d' : K) (o : option V) :
  group d [(d', o)] = if keqb d d' then [o] else [].
Proof. unfold group, Rank.group. simpl. now destruct (keqb d d'). Qed.

(** The ranks given inside the group [d] are the ranks of the column of
    that group. *)
Lemma group_rank_from_filter (d : K) (all pre post : list (K * option V)) :
  map snd (filter (fun rr : (K * option V) * option nat => keqb d (fst (fst rr)))
             (combine post (Rank.group_rank_from ltb keqb all pre post)))
  = Rank.rank_from ltb (group d all) (group d pre) (group d post).
Proof.
  revert pre. induction post as [|[d' o] t IH]; intros pre; [reflexivity|].
  assert (Hstep : map snd
                    (filter (fun rr : (K * option V) * option nat => keqb d (fst (fst rr)))
                       (combine t (Rank.group_rank_from ltb keqb all (pre ++ [(d', o)]) t)))
                  = Rank.rank_from ltb (group d all)
                      (group d pre ++ (if keqb d d' then [o] else [])) (group d t)).
  { rewrite IH, group_app, group_one. reflexivity. }
  change ((d', o) :: t) with ([(d', o)] ++ t). rewrite (group_app d [(d', o)] t), group_one.
  destruct o as [v|]; simpl; destruct (keqb d d') eqn:Hd; simpl; rewrite Hstep;
    try reflexivity; try (now rewrite app_nil_r).
  apply keqb_eq in Hd. now subst.
Qed.

(** The rank at each place. *)
Lemma group_rank_from_nth (all pre post : list (K * option V)) (i : nat) :
  nth_error (Rank.group_rank_from ltb keqb all pre post) i
  = option_map
      (fun r : K * option V =>
         option_map (Rank.rank_at ltb (group (fst r) all)
                       (group (fst r) (pre ++ firstn i post)))
           (snd r))
      (nth_error post i).
Proof.
  revert pre i. induction post as [|[d o] t IH]; intros pre i.
  - destruct i; reflexivity.
  - destruct i as [|i].
    + simpl. rewrite app_nil_r. now destruct o.
    + destruct o as [v|]; simpl; rewrite IH, <- app_assoc; reflexivity.
Qed.

End GroupFacts.

(** ** The ranks of the long table *)

Lemma nth_error_cut {A : Type} (l : list A) (i : nat) (x : A) :
  nth_error l i = Some x -> l = firstn i l ++ x :: skipn (S i) l.
Proof.
  revert i. induction l as [|h t IH]; intros [|i] H; simpl in *; try discriminate.
  - now injection H as ->.
  - f_equal. now apply IH.
Qed.

Lemma key_nan (x : pyfloat) : isnan x = true -> key x = None.
Proof. destruct x as [|[|]|]; simpl; intros H; try discriminate; reflexivity. Qed.

Lemma group_ranks_by_date (rows : list long_row) :
  ranked_by_date rows (long_ranks rows).
Proof.
  unfold ranked_by_date, long_ranks. fold (dated rows).
  set (all := dated rows).
  assert (Hnth : forall i r, nth_error rows i = Some r ->
                   nth_error all i = Some (l_date r, key (l_pct r))).
  { intros i r H. unfold all, dated.
    exact (map_nth_error (fun r0 => (l_date r0, key (l_pct r0))) i rows H). }
  split; [|split].
  - intros d. unfold Rank.group_rank.
    rewrite (group_rank_from_filter _ xlt _ date_eqb date_eqb_eq d all [] all).
    unfold present_on. fold all.
    apply (rank_first_desc_perm _ xlt xlt_irrefl xlt_trans xlt_negtrans).
  - intros i j ri rj Hi Hj Hd Hgt.
    unfold fgt in Hgt.
    destruct (key (l_pct ri)) as [a|] eqn:Ha; [|discriminate].
    destruct (key (l_pct rj)) as [b|] eqn:Hb; [|discriminate].
    apply Hnth in Hi, Hj. rewrite Ha in Hi. rewrite Hb, <- Hd in Hj.
    unfold Rank.group_rank.
    rewrite !group_rank_from_nth, Hi, Hj. simpl.
    eexists. eexists. split; [reflexivity|]. split; [reflexivity|].
    apply (rank_at_lt _ xlt xlt_irrefl xlt_trans xlt_negtrans _ _
             (Rank.group date_eqb (l_date ri) (skipn (S i) all))); [|assumption].
    rewrite (nth_error_cut _ _ _ Hi) at 1.
    unfold Rank.group. rewrite filter_app, map_app. simpl.
    now rewrite date_eqb_refl.
  - intros i r Hi Hn. apply Hnth in Hi. rewrite (key_nan _ Hn) in Hi.
    unfold Rank.group_rank. now rewrite group_rank_from_nth, Hi.
Qed.

(** ** [parse_triplet] *)

Section ParseFacts.

Import bk_top_range.

Variable float_of_str : string -> option pyfloat.
Variable div100 : pyfloat -> pyfloat.

Let parse_body := bk_top_range.parse_body float_of_str div100.
Let parse_triplet := bk_top_range.parse_triplet float_of_str div100.

Lemma parse_triplet_returns (cell : option string) :
  exists t, parse_triplet cell = Ok t.
Proof.
  destruct cell as [s|]; simpl; [|now exists nan3].
  unfold parse_triplet, bk_top_range.parse_triplet.
  destruct (bk_top_range.parse_body float_of_str div100 s) as [t|e]; eauto.
Qed.

Lemma parse_triplet_raise (s : string) (e : pyerr) :
  parse_body s = Raise e -> parse_triplet (Some s) = Ok nan3.
Proof.
  unfold parse_triplet, bk_top_range.parse_triplet, parse_body. now intros ->.
Qed.

Lemma split_nonempty (c : ascii) (s : string) : PyStr.split c s <> [].
Proof.
  induction s as [|a t IH]; simpl; [discriminate|].
  destruct (Ascii.eqb a c); [discriminate|].
  now destruct (PyStr.split c t).
Qed.

(** The rank the body computes is [rank_of], unless [int] overflows. *)
Lemma rank_step (x : pyfloat) :
  (if gt0 x then
     i <- int_of_float x ;;
     if near x i then j <- int_of_float x ;; Ok (RankInt j) else Ok RankNaN
   else Ok RankNaN)
  = match x with
    | FInf false => Raise OverflowError
    | _ => Ok (TripletSpec.rank_of x)
    end.
Proof.
  unfold TripletSpec.rank_of.
  destruct x as [|[|]|neg m e]; simpl; try reflexivity.
  destruct (negb neg && negb (m =? 0)%N); simpl; [|reflexivity].
  now destruct (negb (Qle_bool eps _)).
Qed.

Lemma parse_body_fields (s p0 p1 p2 : string) (rest : list string) :
  PyStr.split "|" s = p0 :: p1 :: p2 :: rest ->
  parse_body s
  = match float_of_str p0 with
    | None => Raise ValueError
    | Some x0 =>
        match x0 with
        | FInf false => Raise OverflowError
        | _ =>
            match float_of_str p1 with
            | None => Raise ValueError
            | Some x1 =>
                match float_of_str p2 with
                | None => Raise ValueError
                | Some x2 => Ok (TripletSpec.rank_of x0, div100 x1, x2)
                end
            end
        end
    end.
Proof.
  intros Hs. unfold parse_body, bk_top_range.parse_body. rewrite Hs.
  unfold item, to_float. simpl nth_error. cbn [bind].
  destruct (float_of_str p0) as [x0|]; [|reflexivity]. cbn [bind].
  rewrite rank_step.
  destruct x0 as [|[|]|neg m e]; cbn [bind];
    (destruct (float_of_str p1) as [x1|]; [|reflexivity]); cbn [bind];
    (destruct (float_of_str p2) as [x2|]; reflexivity).
Qed.

Lemma parse_malformed (s : string) :
  TripletSpec.malformed float_of_str s -> parse_triplet (Some s) = Ok nan3.
Proof.
  unfold TripletSpec.malformed. intros H.
  destruct (PyStr.split "|" s) as [|p0 [|p1 [|p2 rest]]] eqn:Hs.
  - now apply split_nonempty in Hs.
  - (* one field *)
    unfold parse_triplet, bk_top_range.parse_triplet, bk_top_range.parse_body.
    rewrite Hs. unfold item, to_float. simpl nth_error. cbn [bind].
    destruct (float_of_str p0) as [x0|]; [|reflexivity]. cbn [bind].
    rewrite rank_step. now destruct x0 as [|[|]|].
  - (* two fields *)
    unfold parse_triplet, bk_top_range.parse_triplet, bk_top_range.parse_body.
    rewrite Hs. unfold item, to_float. simpl nth_error. cbn [bind].
    destruct (float_of_str p0) as [x0|]; [|reflexivity]. cbn [bind].
    rewrite rank_step.
    destruct x0 as [|[|]|]; cbn [bind]; try reflexivity;
      (destruct (float_of_str p1) as [x1|]; reflexivity).
  - (* three fields or more: one of them is no number *)
    destruct H as [H|(i & p & Hi & Hp & Hf)]; [simpl in H; lia|].
    apply (parse_triplet_raise s
             (match float_of_str p0 with
              | None => ValueError
              | Some (FInf false) => OverflowError
              | Some _ => ValueError
              end)).
    rewrite (parse_body_fields s p0 p1 p2 rest Hs).
    destruct i as [|[|[|i]]]; simpl in Hp; [| | |lia]; injection Hp as ->.
    + now rewrite Hf.
    + rewrite Hf. now destruct (float_of_str p0) as [[|[|]|]|].
    + rewrite Hf.
      destruct (float_of_str p0) as [[|[|]|]|]; try reflexivity;
        now destruct (float_of_str p1).
Qed.

Lemma parse_valid (s p0 p1 p2 : string) (rest : list string) (x0 x1 x2 : pyfloat) :
  PyStr.split "|" s = p0 :: p1 :: p2 :: rest ->
  float_of_str p0 = Some x0 -> float_of_str p1 = Some x1 ->
  float_of_str p2 = Some x2 ->
  x0 <> FInf false ->
  parse_triplet (Some s) = Ok (TripletSpec.rank_of x0, div100 x1, x2).
Proof.
  intros Hs H0 H1 H2 Hinf.
  unfold parse_triplet, bk_top_range.parse_triplet.
  fold parse_body. rewrite (parse_body_fields s p0 p1 p2 rest Hs), H0, H1, H2.
  destruct x0 as [|[|]|]; try reflexivity. congruence.
Qed.

Lemma parse_overflow (s p0 : string) (rest : list string) :
  PyStr.split "|" s = p0 :: rest ->
  float_of_str p0 = Some (FInf false) ->
  parse_triplet (Some s) = Ok nan3.
Proof.
  intros Hs H0. apply (parse_triplet_raise s OverflowError).
  unfold parse_body, bk_top_range.parse_body. rewrite Hs.
  unfold item, to_float. simpl nth_error. cbn [bind]. now rewrite H0.
Qed.

End ParseFacts.

(** A positive float that is an integer is read as that integer. *)
Lemma trunc_int (neg : bool) (m : N) (e : Z) (i : Z) :
  (to_Q neg m e == inject_Z i)%Q ->
  bk_top_range.int_of_float (FFin neg m e) = Ok i.
Proof.
  intros Hint. unfold bk_top_range.int_of_float. f_equal.
  unfold to_Q in Hint. destruct (0 <=? e)%Z eqn:He.
  - apply (proj1 (inject_Z_injective _ _)) in Hint.
    destruct neg; rewrite <- Hint; ring.
  - apply Z.leb_gt in He. unfold Qeq in Hint. simpl in Hint.
    assert (Hp : (0 < 2 ^ (- e))%Z) by (apply Z.pow_pos_nonneg; lia).
    rewrite Z2Pos.id in Hint by assumption.
    destruct neg.
    + assert (Hm : (Z.of_N m = (- i) * 2 ^ (- e))%Z) by lia.
      rewrite Hm, Z.div_mul by lia. lia.
    + assert (Hm : (Z.of_N m = i * 2 ^ (- e))%Z) by lia.
      rewrite Hm, Z.div_mul by lia. reflexivity.
Qed.

Lemma near_int (neg : bool) (m : N) (e : Z) (i : Z) :
  (to_Q neg m e == inject_Z i)%Q ->
  bk_top_range.near (FFin neg m e) i = true.
Proof.
  intros Hint. unfold bk_top_range.near.
  destruct (Qle_bool _ _) eqn:Hle; [|reflexivity].
  apply Qle_bool_iff in Hle. exfalso.
  assert (Hz : (to_Q neg m e - inject_Z i == 0)%Q).
  { rewrite Hint. unfold Qminus. apply Qplus_opp_r. }
  rewrite Hz in Hle. simpl in Hle. unfold Qle in Hle. simpl in Hle. lia.
Qed.

Lemma rank_of_int (x : pyfloat) (i : Z) :
  bk_top_range.gt0 x = true -> TripletSpec.is_int x i ->
  TripletSpec.rank_of x = bk_top_range.RankInt i.
Proof.
  destruct x as [|[|]|neg m e]; simpl; try tauto.
  intros Hgt Hint. unfold TripletSpec.rank_of.
  rewrite (trunc_int _ _ _ _ Hint), (near_int _ _ _ _ Hint).
  unfold bk_top_range.gt0. now rewrite Hgt.
Qed.

(** ** The requests of a run *)

Section RunFacts.

Import Pipeline RunSpec.

Variable w : world.

Lemma fetch_retry_trace (tries : nat) (tr : list event) (code : string) (b e : Z) :
  exists evs,
    snd (fetch_retry w tries tr code b e) = tr ++ evs
    /\ Forall (eq (EvKline code b e)) evs
    /\ (tries <> 0 -> In (EvKline code b e) evs).
Proof.
  revert tr. induction tries as [|t IH]; intros tr; simpl.
  - exists []. rewrite app_nil_r. split; [reflexivity|]. split; [constructor | congruence].
  - destruct (fetch_range w (List.length tr) code b e) as [recs|err]; simpl.
    + exists [EvKline code b e]. split; [reflexivity|].
      split; [repeat constructor | intros _; now left].
    + destruct (IH (tr ++ [EvKline code b e])) as (evs & Heq & Hall & _).
      exists (EvKline code b e :: evs). rewrite Heq, <- app_assoc.
      split; [reflexivity|]. split; [now constructor | intros _; now left].
Qed.

Lemma forallb_same (f : event -> bool) (x : event) (evs : list event) :
  f x = true -> Forall (eq x) evs -> forallb f evs = true.
Proof.
  intros Hx Hall. apply forallb_forall. intros y Hy.
  rewrite Forall_forall in Hall. now rewrite <- (Hall y Hy).
Qed.

Lemma history_request_kline (n_days : Z) (code : string) :
  history_request w n_days (EvKline code (today w - n_days * 2) (today w)) = true.
Proof. unfold history_request. now rewrite !Z.eqb_refl. Qed.

Lemma today_request_kline (code : string) :
  today_request w (EvKline code (today w) (today w)) = true.
Proof. unfold today_request. now rewrite !Z.eqb_refl. Qed.

Lemma baseline_loop_cons (n_days : Z) (code name : string)
    (rest : list (string * string)) (tr : list event) (acc : list board_hist) :
  baseline_loop w n_days ((code, name) :: rest) tr acc
  = if interrupted w (List.length tr) then (acc, tr)
    else
      let (r, tr') :=
        fetch_retry w RETRY_TIMES tr code (today w - n_days * 2)%Z (today w) in
      match r with
      | Some (rec :: recs) =>
          baseline_loop w n_days rest tr' (acc ++ [mkHist code name (rec :: recs)])
      | _ => baseline_loop w n_days rest tr' acc
      end.
Proof. reflexivity. Qed.

Lemma pass1_cons (code name : string) (rest : list (string * string))
    (tr : list event) (rows_today : list (string * board_row))
    (fails : list (string * string)) :
  pass1 w ((code, name) :: rest) tr rows_today fails
  = if interrupted w (List.length tr) then (rows_today, fails, tr)
    else
      let (r, tr') := fetch_retry w RETRY_TIMES tr code (today w) (today w) in
      match r with
      | Some (rec :: _) =>
          pass1 w rest tr' (dict_set rows_today code (his_row code name (Some rec)))
            fails
      | _ =>
          pass1 w rest tr' (dict_set rows_today code (his_row code name None))
            (fails ++ [(code, name)])
      end.
Proof. reflexivity. Qed.

Lemma pass2_cons (code name : string) (rest : list (string * string))
    (tr : list event) (rows_today : list (string * board_row)) :
  pass2 w ((code, name) :: rest) tr rows_today
  = if interrupted w (List.length tr) then (rows_today, tr)
    else
      let (r, tr') := fetch_retry w (S RETRY_TIMES) tr code (today w) (today w) in
      match r with
      | Some (rec :: _) =>
          pass2 w rest tr' (dict_set rows_today code (his_row code name (Some rec)))
      | _ => pass2 w rest tr' rows_today
      end.
Proof. reflexivity. Qed.

Lemma baseline_loop_trace (n_days : Z) (boards : list (string * string))
    (tr : list event) (acc : list board_hist) :
  exists evs,
    snd (baseline_loop w n_days boards tr acc) = tr ++ evs
    /\ forallb (history_request w n_days) evs = true
    /\ ((forall n, interrupted w n = false) ->
        forall code name, In (code, name) boards ->
          In (EvKline code (today w - n_days * 2) (today w)) evs).
Proof.
  revert tr acc. induction boards as [|[code name] rest IH]; intros tr acc.
  - exists []. simpl. rewrite app_nil_r. split; [reflexivity|]. split; [reflexivity|].
    intros _ c n [].
  - rewrite baseline_loop_cons.
    destruct (interrupted w (List.length tr)) eqn:Hint.
    + exists []. simpl. rewrite app_nil_r. split; [reflexivity|]. split; [reflexivity|].
      intros Hno. now rewrite Hno in Hint.
    + destruct (fetch_retry_trace RETRY_TIMES tr code (today w - n_days * 2) (today w))
        as (evs1 & Heq1 & Hall1 & Hin1).
      destruct (fetch_retry w RETRY_TIMES tr code (today w - n_days * 2) (today w))
        as [r tr'] eqn:Hfr. simpl in Heq1. subst tr'.
      assert (Hrest : forall acc', exists evs,
                 snd (baseline_loop w n_days rest (tr ++ evs1) acc') = tr ++ evs
                 /\ forallb (history_request w n_days) evs = true
                 /\ ((forall n, interrupted w n = false) ->
                     forall c n, In (c, n) ((code, name) :: rest) ->
                       In (EvKline c (today w - n_days * 2) (today w)) evs)).
      { intros acc'. destruct (IH (tr ++ evs1) acc') as (evs2 & Heq2 & Hall2 & Hin2).
        exists (evs1 ++ evs2). rewrite Heq2, app_assoc. split; [reflexivity|].
        split.
        - rewrite forallb_app, Hall2, andb_true_r.
          apply (forallb_same _ _ _ (history_request_kline n_days code) Hall1).
        - intros Hno c n [Hc|Hc]; apply in_or_app.
          + injection Hc as <- <-. left. apply Hin1. discriminate.
          + right. now apply (Hin2 Hno c n). }
      destruct r as [[|rec recs]|]; apply Hrest.
Qed.

Lemma pass1_trace (boards : list (string * string)) (tr : list event)
    (rows_today : list (string * board_row)) (fails : list (string * string)) :
  exists evs,
    snd (pass1 w boards tr rows_today fails) = tr ++ evs
    /\ forallb (today_request w) evs = true.
Proof.
  revert tr rows_today fails.
  induction boards as [|[code name] rest IH]; intros tr rows_today fails.
  - exists []. simpl. now rewrite app_nil_r.
  - rewrite pass1_cons. destruct (interrupted w (List.length tr)).
    + exists []. simpl. now rewrite app_nil_r.
    + destruct (fetch_retry_trace RETRY_TIMES tr code (today w) (today w))
        as (evs1 & Heq1 & Hall1 & _).
      destruct (fetch_retry w RETRY_TIMES tr code (today w) (today w))
        as [r tr'] eqn:Hfr. simpl in Heq1. subst tr'.
      assert (Hrest : forall rt fl, exists evs,
                 snd (pass1 w rest (tr ++ evs1) rt fl) = tr ++ evs
                 /\ forallb (today_request w) evs = true).
      { intros rt fl. destruct (IH (tr ++ evs1) rt fl) as (evs2 & Heq2 & Hall2).
        exists (evs1 ++ evs2). rewrite Heq2, app_assoc. split; [reflexivity|].
        rewrite forallb_app, Hall2, andb_true_r.
        apply (forallb_same _ _ _ (today_request_kline code) Hall1). }
      destruct r as [[|rec recs]|]; apply Hrest.
Qed.

Lemma pass2_trace (fails : list (string * string)) (tr : list event)
    (rows_today : list (string * board_row)) :
  exists evs,
    snd (pass2 w fails tr rows_today) = tr ++ evs
    /\ forallb (today_request w) evs = true.
Proof.
  revert tr rows_today.
  induction fails as [|[code name] rest IH]; intros tr rows_today.
  - exists []. simpl. now rewrite app_nil_r.
  - rewrite pass2_cons. destruct (interrupted w (List.length tr)).
    + exists []. simpl. now rewrite app_nil_r.
    + destruct (fetch_retry_trace (S RETRY_TIMES) tr code (today w) (today w))
        as (evs1 & Heq1 & Hall1 & _).
      destruct (fetch_retry w (S RETRY_TIMES) tr code (today w) (today w))
        as [r tr'] eqn:Hfr. simpl in Heq1. subst tr'.
      assert (Hrest : forall rt, exists evs,
                 snd (pass2 w rest (tr ++ evs1) rt) = tr ++ evs
                 /\ forallb (today_request w) evs = true).
      { intros rt. destruct (IH (tr ++ evs1) rt) as (evs2 & Heq2 & Hall2).
        exists (evs1 ++ evs2). rewrite Heq2, app_assoc. split; [reflexivity|].
        rewrite forallb_app, Hall2, andb_true_r.
        apply (forallb_same _ _ _ (today_request_kline code) Hall1). }
      destruct r as [[|rec recs]|]; apply Hrest.
Qed.

End RunFacts.
(** ** What a run fetched *)

Lemma dict_set_new (d : list (string * board_row)) (code : string) (row : board_row) :
  ~ In code (map fst d) -> Pipeline.dict_set d code row = d ++ [(code, row)].
Proof.
  induction d as [|[c r] t IH]; simpl; intros Hn; [reflexivity|].
  destruct (String.eqb_spec c code) as [->|Hne]; [tauto|].
  rewrite IH by tauto. reflexivity.
Qed.

Lemma dict_set_old (f : string * string -> board_row) (done : list (string * string))
    (code : string) (row : board_row) :
  NoDup (map fst done) -> In code (map fst done) ->
  Pipeline.dict_set (map (fun b => (fst b, f b)) done) code row
  = map (fun b => (fst b, if fst b =? code then row else f b)) done.
Proof.
  induction done as [|b t IH]; simpl; intros Hnd Hin; [destruct Hin|].
  inversion Hnd as [|? ? Hn Ht]; subst.
  destruct (String.eqb_spec (fst b) code) as [Heq|Hne].
  - f_equal. apply map_ext_in. intros b' Hb'.
    destruct (String.eqb_spec (fst b') code) as [Heq'|]; [|reflexivity].
    exfalso. apply Hn. rewrite Heq, <- Heq'. now apply in_map.
  - f_equal. apply IH; [assumption|]. destruct Hin; [contradiction | assumption].
Qed.

Lemma nodup_mid (done rest : list (string * string)) (code name : string) :
  NoDup (map fst (done ++ (code, name) :: rest)) ->
  (forall b, In b done -> fst b <> code) /\ (forall b, In b rest -> fst b <> code).
Proof.
  rewrite map_app. simpl. intros H. apply NoDup_remove_2 in H.
  split; intros b Hb Heq; apply H, in_or_app; [left | right];
    rewrite <- Heq; now apply in_map.
Qed.

Lemma nodup_apart (done rest : list (string * string)) (code name : string) :
  NoDup (map fst (done ++ rest)) -> In (code, name) done ->
  forall b, In b rest -> fst b <> code.
Proof.
  rewrite map_app. intros H Hin b Hb Heq.
  apply (in_map fst) in Hin, Hb. simpl in Hin. rewrite Heq in Hb.
  revert H Hin Hb. generalize (map fst done) (map fst rest). clear.
  intros l1 l2 H H1 H2. induction l1 as [|c t IH]; [destruct H1|].
  simpl in H. apply NoDup_cons_iff in H. destruct H as [Hn Ht].
  destruct H1 as [->|H1]; [|now apply IH].
  apply Hn, in_or_app. now right.
Qed.

Lemma nodup_fst_inj (l : list (string * string)) (c n1 n2 : string) :
  NoDup (map fst l) -> In (c, n1) l -> In (c, n2) l -> n1 = n2.
Proof.
  induction l as [|b t IH]; simpl; intros Hnd H1 H2; [destruct H1|].
  inversion Hnd as [|? ? Hn Ht]; subst.
  destruct H1 as [->|H1], H2 as [E|H2].
  - now injection E.
  - exfalso. apply Hn. simpl. change c with (fst (c, n2)). now apply in_map.
  - subst b. exfalso. apply Hn. simpl. change c with (fst (c, n1)). now apply in_map.
  - now apply IH.
Qed.

Section MergeFacts.

Import Pipeline RunSpec.

Variable w : world.

Lemma fetched_from_app (n : nat) (tr evs : list event) (code : string) :
  fetched_from w n (tr ++ evs) code
  = match fetched_from w n tr code with
    | Some recs => Some recs
    | None => fetched_from w (n + List.length tr) evs code
    end.
Proof.
  revert n. induction tr as [|ev t IH]; intros n; simpl.
  - now rewrite Nat.add_0_r.
  - rewrite <- Nat.add_succ_comm.
    destruct ev as [s| | |c b e]; try apply IH.
    destruct (c =? code); [|apply IH].
    destruct (fetch_range w n c b e) as [[|rec recs]|err]; try apply IH. reflexivity.
Qed.

Lemma asked_app (tr evs : list event) (code : string) :
  asked (tr ++ evs) code = asked tr code || asked evs code.
Proof. apply existsb_app. Qed.

Lemma fetched_from_not_asked (n : nat) (evs : list event) (code : string) :
  asked evs code = false -> fetched_from w n evs code = None.
Proof.
  revert n. induction evs as [|ev t IH]; intros n; simpl; [reflexivity|].
  intros H. apply orb_false_iff in H. destruct H as [H1 H2].
  destruct ev as [s| | |c b e]; try now apply IH.
  rewrite H1. now apply IH.
Qed.

Lemma fetched_app (tr evs : list event) (code : string) :
  fetched w (tr ++ evs) code
  = match fetched w tr code with
    | Some recs => Some recs
    | None => fetched_from w (List.length tr) evs code
    end.
Proof. unfold fetched. now rewrite fetched_from_app. Qed.

Lemma fetched_stable (tr evs : list event) (code : string) :
  asked evs code = false -> fetched w (tr ++ evs) code = fetched w tr code.
Proof.
  intros H. rewrite fetched_app, fetched_from_not_asked by assumption.
  now destruct (fetched w tr code).
Qed.

Lemma fetched_new (tr evs : list event) (code : string) :
  asked tr code = false ->
  fetched w (tr ++ evs) code = fetched_from w (List.length tr) evs code.
Proof.
  intros H. rewrite fetched_app. unfold fetched.
  now rewrite fetched_from_not_asked by assumption.
Qed.

Lemma quote_stable (tr evs : list event) (code : string) :
  asked evs code = false -> quote w (tr ++ evs) code = quote w tr code.
Proof. intros H. unfold quote. now rewrite fetched_stable. Qed.

Lemma asked_same (c : string) (b e : Z) (evs : list event) (code : string) :
  Forall (eq (EvKline c b e)) evs -> c <> code -> asked evs code = false.
Proof.
  intros Hall Hne. induction Hall as [|ev t Hev Ht IH]; [reflexivity|].
  subst ev. simpl. rewrite IH. now destruct (String.eqb_spec c code).
Qed.

Lemma asked_In (c : string) (b e : Z) (evs : list event) :
  In (EvKline c b e) evs -> asked evs c = true.
Proof.
  intros H. apply existsb_exists. exists (EvKline c b e).
  split; [assumption | apply String.eqb_refl].
Qed.

Lemma asked_today (s : stage) (evs : list event) (code : string) :
  asked (EvStage s :: EvBoardList :: evs) code = true ->
  forallb (RunSpec.today_request w) evs = true ->
  In (EvKline code (today w) (today w)) evs.
Proof.
  intros Ha Hall. simpl in Ha. apply existsb_exists in Ha.
  destruct Ha as [ev [Hin Hev]]. rewrite forallb_forall in Hall.
  specialize (Hall ev Hin). destruct ev as [s0| | |c b e]; try discriminate.
  apply String.eqb_eq in Hev. subst c. simpl in Hall.
  apply andb_true_iff in Hall. destruct Hall as [Hb He].
  apply Z.eqb_eq in Hb, He. now subst.
Qed.

Lemma fetch_retry_fetched (tries : nat) (tr : list event) (code : string) (b e : Z) :
  exists evs,
    snd (fetch_retry w tries tr code b e) = tr ++ evs
    /\ Forall (eq (EvKline code b e)) evs
    /\ (tries <> 0 -> In (EvKline code b e) evs)
    /\ fetched_from w (List.length tr) evs code
       = match fst (fetch_retry w tries tr code b e) with
         | Some (rec :: recs) => Some (rec :: recs)
         | _ => None
         end.
Proof.
  revert tr. induction tries as [|t IH]; intros tr; simpl.
  - exists []. rewrite app_nil_r. repeat split; [constructor | congruence].
  - destruct (fetch_range w (List.length tr) code b e) as [recs|err] eqn:Hf; simpl.
    + exists [EvKline code b e]. split; [reflexivity|].
      split; [repeat constructor|]. split; [intros _; now left|].
      simpl. rewrite String.eqb_refl, Hf. now destruct recs.
    + destruct (IH (tr ++ [EvKline code b e])) as (evs & Heq & Hall & _ & Hfe).
      exists (EvKline code b e :: evs). rewrite Heq, <- app_assoc.
      split; [reflexivity|]. split; [now constructor|]. split; [intros _; now left|].
      simpl. rewrite String.eqb_refl, Hf.
      rewrite length_app, Nat.add_1_r in Hfe. exact Hfe.
Qed.

(** *** The histories of the baseline *)

Lemma histories_app (tr : list event) (l1 l2 : list (string * string)) :
  histories w tr (l1 ++ l2) = histories w tr l1 ++ histories w tr l2.
Proof. apply flat_map_app. Qed.

Lemma histories_not_asked (tr : list event) (l : list (string * string)) :
  (forall b, In b l -> asked tr (fst b) = false) -> histories w tr l = [].
Proof.
  induction l as [|b t IH]; simpl; intros H; [reflexivity|].
  unfold fetched. rewrite fetched_from_not_asked by (apply H; now left).
  apply IH. intros b' Hb'. apply H. now right.
Qed.

Lemma histories_stable (tr evs : list event) (l : list (string * string)) :
  (forall b, In b l -> asked evs (fst b) = false) ->
  histories w (tr ++ evs) l = histories w tr l.
Proof.
  induction l as [|b t IH]; simpl; intros H; [reflexivity|].
  rewrite fetched_stable by (apply H; now left). f_equal.
  apply IH. intros b' Hb'. apply H. now right.
Qed.

Lemma baseline_loop_histories (n_days : Z) (rest : list (string * string)) :
  forall (done : list (string * string)) (tr : list event) (acc : list board_hist),
    NoDup (map fst (done ++ rest)) ->
    (forall b, In b rest -> asked tr (fst b) = false) ->
    acc = histories w tr done ->
    fst (baseline_loop w n_days rest tr acc)
    = histories w (snd (baseline_loop w n_days rest tr acc)) (done ++ rest).
Proof.
  induction rest as [|[code name] rest IH]; intros done tr acc Hnd Hrest Hacc.
  - simpl. now rewrite app_nil_r.
  - rewrite baseline_loop_cons. destruct (interrupted w (List.length tr)).
    + simpl. rewrite histories_app, (histories_not_asked tr (_ :: rest)) by assumption.
      now rewrite app_nil_r.
    + destruct (fetch_retry_fetched RETRY_TIMES tr code (today w - n_days * 2) (today w))
        as (evs & Heq & Hall & _ & Hfe).
      destruct (fetch_retry w RETRY_TIMES tr code (today w - n_days * 2) (today w))
        as [r tr'] eqn:Hfr. simpl in Heq, Hfe. subst tr'.
      destruct (nodup_mid _ _ _ _ Hnd) as [Hd Hr].
      assert (Hnd' : NoDup (map fst ((done ++ [(code, name)]) ++ rest)))
        by (rewrite <- app_assoc; exact Hnd).
      assert (Hrest' : forall b, In b rest -> asked (tr ++ evs) (fst b) = false).
      { intros b Hb. rewrite asked_app, (Hrest b) by now right. simpl.
        eapply asked_same; [exact Hall|]. intros E. apply (Hr b Hb). now symmetry. }
      assert (Hdone : histories w (tr ++ evs) done = histories w tr done).
      { apply histories_stable. intros b Hb. eapply asked_same; [exact Hall|].
        intros E. apply (Hd b Hb). now symmetry. }
      assert (Hnew : fetched w (tr ++ evs) code
                     = match r with
                       | Some (rec :: recs) => Some (rec :: recs)
                       | _ => None
                       end).
      { rewrite fetched_new by (apply (Hrest (code, name)); now left). exact Hfe. }
      replace (done ++ (code, name) :: rest) with ((done ++ [(code, name)]) ++ rest)
        by (now rewrite <- app_assoc).
      destruct r as [[|rec recs]|]; apply IH; try assumption;
        rewrite histories_app, Hdone; simpl; rewrite Hnew; simpl;
        rewrite ?app_nil_r; now subst acc.
Qed.

(** *** The snapshot of the per-board mode *)

Lemma his_row_quote (code name : string) (q : option krec) :
  his_row code name q = board_quote code name q.
Proof. destruct q as [[[d p] c]|]; reflexivity. Qed.

Lemma his_state_step (code name : string) (done rest : list (string * string))
    (tr evs : list event) (rows_today : list (string * board_row)) (b e : Z)
    (r : option (list krec)) :
  his_state w done ((code, name) :: rest) tr rows_today ->
  Forall (eq (EvKline code b e)) evs -> In (EvKline code b e) evs ->
  fetched_from w (List.length tr) evs code
  = match r with
    | Some (rec :: recs) => Some (rec :: recs)
    | _ => None
    end ->
  his_state w (done ++ [(code, name)]) rest (tr ++ evs)
    (dict_set rows_today code
       (his_row code name match r with
                          | Some (rec :: _) => Some rec
                          | _ => None
                          end)).
Proof.
  intros (Hnd & Hrest & Hdone & Hrows) Hall Hin Hfe.
  destruct (nodup_mid _ _ _ _ Hnd) as [Hd Hr].
  assert (Hfresh : asked tr code = false) by (apply (Hrest (code, name)); now left).
  split; [now rewrite <- app_assoc|]. split; [|split].
  - intros b0 Hb0. rewrite asked_app, (Hrest b0) by now right. simpl.
    eapply asked_same; [exact Hall|]. intros E. apply (Hr b0 Hb0). now symmetry.
  - intros b0 Hb0. rewrite asked_app. apply in_app_or in Hb0.
    destruct Hb0 as [Hb0|[<-|[]]].
    + now rewrite (Hdone b0 Hb0).
    + simpl. rewrite (asked_In _ _ _ _ Hin). apply orb_true_r.
  - rewrite dict_set_new.
    + rewrite map_app. simpl. f_equal.
      * rewrite Hrows. apply map_ext_in. intros b0 Hb0. f_equal. f_equal.
        symmetry. apply quote_stable. eapply asked_same; [exact Hall|].
        intros E. apply (Hd b0 Hb0). now symmetry.
      * f_equal. f_equal. rewrite his_row_quote. f_equal.
        unfold quote. rewrite fetched_new, Hfe by assumption.
        now destruct r as [[|rec recs]|].
    + rewrite Hrows, map_map. simpl. intros Hc. apply in_map_iff in Hc.
      destruct Hc as [b0 [E Hb0]]. now apply (Hd b0 Hb0).
Qed.

Lemma his_failed_more (code name : string) (done : list (string * string))
    (tr evs : list event) (fails : list (string * string)) (b e : Z) :
  (forall b0, In b0 done -> fst b0 <> code) ->
  Forall (eq (EvKline code b e)) evs ->
  his_failed w done tr fails ->
  his_failed w (done ++ [(code, name)]) (tr ++ evs) fails.
Proof.
  intros Hd Hall (Hincl & Hnd & Hnone). split; [|split; [assumption|]].
  - intros x Hx. apply in_or_app. left. now apply Hincl.
  - intros b0 Hb0. rewrite fetched_stable; [now apply Hnone|].
    eapply asked_same; [exact Hall|]. intros E. apply (Hd b0 (Hincl _ Hb0)).
    now symmetry.
Qed.

Lemma his_failed_add (code name : string) (done : list (string * string))
    (tr evs : list event) (fails : list (string * string)) (b e : Z) :
  (forall b0, In b0 done -> fst b0 <> code) ->
  Forall (eq (EvKline code b e)) evs ->
  fetched w (tr ++ evs) code = None ->
  his_failed w done tr fails ->
  his_failed w (done ++ [(code, name)]) (tr ++ evs) (fails ++ [(code, name)]).
Proof.
  intros Hd Hall Hnew Hf.
  destruct (his_failed_more code name done tr evs fails b e Hd Hall Hf)
    as (Hincl & Hnd & Hnone).
  destruct Hf as (Hincl0 & _ & _).
  split; [|split].
  - intros x Hx. apply in_app_or in Hx. destruct Hx as [Hx|[<-|[]]]; [now apply Hincl|].
    apply in_or_app. right. now left.
  - rewrite map_app. simpl. apply NoDup_app; [exact Hnd | repeat constructor; intros [] |].
    intros c Hc [<-|[]]. apply in_map_iff in Hc. destruct Hc as [b0 [E Hb0]].
    now apply (Hd b0 (Hincl0 _ Hb0)).
  - intros b0 Hb0. apply in_app_or in Hb0. destruct Hb0 as [Hb0|[<-|[]]];
      [now apply Hnone | exact Hnew].
Qed.

Lemma his_state_start (s : stage) (boards : list (string * string)) :
  NoDup (map fst boards) -> his_state w [] boards [EvStage s; EvBoardList] [].
Proof.
  intros Hnd. split; [exact Hnd|]. split; [reflexivity|].
  split; [intros b [] | reflexivity].
Qed.

Lemma his_failed_start (tr : list event) : his_failed w [] tr [].
Proof. split; [intros x [] |]. split; [constructor | intros b []]. Qed.

Lemma pass1_state (rest : list (string * string)) :
  forall (done : list (string * string)) (tr : list event)
         (rows_today : list (string * board_row)) (fails : list (string * string)),
    his_state w done rest tr rows_today ->
    his_failed w done tr fails ->
    let p := pass1 w rest tr rows_today fails in
    exists done' rest',
      done' ++ rest' = done ++ rest
      /\ his_state w done' rest' (snd p) (fst (fst p))
      /\ his_failed w done' (snd p) (snd (fst p)).
Proof.
  induction rest as [|[code name] rest IH]; intros done tr rows_today fails Hs Hf.
  - exists done, []. simpl. now split.
  - cbv zeta. rewrite pass1_cons. destruct (interrupted w (List.length tr)).
    + exists done, ((code, name) :: rest). simpl. now split.
    + destruct (fetch_retry_fetched RETRY_TIMES tr code (today w) (today w))
        as (evs & Heq & Hall & Hin & Hfe).
      specialize (Hin ltac:(discriminate)).
      destruct (fetch_retry w RETRY_TIMES tr code (today w) (today w))
        as [r tr'] eqn:Hfr. simpl in Heq, Hfe. subst tr'.
      pose proof (his_state_step code name done rest tr evs rows_today _ _ r
                    Hs Hall Hin Hfe) as Hs'.
      destruct Hs as (Hnd & Hrest & _ & _).
      destruct (nodup_mid _ _ _ _ Hnd) as [Hd _].
      assert (Hnew : fetched w (tr ++ evs) code
                     = match r with
                       | Some (rec :: recs) => Some (rec :: recs)
                       | _ => None
                       end).
      { rewrite fetched_new by (apply (Hrest (code, name)); now left). exact Hfe. }
      assert (Hgo : forall fails',
                 his_failed w (done ++ [(code, name)]) (tr ++ evs) fails' ->
                 let p := pass1 w rest (tr ++ evs)
                            (dict_set rows_today code
                               (his_row code name match r with
                                                  | Some (rec :: _) => Some rec
                                                  | _ => None
                                                  end)) fails' in
                 exists done' rest',
                   done' ++ rest' = done ++ (code, name) :: rest
                   /\ his_state w done' rest' (snd p) (fst (fst p))
                   /\ his_failed w done' (snd p) (snd (fst p))).
      { intros fails' Hf'. destruct (IH _ _ _ _ Hs' Hf') as (d' & r' & E & H1 & H2).
        exists d', r'. rewrite E, <- app_assoc. split; [reflexivity|].
        split; assumption. }
      destruct r as [[|rec recs]|].
      * apply Hgo. now apply (his_failed_add code name done tr evs fails _ _ Hd Hall).
      * apply Hgo. now apply (his_failed_more code name done tr evs fails _ _ Hd Hall).
      * apply Hgo. now apply (his_failed_add code name done tr evs fails _ _ Hd Hall).
Qed.

Lemma pass2_state (todo : list (string * string)) :
  forall (done rest : list (string * string)) (tr : list event)
         (rows_today : list (string * board_row)),
    his_state w done rest tr rows_today ->
    his_failed w done tr todo ->
    let p := pass2 w todo tr rows_today in
    his_state w done rest (snd p) (fst p).
Proof.
  induction todo as [|[code name] todo IH]; intros done rest tr rows_today Hs Hf.
  - exact Hs.
  - cbv zeta. rewrite pass2_cons. destruct (interrupted w (List.length tr)); [exact Hs|].
    destruct (fetch_retry_fetched (S RETRY_TIMES) tr code (today w) (today w))
      as (evs & Heq & Hall & Hin & Hfe).
    specialize (Hin ltac:(discriminate)).
    destruct (fetch_retry w (S RETRY_TIMES) tr code (today w) (today w))
      as [r tr'] eqn:Hfr. simpl in Heq, Hfe. subst tr'.
    destruct Hs as (Hnd & Hrest & Hdone & Hrows).
    destruct Hf as (Hincl & Hndf & Hnone).
    assert (Hcode : In (code, name) done) by (apply Hincl; now left).
    assert (Hn0 : fetched w tr code = None) by (apply (Hnone (code, name)); now left).
    assert (Hndd : NoDup (map fst done)).
    { rewrite map_app in Hnd. now apply NoDup_app_remove_r in Hnd. }
    assert (Hother : forall c, c <> code -> quote w (tr ++ evs) c = quote w tr c).
    { intros c Hc. apply quote_stable. eapply asked_same; [exact Hall|].
      intros E. now apply Hc. }
    assert (Hnew : fetched w (tr ++ evs) code
                   = match r with
                     | Some (rec :: recs) => Some (rec :: recs)
                     | _ => None
                     end).
    { rewrite fetched_app, Hn0. exact Hfe. }
    assert (Hf' : his_failed w done (tr ++ evs) todo).
    { split; [|split].
      - intros x Hx. apply Hincl. now right.
      - simpl in Hndf. now inversion Hndf.
      - intros b0 Hb0. rewrite fetched_stable; [apply Hnone; now right|].
        eapply asked_same; [exact Hall|]. intros E.
        simpl in Hndf. apply NoDup_cons_iff in Hndf. destruct Hndf as [Hn _].
        apply Hn. rewrite E. now apply in_map. }
    assert (Hbase : NoDup (map fst (done ++ rest))
                    /\ (forall b0, In b0 rest -> asked (tr ++ evs) (fst b0) = false)
                    /\ (forall b0, In b0 done -> asked (tr ++ evs) (fst b0) = true)).
    { split; [assumption|]. split.
      - intros b0 Hb0. rewrite asked_app, (Hrest b0 Hb0). simpl.
        eapply asked_same; [exact Hall|]. intros E.
        apply (nodup_apart _ _ _ _ Hnd Hcode b0 Hb0). now symmetry.
      - intros b0 Hb0. now rewrite asked_app, (Hdone b0 Hb0). }
    destruct Hbase as (B1 & B2 & B3).
    assert (Hgo : forall rows',
               rows' = map (fun b0 => (fst b0, board_quote (fst b0) (snd b0)
                                                 (quote w (tr ++ evs) (fst b0)))) done ->
               let p := pass2 w todo (tr ++ evs) rows' in
               his_state w done rest (snd p) (fst p)).
    { intros rows' Hr'. apply IH; [|exact Hf']. now repeat split. }
    assert (Hkeep : rows_today
                    = map (fun b0 => (fst b0, board_quote (fst b0) (snd b0)
                                                (quote w (tr ++ evs) (fst b0)))) done
                    \/ exists rec recs, r = Some (rec :: recs)).
    { destruct r as [[|rec recs]|]; [left | right; eauto | left];
        rewrite Hrows; apply map_ext_in; intros b0 Hb0; f_equal; f_equal;
        (destruct (String.eqb_spec (fst b0) code) as [E|Hne]; [|now rewrite Hother]);
        unfold quote; rewrite E, Hnew, Hn0; reflexivity. }
    destruct r as [[|rec recs]|];
      try (destruct Hkeep as [Hk|(? & ? & Hk)]; [now apply Hgo | discriminate Hk]).
    apply Hgo. rewrite Hrows.
    rewrite (dict_set_old
               (fun b0 => board_quote (fst b0) (snd b0) (quote w tr (fst b0))))
      by (try assumption; change code with (fst (code, name)); now apply in_map).
    apply map_ext_in. intros b0 Hb0. f_equal.
    destruct (String.eqb_spec (fst b0) code) as [E|Hne]; [|now rewrite Hother].
    destruct b0 as [c n]. simpl in E. subst c. cbn [fst snd].
    rewrite (nodup_fst_inj done code n name Hndd Hb0 Hcode), his_row_quote.
    f_equal. unfold quote. now rewrite Hnew.
Qed.

Lemma pass1_asks_all (boards : list (string * string)) (tr : list event)
    (rows_today : list (string * board_row)) (fails : list (string * string)) :
  exists evs,
    snd (pass1 w boards tr rows_today fails) = tr ++ evs
    /\ forallb (RunSpec.today_request w) evs = true
    /\ ((forall n, interrupted w n = false) ->
        forall code name, In (code, name) boards ->
          In (EvKline code (today w) (today w)) evs).
Proof.
  revert tr rows_today fails.
  induction boards as [|[code name] rest IH]; intros tr rows_today fails.
  - exists []. simpl. rewrite app_nil_r. repeat split. intros _ c n [].
  - rewrite pass1_cons.
    destruct (interrupted w (List.length tr)) eqn:Hi.
    + exists []. simpl. rewrite app_nil_r. repeat split.
      intros Hno. now rewrite Hno in Hi.
    + destruct (fetch_retry_trace w RETRY_TIMES tr code (today w) (today w))
        as (evs1 & Heq1 & Hall1 & Hin1).
      specialize (Hin1 ltac:(discriminate)).
      destruct (fetch_retry w RETRY_TIMES tr code (today w) (today w))
        as [r tr'] eqn:Hfr. simpl in Heq1. subst tr'.
      assert (Hgo : forall rows' fails',
                 exists evs,
                   snd (pass1 w rest (tr ++ evs1) rows' fails') = tr ++ evs
                   /\ forallb (RunSpec.today_request w) evs = true
                   /\ ((forall n, interrupted w n = false) ->
                       forall c n, In (c, n) ((code, name) :: rest) ->
                         In (EvKline c (today w) (today w)) evs)).
      { intros rows' fails'. destruct (IH (tr ++ evs1) rows' fails')
          as (evs2 & Heq2 & Hall2 & Hin2).
        exists (evs1 ++ evs2). rewrite Heq2, app_assoc. split; [reflexivity|].
        split.
        - rewrite forallb_app, Hall2, andb_true_r.
          apply (forallb_same _ _ _ (today_request_kline w code) Hall1).
        - intros Hno c n [E|Hc]; apply in_or_app.
          + injection E as <- <-. now left.
          + right. now apply (Hin2 Hno c n). }
      destruct r as [[|rec recs]|]; apply Hgo.
Qed.

End MergeFacts.
(** ** The branch of [build_csv] *)

Section BranchFacts.

Import Pipeline RunSpec.

Variable write_baseline : list board_hist -> exc frame.
Variable patch_today : frame -> today_df -> string -> exc frame.

(** The rows of [rows_today] are the snapshot of the quotes fetched. *)
Lemma his_state_snapshot (w : world) (done rest : list (string * string))
    (tr : list event) (rows_today : list (string * board_row)) :
  his_state w done rest tr rows_today ->
  mkToday (map snd rows_today) false = snapshot w tr (done ++ rest).
Proof.
  intros (_ & Hrest & Hdone & ->). unfold snapshot. f_equal.
  rewrite filter_app, (filter_all _ done), (filter_none _ rest), app_nil_r, map_map;
    [reflexivity | assumption | assumption].
Qed.

Lemma build_csv_baseline (w : world) (n_days : Z) (today_mode : string)
    (file : option frame) :
  needs_baseline file = true ->
  baseline_run write_baseline w n_days file
    (build_csv write_baseline patch_today w n_days today_mode file).
Proof.
  intros Hnb. unfold build_csv.
  assert (Hwide : Frame.empty (match file with
                               | Some f => read_csv f
                               | None => empty_frame
                               end) = true)
    by (destruct file; [exact Hnb | reflexivity]).
  rewrite Hwide. unfold baseline_run.
  destruct (board_list w) as [boards|e] eqn:Hb; [|now repeat split].
  set (tr0 := [EvStage Bootstrap; EvBoardList]).
  destruct (baseline_loop_trace w n_days boards tr0 []) as (evs & Heq & Hall & Hin).
  pose proof (baseline_loop_histories w n_days boards [] tr0 []) as Hh.
  destruct (baseline_loop w n_days boards tr0 []) as [all_rows tr'] eqn:Hloop.
  simpl in Heq, Hh. subst tr'.
  exists evs.
  assert (Hgot : NoDup (map fst boards) ->
                 histories w (EvStage Bootstrap :: EvBoardList :: evs) boards
                 = all_rows).
  { intros Hnd. symmetry. apply Hh; [assumption | reflexivity | reflexivity]. }
  unfold tr0 in *. cbn [app] in *.
  destruct all_rows as [|h t].
  - cbn [trace csv error]. repeat split; try assumption; [now left|].
    intros Hnd. rewrite (Hgot Hnd). now split.
  - destruct (write_baseline (h :: t)) as [tb|e] eqn:Hw; cbn [trace csv error].
    + repeat split; try assumption.
      * right. exists (h :: t), tb. repeat split; [discriminate | assumption].
      * intros Hnd. rewrite (Hgot Hnd). unfold leaves. rewrite Hw. now split.
    + repeat split; try assumption; [now left|].
      intros Hnd. rewrite (Hgot Hnd). unfold leaves. rewrite Hw. now split.
Qed.

Lemma build_csv_list (w : world) (n_days : Z) (f : frame) :
  needs_baseline (Some f) = false ->
  let r := build_csv write_baseline patch_today w n_days "list" (Some f) in
  list_run patch_today w (Some f) r.
Proof.
  intros Hnb. simpl in Hnb. cbv zeta. unfold build_csv, list_run. rewrite Hnb.
  cbn [String.eqb Ascii.eqb Bool.eqb table].
  destruct (list_today w) as [df|e]; simpl; [|now repeat split].
  destruct (rows df) as [|r0 rs] eqn:Hrows; simpl; [now repeat split|].
  destruct (patch_today (read_csv f) df (today_col w)) as [t|e] eqn:Hp; simpl;
    now repeat split.
Qed.

Lemma build_csv_his (w : world) (n_days : Z) (today_mode : string) (f : frame) :
  needs_baseline (Some f) = false ->
  (today_mode =? "list") = false ->
  let r := build_csv write_baseline patch_today w n_days today_mode (Some f) in
  his_run patch_today w (Some f) r.
Proof.
  intros Hnb Hmode. simpl in Hnb. cbv zeta. unfold build_csv, his_run.
  rewrite Hnb, Hmode. cbn [table].
  destruct (board_list w) as [boards|e]; [|now repeat split].
  set (tr0 := [EvStage TodayHis; EvBoardList]).
  destruct (pass1_asks_all w boards tr0 [] []) as (evs1 & Heq1 & Hall1 & Hin1).
  pose proof (pass1_state w boards [] tr0 [] []) as Hst1.
  destruct (pass1 w boards tr0 [] []) as [[rows_today fails] tr1] eqn:Hp1.
  cbv zeta in Hst1. cbn [fst snd] in Heq1, Hst1. subst tr1.
  (* the second pass *)
  assert (H2 : exists rows2 evs,
             match fails with
             | [] => (rows_today, tr0 ++ evs1)
             | _ :: _ =>
                 if interrupted w (List.length (tr0 ++ evs1))
                 then (rows_today, tr0 ++ evs1)
                 else pass2 w fails (tr0 ++ evs1) rows_today
             end = (rows2, tr0 ++ evs)
             /\ forallb (today_request w) evs = true
             /\ ((forall n, interrupted w n = false) ->
                 forall code name, In (code, name) boards ->
                   In (EvKline code (today w) (today w)) evs)
             /\ (NoDup (map fst boards) ->
                 exists done rest,
                   done ++ rest = boards
                   /\ his_state w done rest (tr0 ++ evs) rows2)).
  { assert (Hsame : exists rows2 evs,
               (rows_today, tr0 ++ evs1) = (rows2, tr0 ++ evs)
               /\ forallb (today_request w) evs = true
               /\ ((forall n, interrupted w n = false) ->
                   forall code name, In (code, name) boards ->
                     In (EvKline code (today w) (today w)) evs)
               /\ (NoDup (map fst boards) ->
                   exists done rest,
                     done ++ rest = boards
                     /\ his_state w done rest (tr0 ++ evs) rows2)).
    { exists rows_today, evs1. repeat split; try assumption.
      intros Hnd.
      destruct (Hst1 (his_state_start w _ boards Hnd) (his_failed_start w _))
        as (d & r & E & Hs & _).
      exists d, r. now split. }
    destruct fails as [|fl fls]; [exact Hsame|].
    destruct (interrupted w (List.length (tr0 ++ evs1))); [exact Hsame|].
    destruct (pass2_trace w (fl :: fls) (tr0 ++ evs1) rows_today)
      as (evs2 & Heq2 & Hall2).
    pose proof (pass2_state w (fl :: fls)) as Hst2.
    destruct (pass2 w (fl :: fls) (tr0 ++ evs1) rows_today) as [rows2 tr2] eqn:Hp2.
    cbn [snd] in Heq2. subst tr2.
    exists rows2, (evs1 ++ evs2). rewrite app_assoc. split; [reflexivity|].
    split; [now rewrite forallb_app, Hall1, Hall2|]. split.
    - intros Hno code name Hc. apply in_or_app. left. exact (Hin1 Hno code name Hc).
    - intros Hnd.
      destruct (Hst1 (his_state_start w _ boards Hnd) (his_failed_start w _))
        as (d & r & E & Hs & Hf).
      exists d, r. split; [assumption|].
      specialize (Hst2 d r (tr0 ++ evs1) rows_today Hs Hf).
      cbv zeta in Hst2. rewrite Hp2 in Hst2. exact Hst2. }
  destruct H2 as (rows2 & evs & -> & Hall & Hin & Hst).
  set (W := reindex (read_csv f) (map (fun b => row_key (fst b) (snd b)) boards)).
  assert (Hsnap : forall tr,
             tr = tr0 ++ evs -> NoDup (map fst boards) ->
             snapshot w tr boards = mkToday (map snd rows2) false).
  { intros tr -> Hnd. destruct (Hst Hnd) as (d & r & <- & Hs).
    symmetry. now apply his_state_snapshot. }
  assert (Htail : forall r0 : run,
             trace r0 = tr0 ++ evs ->
             match map snd rows2 with
             | [] => untouched (Some f) r0
             | _ :: _ =>
                 leaves (Some f)
                   (patch_today W (mkToday (map snd rows2) false) (today_col w)) r0
             end ->
             exists evs0,
               trace r0 = EvStage TodayHis :: EvBoardList :: evs0
               /\ forallb (today_request w) evs0 = true
               /\ ((forall n, interrupted w n = false) ->
                   forall code name, In (code, name) boards ->
                     In (EvKline code (today w) (today w)) evs0)
               /\ (csv r0 = Some f
                   \/ exists D t,
                        rows D <> []
                        /\ patch_today (reindex (read_csv f) (listed_keys boards)) D
                             (today_col w) = Ok t
                        /\ csv r0 = Some t)
               /\ (NoDup (map fst boards) ->
                   let D := snapshot w (trace r0) boards in
                   match rows D with
                   | [] => untouched (Some f) r0
                   | _ :: _ =>
                       leaves (Some f)
                         (patch_today (reindex (read_csv f) (listed_keys boards)) D
                            (today_col w)) r0
                   end)).
  { intros r0 Htr Hout. exists evs. split; [exact Htr|]. split; [exact Hall|].
    split; [exact Hin|]. split.
    - destruct (map snd rows2) as [|x xs] eqn:Hrows; [left; apply Hout|].
      unfold leaves in Hout. fold W.
      destruct (patch_today W _ (today_col w)) as [t|e] eqn:Hp; [|left; apply Hout].
      right. eexists. exists t. split; [|split; [exact Hp | apply Hout]].
      discriminate.
    - intros Hnd. cbv zeta. rewrite (Hsnap _ Htr Hnd). exact Hout. }
  destruct rows2 as [|kr rest].
  - apply Htail; [reflexivity|]. now split.
  - cbn [map] in Htail.
    destruct (patch_today W _ (today_col w)) as [t|e] eqn:Hp;
      (apply Htail; [reflexivity|]; now split).
Qed.

Lemma build_csv_patch (w : world) (n_days : Z) (today_mode : string)
    (file : option frame) :
  needs_baseline file = false ->
  patch_run patch_today w today_mode file
    (build_csv write_baseline patch_today w n_days today_mode file).
Proof.
  intros Hnb. destruct file as [f|]; [|discriminate]. unfold patch_run.
  destruct (today_mode =? "list") eqn:Hmode.
  - apply String.eqb_eq in Hmode. subst today_mode. now apply build_csv_list.
  - now apply build_csv_his.
Qed.

Lemma build_csv_branch :
  baseline_iff_no_table (build_csv write_baseline patch_today)
    write_baseline patch_today.
Proof.
  intros w n_days today_mode file r.
  split; [|split; [apply build_csv_baseline | apply build_csv_patch]].
  destruct (needs_baseline file) eqn:Hnb.
  - split; [reflexivity|]. intros _.
    pose proof (build_csv_baseline w n_days today_mode file Hnb) as Hrun.
    fold r in Hrun. unfold baseline_run in Hrun.
    destruct (board_list w) as [boards|e].
    + destruct Hrun as (evs & Htr & _). rewrite Htr. now left.
    + destruct Hrun as (Htr & _). rewrite Htr. now left.
  - split; [|discriminate]. intros Hin. exfalso.
    pose proof (build_csv_patch w n_days today_mode file Hnb) as Hrun.
    fold r in Hrun. unfold patch_run in Hrun. destruct (today_mode =? "list").
    + destruct Hrun as (Htr & _). rewrite Htr in Hin. simpl in Hin.
      intuition discriminate.
    + unfold his_run in Hrun. destruct (board_list w) as [boards|e].
      * destruct Hrun as (evs & Htr & Hall & _). rewrite Htr in Hin.
        destruct Hin as [H|[H|Hin]]; try discriminate.
        rewrite forallb_forall in Hall. now apply Hall in Hin.
      * destruct Hrun as (Htr & _). rewrite Htr in Hin. simpl in Hin.
        intuition discriminate.
Qed.

End BranchFacts.

(** ** The boards of the table across a run *)

Section BoardsFacts.

Import Pipeline RunSpec.

Variable write_baseline : list board_hist -> exc frame.
Variable patch_today : frame -> today_df -> string -> exc frame.

(** A patch that keeps the rows it is given. *)
Hypothesis patch_keeps_rows :
  forall W D today W' k,
    patch_today W D today = Ok W' -> In k (index W) -> In k (index W').

(** In the list mode every board of the file is still in the file after
    the run. *)
Lemma list_mode_keeps_boards (w : world) (n_days : Z) (f : frame) (k : string) :
  needs_baseline (Some f) = false ->
  In k (index f) ->
  exists t,
    csv (build_csv write_baseline patch_today w n_days "list" (Some f)) = Some t
    /\ In k (index t).
Proof.
  intros Hnb Hk. unfold build_csv. simpl in Hnb. rewrite Hnb. simpl.
  destruct (list_today w) as [df|e]; simpl; [|now exists f].
  destruct (rows df) as [|r0 rs]; simpl; [now exists f|].
  destruct (patch_today (read_csv f) df (today_col w)) as [t|e] eqn:Hp; simpl;
    [|now exists f].
  exists t. split; [reflexivity|].
  now apply (patch_keeps_rows _ _ _ _ _ Hp).
Qed.

End BoardsFacts.

Lemma round_patch_keeps_rows (to_dt : string -> option Z)
    (W : frame) (D : today_df) (today : string) (W' : frame) (k : string) :
  bk_data_ind.patch_today to_dt W D today = Ok W' -> In k (index W) -> In k (index W').
Proof.
  intros H Hk. destruct (round_patch_inv to_dt _ _ _ _ H) as (_ & Hidx & _).
  rewrite Hidx. apply in_or_app. now left.
Qed.

Lemma vis_patch_keeps_rows (to_dt : string -> option Z)
    (W : frame) (D : today_df) (today : string) (W' : frame) (k : string) :
  bk_fetch_data.patch_today to_dt W D today = Ok W' -> In k (index W) -> In k (index W').
Proof.
  intros H Hk. destruct (vis_patch_inv to_dt _ _ _ _ H) as (_ & Hidx & _).
  now rewrite Hidx.
Qed.

(** ** The date columns of a patched table *)

Section AscendingFacts.

Import ColumnSpec.

Variable to_dt : string -> option Z.

Local Abbreviation name_lt := (ColumnSpec.name_lt to_dt).
Local Abbreviation dates_differ := (ColumnSpec.dates_differ to_dt).

Lemma ascending_Sorted (l : list string) :
  ascending to_dt l = true <-> Sorted name_lt l.
Proof.
  induction l as [|a [|b t] IH].
  - split; [constructor | reflexivity].
  - split; [repeat constructor | reflexivity].
  - change (ascending to_dt (a :: b :: t))
      with (name_ltb to_dt a b && ascending to_dt (b :: t)).
    rewrite andb_true_iff, IH. split.
    + intros [Hab Hs]. constructor; [assumption | now constructor].
    + intros Hs. inversion Hs as [|? ? Hs' Hhd]; subst.
      inversion Hhd; subst. now split.
Qed.

Lemma insert_by_date_HdRel_lt (x a : string) (l : list string) :
  name_lt a x -> HdRel name_lt a l -> HdRel name_lt a (insert_by_date to_dt x l).
Proof.
  intros Hax Hal. destruct l as [|h t]; simpl.
  - now constructor.
  - destruct (date_leb to_dt x h); constructor; [assumption|].
    now inversion Hal.
Qed.

Lemma insert_by_date_Sorted_lt (x : string) (l : list string) :
  is_date to_dt x = true ->
  Forall (fun y => is_date to_dt y = true) l ->
  Forall (dates_differ x) l ->
  Sorted name_lt l -> Sorted name_lt (insert_by_date to_dt x l).
Proof.
  intros Hx. induction l as [|h t IH]; simpl; intros Hd Hne Hs.
  - repeat constructor.
  - inversion Hd as [|? ? Hh Hd']; subst. inversion Hne as [|? ? Hxh Hne']; subst.
    unfold is_date in Hx, Hh. unfold ColumnSpec.dates_differ in Hxh.
    destruct (date_leb to_dt x h) eqn:Hleb.
    + constructor; [assumption|]. constructor.
      unfold ColumnSpec.name_lt, name_ltb. unfold date_leb in Hleb.
      destruct (to_dt x), (to_dt h); try discriminate.
      apply Z.leb_le in Hleb. apply Z.ltb_lt. lia.
    + inversion Hs; subst. constructor; [now apply IH|].
      apply insert_by_date_HdRel_lt; [|assumption].
      unfold ColumnSpec.name_lt, name_ltb. unfold date_leb in Hleb.
      destruct (to_dt x), (to_dt h); try discriminate.
      apply Z.leb_gt in Hleb. apply Z.ltb_lt. lia.
Qed.

Lemma distinct_dates_head (c : string) (t : list string) :
  distinct_dates to_dt (c :: t) = true ->
  Forall (dates_differ c) t /\ distinct_dates to_dt t = true.
Proof.
  simpl. rewrite andb_true_iff. intros [Hall Ht]. split; [|assumption].
  apply Forall_forall. intros y Hy. rewrite forallb_forall in Hall.
  specialize (Hall y Hy). unfold ColumnSpec.dates_differ.
  destruct (to_dt c), (to_dt y); try exact I.
  apply negb_true_iff, Z.eqb_neq in Hall. assumption.
Qed.

Lemma distinct_dates_filter (f : string -> bool) (l : list string) :
  distinct_dates to_dt l = true -> distinct_dates to_dt (filter f l) = true.
Proof.
  induction l as [|c t IH]; [reflexivity|]. intros H.
  assert (Hc := H). apply distinct_dates_head in Hc. destruct Hc as [_ Ht].
  simpl in H. apply andb_true_iff in H. destruct H as [Hall _].
  simpl. destruct (f c); [|now apply IH].
  simpl. rewrite (IH Ht), andb_true_r.
  apply forallb_forall. intros y Hy. apply filter_In in Hy.
  rewrite forallb_forall in Hall. now apply Hall.
Qed.

Lemma sort_by_date_Sorted_lt (l : list string) :
  Forall (fun y => is_date to_dt y = true) l ->
  distinct_dates to_dt l = true ->
  Sorted name_lt (fold_right (insert_by_date to_dt) [] l).
Proof.
  induction l as [|c t IH]; intros Hd Hdist; simpl; [constructor|].
  inversion Hd as [|? ? Hc Hd']; subst.
  apply distinct_dates_head in Hdist. destruct Hdist as [Hne Ht].
  apply insert_by_date_Sorted_lt; try assumption.
  - apply Forall_forall. intros y Hy. apply In_sort_by_date in Hy.
    rewrite Forall_forall in Hd'. now apply Hd'.
  - apply Forall_forall. intros y Hy. apply In_sort_by_date in Hy.
    rewrite Forall_forall in Hne. now apply Hne.
  - now apply IH.
Qed.

(** Sorted columns of distinct dates: the dates first and strictly
    ascending. *)
Lemma sorted_columns_dates_first (cols : list string) :
  distinct_dates to_dt cols = true ->
  dates_first to_dt (date_cols to_dt cols ++ other_cols to_dt cols).
Proof.
  intros Hdist. exists (date_cols to_dt cols), (other_cols to_dt cols).
  split; [reflexivity|]. split; [|split].
  - apply forallb_forall. intros c Hc. now apply In_date_cols in Hc.
  - apply ascending_Sorted. unfold date_cols. apply sort_by_date_Sorted_lt.
    + apply Forall_forall. intros y Hy. now apply filter_In in Hy.
    + now apply distinct_dates_filter.
  - apply forallb_forall. intros c Hc. apply In_other_cols in Hc.
    destruct Hc as [_ Hc]. now rewrite Hc.
Qed.

End AscendingFacts.

(** ** The columns of the baseline *)

Section StringOrder.

Local Open Scope string_scope.

Lemma compare_app (a1 a2 b1 b2 : string) :
  String.length a1 = String.length a2 ->
  String.compare (a1 ++ b1) (a2 ++ b2)
  = match String.compare a1 a2 with
    | Eq => String.compare b1 b2
    | c => c
    end.
Proof.
  revert a2. induction a1 as [|c1 a1 IH]; intros [|c2 a2] Hlen; simpl in *;
    try discriminate; [reflexivity|].
  destruct (Ascii.compare c1 c2); try reflexivity.
  apply IH. now injection Hlen.
Qed.

Lemma lex_compare (q1 q2 r1 r2 x y : N) :
  (x = 10 * q1 + r1)%N -> (y = 10 * q2 + r2)%N -> (r1 < 10)%N -> (r2 < 10)%N ->
  match (q1 ?= q2)%N with
  | Eq => (r1 ?= r2)%N
  | c => c
  end = (x ?= y)%N.
Proof.
  intros Hx Hy H1 H2. symmetry.
  destruct (N.compare_spec q1 q2) as [Hq|Hq|Hq].
  - destruct (N.compare_spec r1 r2) as [Hr|Hr|Hr].
    + apply N.compare_eq_iff. lia.
    + apply N.compare_lt_iff. lia.
    + apply N.compare_gt_iff. lia.
  - apply N.compare_lt_iff. lia.
  - apply N.compare_gt_iff. lia.
Qed.

Lemma compare_digit (a b : N) :
  (a < 10)%N -> (b < 10)%N ->
  String.compare (String (PyStr.digit_char a) EmptyString)
    (String (PyStr.digit_char b) EmptyString)
  = (a ?= b)%N.
Proof.
  intros Ha Hb. simpl. unfold Ascii.compare.
  rewrite !digit_char_code by assumption.
  assert (Hc : (48 + a ?= 48 + b)%N = (a ?= b)%N).
  { destruct (N.compare_spec a b) as [H|H|H].
    - apply N.compare_eq_iff. lia.
    - apply N.compare_lt_iff. lia.
    - apply N.compare_gt_iff. lia. }
  rewrite Hc. now destruct (a ?= b)%N.
Qed.

(** Zero-padded numbers of one width compare as the numbers do. *)
Lemma compare_pad_digits (n : nat) (x y : N) :
  (x < 10 ^ N.of_nat n)%N -> (y < 10 ^ N.of_nat n)%N ->
  String.compare (PyStr.pad_digits n x) (PyStr.pad_digits n y) = (x ?= y)%N.
Proof.
  revert x y. induction n as [|n IH]; intros x y Hx Hy.
  - simpl in *. assert (x = 0%N) by lia. assert (y = 0%N) by lia. now subst.
  - cbn [PyStr.pad_digits].
    rewrite compare_app by now rewrite !pad_digits_length.
    rewrite Nat2N.inj_succ, N.pow_succ_r' in Hx, Hy.
    assert (Hqx : (x / 10 < 10 ^ N.of_nat n)%N)
      by (apply N.Div0.div_lt_upper_bound; assumption).
    assert (Hqy : (y / 10 < 10 ^ N.of_nat n)%N)
      by (apply N.Div0.div_lt_upper_bound; assumption).
    rewrite (IH _ _ Hqx Hqy), compare_digit by apply mod10_lt.
    apply lex_compare; try apply mod10_lt; apply N.div_mod; discriminate.
Qed.

Lemma compare_dash (s t : string) :
  String.compare ("-" ++ s) ("-" ++ t) = String.compare s t.
Proof. reflexivity. Qed.

(** Valid dates are written in their order. *)
Lemma strftime_ltb (a b : date) :
  valid_date a = true -> valid_date b = true ->
  date_ltb a b = true -> String.ltb (strftime a) (strftime b) = true.
Proof.
  unfold valid_date. intros Ha Hb Hlt.
  repeat (apply andb_true_iff in Ha; destruct Ha as [Ha ?]).
  repeat (apply andb_true_iff in Hb; destruct Hb as [Hb ?]).
  repeat match goal with H : (_ <=? _)%N = true |- _ => apply N.leb_le in H end.
  unfold String.ltb, strftime.
  rewrite compare_app by now rewrite !pad_digits_length.
  rewrite compare_pad_digits by (simpl; lia).
  rewrite compare_dash.
  rewrite compare_app by now rewrite !pad_digits_length.
  rewrite compare_pad_digits by (simpl; lia).
  rewrite compare_dash.
  rewrite compare_pad_digits by (simpl; lia).
  unfold date_ltb in Hlt.
  destruct (N.ltb_spec (year a) (year b)) as [Hy|Hy].
  - apply N.compare_lt_iff in Hy. now rewrite Hy.
  - simpl in Hlt. apply andb_true_iff in Hlt. destruct Hlt as [Hye Hlt].
    apply N.eqb_eq in Hye. rewrite Hye, N.compare_refl.
    destruct (N.ltb_spec (month a) (month b)) as [Hm|Hm].
    + apply N.compare_lt_iff in Hm. now rewrite Hm.
    + simpl in Hlt. apply andb_true_iff in Hlt. destruct Hlt as [Hme Hlt].
      apply N.eqb_eq in Hme. rewrite Hme, N.compare_refl.
      apply N.ltb_lt, N.compare_lt_iff in Hlt. now rewrite Hlt.
Qed.

Lemma ltb_leb (s t : string) : String.ltb s t = true -> String.leb s t = true.
Proof.
  unfold String.ltb, String.leb. now destruct (String.compare s t).
Qed.

End StringOrder.

Lemma sorted_id (l : list string) :
  Sorted (fun a b => String.leb a b = true) l -> PyStr.sorted l = l.
Proof.
  unfold PyStr.sorted.
  induction l as [|h t IH]; simpl; intros Hs; [reflexivity|].
  inversion Hs as [|? ? Hst Hhd]; subst. rewrite (IH Hst).
  destruct t as [|h' t']; [reflexivity|]. simpl.
  inversion Hhd as [|? ? Hle]; subst. now rewrite Hle.
Qed.

(** The distinct dates come out strictly ascending. *)
Local Abbreviation date_lt := ColumnSpec.date_lt.

Lemma date_ltb_connex (a b : date) :
  date_ltb a b = false -> date_eqb a b = false -> date_ltb b a = true.
Proof.
  unfold date_ltb, date_eqb. destruct a as [y1 m1 d1], b as [y2 m2 d2]; simpl.
  intros H1 H2.
  destruct (N.ltb_spec y1 y2), (N.ltb_spec y2 y1), (N.eqb_spec y1 y2),
    (N.eqb_spec y2 y1), (N.ltb_spec m1 m2), (N.ltb_spec m2 m1), (N.eqb_spec m1 m2),
    (N.eqb_spec m2 m1), (N.ltb_spec d1 d2), (N.ltb_spec d2 d1), (N.eqb_spec d1 d2);
    simpl in *; try reflexivity; try discriminate; try lia.
Qed.

Lemma insert_date_HdRel (d a : date) (l : list date) :
  date_lt a d -> HdRel date_lt a l -> HdRel date_lt a (insert_date d l).
Proof.
  intros Had Hal. destruct l as [|h t]; simpl.
  - now constructor.
  - destruct (date_ltb d h); [now constructor|].
    destruct (date_eqb d h); [assumption|].
    constructor. now inversion Hal.
Qed.

Lemma insert_date_Sorted (d : date) (l : list date) :
  Sorted date_lt l -> Sorted date_lt (insert_date d l).
Proof.
  induction l as [|h t IH]; simpl; intros Hs.
  - repeat constructor.
  - destruct (date_ltb d h) eqn:Hlt.
    + constructor; [assumption | now constructor].
    + destruct (date_eqb d h) eqn:Heq; [assumption|].
      inversion Hs; subst. constructor; [now apply IH|].
      apply insert_date_HdRel; [|assumption].
      now apply date_ltb_connex.
Qed.

Lemma distinct_dates_Sorted (ds : list date) : Sorted date_lt (distinct_dates ds).
Proof.
  unfold distinct_dates. induction ds as [|d t IH]; simpl; [constructor|].
  now apply insert_date_Sorted.
Qed.

Lemma In_insert_date (x d : date) (l : list date) :
  In x (insert_date d l) -> x = d \/ In x l.
Proof.
  induction l as [|h t IH]; simpl.
  - intuition.
  - destruct (date_ltb d h); simpl; [intuition|].
    destruct (date_eqb d h); simpl; [intuition|].
    intros [H|H]; [intuition | destruct (IH H); intuition].
Qed.

Lemma In_distinct_dates (x : date) (ds : list date) :
  In x (distinct_dates ds) -> In x ds.
Proof.
  unfold distinct_dates. induction ds as [|d t IH]; simpl; [tauto|].
  intros H. apply In_insert_date in H. destruct H as [->|H]; [now left|].
  right. now apply IH.
Qed.

Lemma dates_ascending_Sorted (ds : list date) :
  Sorted date_lt ds -> ColumnSpec.dates_ascending ds = true.
Proof.
  induction ds as [|a [|b t] IH]; intros Hs; try reflexivity.
  change (ColumnSpec.dates_ascending (a :: b :: t))
    with (date_ltb a b && ColumnSpec.dates_ascending (b :: t)).
  inversion Hs as [|? ? Hs' Hhd]; subst. inversion Hhd; subst.
  apply andb_true_iff. split; [assumption | now apply IH].
Qed.

(** Strictly ascending valid dates are written as a sorted list of
    names. *)
Lemma strftime_Sorted (ds : list date) :
  Forall (fun d => valid_date d = true) ds ->
  Sorted date_lt ds ->
  Sorted (fun a b => String.leb a b = true) (map strftime ds).
Proof.
  induction ds as [|a t IH]; simpl; intros Hv Hs; [constructor|].
  inversion Hv as [|? ? Ha Hv']; subst. inversion Hs as [|? ? Hs' Hhd]; subst.
  constructor; [now apply IH|].
  destruct t as [|b t']; simpl; constructor.
  inversion Hhd; subst. inversion Hv'; subst.
  now apply ltb_leb, strftime_ltb.
Qed.

Lemma group_rank_from_length {V K : Type} (ltb : V -> V -> bool)
    (keqb : K -> K -> bool) (all pre post : list (K * option V)) :
  List.length (Rank.group_rank_from ltb keqb all pre post) = List.length post.
Proof.
  revert pre. induction post as [|[d [v|]] t IH]; intros pre; simpl;
    [reflexivity | now rewrite IH | now rewrite IH].
Qed.

Lemma long_ranks_length (rows : list long_row) :
  List.length (long_ranks rows) = List.length rows.
Proof.
  unfold long_ranks, Rank.group_rank.
  now rewrite group_rank_from_length, length_map.
Qed.

Section BaselineFacts.

Variable fmt : option Z -> option pyfloat -> option pyfloat -> string.
Variable to_date : string -> option date.

Lemma cells_dates (rows : list long_row) :
  map (fun c : string * date * string => snd (fst c)) (Long.cells fmt rows)
  = map l_date rows.
Proof.
  unfold Long.cells. rewrite map_map.
  apply map_fst_combine; [apply long_ranks_length | reflexivity].
Qed.

Lemma pivot_columns (rows : list long_row) :
  Forall (fun d => valid_date d = true) (map l_date rows) ->
  columns (Long.pivot fmt rows) = map strftime (distinct_dates (map l_date rows)).
Proof.
  intros Hv. unfold Long.pivot. simpl. rewrite cells_dates.
  apply sorted_id. apply strftime_Sorted; [|apply distinct_dates_Sorted].
  apply Forall_forall. intros d Hd. apply In_distinct_dates in Hd.
  rewrite Forall_forall in Hv. now apply Hv.
Qed.

Lemma convert_valid (code name : string) (recs : list krec) (rows : list long_row) :
  forallb (fun rec : krec =>
             match to_date (fst (fst rec)) with
             | Some d => valid_date d
             | None => false
             end) recs = true ->
  Long.convert to_date code name recs = Ok rows ->
  Forall (fun d => valid_date d = true) (map l_date rows).
Proof.
  revert rows. induction recs as [|[[d pct] cl] t IH]; intros rows Hv H; simpl in *.
  - injection H as <-. constructor.
  - apply andb_true_iff in Hv. destruct Hv as [Hd Hv].
    destruct (to_date d) as [dd|]; [|discriminate].
    destruct (Long.convert to_date code name t) as [rest|e]; [|discriminate].
    simpl in H. injection H as <-. simpl. constructor; [assumption|].
    now apply IH.
Qed.

Lemma concat_valid (all_rows : list board_hist) (rows : list long_row) :
  ColumnSpec.valid_input to_date all_rows = true ->
  Long.concat to_date all_rows = Ok rows ->
  Forall (fun d => valid_date d = true) (map l_date rows).
Proof.
  revert rows. induction all_rows as [|h t IH]; intros rows Hv H; simpl in *.
  - injection H as <-. constructor.
  - apply andb_true_iff in Hv. destruct Hv as [Hh Hv].
    destruct (Long.convert to_date (h_code h) (h_name h) (h_recs h)) as [r1|e] eqn:Hc;
      [|discriminate].
    destruct (Long.concat to_date t) as [r2|e]; [|discriminate].
    simpl in H. injection H as <-. rewrite map_app. apply Forall_app. split.
    + now apply (convert_valid _ _ _ _ Hh Hc).
    + now apply IH.
Qed.

(** The columns of the baseline are the distinct dates, strictly
    ascending, written as [YYYY-MM-DD]; there is no other column. *)
Lemma write_baseline_columns (all_rows : list board_hist) (t : frame) :
  ColumnSpec.valid_input to_date all_rows = true ->
  Long.write_baseline fmt to_date all_rows = Ok t ->
  exists ds,
    columns t = map strftime ds /\ ColumnSpec.dates_ascending ds = true.
Proof.
  intros Hv H. unfold Long.write_baseline in H.
  destruct (Long.concat to_date all_rows) as [rows|e] eqn:Hc; [|discriminate].
  simpl in H. injection H as <-.
  exists (distinct_dates (map l_date rows)). split.
  - apply pivot_columns. now apply (concat_valid all_rows).
  - apply dates_ascending_Sorted, distinct_dates_Sorted.
Qed.

End BaselineFacts.

(** ** The bytes written *)

Lemma utf8_sig_row_key (w : frame) :
  ColumnSpec.bom_row_key (Csv.to_csv w Csv.Utf8Sig "row_key").
Proof.
  unfold ColumnSpec.bom_row_key, Csv.to_csv, Csv.text, Csv.line, PyStr.join.
  change (Csv.field "row_key") with "row_key".
  destruct (map Csv.field (columns w)) as [|c cs]; cbn [String.concat].
  - eexists. rewrite append_assoc. reflexivity.
  - eexists. rewrite !append_assoc. reflexivity.
Qed.

(** * The claims *)

(** ** C1 *)

(** C1.  In both files, [patch_today] leaves the today cell of a board of
    the table unchanged whenever the new cell of that board is missing
    (NaN) or the empty string (where the table had no today column yet,
    the cell is created blank); only a board whose new cell is a non-empty
    string has its today cell overwritten, with that string. *)
Theorem patch_today_blank_keeps_today (to_dt : string -> option Z) :
  today_kept_on_blank (bk_data_ind.patch_today to_dt) round_new_cell
  /\ today_kept_on_blank (bk_fetch_data.patch_today to_dt) vis_new_cell.
Proof.
  split; intros W D today W' k H Hk.
  - destruct (round_patch_inv to_dt _ _ _ _ H)
      as (_ & Hidx & _ & _ & Htoday & _ & _).
    assert (Hk' : In k (index W')) by (rewrite Hidx; apply in_or_app; now left).
    specialize (Htoday k Hk'). unfold round_new_cell.
    split; intros Hnb; rewrite Hnb in Htoday; [|assumption].
    split; intros Hc.
    + apply mem_In in Hc. now rewrite Hc in Htoday.
    + apply mem_notin in Hc. rewrite Hc in Htoday. now rewrite Htoday.
  - destruct (vis_patch_inv to_dt _ _ _ _ H)
      as (_ & _ & _ & _ & Htoday & _ & _ & _).
    specialize (Htoday k Hk). unfold vis_new_cell.
    split; intros Hnb; rewrite Hnb in Htoday.
    + split; intros Hc.
      * apply mem_In in Hc. now rewrite Hc in Htoday.
      * apply mem_notin in Hc. rewrite Hc in Htoday. now rewrite Htoday.
    + now destruct (PyStr.mem today (columns W)).
Qed.

(** A board the snapshot lacks keeps its today cell in both files. *)
Lemma patch_today_blank_keeps_today_witness :
  (exists W', bk_data_ind.patch_today iso_day ex_wide ex_today "2024-01-03" = Ok W'
              /\ cell_at W' "BK2|B" "2024-01-03" = Some "1|3.00|20")
  /\ (exists W', bk_fetch_data.patch_today iso_day ex_wide ex_full "2024-01-03" = Ok W'
                 /\ cell_at W' "BK2|B" "2024-01-03" = Some "1|3.00|20").
Proof.
  split.
  - eexists. split; [reflexivity|].
    refine (proj1 (proj1 (proj1 (patch_today_blank_keeps_today iso_day)
                            ex_wide ex_today "2024-01-03" _ "BK2|B" eq_refl _) _) _).
    + simpl. tauto.
    + reflexivity.
    + simpl. tauto.
  - eexists. split; [reflexivity|].
    refine (proj1 (proj1 (proj2 (patch_today_blank_keeps_today iso_day)
                            ex_wide ex_full "2024-01-03" _ "BK2|B" eq_refl _) _) _).
    + simpl. tauto.
    + reflexivity.
    + simpl. tauto.
Defined.

(** ** C2 *)

(** C2.  In both files, [patch_today] changes no cell outside the today
    column for a board of the table: the board and the column are still
    there and the cell reads the same (the column may have moved). *)
Theorem patch_today_past_cells (to_dt : string -> option Z) :
  past_cells_kept (bk_data_ind.patch_today to_dt)
  /\ past_cells_kept (bk_fetch_data.patch_today to_dt).
Proof.
  split; intros W D today W' k c H Hk Hc Hne.
  - destruct (round_patch_inv to_dt _ _ _ _ H)
      as (_ & Hidx & Hcols & Hother & _ & _ & _).
    split; [rewrite Hidx; apply in_or_app; now left|].
    split; [apply Hcols; now right | now apply Hother].
  - destruct (vis_patch_inv to_dt _ _ _ _ H)
      as (_ & Hidx & Hcols & Hother & _ & _ & _ & _).
    split; [now rewrite Hidx|].
    split; [apply Hcols; now right | now apply Hother].
Qed.

Lemma patch_today_past_cells_witness :
  (exists W', bk_data_ind.patch_today iso_day ex_wide ex_today "2024-01-04" = Ok W'
              /\ In "BK1|A" (index W') /\ In "2024-01-02" (columns W')
              /\ cell_at W' "BK1|A" "2024-01-02" = Some "1|2.00|9")
  /\ (exists W', bk_fetch_data.patch_today iso_day ex_wide ex_today "2024-01-04" = Ok W'
                 /\ In "BK1|A" (index W') /\ In "2024-01-02" (columns W')
                 /\ cell_at W' "BK1|A" "2024-01-02" = Some "1|2.00|9").
Proof.
  split.
  - eexists. split; [reflexivity|].
    refine (proj1 (patch_today_past_cells iso_day)
              ex_wide ex_today "2024-01-04" _ "BK1|A" "2024-01-02" eq_refl _ _ _).
    + simpl. tauto.
    + simpl. tauto.
    + discriminate.
  - eexists. split; [reflexivity|].
    refine (proj2 (patch_today_past_cells iso_day)
              ex_wide ex_today "2024-01-04" _ "BK1|A" "2024-01-02" eq_refl _ _ _).
    + simpl. tauto.
    + simpl. tauto.
    + discriminate.
Defined.

(** ** C8 *)

(** C8.  [patch_today] is idempotent on the CSV file in both files: a
    second call with the same snapshot and column leaves the file as the
    first call left it.  In [round/bk_data_ind.py] the second call writes
    the very table the first one wrote; in [bk_vis/bk_fetch_data.py] it
    writes that table or raises and writes nothing.  The same holds when
    the second call patches the file read back from disk, where an empty
    field is NaN: the bytes written are those of the first call. *)
Theorem patch_today_idempotent (to_dt : string -> option Z) :
  idempotent_on_file (bk_data_ind.patch_today to_dt)
  /\ idempotent_on_file (bk_fetch_data.patch_today to_dt)
  /\ (forall W D today W1,
        bk_data_ind.patch_today to_dt W D today = Ok W1 ->
        bk_data_ind.patch_today to_dt W1 D today = Ok W1)
  /\ (forall W D today W1,
        bk_data_ind.patch_today to_dt W D today = Ok W1 ->
        exists W2,
          bk_data_ind.patch_today to_dt (read_csv W1) D today = Ok W2
          /\ bk_data_ind.to_csv W2 = bk_data_ind.to_csv W1)
  /\ (forall W D today W1 W2,
        bk_fetch_data.patch_today to_dt W D today = Ok W1 ->
        bk_fetch_data.patch_today to_dt (read_csv W1) D today = Ok W2 ->
        bk_fetch_data.to_csv W2 = bk_fetch_data.to_csv W1).
Proof.
  split; [|split; [|split; [|split]]].
  - intros W D today.
    destruct (bk_data_ind.patch_today to_dt W D today) as [W1|e] eqn:H1; simpl.
    + now rewrite (round_patch_twice to_dt _ _ _ _ H1).
    + now rewrite H1.
  - intros W D today.
    destruct (bk_fetch_data.patch_today to_dt W D today) as [W1|e] eqn:H1; simpl.
    + destruct (bk_fetch_data.patch_today to_dt W1 D today) as [W2|e] eqn:H2; simpl;
        [|reflexivity].
      apply (vis_patch_twice to_dt _ _ _ _ _ H1 H2).
    + now rewrite H1.
  - apply round_patch_twice.
  - apply round_patch_reread.
  - apply vis_patch_reread.
Qed.

Lemma patch_today_idempotent_witness :
  exists W1,
    bk_data_ind.patch_today iso_day ex_wide ex_today "2024-01-04" = Ok W1
    /\ bk_data_ind.patch_today iso_day W1 ex_today "2024-01-04" = Ok W1.
Proof.
  eexists. split; [reflexivity|].
  exact (proj1 (proj2 (proj2 (patch_today_idempotent iso_day)))
           ex_wide ex_today "2024-01-04" _ eq_refl).
Defined.

(** ** C7 *)

(** C7.  [fmt_cell] returns the empty string exactly when every field is
    absent ([None] for the rank; [None] or NaN for [pct], [value] and
    [turnover]; [None] or empty for the counts and the leader), and else
    the renderings of its fields joined by ['|'] in their positions: the
    rank as an integer, [pct] with two decimals, the value with four
    decimals less its trailing zeros (and point).  A present field never
    renders empty, so the empty cell arises from no present field. *)
Theorem fmt_cell_empty_iff_absent :
  (forall rank pct close,
      bk_fetch_data.fmt_cell rank pct close = CellSpec.cell3 rank pct close
      /\ (bk_fetch_data.fmt_cell rank pct close = EmptyString
          <-> rank = None /\ CellSpec.absent pct = true
              /\ CellSpec.absent close = true))
  /\ (forall rank pct close turnover up down leader,
        bk_data_ind.fmt_cell rank pct close turnover up down leader
        = CellSpec.cell7 rank pct close turnover up down leader
        /\ (bk_data_ind.fmt_cell rank pct close turnover up down leader
            = EmptyString
            <-> rank = None /\ CellSpec.absent pct = true
                /\ CellSpec.absent close = true
                /\ CellSpec.absent turnover = true
                /\ CellSpec.absent_val up = true
                /\ CellSpec.absent_val down = true
                /\ CellSpec.absent_str leader = true))
  /\ (forall k, CellSpec.render_rank (Some k) <> EmptyString)
  /\ (forall o, CellSpec.render_pct o = EmptyString <-> CellSpec.absent o = true)
  /\ (forall o, CellSpec.render_value o = EmptyString <-> CellSpec.absent o = true)
  /\ (forall neg m e, exists i f,
        CellSpec.render_pct (Some (FFin neg m e))
        = ((if neg then "-" else EmptyString) ++ i ++ "." ++ f)%string
        /\ i <> EmptyString /\ CellSpec.all_digits i = true
        /\ String.length f = 2 /\ CellSpec.all_digits f = true)
  /\ (forall x, isnan x = false ->
        exists z1 z2,
          format_fixed 4 x = (CellSpec.render_value (Some x) ++ z1 ++ z2)%string
          /\ CellSpec.all_char "." z1 = true /\ CellSpec.all_char "0" z2 = true).
Proof.
  split; [|split; [|split; [|split; [|split; [|split]]]]].
  - intros rank pct close. split; [apply fmt_cell3_spec|].
    rewrite fmt_cell3_spec. unfold CellSpec.cell3.
    destruct rank as [k|].
    + split; [intros H; now apply join_nonempty in H | intros [H _]; discriminate].
    + destruct (CellSpec.absent pct), (CellSpec.absent close); cbn [andb];
        (split; [intros H; try (now apply join_nonempty in H); repeat split
                | intros (_ & Hp & Hc); try discriminate; reflexivity]).
  - intros rank pct close turnover up down leader. split; [apply fmt_cell7_spec|].
    rewrite fmt_cell7_spec. unfold CellSpec.cell7.
    destruct rank as [k|].
    + split; [intros H; now apply join_nonempty in H | intros [H _]; discriminate].
    + destruct (CellSpec.absent pct), (CellSpec.absent close),
        (CellSpec.absent turnover), (CellSpec.absent_val up),
        (CellSpec.absent_val down), (CellSpec.absent_str leader); cbn [andb];
        (split; [intros H; try (now apply join_nonempty in H); repeat split
                | intros (_ & H1 & H2 & H3 & H4 & H5 & H6);
                  try discriminate; reflexivity]).
  - intros k. apply str_int_nonempty.
  - intros o. rewrite <- render_pct_eqb. symmetry. apply eqb_empty.
  - intros o. rewrite <- render_value_eqb. symmetry. apply eqb_empty.
  - intros neg m e. rewrite render_pct_eq. simpl isnan. cbv iota.
    apply format_fixed_shape.
  - intros x Hx. rewrite render_value_eq, Hx. apply value_prefix.
Qed.

(** Sample cells. *)
Example fmt_cell_samples :
  bk_fetch_data.fmt_cell (Some 3%Z) (Some (of_scaled (-5) 2)) (Some (of_scaled 2049 1))
  = "3|-1.25|1024.5"
  /\ bk_fetch_data.fmt_cell None (Some FNaN) (Some (of_Z 1000)) = "||1000"
  /\ bk_fetch_data.fmt_cell None (Some FNaN) None = EmptyString
  /\ bk_data_ind.fmt_cell (Some 1%Z) (Some (of_Z 2)) (Some (of_Z 30))
       (Some (of_scaled 1 3)) (VInt 12) (VStr EmptyString) (Some "X")
     = "1|2.00|30|0.12|12||X"
  /\ bk_data_ind.fmt_cell None None (Some FNaN) None VNone (VStr EmptyString)
       (Some EmptyString) = EmptyString.
Proof. repeat split. Qed.

(** ** C10 *)

(** C10.  After the rank assignment of [write_baseline] (and of the
    long-format assembler of [rank_get_value.py], which ranks the rows
    sorted by date and code), the ranks given inside each trade date to
    the boards that have a [pct_chg] are exactly 1, ..., k, where k is the
    number of such boards on that date; a board with a strictly greater
    [pct_chg] has a strictly smaller rank than one with a lower value on
    the same date; a board without [pct_chg] has no rank. *)
Theorem ranks_dense_and_ordered (rows : list long_row) :
  ranked_by_date rows (long_ranks rows)
  /\ ranked_by_date (rank_get_value.sort_values rows) (rank_get_value.ranks rows).
Proof.
  split; [apply group_ranks_by_date|].
  unfold rank_get_value.ranks. apply group_ranks_by_date.
Qed.

(** ** C9 *)

(** C9.  [parse_triplet] returns a triple on every cell and never raises:
    NaN, a cell with fewer than three ['|']-separated fields (the empty
    string is one) or with a field among the first three that [float]
    refuses gives (NaN, NaN, NaN); a cell whose first three fields are
    numbers (the rank not [+inf], on which [int] overflows and the result
    is again all NaN) gives the rank, [pct / 100] and the value, where the
    rank is an [int] when the number is positive and integral. *)
Theorem parse_triplet_total
    (float_of_str : string -> option pyfloat) (div100 : pyfloat -> pyfloat) :
  (forall cell, exists t,
      bk_top_range.parse_triplet float_of_str div100 cell = Ok t)
  /\ bk_top_range.parse_triplet float_of_str div100 None = Ok bk_top_range.nan3
  /\ (forall s, TripletSpec.malformed float_of_str s ->
        bk_top_range.parse_triplet float_of_str div100 (Some s)
        = Ok bk_top_range.nan3)
  /\ (forall s p0 rest,
        PyStr.split "|" s = p0 :: rest ->
        float_of_str p0 = Some (FInf false) ->
        bk_top_range.parse_triplet float_of_str div100 (Some s)
        = Ok bk_top_range.nan3)
  /\ (forall s p0 p1 p2 rest x0 x1 x2,
        PyStr.split "|" s = p0 :: p1 :: p2 :: rest ->
        float_of_str p0 = Some x0 -> float_of_str p1 = Some x1 ->
        float_of_str p2 = Some x2 ->
        x0 <> FInf false ->
        bk_top_range.parse_triplet float_of_str div100 (Some s)
        = Ok (TripletSpec.rank_of x0, div100 x1, x2))
  /\ (forall x i,
        bk_top_range.gt0 x = true -> TripletSpec.is_int x i ->
        TripletSpec.rank_of x = bk_top_range.RankInt i).
Proof.
  split; [apply parse_triplet_returns|]. split; [reflexivity|].
  split; [apply parse_malformed|]. split; [apply parse_overflow|].
  split; [apply parse_valid | apply rank_of_int].
Qed.

Lemma parse_triplet_total_witness :
  bk_top_range.parse_triplet ex_float ex_div100 (Some "3|150|1024.5")
  = Ok (bk_top_range.RankInt 3, of_scaled 3 1, of_scaled 2049 1)
  /\ bk_top_range.parse_triplet ex_float ex_div100 (Some "3|150")
     = Ok bk_top_range.nan3
  /\ bk_top_range.parse_triplet ex_float ex_div100 (Some "3|x|1024.5")
     = Ok bk_top_range.nan3.
Proof.
  pose proof (parse_triplet_total ex_float ex_div100) as (_ & _ & Hbad & _ & Hok & _).
  split; [|split].
  - exact (Hok "3|150|1024.5" "3" "150" "1024.5" [] (of_Z 3) (of_Z 150)
             (of_scaled 2049 1) eq_refl eq_refl eq_refl eq_refl
             (fun H => eq_ind (of_Z 3)
                         (fun x => match x with FInf _ => False | _ => True end)
                         I _ H)).
  - apply Hbad. left. simpl. lia.
  - apply Hbad. right. exists 1, "x". repeat split. lia.
Defined.

Example parse_triplet_samples :
  bk_top_range.parse_triplet ex_float ex_div100 (Some EmptyString)
  = Ok bk_top_range.nan3
  /\ bk_top_range.parse_triplet ex_float ex_div100 (Some "inf|150|3")
     = Ok bk_top_range.nan3
  /\ bk_top_range.parse_triplet ex_float ex_div100 (Some "1024.5|150|3|x|y")
     = Ok (bk_top_range.RankNaN, of_scaled 3 1, of_Z 3).
Proof. repeat split. Qed.

(** ** C6 *)

(** C6.  In both files [build_csv] takes the baseline branch (it prints
    the bootstrap stage) if and only if the CSV file does not exist or
    reads back as an empty table.  A baseline run asks, after the board
    list, only for the history of [2 * n_days] days up to today, at least
    once for every board when nothing interrupts it, and writes the table
    [write_baseline] makes of the histories it fetched.  Any other run
    asks only for the list of today or, board by board, for the single
    current day, and writes the table [patch_today] makes, for the today
    column, of the table read and of the snapshot it fetched; the
    per-board mode hands over the rows of the listed boards.  A run that
    fetched nothing writes nothing.  What the board-by-board runs write is
    stated for a list of distinct codes. *)
Theorem build_csv_baseline_iff_no_table
    (to_dt : string -> option Z) (to_date : string -> option date) :
  RunSpec.baseline_iff_no_table
    (bk_fetch_data.build_csv to_dt to_date)
    (bk_fetch_data.write_baseline to_date) (bk_fetch_data.patch_today to_dt)
  /\ RunSpec.baseline_iff_no_table
       (bk_data_ind.build_csv to_dt to_date)
       (bk_data_ind.write_baseline to_date) (bk_data_ind.patch_today to_dt).
Proof.
  split; apply build_csv_branch.
Qed.

Lemma build_csv_baseline_iff_no_table_witness :
  In (Pipeline.EvStage Pipeline.Bootstrap)
    (Pipeline.trace (bk_data_ind.build_csv iso_day iso_date ex_world 2 "list" None))
  /\ ~ In (Pipeline.EvStage Pipeline.Bootstrap)
         (Pipeline.trace
            (bk_fetch_data.build_csv iso_day iso_date ex_world 2 "list" (Some ex_wide)))
  /\ RunSpec.list_run (bk_fetch_data.patch_today iso_day) ex_world (Some ex_wide)
       (bk_fetch_data.build_csv iso_day iso_date ex_world 2 "list" (Some ex_wide))
  /\ RunSpec.his_run (bk_data_ind.patch_today iso_day) ex_world (Some ex_wide)
       (bk_data_ind.build_csv iso_day iso_date ex_world 2 "his" (Some ex_wide)).
Proof.
  split; [|split; [|split]].
  - exact (proj2 (proj1 (proj2 (build_csv_baseline_iff_no_table iso_day iso_date)
                           ex_world 2%Z "list" None)) eq_refl).
  - intros H.
    pose proof (proj1 (proj1 (proj1 (build_csv_baseline_iff_no_table iso_day iso_date)
                                ex_world 2%Z "list" (Some ex_wide))) H) as Hb.
    discriminate Hb.
  - exact (proj2 (proj2 (proj1 (build_csv_baseline_iff_no_table iso_day iso_date)
                           ex_world 2%Z "list" (Some ex_wide))) eq_refl).
  - exact (proj2 (proj2 (proj2 (build_csv_baseline_iff_no_table iso_day iso_date)
                           ex_world 2%Z "his" (Some ex_wide))) eq_refl).
Defined.

(** ** C3 *)

(** C3 fails in the per-board mode.  The table on file has the board
    [BK2|B]; the board list of the run no longer has it; in the mode
    ["his"] both files reindex the table by the board list and write a
    table without that board. *)
Lemma build_csv_his_drops_board :
  In "BK2|B" (index ex_wide)
  /\ (exists t,
        Pipeline.csv (bk_fetch_data.build_csv iso_day iso_date ex_world 90 "his"
                        (Some ex_wide)) = Some t
        /\ index t = ["BK1|A"; "BK3|C"] /\ ~ In "BK2|B" (index t))
  /\ (exists t,
        Pipeline.csv (bk_data_ind.build_csv iso_day iso_date ex_world 90 "his"
                        (Some ex_wide)) = Some t
        /\ index t = ["BK1|A"; "BK3|C"] /\ ~ In "BK2|B" (index t)).
Proof.
  split; [simpl; tauto|].
  split; eexists; (split; [reflexivity|]); (split; [reflexivity|]);
    simpl; intuition discriminate.
Qed.

(** The list mode of both files keeps every board of the file. *)
Lemma build_csv_list_keeps_boards
    (to_dt : string -> option Z) (to_date : string -> option date)
    (w : Pipeline.world) (n_days : Z) (f : frame) (k : string) :
  RunSpec.needs_baseline (Some f) = false ->
  In k (index f) ->
  (exists t,
      Pipeline.csv (bk_fetch_data.build_csv to_dt to_date w n_days "list" (Some f))
      = Some t /\ In k (index t))
  /\ (exists t,
        Pipeline.csv (bk_data_ind.build_csv to_dt to_date w n_days "list" (Some f))
        = Some t /\ In k (index t)).
Proof.
  intros Hnb Hk. split.
  - apply list_mode_keeps_boards; try assumption.
    intros W D today W' k0. apply vis_patch_keeps_rows.
  - apply list_mode_keeps_boards; try assumption.
    intros W D today W' k0. apply round_patch_keeps_rows.
Qed.

(** ** C4 *)

(** C4 holds in [round/bk_data_ind.py]: one new row per new board, empty
    outside the today column, and the rows of the boards the snapshot
    lacks are kept. *)
Lemma round_patch_today_appends (to_dt : string -> option Z) :
  appends_new_boards (bk_data_ind.patch_today to_dt).
Proof. apply round_appends. Qed.

(** C4 fails in [bk_vis/bk_fetch_data.py]: the snapshot has the boards
    [BK3|C] and [BK0|Z], which the table lacks, and the call writes a
    table with the rows it had, no more. *)
Lemma vis_patch_today_drops_new_boards :
  In "BK3|C" (today_keys ex_today) /\ ~ In "BK3|C" (index ex_wide)
  /\ exists W',
       bk_fetch_data.patch_today iso_day ex_wide ex_today "2024-01-04" = Ok W'
       /\ index W' = index ex_wide /\ ~ In "BK3|C" (index W').
Proof.
  split; [simpl; tauto|]. split; [simpl; intuition discriminate|].
  eexists. split; [reflexivity|]. split; [reflexivity|].
  simpl. intuition discriminate.
Qed.

(** No call of [bk_vis/bk_fetch_data.py]'s [patch_today] adds a row. *)
Lemma vis_patch_today_never_appends (to_dt : string -> option Z)
    (W : frame) (D : today_df) (today : string) (W' : frame) :
  bk_fetch_data.patch_today to_dt W D today = Ok W' -> index W' = index W.
Proof.
  intros H. now destruct (vis_patch_inv to_dt _ _ _ _ H) as (_ & Hidx & _).
Qed.

(** ** C5 *)

(** C5.  A table written by [patch_today] (either file) has its date
    columns first, in strictly ascending date order, and the columns that
    are no dates after them, provided distinct column names stand for
    distinct dates, as the names [YYYY-MM-DD] the pipeline writes do.  A
    table written by [write_baseline] (either file) has for columns the
    distinct trade dates written as [YYYY-MM-DD] in strictly ascending
    order, the dates being of four-digit year.  Both are written with
    [encoding="utf-8-sig"] and [index_label="row_key"]: the bytes start
    with the byte order mark and the header starts with [row_key]. *)
Theorem written_columns_ascending
    (to_dt : string -> option Z) (to_date : string -> option date) :
  (forall W D today W',
      bk_fetch_data.patch_today to_dt W D today = Ok W'
      \/ bk_data_ind.patch_today to_dt W D today = Ok W' ->
      ColumnSpec.distinct_dates to_dt (ColumnSpec.final_columns W today) = true ->
      ColumnSpec.dates_first to_dt (columns W'))
  /\ (forall all_rows t,
        bk_fetch_data.write_baseline to_date all_rows = Ok t
        \/ bk_data_ind.write_baseline to_date all_rows = Ok t ->
        ColumnSpec.valid_input to_date all_rows = true ->
        exists ds,
          columns t = map strftime ds /\ ColumnSpec.dates_ascending ds = true)
  /\ (forall w,
        ColumnSpec.bom_row_key (bk_fetch_data.to_csv w)
        /\ ColumnSpec.bom_row_key (bk_data_ind.to_csv w)).
Proof.
  split; [|split].
  - intros W D today W' [H|H] Hd.
    + destruct (vis_patch_inv to_dt _ _ _ _ H) as (_ & _ & _ & _ & _ & _ & Hc & _).
      simpl in Hc. rewrite Hc. now apply sorted_columns_dates_first.
    + destruct (round_patch_inv to_dt _ _ _ _ H) as (_ & _ & _ & _ & _ & Hc & _).
      simpl in Hc. rewrite Hc. now apply sorted_columns_dates_first.
  - intros all_rows t [H|H] Hv;
      eapply write_baseline_columns; try exact H; assumption.
  - intros w. split; apply utf8_sig_row_key.
Qed.

Lemma written_columns_ascending_witness :
  ColumnSpec.dates_first iso_day ["2024-01-02"; "2024-01-03"; "2024-01-04"; "note"]
  /\ exists t ds,
       bk_fetch_data.write_baseline iso_date ex_hist = Ok t
       /\ columns t = ["2024-01-02"; "2024-01-03"]
       /\ columns t = map strftime ds
       /\ ColumnSpec.dates_ascending ds = true.
Proof.
  pose proof (written_columns_ascending iso_day iso_date) as (Hp & Hb & _).
  split.
  - exact (Hp ex_wide ex_today "2024-01-04" _ (or_intror eq_refl) eq_refl).
  - destruct (Hb ex_hist _ (or_introl eq_refl) eq_refl) as (ds & Hc & Ha).
    eexists. exists ds. split; [reflexivity|]. split; [reflexivity|].
    split; assumption.
Defined.

Lemma ranks_dense_and_ordered_witness :
  long_ranks ex_long = [Some 2; Some 1; Some 1; None]
  /\ Permutation (ranks_of_date ex_long (mkDate 2024 1 2)) (seq 1 2)
  /\ exists a b,
       nth_error (long_ranks ex_long) 1 = Some (Some a)
       /\ nth_error (long_ranks ex_long) 0 = Some (Some b)
       /\ a < b.
Proof.
  pose proof (proj1 (ranks_dense_and_ordered ex_long)) as (Hperm & Hmono & _).
  split; [reflexivity|]. split.
  - exact (Hperm (mkDate 2024 1 2)).
  - exact (Hmono 1 0 _ _ eq_refl eq_refl eq_refl eq_refl).
Defined.

(** A column of floats as pandas ranks it: the greatest first, ties in
    their order, NaN without a rank. *)
Example rank_floats_sample :
  Rank.rank_floats [of_Z 1; FNaN; of_Z 3; of_Z 1; FInf false; of_scaled 4 2]
  = [Some 3; None; Some 2; Some 4; Some 1; Some 5].
Proof. reflexivity. Qed.
(** ** Kline rows *)

Lemma split_length (c : ascii) (s : string) :
  List.length (PyStr.split c s) = S (count_char c s).
Proof.
  induction s as [|a t IH]; [reflexivity|]. simpl.
  destruct (Ascii.eqb a c); simpl; [now rewrite IH|].
  destruct (PyStr.split c t) as [|h tl]; [discriminate IH|]. exact IH.
Qed.

Lemma split_head (c : ascii) (s : string) :
  nth 0 (PyStr.split c s) EmptyString = before c s.
Proof.
  induction s as [|a t IH]; [reflexivity|]. simpl.
  destruct (Ascii.eqb a c); [reflexivity|].
  pose proof (split_length c t) as Hl.
  destruct (PyStr.split c t) as [|h tl]; [discriminate Hl|].
  simpl in *. now rewrite IH.
Qed.

Section KlineFacts.

Variable float_of_str : string -> option pyfloat.

Lemma parse_klines_from_app (rows : list string) (recs : list krec) :
  Eastmoney._parse_klines_from float_of_str rows recs
  = recs ++ somes (map (Eastmoney.kline_rec float_of_str) rows).
Proof.
  revert recs. induction rows as [|row t IH]; intros recs; simpl.
  - now rewrite app_nil_r.
  - destruct (Eastmoney.kline_rec float_of_str row) as [r|]; rewrite IH;
      [now rewrite <- app_assoc | reflexivity].
Qed.

Lemma rank_parse_klines_from_app (rows : list string)
    (recs : list (string * pyfloat)) :
  rank_get_value._parse_klines_from float_of_str rows recs
  = recs ++ somes (map (rank_get_value.kline_rec float_of_str) rows).
Proof.
  revert recs. induction rows as [|row t IH]; intros recs; simpl.
  - now rewrite app_nil_r.
  - destruct (rank_get_value.kline_rec float_of_str row) as [r|]; rewrite IH;
      [now rewrite <- app_assoc | reflexivity].
Qed.

Lemma kline_rec_none (row : string) :
  Eastmoney.kline_rec float_of_str row = None <-> count_char "," row < 10.
Proof.
  unfold Eastmoney.kline_rec. rewrite split_length.
  destruct (Nat.leb_spec 11 (S (count_char "," row))); split; intros H';
    try discriminate; try reflexivity; lia.
Qed.

Lemma rank_kline_rec_none (row : string) :
  rank_get_value.kline_rec float_of_str row = None <-> count_char "," row < 8.
Proof.
  unfold rank_get_value.kline_rec. rewrite split_length.
  destruct (Nat.leb_spec 9 (S (count_char "," row))); split; intros H';
    try discriminate; try reflexivity; lia.
Qed.

End KlineFacts.
(** ** The paging loop *)

Lemma key_eqb_eq (a b : string * string) :
  Eastmoney.key_eqb a b = true <-> a = b.
Proof.
  destruct a as [a1 a2], b as [b1 b2]. unfold Eastmoney.key_eqb. simpl.
  rewrite andb_true_iff, !String.eqb_eq. split.
  - now intros [-> ->].
  - intros H. injection H as -> ->. now split.
Qed.

Lemma seen_mem_In (k : string * string) (seen : list (string * string)) :
  Eastmoney.seen_mem k seen = true <-> In k seen.
Proof.
  unfold Eastmoney.seen_mem. rewrite existsb_exists. split.
  - intros (x & Hx & He). apply key_eqb_eq in He. now subst.
  - intros H. exists k. split; [assumption | now apply key_eqb_eq].
Qed.

Lemma named_nonempty (it : Eastmoney.list_item) (code name : string) :
  Eastmoney.named it = Some (code, name) ->
  Eastmoney.f12 it = Some code /\ Eastmoney.f14 it = Some name
  /\ code <> EmptyString /\ name <> EmptyString.
Proof.
  unfold Eastmoney.named.
  destruct (Eastmoney.f12 it) as [c|]; [|discriminate].
  destruct (Eastmoney.f14 it) as [n|]; [|discriminate].
  destruct (String.eqb_spec c EmptyString) as [|Hc]; [discriminate|].
  destruct (String.eqb_spec n EmptyString) as [|Hn]; [discriminate|].
  simpl. intros H. injection H as <- <-. now repeat split.
Qed.

Section PagingFacts.

Variable R : Type.
Variable make : Eastmoney.list_item -> string -> string -> R.
Variable http : nat -> exc Eastmoney.body.

Lemma made_from_mono (src src' : Eastmoney.list_item -> Prop) (r : R)
    (k : string * string) :
  (forall it, src it -> src' it) -> made_from make src r k -> made_from make src' r k.
Proof.
  intros Hs (it & Hi & Hn & Hr). exists it. auto.
Qed.

Lemma Forall2_made_mono (src src' : Eastmoney.list_item -> Prop)
    (rows : list R) (seen : list (string * string)) :
  (forall it, src it -> src' it) ->
  Forall2 (made_from make src) rows seen -> Forall2 (made_from make src') rows seen.
Proof.
  intros Hs H. induction H; constructor; eauto using made_from_mono.
Qed.

Lemma fold_add_spec (src : Eastmoney.list_item -> Prop)
    (l : list Eastmoney.list_item) (st : list R * list (string * string)) :
  NoDup (snd st) ->
  Forall2 (made_from make src) (fst st) (snd st) ->
  (forall it, In it l -> src it) ->
  let st' := fold_left (bk_data_ind.add_item make) l st in
  NoDup (snd st')
  /\ Forall2 (made_from make src) (fst st') (snd st')
  /\ (forall k, In k (snd st') <->
                In k (snd st) \/ exists it, In it l /\ Eastmoney.named it = Some k).
Proof.
  revert st. induction l as [|it t IH]; intros st Hnd Hf Hsrc; simpl.
  - split; [assumption|]. split; [assumption|].
    intros k. split; [now left | intros [H|(it & [] & _)]; assumption].
  - assert (Hstep :
      NoDup (snd (bk_data_ind.add_item make st it))
      /\ Forall2 (made_from make src) (fst (bk_data_ind.add_item make st it))
           (snd (bk_data_ind.add_item make st it))
      /\ (forall k, In k (snd (bk_data_ind.add_item make st it)) <->
                    In k (snd st) \/ Eastmoney.named it = Some k)).
    { unfold bk_data_ind.add_item.
      destruct (Eastmoney.named it) as [[code name]|] eqn:Hn.
      - destruct (Eastmoney.seen_mem (code, name) (snd st)) eqn:Hm.
        + split; [assumption|]. split; [assumption|].
          intros k. split; [now left|]. intros [H|H]; [assumption|].
          injection H as <-. now apply seen_mem_In.
        + assert (Hnot : ~ In (code, name) (snd st)).
          { intros H. apply seen_mem_In in H. congruence. }
          simpl. split; [|split].
          * apply NoDup_app_remove_l with (l := []). simpl.
            apply Permutation_NoDup with (l := (code, name) :: snd st).
            -- apply Permutation_cons_append.
            -- now constructor.
          * apply Forall2_app; [assumption|]. constructor; [|constructor].
            exists it. split; [apply Hsrc; now left|]. now split.
          * intros k. rewrite in_app_iff. simpl. split.
            -- intros [H|[H|[]]]; [now left | right; now f_equal].
            -- intros [H|H]; [now left|]. right. left. now injection H.
      - split; [assumption|]. split; [assumption|].
        intros k. split; [now left | intros [H|H]; [assumption|discriminate]]. }
    destruct Hstep as (Hnd1 & Hf1 & Hin1).
    destruct (IH _ Hnd1 Hf1 (fun it' H => Hsrc it' (or_intror H)))
      as (Hnd2 & Hf2 & Hin2).
    split; [assumption|]. split; [assumption|].
    intros k. rewrite Hin2, Hin1. split.
    + intros [[H|H]|(it' & Hi & Hk)]; [now left | right; exists it; split; [now left|assumption] |].
      right. exists it'. split; [now right | assumption].
    + intros [H|(it' & [->|Hi] & Hk)]; [left; now left | left; now right |].
      right. now exists it'.
Qed.

(** The state after the pages [pns], all answered. *)
Lemma fold_add_app (l1 l2 : list Eastmoney.list_item)
    (st : list R * list (string * string)) :
  fold_left (bk_data_ind.add_item make) (l1 ++ l2) st
  = fold_left (bk_data_ind.add_item make) l2
      (fold_left (bk_data_ind.add_item make) l1 st).
Proof. apply fold_left_app. Qed.

Lemma pages_spec (left pn : nat) (st : list R * list (string * string))
    (asked : list nat) (res : outcome (list R)) (asked' : list nat) :
  bk_data_ind.pages make http left pn st asked = (res, asked') ->
  exists j,
    j <= left /\ asked' = asked ++ seq pn j
    /\ (forall i, S i < j ->
          exists b, http (pn + i) = Ok b /\ page_items http (pn + i) <> [])
    /\ match res with
       | Returns rows =>
           rows = fst (fold_left (bk_data_ind.add_item make)
                         (flat_map (page_items http) (seq pn j)) st)
           /\ (forall i, i < j -> exists b, http (pn + i) = Ok b)
           /\ (j < left ->
               exists b, 0 < j /\ http (pn + (j - 1)) = Ok b
                 /\ (page_items http (pn + (j - 1)) = []
                     \/ bk_data_ind.got_all
                          (Eastmoney.total (Eastmoney.data_or_empty b)) rows = true))
       | Raises e =>
           exists e', e = Lib e' /\ 0 < j /\ http (pn + (j - 1)) = Raise e'
       end.
Proof.
  revert pn st asked. induction left as [|left IH]; intros pn st asked H.
  - simpl in H. injection H as <- <-. exists 0. simpl.
    split; [lia|]. split; [now rewrite app_nil_r|]. split; [intros; lia|].
    split; [reflexivity|]. split; intros; lia.
  - simpl in H. destruct (http pn) as [b|e] eqn:Hp.
    + assert (Hpi : page_items http pn = Eastmoney.items (Eastmoney.data_or_empty b)).
      { unfold page_items. now rewrite Hp. }
      destruct (Eastmoney.items (Eastmoney.data_or_empty b)) as [|it its] eqn:Hit.
      * injection H as <- <-. exists 1. simpl.
        split; [lia|]. split; [reflexivity|]. split; [intros; lia|].
        rewrite Hpi. simpl. split; [reflexivity|]. split.
        -- intros i Hi. assert (i = 0) as -> by lia. rewrite Nat.add_0_r. eauto.
        -- intros _. exists b. rewrite Nat.add_0_r. split; [lia|].
           split; [assumption|]. left. assumption.
      * destruct (bk_data_ind.got_all _ _) eqn:Hg.
        -- injection H as <- <-. exists 1. simpl.
           split; [lia|]. split; [reflexivity|]. split; [intros; lia|].
           rewrite Hpi, app_nil_r. split; [reflexivity|]. split.
           ++ intros i Hi. assert (i = 0) as -> by lia. rewrite Nat.add_0_r. eauto.
           ++ intros _. exists b. rewrite Nat.add_0_r. split; [lia|].
              split; [assumption|]. right. assumption.
        -- apply IH in H. destruct H as (j & Hj & Ha & Hmid & Hres).
           exists (S j). split; [lia|].
           split; [rewrite Ha, <- app_assoc; reflexivity|]. split.
           ++ intros [|i] Hi.
              ** rewrite Nat.add_0_r. exists b. split; [assumption|].
                 rewrite Hpi. discriminate.
              ** destruct (Hmid i ltac:(lia)) as (b' & Hb' & Hne).
                 replace (pn + S i) with (S pn + i) by lia. eauto.
           ++ destruct res as [rows|e].
              ** destruct Hres as (Hrows & Hok & Hstop). split; [|split].
                 --- rewrite Hrows. simpl. rewrite fold_add_app, Hpi. reflexivity.
                 --- intros [|i] Hi; [rewrite Nat.add_0_r; eauto|].
                     replace (pn + S i) with (S pn + i) by lia. apply Hok. lia.
                 --- intros Hlt. destruct (Hstop ltac:(lia)) as (b' & Hj0 & Hb' & Hor).
                     exists b'. split; [lia|].
                     replace (pn + (S j - 1)) with (S pn + (j - 1)) by lia.
                     split; assumption.
              ** destruct Hres as (e' & He & Hj0 & Hr). exists e'.
                 split; [assumption|]. split; [lia|].
                 replace (pn + (S j - 1)) with (S pn + (j - 1)) by lia. assumption.
    + injection H as <- <-. exists 1. simpl.
      split; [lia|]. split; [reflexivity|]. split; [intros; lia|].
      exists e. split; [reflexivity|]. split; [lia|]. now rewrite Nat.add_0_r.
Qed.

(** What [paged] returns: rows made from items of the pages asked, one for
    each distinct key. *)
Lemma paged_spec (max_pages : nat) (rows : list R) (asked : list nat) :
  bk_data_ind.paged make http max_pages = (Returns rows, asked) ->
  exists seen,
    NoDup seen
    /\ Forall2 (made_from make (on_pages http asked)) rows seen
    /\ (forall k, In k seen <->
                  exists it, on_pages http asked it /\ Eastmoney.named it = Some k).
Proof.
  intros H. unfold bk_data_ind.paged in H. apply pages_spec in H.
  destruct H as (j & _ & Ha & _ & Hrows & _ & _). simpl in Ha. subst asked.
  pose proof (fold_add_spec (on_pages http (seq 1 j))
                (flat_map (page_items http) (seq 1 j)) ([], [])) as Hf.
  simpl in Hf. destruct Hf as (Hnd & Hf2 & Hin).
  - constructor.
  - constructor.
  - intros it Hi. apply in_flat_map in Hi. destruct Hi as (pn & Hpn & Hi).
    now exists pn.
  - exists (snd (fold_left (bk_data_ind.add_item make)
                   (flat_map (page_items http) (seq 1 j)) ([], []))).
    split; [assumption|]. split; [now rewrite Hrows|].
    intros k. rewrite Hin. split.
    + intros [[]|(it & Hi & Hk)]. exists it. split; [|assumption].
      apply in_flat_map in Hi. destruct Hi as (pn & Hpn & Hi). now exists pn.
    + intros (it & (pn & Hpn & Hi) & Hk). right. exists it. split; [|assumption].
      apply in_flat_map. now exists pn.
Qed.

End PagingFacts.

(** The pages [paged] asks for, and why it stops. *)
Lemma paged_pages {R : Type} (make : Eastmoney.list_item -> string -> string -> R)
    (http : nat -> exc Eastmoney.body) (max_pages : nat)
    (res : outcome (list R)) (asked : list nat) :
  bk_data_ind.paged make http max_pages = (res, asked) ->
  asked = seq 1 (last_asked asked)
  /\ last_asked asked <= max_pages
  /\ (forall pn, In pn asked -> pn <> last_asked asked ->
        exists b, http pn = Ok b /\ page_items http pn <> [])
  /\ (forall e, res = Raises e <->
                exists e', e = Lib e' /\ asked <> []
                           /\ http (last_asked asked) = Raise e')
  /\ (forall rows, res = Returns rows -> last_asked asked < max_pages ->
        exists b, asked <> [] /\ http (last_asked asked) = Ok b
          /\ (page_items http (last_asked asked) = []
              \/ bk_data_ind.got_all
                   (Eastmoney.total (Eastmoney.data_or_empty b)) rows = true)).
Proof.
  intros H. unfold bk_data_ind.paged in H. apply pages_spec in H.
  destruct H as (j & Hj & Ha & Hmid & Hres). simpl in Ha. subst asked.
  unfold last_asked. rewrite length_seq.
  split; [reflexivity|]. split; [assumption|]. split; [|split].
  - intros pn Hin Hne. apply in_seq in Hin.
    destruct (Hmid (pn - 1) ltac:(lia)) as (b & Hb & Hn).
    replace (1 + (pn - 1)) with pn in * by lia. eauto.
  - intros e. split.
    + intros ->. destruct Hres as (e' & He & Hj0 & Hr). exists e'.
      split; [assumption|]. split; [destruct j; [lia | discriminate]|].
      replace (1 + (j - 1)) with j in Hr by lia. assumption.
    + intros (e' & -> & Hne & Hr). destruct res as [rows|e].
      * destruct Hres as (_ & Hok & _).
        assert (Hj0 : 0 < j) by (destruct j; [now contradiction Hne | lia]).
        destruct (Hok (j - 1) ltac:(lia)) as (b & Hb).
        replace (1 + (j - 1)) with j in Hb by lia. congruence.
      * destruct Hres as (e2 & -> & Hj0 & Hr2).
        replace (1 + (j - 1)) with j in Hr2 by lia. congruence.
  - intros rows -> Hlt. destruct Hres as (_ & _ & Hstop).
    destruct (Hstop Hlt) as (b & Hj0 & Hb & Hor).
    replace (1 + (j - 1)) with j in * by lia. exists b.
    split; [destruct j; [lia | discriminate]|]. split; assumption.
Qed.

(** The item loop on items of distinct keys keeps them all. *)
Lemma fold_add_distinct (l : list Eastmoney.list_item)
    (st : list (string * string) * list (string * string)) :
  fst st = snd st ->
  NoDup (snd st ++ somes (map Eastmoney.named l)) ->
  fold_left (bk_data_ind.add_item (fun _ code name => (code, name))) l st
  = (fst st ++ somes (map Eastmoney.named l), snd st ++ somes (map Eastmoney.named l)).
Proof.
  revert st. induction l as [|it t IH]; intros [rows seen] Heq Hnd; simpl in *.
  - now rewrite !app_nil_r.
  - subst seen. unfold bk_data_ind.add_item at 2. simpl.
    destruct (Eastmoney.named it) as [[code name]|] eqn:Hn; simpl in *.
    + assert (Hm : Eastmoney.seen_mem (code, name) rows = false).
      { destruct (Eastmoney.seen_mem (code, name) rows) eqn:Hm; [|reflexivity].
        apply seen_mem_In in Hm. apply NoDup_remove_2 in Hnd.
        exfalso. apply Hnd. apply in_or_app. now left. }
      rewrite Hm. rewrite IH; simpl.
      * now rewrite <- !app_assoc.
      * reflexivity.
      * now rewrite <- app_assoc.
    + now apply IH.
Qed.

Lemma pages_S {R : Type} (make : Eastmoney.list_item -> string -> string -> R)
    (http : nat -> exc Eastmoney.body) (left pn : nat)
    (st : list R * list (string * string)) (asked : list nat) :
  bk_data_ind.pages make http (S left) pn st asked
  = match http pn with
    | Raise e => (Raises (Lib e), asked ++ [pn])
    | Ok b =>
        match Eastmoney.items (Eastmoney.data_or_empty b) with
        | [] => (Returns (fst st), asked ++ [pn])
        | _ :: _ =>
            let st' := fold_left (bk_data_ind.add_item make)
                         (Eastmoney.items (Eastmoney.data_or_empty b)) st in
            if bk_data_ind.got_all (Eastmoney.total (Eastmoney.data_or_empty b))
                 (fst st')
            then (Returns (fst st'), asked ++ [pn])
            else bk_data_ind.pages make http left (S pn) st' (asked ++ [pn])
        end
    end.
Proof. reflexivity. Qed.

Lemma flat_map_named (l : list Eastmoney.list_item) :
  flat_map (fun it => match Eastmoney.named it with
                      | Some b => [b]
                      | None => []
                      end) l
  = somes (map Eastmoney.named l).
Proof.
  induction l as [|it t IH]; [reflexivity|]. simpl.
  destruct (Eastmoney.named it); simpl; now rewrite IH.
Qed.
(** ** The snapshot and its new cells *)

Lemma has_dup_NoDup (l : list string) : PyStr.has_dup l = false <-> NoDup l.
Proof.
  induction l as [|k t IH]; simpl.
  - split; [constructor | reflexivity].
  - rewrite orb_false_iff, IH. split.
    + intros [Hk Ht]. constructor; [|assumption].
      intros Hin. apply mem_In in Hin. unfold PyStr.mem in Hin. congruence.
    + intros H. inversion H as [|? ? Hn Ht]; subst. split; [|assumption].
      apply mem_notin in Hn. exact Hn.
Qed.

Lemma assoc_NoDup {A : Type} (k : string) (v : A) (l : list (string * A)) :
  NoDup (map fst l) -> In (k, v) l -> PyStr.assoc k l = Some v.
Proof.
  induction l as [|[k' v'] t IH]; simpl; [tauto|].
  intros Hnd [H|H].
  - injection H as -> ->. now rewrite String.eqb_refl.
  - inversion Hnd as [|? ? Hn Ht]; subst.
    destruct (String.eqb_spec k k') as [->|Hne]; [|now apply IH].
    exfalso. apply Hn. apply in_map_iff. now exists (k', v).
Qed.

Lemma rank_from_missing {V : Type} (ltb : V -> V -> bool)
    (all pre post : list (option V)) :
  Forall2 (fun o rk => o = None -> rk = None) post (Rank.rank_from ltb all pre post).
Proof.
  revert pre. induction post as [|[v|] t IH]; intros pre; simpl; constructor;
    try apply IH; [discriminate | reflexivity].
Qed.

Lemma rank_from_present {V : Type} (ltb : V -> V -> bool)
    (all pre post : list (option V)) :
  Forall2 (fun o rk => o <> None -> exists n, rk = Some n /\ 1 <= n)
    post (Rank.rank_from ltb all pre post).
Proof.
  revert pre. induction post as [|[v|] t IH]; intros pre; simpl; constructor;
    try apply IH.
  - intros _. eexists. split; [reflexivity|]. unfold Rank.rank_at. lia.
  - intros H. now contradiction H.
Qed.

Lemma Forall2_map_l {A B C : Type} (f : A -> B) (P : B -> C -> Prop)
    (l : list A) (l' : list C) :
  Forall2 P (map f l) l' <-> Forall2 (fun a c => P (f a) c) l l'.
Proof.
  revert l'. induction l as [|a t IH]; intros l'; simpl.
  - split; intros H; inversion H; constructor.
  - split; intros H; inversion H; subst; constructor; try assumption; now apply IH.
Qed.

Lemma Forall2_combine {A B : Type} (P : A -> B -> Prop) (l : list A) (l' : list B) :
  Forall2 P l l' -> forall a, In a l -> exists b, In (a, b) (combine l l') /\ P a b.
Proof.
  induction 1 as [|x y t t' Hxy Ht IH]; intros a Ha; [destruct Ha|].
  destruct Ha as [->|Ha].
  - exists y. split; [now left | assumption].
  - destruct (IH a Ha) as (b & Hb & Hp). exists b. split; [now right | assumption].
Qed.

Lemma key_none (x : pyfloat) : key x = None <-> isnan x = true.
Proof. destruct x as [|[]|[] m e]; simpl; split; intros H; congruence. Qed.

(** A row without [pct_chg] has no rank. *)
Lemma today_ranks_missing (D : today_df) :
  Forall2 (fun r rk => isnan (pct_chg r) = true -> rk = None)
    (rows D) (today_ranks D).
Proof.
  unfold today_ranks. destruct (existsb _ _).
  - unfold Rank.rank_floats, Rank.rank_first_desc. rewrite map_map.
    pose proof (rank_from_missing xlt (map (fun x => key (pct_chg x)) (rows D)) []
                  (map (fun x => key (pct_chg x)) (rows D))) as H.
    apply Forall2_map_l in H. eapply Forall2_impl; [|exact H].
    intros r rk Hr Hn. apply Hr. now apply key_none.
  - induction (rows D) as [|r t IH]; simpl; constructor; auto.
Qed.

(** A row with a [pct_chg] has a rank. *)
Lemma today_ranks_present (D : today_df) :
  Forall2 (fun r rk => isnan (pct_chg r) = false -> exists n, rk = Some n /\ 1 <= n)
    (rows D) (today_ranks D).
Proof.
  unfold today_ranks. destruct (existsb _ _) eqn:He.
  - unfold Rank.rank_floats, Rank.rank_first_desc. rewrite map_map.
    pose proof (rank_from_present xlt (map (fun x => key (pct_chg x)) (rows D)) []
                  (map (fun x => key (pct_chg x)) (rows D))) as H.
    apply Forall2_map_l in H. eapply Forall2_impl; [|exact H].
    intros r rk Hr Hn. apply Hr. intros Hk. apply key_none in Hk. congruence.
  - assert (Hall : forall r, In r (rows D) -> isnan (pct_chg r) = true).
    { intros r Hr. destruct (isnan (pct_chg r)) eqn:Hn; [reflexivity|].
      assert (Hex : existsb (fun x => negb (isnan x)) (map pct_chg (rows D)) = true).
      { apply existsb_exists. exists (pct_chg r). split; [now apply in_map|].
        now rewrite Hn. }
      congruence. }
    clear He. induction (rows D) as [|r t IH]; simpl; constructor.
    + intros Hn. rewrite (Hall r (or_introl eq_refl)) in Hn. discriminate.
    + apply IH. intros r' Hr'. apply Hall. now right.
Qed.

(** The new cell of a board of the snapshot whose row has neither
    [pct_chg] nor [close], in [bk_vis/bk_fetch_data.py]. *)
Lemma vis_blank_row (D : today_df) (r : board_row) :
  NoDup (today_keys D) ->
  In r (rows D) ->
  isnan (pct_chg r) = true -> isnan (close r) = true ->
  vis_new_cell D (row_key (bk_code r) (bk_name r)) = Some EmptyString.
Proof.
  intros Hnd Hr Hp Hc. unfold vis_new_cell.
  destruct (Forall2_combine _ _ _ (today_ranks_missing D) r Hr) as (rk & Hin & Hrk).
  rewrite (Hrk Hp) in Hin. apply assoc_NoDup; [now rewrite vis_keys|].
  unfold bk_fetch_data.series_new. apply in_map_iff. exists (r, None).
  split; [|assumption]. simpl. f_equal.
  unfold bk_fetch_data.fmt_cell. simpl. now rewrite Hp, Hc.
Qed.

(** The same in [round/bk_data_ind.py], where the other four fields must
    be absent as well. *)
Lemma round_blank_row (D : today_df) (r : board_row) :
  NoDup (today_keys D) ->
  In r (rows D) ->
  isnan (pct_chg r) = true -> isnan (close r) = true ->
  (extra_cols D = true ->
     isnan (turnover r) = true /\ CellSpec.absent_val (up_count r) = true
     /\ CellSpec.absent_val (down_count r) = true /\ leader r = EmptyString) ->
  round_new_cell D (row_key (bk_code r) (bk_name r)) = Some EmptyString.
Proof.
  intros Hnd Hr Hp Hc Hx. unfold round_new_cell.
  destruct (Forall2_combine _ _ _ (today_ranks_missing D) r Hr) as (rk & Hin & Hrk).
  rewrite (Hrk Hp) in Hin. apply assoc_NoDup; [now rewrite round_keys|].
  unfold bk_data_ind.new_series. apply in_map_iff. exists (r, None).
  split; [|assumption]. simpl. f_equal.
  destruct (extra_cols D).
  - destruct (Hx eq_refl) as (Ht & Hu & Hd & Hl).
    rewrite fmt_cell7_spec. unfold CellSpec.cell7. simpl.
    unfold CellSpec.absent. rewrite Hp, Hc, Ht, Hu, Hd, Hl. reflexivity.
  - rewrite fmt_cell7_spec. unfold CellSpec.cell7. simpl.
    unfold CellSpec.absent. now rewrite Hp, Hc.
Qed.
(** ** From the answer to the snapshot *)

Section FetchFacts.

Variable float_of_str : string -> option pyfloat.
Variable float_of_int : Z -> option pyfloat.

Lemma num_field_blank (v : Eastmoney.jnum) :
  blank_num v = true ->
  Eastmoney.num_field float_of_str float_of_int v = FNaN.
Proof.
  destruct v as [|s|z|x]; simpl; try discriminate; [reflexivity|].
  now intros ->.
Qed.

Lemma or_empty_falsy (v : pyval) :
  falsy_count v = true -> Eastmoney.or_empty v = VStr EmptyString.
Proof.
  destruct v as [|s|z]; simpl; intros H; [reflexivity | | now rewrite H].
  apply String.eqb_eq in H. now subst.
Qed.

Lemma vis_today_rows_app (l : list Eastmoney.list_item) (rows : list board_row) :
  bk_fetch_data.today_rows float_of_str float_of_int l rows
  = rows ++ flat_map (fun it =>
                        match Eastmoney.named it with
                        | Some (code, name) =>
                            [bk_fetch_data.today_row float_of_str float_of_int
                               it code name]
                        | None => []
                        end) l.
Proof.
  revert rows. induction l as [|it t IH]; intros rows; simpl.
  - now rewrite app_nil_r.
  - destruct (Eastmoney.named it) as [[code name]|]; rewrite IH;
      [now rewrite <- app_assoc | reflexivity].
Qed.

(** The rows of the one-page snapshot: one for each item that has a code
    and a name. *)
Lemma vis_today_rows_In (l : list Eastmoney.list_item) (r : board_row) :
  In r (bk_fetch_data.today_rows float_of_str float_of_int l [])
  <-> exists it code name,
        In it l /\ Eastmoney.named it = Some (code, name)
        /\ r = bk_fetch_data.today_row float_of_str float_of_int it code name.
Proof.
  rewrite vis_today_rows_app. simpl. rewrite in_flat_map. split.
  - intros (it & Hi & Hr). destruct (Eastmoney.named it) as [[code name]|] eqn:Hn;
      [|destruct Hr].
    destruct Hr as [<-|[]]. now exists it, code, name.
  - intros (it & code & name & Hi & Hn & ->). exists it. split; [assumption|].
    rewrite Hn. now left.
Qed.

(** The rows of the paged snapshot. *)
Lemma round_today_spec (http : nat -> exc Eastmoney.body) (max_pages : nat)
    (D : today_df) (asked : list nat) :
  bk_data_ind.fetch_board_list_today float_of_str float_of_int http max_pages
  = (Returns D, asked) ->
  exists seen,
    NoDup seen
    /\ Forall2 (made_from (bk_data_ind.today_row float_of_str float_of_int)
                  (on_pages http asked)) (rows D) seen
    /\ (forall k, In k seen <->
                  exists it, on_pages http asked it /\ Eastmoney.named it = Some k)
    /\ (extra_cols D = true <-> rows D <> []).
Proof.
  unfold bk_data_ind.fetch_board_list_today. intros H.
  destruct (bk_data_ind.paged _ http max_pages) as [[rows|e] asked0] eqn:Hp;
    [|discriminate].
  injection H as <- <-.
  destruct (paged_spec _ _ _ _ _ _ Hp) as (seen & Hnd & Hf & Hin).
  exists seen. simpl. repeat split; try assumption; try apply Hin.
  - intros H. destruct rows; [discriminate H | discriminate].
  - intros H. now destruct rows.
Qed.

End FetchFacts.

Lemma Forall2_In_r {A B : Type} (P : A -> B -> Prop) (l : list A) (l' : list B) (b : B) :
  Forall2 P l l' -> In b l' -> exists a, In a l /\ P a b.
Proof.
  induction 1 as [|x y t t' Hxy Ht IH]; intros Hb; [destruct Hb|].
  destruct Hb as [->|Hb].
  - exists x. split; [now left | assumption].
  - destruct (IH Hb) as (a & Ha & Hp). exists a. split; [now right | assumption].
Qed.

Lemma Forall2_In_l {A B : Type} (P : A -> B -> Prop) (l : list A) (l' : list B) (a : A) :
  Forall2 P l l' -> In a l -> exists b, In b l' /\ P a b.
Proof.
  induction 1 as [|x y t t' Hxy Ht IH]; intros Ha; [destruct Ha|].
  destruct Ha as [->|Ha].
  - exists y. split; [now left | assumption].
  - destruct (IH Ha) as (b & Hb & Hp). exists b. split; [now right | assumption].
Qed.

(** ** Row keys *)

Section RowKeys.

Local Open Scope string_scope.

Lemma count_char_app (c : ascii) (s t : string) :
  count_char c (s ++ t) = count_char c s + count_char c t.
Proof.
  induction s as [|a s IH]; simpl; [reflexivity|]. rewrite IH. lia.
Qed.

Lemma before_app (c : ascii) (s t : string) :
  free_of c s -> before c (s ++ String c t) = s.
Proof.
  unfold free_of. induction s as [|a s IH]; simpl.
  - now rewrite Ascii.eqb_refl.
  - destruct (Ascii.eqb a c); [discriminate|]. simpl. intros H. now rewrite IH.
Qed.

Lemma append_inj_l (s t u : string) : s ++ t = s ++ u -> t = u.
Proof.
  induction s as [|a s IH]; simpl; [tauto|]. intros H. injection H as H. auto.
Qed.

(** The code and the name can be read back from the row key when the code
    has no ['|']. *)
Lemma row_key_inj (c1 n1 c2 n2 : string) :
  free_of "|" c1 -> free_of "|" c2 ->
  row_key c1 n1 = row_key c2 n2 -> c1 = c2 /\ n1 = n2.
Proof.
  intros H1 H2 H. unfold row_key in H. simpl in H.
  assert (Hc : c1 = c2).
  { rewrite <- (before_app "|" c1 n1 H1), <- (before_app "|" c2 n2 H2).
    now rewrite H. }
  subst c2. split; [reflexivity|]. apply append_inj_l in H. now injection H.
Qed.

End RowKeys.
(** ** The latest trade date *)

Lemma find_split {A : Type} (f : A -> bool) (l : list A) (d : A) :
  find f l = Some d ->
  exists l1 l2, l = l1 ++ d :: l2 /\ f d = true /\ forall x, In x l1 -> f x = false.
Proof.
  induction l as [|a t IH]; simpl; [discriminate|].
  destruct (f a) eqn:Hfa.
  - intros H. injection H as <-. exists [], t. repeat split; [assumption|].
    intros x [].
  - intros H. destruct (IH H) as (l1 & l2 & -> & Hd & Hl1).
    exists (a :: l1), l2. repeat split; [assumption|].
    intros x [<-|Hx]; [assumption | now apply Hl1].
Qed.

(** The last element of [l] that satisfies [f]. *)
Lemma find_rev_split {A : Type} (f : A -> bool) (l : list A) (d : A) :
  find f (rev l) = Some d ->
  exists l1 l2, l = l1 ++ d :: l2 /\ f d = true /\ forall x, In x l2 -> f x = false.
Proof.
  intros H. destruct (find_split f _ _ H) as (r1 & r2 & Hr & Hd & Hr1).
  exists (rev r2), (rev r1). split.
  - rewrite <- (rev_involutive l), Hr, rev_app_distr. simpl.
    now rewrite <- app_assoc.
  - split; [assumption|]. intros x Hx. apply Hr1. now apply in_rev.
Qed.

Lemma leb_refl (s : string) : String.leb s s = true.
Proof.
  destruct (String.leb_total s s) as [H|H]; exact H.
Qed.

Lemma latest_cases (today : string) (trade_dates : list string) :
  let d := bk_data_ind.get_latest_trade_date today (Ok trade_dates) in
  (In today trade_dates /\ d = today)
  \/ (~ In today trade_dates /\ d = today
      /\ forall x, In x trade_dates -> String.ltb x today = false)
  \/ (~ In today trade_dates
      /\ String.ltb d today = true
      /\ exists l1 l2, trade_dates = l1 ++ d :: l2
                       /\ forall x, In x l2 -> String.ltb x today = false).
Proof.
  simpl. destruct (PyStr.mem today trade_dates) eqn:Hm.
  - left. split; [now apply mem_In | reflexivity].
  - right. apply mem_notin in Hm.
    destruct (find (fun d => String.ltb d today) (rev trade_dates)) as [d|] eqn:Hf.
    + right. destruct (find_rev_split _ _ _ Hf) as (l1 & l2 & Hl & Hd & Hl2).
      split; [assumption|]. split; [assumption|]. now exists l1, l2.
    + left. split; [assumption|]. split; [reflexivity|].
      intros x Hx. apply (find_none _ _ Hf). now apply -> in_rev.
Qed.
(** ** Reading the fields of a cell back *)

Section CellBack.

Local Open Scope string_scope.

Lemma split_free (c : ascii) (s : string) :
  free_of c s -> PyStr.split c s = [s].
Proof.
  unfold free_of. induction s as [|a t IH]; simpl; [reflexivity|].
  destruct (Ascii.eqb a c); [discriminate|]. simpl. intros H. now rewrite IH.
Qed.

Lemma split_app (c : ascii) (s rest : string) :
  free_of c s -> PyStr.split c (s ++ String c rest) = s :: PyStr.split c rest.
Proof.
  unfold free_of. induction s as [|a t IH]; simpl.
  - now rewrite Ascii.eqb_refl.
  - destruct (Ascii.eqb a c); [discriminate|]. simpl. intros H. now rewrite IH.
Qed.

Lemma free_of_app (c : ascii) (s t : string) :
  free_of c (s ++ t) <-> free_of c s /\ free_of c t.
Proof. unfold free_of. rewrite count_char_app. lia. Qed.

Lemma digits_free (c : ascii) (s : string) :
  (N_of_ascii c < 48 \/ 57 < N_of_ascii c)%N ->
  CellSpec.all_digits s = true -> free_of c s.
Proof.
  intros Hc. unfold free_of. induction s as [|a t IH]; simpl; [reflexivity|].
  rewrite !andb_true_iff. intros [[H1 H2] H3].
  apply N.leb_le in H1, H2.
  destruct (Ascii.eqb_spec a c) as [->|]; [lia|]. now apply IH.
Qed.

Lemma str_int_free (z : Z) : free_of "|" (PyStr.str_int z).
Proof.
  unfold PyStr.str_int.
  assert (Hn : free_of "|" (PyStr.str_N (Z.abs_N z))).
  { apply digits_free; [right; vm_compute; reflexivity | apply str_N_digits]. }
  destruct (z <? 0)%Z; [|assumption]. apply free_of_app. now split.
Qed.

Lemma format_fixed_free (d : nat) (x : pyfloat) : free_of "|" (format_fixed d x).
Proof.
  destruct x as [|[|]|neg m e]; try reflexivity.
  destruct (format_fixed_shape d neg m e) as (i & f & -> & _ & Hi & _ & Hf).
  assert (Hbar : (N_of_ascii "|" < 48 \/ 57 < N_of_ascii "|")%N)
    by (right; vm_compute; reflexivity).
  repeat (apply free_of_app; split); try (now apply digits_free);
    [now destruct neg | reflexivity].
Qed.

Lemma render_rank_free (rank : option Z) : free_of "|" (CellSpec.render_rank rank).
Proof. destruct rank; [apply str_int_free | reflexivity]. Qed.

Lemma render_pct_free (o : option pyfloat) : free_of "|" (CellSpec.render_pct o).
Proof.
  rewrite render_pct_eq. destruct o as [x|]; [|reflexivity].
  destruct (isnan x); [reflexivity | apply format_fixed_free].
Qed.

Lemma render_value_free (o : option pyfloat) : free_of "|" (CellSpec.render_value o).
Proof.
  rewrite render_value_eq. destruct o as [x|]; [|reflexivity].
  destruct (isnan x); [reflexivity|].
  destruct (value_prefix x) as (z1 & z2 & Heq & _).
  pose proof (format_fixed_free 4 x) as H. rewrite Heq in H.
  now apply free_of_app in H.
Qed.

(** The fields of a three-field cell that is not empty. *)
Lemma split_cell3 (rank : option Z) (pct close : option pyfloat) :
  CellSpec.cell3 rank pct close <> EmptyString ->
  PyStr.split "|" (CellSpec.cell3 rank pct close)
  = [CellSpec.render_rank rank; CellSpec.render_pct pct; CellSpec.render_value close].
Proof.
  intros Hne.
  assert (Heq : CellSpec.cell3 rank pct close
                = CellSpec.render_rank rank
                  ++ String "|" (CellSpec.render_pct pct
                                 ++ String "|" (CellSpec.render_value close))).
  { unfold CellSpec.cell3 in *. destruct rank; [reflexivity|].
    destruct (CellSpec.absent pct && CellSpec.absent close);
      [now contradiction Hne | reflexivity]. }
  rewrite Heq, split_app by apply render_rank_free.
  rewrite split_app by apply render_pct_free.
  now rewrite split_free by apply render_value_free.
Qed.

(** The first fields of a seven-field cell that is not empty. *)
Lemma split_cell7 (rank : option Z) (pct close turnover : option pyfloat)
    (up down : pyval) (leader : option string) :
  CellSpec.cell7 rank pct close turnover up down leader <> EmptyString ->
  PyStr.split "|" (CellSpec.cell7 rank pct close turnover up down leader)
  = CellSpec.render_rank rank :: CellSpec.render_pct pct
    :: CellSpec.render_value close :: CellSpec.render_pct turnover
    :: PyStr.split "|" (CellSpec.render_val up
                        ++ String "|" (CellSpec.render_val down
                                       ++ String "|" (CellSpec.render_str leader))).
Proof.
  intros Hne.
  assert (Heq : CellSpec.cell7 rank pct close turnover up down leader
                = CellSpec.render_rank rank
                  ++ String "|" (CellSpec.render_pct pct
                  ++ String "|" (CellSpec.render_value close
                  ++ String "|" (CellSpec.render_pct turnover
                  ++ String "|" (CellSpec.render_val up
                  ++ String "|" (CellSpec.render_val down
                  ++ String "|" (CellSpec.render_str leader))))))).
  { unfold CellSpec.cell7 in *. destruct rank; [reflexivity|].
    destruct (CellSpec.absent pct && CellSpec.absent close
              && CellSpec.absent turnover && CellSpec.absent_val up
              && CellSpec.absent_val down && CellSpec.absent_str leader);
      [now contradiction Hne | reflexivity]. }
  rewrite Heq, split_app by apply render_rank_free.
  rewrite split_app by apply render_pct_free.
  rewrite split_app by apply render_value_free.
  now rewrite split_app by apply render_pct_free.
Qed.

End CellBack.

Lemma of_Z_is_int (k : Z) : TripletSpec.is_int (of_Z k) k.
Proof.
  unfold TripletSpec.is_int, of_Z, to_Q. simpl.
  destruct (Z.ltb_spec k 0).
  - rewrite N2Z.inj_abs_N. replace (- Z.abs k * 1)%Z with k by lia. reflexivity.
  - rewrite N2Z.inj_abs_N. replace (Z.abs k * 1)%Z with k by lia. reflexivity.
Qed.

Lemma of_Z_gt0 (k : Z) : (0 < k)%Z -> bk_top_range.gt0 (of_Z k) = true.
Proof.
  intros H. unfold bk_top_range.gt0, of_Z.
  destruct (Z.ltb_spec k 0); [lia|]. simpl.
  destruct (N.eqb_spec (Z.abs_N k) 0); [lia | reflexivity].
Qed.
(** ** A rank exactly where there is a [pct_chg] *)

Lemma Forall2_and {A B : Type} (P Q : A -> B -> Prop) (l : list A) (l' : list B) :
  Forall2 P l l' -> Forall2 Q l l' -> Forall2 (fun a b => P a b /\ Q a b) l l'.
Proof.
  intros HP. induction HP; intros HQ; inversion HQ; subst; constructor; auto.
Qed.

Lemma Forall2_combine_In {A B : Type} (P : A -> B -> Prop) (l : list A) (l' : list B)
    (a : A) (b : B) :
  Forall2 P l l' -> In (a, b) (combine l l') -> P a b.
Proof.
  induction 1 as [|x y t t' Hxy Ht IH]; simpl; [tauto|].
  intros [H|H]; [now injection H as <- <- | auto].
Qed.

Lemma today_ranks_fit (D : today_df) :
  Forall2 (fun r rk => rank_fits (pct_chg r) rk) (rows D) (today_ranks D).
Proof.
  apply Forall2_and; [apply today_ranks_missing | apply today_ranks_present].
Qed.

Lemma group_rank_from_fit {V K : Type} (ltb : V -> V -> bool)
    (keqb : K -> K -> bool) (all pre post : list (K * option V)) :
  Forall2 (fun p rk => (snd p = None -> rk = None)
                       /\ (snd p <> None -> exists n, rk = Some n /\ 1 <= n))
    post (Rank.group_rank_from ltb keqb all pre post).
Proof.
  revert pre. induction post as [|[d [v|]] t IH]; intros pre; simpl; constructor;
    try apply IH.
  - split; [discriminate|]. intros _. eexists. split; [reflexivity|].
    unfold Rank.rank_at. lia.
  - split; [reflexivity|]. intros H. now contradiction H.
Qed.

Lemma long_ranks_fit (rows : list long_row) :
  Forall2 (fun r rk => rank_fits (l_pct r) rk) rows (long_ranks rows).
Proof.
  unfold long_ranks, Rank.group_rank.
  pose proof (group_rank_from_fit xlt date_eqb
                (map (fun r => (l_date r, key (l_pct r))) rows) []
                (map (fun r => (l_date r, key (l_pct r))) rows)) as H.
  apply Forall2_map_l in H. eapply Forall2_impl; [|exact H].
  intros r rk [H1 H2]. simpl in *. split.
  - intros Hn. apply H1. now apply key_none.
  - intros Hn. apply H2. intros Hk. apply key_none in Hk. congruence.
Qed.

Section CoherentCells.

Local Open Scope string_scope.

Lemma cell3_rank_with_pct (rank : option Z) (pct close : option pyfloat) :
  (rank = None <-> CellSpec.absent pct = true) ->
  rank_with_pct (CellSpec.cell3 rank pct close).
Proof.
  intros Hiff.
  destruct (string_dec (CellSpec.cell3 rank pct close) EmptyString) as [He|Hne];
    [now left|].
  right. eexists. eexists. eexists. split; [now apply split_cell3|].
  rewrite <- !eqb_empty, render_rank_eqb, render_pct_eqb.
  destruct rank; split; intros H; try discriminate; try reflexivity.
  - apply Hiff in H. discriminate.
  - now apply Hiff.
Qed.

Lemma cell7_rank_with_pct (rank : option Z) (pct close turnover : option pyfloat)
    (up down : pyval) (leader : option string) :
  (rank = None <-> CellSpec.absent pct = true) ->
  rank_with_pct (CellSpec.cell7 rank pct close turnover up down leader).
Proof.
  intros Hiff.
  destruct (string_dec (CellSpec.cell7 rank pct close turnover up down leader)
              EmptyString) as [He|Hne]; [now left|].
  right. eexists. eexists. eexists. split; [now apply split_cell7|].
  rewrite <- !eqb_empty, render_rank_eqb, render_pct_eqb.
  destruct rank; split; intros H; try discriminate; try reflexivity.
  - apply Hiff in H. discriminate.
  - now apply Hiff.
Qed.

Lemma rank_arg_fits (pct : pyfloat) (rk : option nat) :
  rank_fits pct rk -> (rank_arg rk = None <-> CellSpec.absent (Some pct) = true).
Proof.
  intros [H1 H2]. simpl. destruct (isnan pct).
  - rewrite (H1 eq_refl). simpl. tauto.
  - destruct (H2 eq_refl) as (n & -> & _). simpl. split; discriminate.
Qed.

End CoherentCells.
(** ** The number of requests *)

Section BudgetFacts.

Import Pipeline RunSpec.

Variable w : world.

Lemma filter_kline_app (tr evs : list event) :
  List.length (filter is_kline (tr ++ evs))
  = List.length (filter is_kline tr) + List.length (filter is_kline evs).
Proof. now rewrite filter_app, length_app. Qed.

Lemma fetch_retry_budget (tries : nat) (tr : list event) (code : string) (b e : Z) :
  exists evs,
    snd (fetch_retry w tries tr code b e) = tr ++ evs
    /\ List.length (filter is_kline evs) <= tries.
Proof.
  revert tr. induction tries as [|t IH]; intros tr; simpl.
  - exists []. rewrite app_nil_r. split; [reflexivity | simpl; lia].
  - destruct (fetch_range w (List.length tr) code b e) as [recs|err]; simpl.
    + exists [EvKline code b e]. split; [reflexivity | simpl; lia].
    + destruct (IH (tr ++ [EvKline code b e])) as (evs & Heq & Hlen).
      exists (EvKline code b e :: evs). rewrite Heq, <- app_assoc.
      split; [reflexivity | simpl; lia].
Qed.

Lemma baseline_loop_budget (n_days : Z) (boards : list (string * string))
    (tr : list event) (acc : list board_hist) :
  exists evs,
    snd (baseline_loop w n_days boards tr acc) = tr ++ evs
    /\ List.length (filter is_kline evs) <= RETRY_TIMES * List.length boards.
Proof.
  revert tr acc. induction boards as [|[code name] rest IH]; intros tr acc.
  - exists []. simpl. rewrite app_nil_r. split; [reflexivity | lia].
  - rewrite baseline_loop_cons. destruct (interrupted w (List.length tr)).
    + exists []. simpl. rewrite app_nil_r. split; [reflexivity | lia].
    + destruct (fetch_retry_budget RETRY_TIMES tr code (today w - n_days * 2) (today w))
        as (evs1 & Heq1 & Hlen1).
      destruct (fetch_retry w RETRY_TIMES tr code (today w - n_days * 2) (today w))
        as [r tr'] eqn:Hfr. simpl in Heq1. subst tr'.
      assert (Hrest : forall acc', exists evs,
                 snd (baseline_loop w n_days rest (tr ++ evs1) acc') = tr ++ evs
                 /\ List.length (filter is_kline evs)
                    <= RETRY_TIMES * List.length ((code, name) :: rest)).
      { intros acc'. destruct (IH (tr ++ evs1) acc') as (evs2 & Heq2 & Hlen2).
        exists (evs1 ++ evs2). rewrite Heq2, app_assoc. split; [reflexivity|].
        rewrite filter_kline_app. simpl List.length. lia. }
      destruct r as [[|rec recs]|]; apply Hrest.
Qed.

Lemma pass1_budget (boards : list (string * string)) (tr : list event)
    (rows_today : list (string * board_row)) (fails : list (string * string)) :
  exists evs,
    snd (pass1 w boards tr rows_today fails) = tr ++ evs
    /\ List.length (filter is_kline evs) <= RETRY_TIMES * List.length boards
    /\ List.length (snd (fst (pass1 w boards tr rows_today fails)))
       <= List.length fails + List.length boards.
Proof.
  revert tr rows_today fails.
  induction boards as [|[code name] rest IH]; intros tr rows_today fails.
  - exists []. simpl. rewrite app_nil_r. split; [reflexivity|]. split; lia.
  - rewrite pass1_cons. destruct (interrupted w (List.length tr)).
    + exists []. simpl. rewrite app_nil_r. split; [reflexivity|]. split; lia.
    + destruct (fetch_retry_budget RETRY_TIMES tr code (today w) (today w))
        as (evs1 & Heq1 & Hlen1).
      destruct (fetch_retry w RETRY_TIMES tr code (today w) (today w))
        as [r tr'] eqn:Hfr. simpl in Heq1. subst tr'.
      assert (Hrest : forall rt fl,
                 List.length fl <= S (List.length fails) ->
                 exists evs,
                   snd (pass1 w rest (tr ++ evs1) rt fl) = tr ++ evs
                   /\ List.length (filter is_kline evs)
                      <= RETRY_TIMES * List.length ((code, name) :: rest)
                   /\ List.length (snd (fst (pass1 w rest (tr ++ evs1) rt fl)))
                      <= List.length fails + List.length ((code, name) :: rest)).
      { intros rt fl Hfl.
        destruct (IH (tr ++ evs1) rt fl) as (evs2 & Heq2 & Hlen2 & Hf2).
        exists (evs1 ++ evs2). rewrite Heq2, app_assoc. split; [reflexivity|].
        rewrite filter_kline_app. simpl List.length. split; lia. }
      destruct r as [[|rec recs]|]; apply Hrest;
        rewrite ?length_app; simpl; lia.
Qed.

Lemma pass2_budget (fails : list (string * string)) (tr : list event)
    (rows_today : list (string * board_row)) :
  exists evs,
    snd (pass2 w fails tr rows_today) = tr ++ evs
    /\ List.length (filter is_kline evs) <= S RETRY_TIMES * List.length fails.
Proof.
  revert tr rows_today.
  induction fails as [|[code name] rest IH]; intros tr rows_today.
  - exists []. simpl. rewrite app_nil_r. split; [reflexivity | lia].
  - rewrite pass2_cons. destruct (interrupted w (List.length tr)).
    + exists []. simpl. rewrite app_nil_r. split; [reflexivity | lia].
    + destruct (fetch_retry_budget (S RETRY_TIMES) tr code (today w) (today w))
        as (evs1 & Heq1 & Hlen1).
      destruct (fetch_retry w (S RETRY_TIMES) tr code (today w) (today w))
        as [r tr'] eqn:Hfr. simpl in Heq1. subst tr'.
      assert (Hrest : forall rt, exists evs,
                 snd (pass2 w rest (tr ++ evs1) rt) = tr ++ evs
                 /\ List.length (filter is_kline evs)
                    <= S RETRY_TIMES * List.length ((code, name) :: rest)).
      { intros rt. destruct (IH (tr ++ evs1) rt) as (evs2 & Heq2 & Hlen2).
        exists (evs1 ++ evs2). rewrite Heq2, app_assoc. split; [reflexivity|].
        rewrite filter_kline_app. simpl List.length. lia. }
      destruct r as [[|rec recs]|]; apply Hrest.
Qed.

Variable write_baseline : list board_hist -> exc frame.
Variable patch_today : frame -> today_df -> string -> exc frame.

Lemma build_csv_budget (n_days : Z) (today_mode : string) (file : option frame) :
  let r := build_csv write_baseline patch_today w n_days today_mode file in
  (needs_baseline file = true -> kline_requests r <= RETRY_TIMES * listed w)
  /\ (needs_baseline file = false -> today_mode = "list" -> kline_requests r = 0)
  /\ (needs_baseline file = false ->
      kline_requests r <= (2 * RETRY_TIMES + 1) * listed w).
Proof.
  unfold build_csv, kline_requests, listed.
  assert (Hw : Frame.empty (match file with
                            | Some f => read_csv f
                            | None => empty_frame
                            end) = needs_baseline file)
    by now destruct file.
  rewrite Hw. destruct (needs_baseline file).
  - split; [intros _|split; discriminate].
    destruct (board_list w) as [boards|e]; [|simpl; lia].
    destruct (baseline_loop_budget n_days boards [EvStage Bootstrap; EvBoardList] [])
      as (evs & Heq & Hlen).
    destruct (baseline_loop w n_days boards [EvStage Bootstrap; EvBoardList] [])
      as [all_rows tr'] eqn:Hloop. simpl in Heq. subst tr'.
    assert (Htr : List.length (filter is_kline (EvStage Bootstrap :: EvBoardList :: evs))
                  <= RETRY_TIMES * List.length boards) by exact Hlen.
    destruct all_rows as [|h t]; [exact Htr|].
    destruct (write_baseline (h :: t)); exact Htr.
  - split; [discriminate|].
    destruct (String.eqb_spec today_mode "list") as [->|Hne].
    + assert (H0 : forall r0 : run,
                 trace r0 = [EvStage TodayList; EvListToday] ->
                 List.length (filter is_kline (trace r0)) = 0)
        by (intros r0 ->; reflexivity).
      assert (Htrace : trace
                (match list_today w with
                 | Ok df_today =>
                     match rows df_today with
                     | [] => mkRun [EvStage TodayList; EvListToday] file None
                     | _ :: _ =>
                         match patch_today
                                 (match file with
                                  | Some f => read_csv f
                                  | None => empty_frame
                                  end) df_today (today_col w) with
                         | Ok t => mkRun [EvStage TodayList; EvListToday] (Some t) None
                         | Raise _ => mkRun [EvStage TodayList; EvListToday] file None
                         end
                     end
                 | Raise _ => mkRun [EvStage TodayList; EvListToday] file None
                 end) = [EvStage TodayList; EvListToday]).
      { destruct (list_today w) as [df|e]; [|reflexivity].
        destruct (rows df); [reflexivity|].
        now destruct (patch_today _ df (today_col w)). }
      split; intros _; [intros _; now apply H0 | rewrite (H0 _ Htrace); lia].
    + split; [intros _ H; contradiction | intros _].
      destruct (board_list w) as [boards|e]; [|simpl; lia].
      destruct (pass1_budget boards [EvStage TodayHis; EvBoardList] [] [])
        as (evs1 & Heq1 & Hlen1 & Hfl).
      destruct (pass1 w boards [EvStage TodayHis; EvBoardList] [] [])
        as [[rows_today fails] tr1] eqn:Hp1. simpl in Heq1, Hfl. subst tr1.
      assert (H2 : exists evs2,
                 snd (match fails with
                      | [] => (rows_today, [EvStage TodayHis; EvBoardList] ++ evs1)
                      | _ :: _ =>
                          if interrupted w
                               (List.length ([EvStage TodayHis; EvBoardList] ++ evs1))
                          then (rows_today, [EvStage TodayHis; EvBoardList] ++ evs1)
                          else pass2 w fails ([EvStage TodayHis; EvBoardList] ++ evs1)
                                 rows_today
                      end) = ([EvStage TodayHis; EvBoardList] ++ evs1) ++ evs2
                 /\ List.length (filter is_kline evs2)
                    <= S RETRY_TIMES * List.length boards).
      { destruct fails as [|f0 fs].
        - exists []. simpl. rewrite app_nil_r. split; [reflexivity | lia].
        - destruct (interrupted w _).
          + exists []. simpl. rewrite app_nil_r. split; [reflexivity | lia].
          + destruct (pass2_budget (f0 :: fs)
                        ([EvStage TodayHis; EvBoardList] ++ evs1) rows_today)
              as (evs2 & Heq2 & Hlen2).
            exists evs2. split; [assumption|].
            assert (List.length (f0 :: fs) <= List.length boards) by (simpl in *; lia).
            nia. }
      destruct H2 as (evs2 & Heq2 & Hlen2).
      destruct (match fails with
                | [] => _
                | _ :: _ => _
                end) as [rows_today2 tr2] eqn:Hm. simpl in Heq2. subst tr2.
      assert (Htr : List.length
                      (filter is_kline
                         (EvStage TodayHis :: EvBoardList :: evs1 ++ evs2))
                    <= (2 * RETRY_TIMES + 1) * List.length boards).
      { simpl filter. rewrite filter_kline_app. unfold RETRY_TIMES in *. lia. }
      destruct rows_today2 as [|r0 rs]; [exact Htr|].
      destruct (patch_today _ _ (today_col w)); exact Htr.
Qed.

End BudgetFacts.
(** ** The table of the baseline is not empty *)

Lemma insert_sorted_nonempty (k : string) (l : list string) :
  PyStr.insert_sorted k l <> [].
Proof. destruct l as [|h t]; simpl; [discriminate|]. now destruct (String.leb k h). Qed.

Lemma sorted_nonempty (l : list string) : l <> [] -> PyStr.sorted l <> [].
Proof.
  destruct l as [|k t]; [congruence|]. intros _. simpl. apply insert_sorted_nonempty.
Qed.

Lemma insert_date_nonempty (d : date) (l : list date) : insert_date d l <> [].
Proof.
  destruct l as [|h t]; simpl; [discriminate|].
  destruct (date_ltb d h); [discriminate|]. now destruct (date_eqb d h).
Qed.

Lemma distinct_dates_nonempty (ds : list date) : ds <> [] -> distinct_dates ds <> [].
Proof.
  destruct ds as [|d t]; [congruence|]. intros _. simpl. apply insert_date_nonempty.
Qed.

Lemma nodup_nonempty (l : list string) : l <> [] -> nodup string_dec l <> [].
Proof.
  intros Hne Hn. destruct l as [|k t]; [congruence|].
  assert (Hin : In k (nodup string_dec (k :: t))) by (apply nodup_In; now left).
  rewrite Hn in Hin. destruct Hin.
Qed.

Lemma map_nonempty {A B : Type} (f : A -> B) (l : list A) : l <> [] -> map f l <> [].
Proof. destruct l; [congruence | discriminate]. Qed.

Section OnceFacts.

Variable fmt : option Z -> option pyfloat -> option pyfloat -> string.
Variable to_date : string -> option date.

Lemma cells_nonempty (rows : list long_row) :
  rows <> [] -> Long.cells fmt rows <> [].
Proof.
  intros Hne Hc. apply (f_equal (@List.length _)) in Hc.
  unfold Long.cells in Hc. rewrite length_map, length_combine, long_ranks_length in Hc.
  destruct rows; [congruence|]. simpl in Hc. lia.
Qed.

Lemma pivot_not_empty (rows : list long_row) :
  rows <> [] -> Frame.empty (read_csv (Long.pivot fmt rows)) = false.
Proof.
  intros Hne. pose proof (cells_nonempty rows Hne) as Hc.
  unfold Frame.empty, read_csv, Long.pivot. simpl.
  destruct (PyStr.sorted (nodup string_dec _)) as [|k ks] eqn:Hi.
  - exfalso. revert Hi. apply sorted_nonempty, nodup_nonempty, map_nonempty, Hc.
  - destruct (PyStr.sorted (map strftime _)) as [|c cols] eqn:Hcs; [|reflexivity].
    exfalso. revert Hcs.
    apply sorted_nonempty, map_nonempty, distinct_dates_nonempty, map_nonempty, Hc.
Qed.

Lemma convert_length (code name : string) (recs : list krec) (rows : list long_row) :
  Long.convert to_date code name recs = Ok rows ->
  List.length rows = List.length recs.
Proof.
  revert rows. induction recs as [|[[d pct] cl] t IH]; intros rows H; simpl in *.
  - now injection H as <-.
  - destruct (to_date d) as [dd|]; [|discriminate].
    destruct (Long.convert to_date code name t) as [rest|e]; [|discriminate].
    simpl in H. injection H as <-. simpl. f_equal. now apply IH.
Qed.

Lemma concat_nonempty (all_rows : list board_hist) (rows : list long_row) :
  all_rows <> [] ->
  Forall (fun h => h_recs h <> []) all_rows ->
  Long.concat to_date all_rows = Ok rows -> rows <> [].
Proof.
  destruct all_rows as [|h t]; [congruence|]. intros _ Hall H. simpl in H.
  inversion Hall as [|? ? Hh Ht]; subst.
  destruct (Long.convert to_date (h_code h) (h_name h) (h_recs h)) as [r1|e] eqn:Hc;
    [|discriminate].
  apply convert_length in Hc.
  simpl in H. destruct (Long.concat to_date t) as [r2|e]; [|discriminate].
  simpl in H. injection H as <-.
  destruct r1 as [|x r1]; [|discriminate].
  simpl in Hc. destruct (h_recs h); [now contradiction Hh | discriminate].
Qed.

(** A table that [write_baseline] made from boards that have records has
    rows and columns, also when read back. *)
Lemma write_baseline_not_empty (all_rows : list board_hist) (t : frame) :
  all_rows <> [] ->
  Forall (fun h => h_recs h <> []) all_rows ->
  Long.write_baseline fmt to_date all_rows = Ok t ->
  Frame.empty (read_csv t) = false.
Proof.
  intros Hne Hall H. unfold Long.write_baseline in H.
  destruct (Long.concat to_date all_rows) as [rows|e] eqn:Hc; [|discriminate].
  simpl in H. injection H as <-.
  apply pivot_not_empty. eapply concat_nonempty; eassumption.
Qed.

End OnceFacts.

Section LoopFacts.

Import Pipeline.

Variable w : world.

Lemma baseline_loop_records (n_days : Z) (boards : list (string * string))
    (tr : list event) (acc : list board_hist) :
  Forall (fun h => h_recs h <> []) acc ->
  Forall (fun h => h_recs h <> []) (fst (baseline_loop w n_days boards tr acc)).
Proof.
  revert tr acc. induction boards as [|[code name] rest IH]; intros tr acc Hacc.
  - exact Hacc.
  - rewrite baseline_loop_cons. destruct (interrupted w (List.length tr)); [exact Hacc|].
    destruct (fetch_retry w RETRY_TIMES tr code (today w - n_days * 2) (today w))
      as [r tr'].
    destruct r as [[|rec recs]|]; apply IH; try assumption.
    apply Forall_app. split; [assumption|]. constructor; [discriminate | constructor].
Qed.

End LoopFacts.
(** ** The rows of the per-board mode *)

Section HisFacts.

Import Pipeline.

Variable w : world.

Lemma fetch_retry_some (tries : nat) (tr : list event) (code : string) (b e : Z)
    (recs : list krec) :
  fst (fetch_retry w tries tr code b e) = Some recs ->
  exists n, fetch_range w n code b e = Ok recs.
Proof.
  revert tr. induction tries as [|t IH]; intros tr; simpl; [discriminate|].
  destruct (fetch_range w (List.length tr) code b e) as [r|err] eqn:Hf; simpl.
  - intros H. injection H as <-. eauto.
  - apply IH.
Qed.

Lemma dict_set_Forall (P : board_row -> Prop) (d : list (string * board_row))
    (code : string) (row : board_row) :
  Forall P (map snd d) -> P row -> Forall P (map snd (dict_set d code row)).
Proof.
  intros Hd Hr. induction d as [|[c r] t IH]; simpl.
  - now constructor.
  - inversion Hd as [|? ? Hh Ht]; subst.
    destruct (String.eqb c code); simpl; constructor; auto.
Qed.

Variable boards0 : list (string * string).

Lemma his_row_made (code name : string) (b e : Z) (tries : nat) (tr : list event) :
  In (code, name) boards0 ->
  forall o,
    match fst (fetch_retry w tries tr code b e) with
    | Some (rec :: _) => o = Some rec
    | _ => o = None
    end ->
    his_made w boards0 (his_row code name o).
Proof.
  intros Hin o Ho. exists code, name, o. split; [assumption|]. split; [reflexivity|].
  destruct (fst (fetch_retry w tries tr code b e)) as [[|rec recs]|] eqn:Hf;
    subst o; try exact I.
  destruct (fetch_retry_some _ _ _ _ _ _ Hf) as [n Hn]. now exists n, b, e, recs.
Qed.

Lemma pass1_made (boards : list (string * string)) (tr : list event)
    (rows_today : list (string * board_row)) (fails : list (string * string)) :
  incl boards boards0 -> incl fails boards0 ->
  Forall (his_made w boards0) (map snd rows_today) ->
  Forall (his_made w boards0) (map snd (fst (fst (pass1 w boards tr rows_today fails))))
  /\ incl (snd (fst (pass1 w boards tr rows_today fails))) boards0.
Proof.
  revert tr rows_today fails.
  induction boards as [|[code name] rest IH]; intros tr rows_today fails Hb Hf Hr.
  - now split.
  - rewrite pass1_cons. destruct (interrupted w (List.length tr)); [now split|].
    assert (Hin : In (code, name) boards0) by (apply Hb; now left).
    assert (Hrest : incl rest boards0) by (intros x Hx; apply Hb; now right).
    pose proof (his_row_made code name (today w) (today w) RETRY_TIMES tr Hin) as Hm.
    destruct (fetch_retry w RETRY_TIMES tr code (today w) (today w)) as [r tr'].
    simpl in Hm. destruct r as [[|rec recs]|]; apply IH; try assumption;
      try (apply dict_set_Forall; [assumption | now apply Hm]);
      apply incl_app; try assumption; intros x [<-|[]]; assumption.
Qed.

Lemma pass2_made (fails : list (string * string)) (tr : list event)
    (rows_today : list (string * board_row)) :
  incl fails boards0 ->
  Forall (his_made w boards0) (map snd rows_today) ->
  Forall (his_made w boards0) (map snd (fst (pass2 w fails tr rows_today))).
Proof.
  revert tr rows_today.
  induction fails as [|[code name] rest IH]; intros tr rows_today Hf Hr.
  - assumption.
  - rewrite pass2_cons. destruct (interrupted w (List.length tr)); [assumption|].
    assert (Hin : In (code, name) boards0) by (apply Hf; now left).
    assert (Hrest : incl rest boards0) by (intros x Hx; apply Hf; now right).
    pose proof (his_row_made code name (today w) (today w) (S RETRY_TIMES) tr Hin) as Hm.
    destruct (fetch_retry w (S RETRY_TIMES) tr code (today w) (today w)) as [r tr'].
    simpl in Hm. destruct r as [[|rec recs]|]; apply IH; try assumption.
    apply dict_set_Forall; [assumption | now apply Hm].
Qed.

End HisFacts.

(** A row made for a board that no request answers has no quote. *)
Lemma his_made_blank (w : Pipeline.world) (boards : list (string * string))
    (r : board_row) (code name : string) :
  (forall c n, In (c, n) boards -> free_of "|" c) ->
  In (code, name) boards ->
  no_kline w code ->
  his_made w boards r ->
  row_key (bk_code r) (bk_name r) = row_key code name ->
  isnan (pct_chg r) = true /\ isnan (close r) = true.
Proof.
  intros Hfree Hin Hno (c & n & o & Hcn & -> & Ho) Hkey.
  assert (Hc : c = code).
  { destruct o as [[[d p] cl]|]; simpl in Hkey;
      apply row_key_inj in Hkey; eauto; tauto. }
  subst c. destruct o as [[[d p] cl]|]; [|now split].
  destruct Ho as (n0 & b & e & recs & Hf). specialize (Hno n0 b e).
  rewrite Hf in Hno. destruct Hno.
Qed.

Lemma cell_at_reindex (W : frame) (idx : list string) (k c : string) :
  In k idx -> In k (index W) ->
  cell_at (reindex W idx) k c = cell_at W k c.
Proof.
  intros Hk Hw. unfold reindex. rewrite cell_at_build.
  apply mem_In in Hk, Hw. rewrite Hk, Hw. simpl.
  destruct (PyStr.mem c (columns W)) eqn:Hc; [reflexivity|].
  apply mem_notin in Hc. now rewrite (cell_at_no_col _ _ _ Hc).
Qed.

Lemma read_csv_twice (w : frame) (k c : string) :
  cell_at (read_csv (read_csv w)) k c = cell_at (read_csv w) k c.
Proof.
  rewrite !cell_at_read_csv. destruct (cell_at w k c) as [s|]; [|reflexivity].
  destruct (s =? EmptyString) eqn:Hs; [reflexivity | now rewrite Hs].
Qed.

Section HisKeeps.

Import Pipeline RunSpec.

Variable write_baseline : list board_hist -> exc frame.
Variable patch_today : frame -> today_df -> string -> exc frame.
Variable new_cell : today_df -> string -> cell.

(** What the patch of the file at hand does to the today cell of a row of
    the table it is given, when the table has the column. *)
Hypothesis patch_cell :
  forall W D today W' k,
    patch_today W D today = Ok W' ->
    In k (index W) -> In today (columns W) ->
    NoDup (today_keys D)
    /\ cell_at W' k today
       = if nonblank (new_cell D k) then new_cell D k else cell_at W k today.
Hypothesis new_cell_blank :
  forall D r,
    extra_cols D = false -> NoDup (today_keys D) -> In r (rows D) ->
    isnan (pct_chg r) = true -> isnan (close r) = true ->
    new_cell D (row_key (bk_code r) (bk_name r)) = Some EmptyString.
Hypothesis new_cell_none :
  forall D k, ~ In k (today_keys D) -> new_cell D k = None.

Lemma his_mode_keeps (w : world) (n_days : Z) (today_mode : string) (f : frame)
    (boards : list (string * string)) (code name : string) (t : frame) :
  needs_baseline (Some f) = false ->
  today_mode <> "list" ->
  board_list w = Ok boards ->
  In (code, name) boards ->
  (forall c n, In (c, n) boards -> free_of "|" c) ->
  no_kline w code ->
  In (row_key code name) (index f) ->
  In (today_col w) (columns f) ->
  csv (build_csv write_baseline patch_today w n_days today_mode (Some f)) = Some t ->
  cell_at (read_csv t) (row_key code name) (today_col w)
  = cell_at (read_csv f) (row_key code name) (today_col w).
Proof.
  intros Hnb Hmode Hb Hin Hfree Hno Hk Hc. simpl in Hnb.
  unfold build_csv. rewrite Hnb.
  apply String.eqb_neq in Hmode. rewrite Hmode, Hb.
  destruct (pass1_made w boards boards [EvStage TodayHis; EvBoardList] [] []
              (incl_refl _) (incl_nil_l _) (Forall_nil _)) as [Hm1 Hf1].
  destruct (pass1 w boards [EvStage TodayHis; EvBoardList] [] [])
    as [[rows_today fails] tr1]. simpl in Hm1, Hf1.
  assert (Hm2 : Forall (his_made w boards)
                  (map snd (fst (match fails with
                                 | [] => (rows_today, tr1)
                                 | _ :: _ =>
                                     if interrupted w (List.length tr1)
                                     then (rows_today, tr1)
                                     else pass2 w fails tr1 rows_today
                                 end)))).
  { destruct fails as [|f0 fs]; [assumption|].
    destruct (interrupted w (List.length tr1)); [assumption|].
    now apply pass2_made. }
  destruct (match fails with
            | [] => _
            | _ :: _ => _
            end) as [rows_today2 tr2]. simpl in Hm2.
  destruct rows_today2 as [|r0 rs] eqn:Hrt; [intros H; now injection H as <-|].
  rewrite <- Hrt in *. clear Hrt.
  set (D := mkToday (map snd rows_today2) false).
  set (W := reindex (read_csv f) (map (fun b => row_key (fst b) (snd b)) boards)).
  destruct (patch_today W D (today_col w)) as [t'|e] eqn:Hp;
    [|intros H; now injection H as <-].
  intros H. injection H as <-.
  assert (HkW : In (row_key code name) (index W)).
  { simpl. apply in_map_iff. exists (code, name). now split. }
  assert (HcW : In (today_col w) (columns W)) by exact Hc.
  destruct (patch_cell _ _ _ _ _ Hp HkW HcW) as [Hnd Hcell].
  assert (Hblank : nonblank (new_cell D (row_key code name)) = false).
  { destruct (in_dec string_dec (row_key code name) (today_keys D)) as [Hi|Hi].
    - unfold today_keys in Hi. apply in_map_iff in Hi. destruct Hi as (r & Hr & Hin_r).
      rewrite Forall_forall in Hm2.
      destruct (his_made_blank w boards r code name Hfree Hin Hno
                  (Hm2 r Hin_r) Hr) as [Hp1 Hp2].
      rewrite <- Hr. now rewrite (new_cell_blank D r eq_refl Hnd Hin_r Hp1 Hp2).
    - now rewrite (new_cell_none D _ Hi). }
  rewrite Hblank in Hcell.
  rewrite cell_at_read_csv, Hcell.
  unfold W. rewrite cell_at_reindex; [|exact HkW | exact Hk].
  rewrite <- cell_at_read_csv. apply read_csv_twice.
Qed.

End HisKeeps.
(** ** A run that meets no failure *)

Section HealthyFacts.

Import Pipeline RunSpec.

Variable w : world.
Hypothesis Hw : healthy w.

Lemma fetch_retry_first (tries : nat) (tr : list event) (code : string) (b e : Z) :
  exists rec recs,
    fetch_retry w (S tries) tr code b e
    = (Some (rec :: recs), tr ++ [EvKline code b e]).
Proof.
  destruct (proj1 Hw (List.length tr) code b e) as (rec & recs & Hf).
  exists rec, recs. simpl. now rewrite Hf.
Qed.

Lemma baseline_loop_healthy (n_days : Z) (boards : list (string * string))
    (tr : list event) (acc : list board_hist) :
  snd (baseline_loop w n_days boards tr acc)
  = tr ++ map (fun b => EvKline (fst b) (today w - n_days * 2) (today w)) boards.
Proof.
  revert tr acc. induction boards as [|[code name] rest IH]; intros tr acc.
  - simpl. now rewrite app_nil_r.
  - rewrite baseline_loop_cons, (proj2 Hw).
    destruct (fetch_retry_first 3 tr code (today w - n_days * 2) (today w))
      as (rec & recs & Hf).
    change (S 3) with RETRY_TIMES in Hf. rewrite Hf, IH.
    simpl. now rewrite <- app_assoc.
Qed.

Lemma pass1_healthy (boards : list (string * string)) (tr : list event)
    (rows_today : list (string * board_row)) (fails : list (string * string)) :
  snd (pass1 w boards tr rows_today fails)
  = tr ++ map (fun b => EvKline (fst b) (today w) (today w)) boards
  /\ snd (fst (pass1 w boards tr rows_today fails)) = fails.
Proof.
  revert tr rows_today fails.
  induction boards as [|[code name] rest IH]; intros tr rows_today fails.
  - simpl. now rewrite app_nil_r.
  - rewrite pass1_cons, (proj2 Hw).
    destruct (fetch_retry_first 3 tr code (today w) (today w)) as (rec & recs & Hf).
    change (S 3) with RETRY_TIMES in Hf. rewrite Hf.
    destruct (IH (tr ++ [EvKline code (today w) (today w)])
                (dict_set rows_today code (his_row code name (Some rec))) fails)
      as [H1 H2].
    rewrite H1, H2. simpl. now rewrite <- app_assoc.
Qed.

Variable write_baseline : list board_hist -> exc frame.
Variable patch_today : frame -> today_df -> string -> exc frame.

Lemma build_csv_healthy (n_days : Z) (today_mode : string) (file : option frame)
    (boards : list (string * string)) :
  board_list w = Ok boards ->
  let r := build_csv write_baseline patch_today w n_days today_mode file in
  (needs_baseline file = true ->
   trace r = EvStage Bootstrap :: EvBoardList
             :: map (fun b => EvKline (fst b) (today w - n_days * 2) (today w)) boards)
  /\ (needs_baseline file = false -> today_mode <> "list" ->
      trace r = EvStage TodayHis :: EvBoardList
                :: map (fun b => EvKline (fst b) (today w) (today w)) boards).
Proof.
  intros Hb. unfold build_csv.
  assert (Hwide : Frame.empty (match file with
                               | Some f => read_csv f
                               | None => empty_frame
                               end) = needs_baseline file)
    by now destruct file.
  rewrite Hwide, Hb. destruct (needs_baseline file).
  - split; [intros _ | discriminate].
    pose proof (baseline_loop_healthy n_days boards [EvStage Bootstrap; EvBoardList] [])
      as Htr.
    destruct (baseline_loop w n_days boards [EvStage Bootstrap; EvBoardList] [])
      as [all_rows tr']. simpl in Htr. subst tr'.
    destruct all_rows as [|h t]; [reflexivity|].
    now destruct (write_baseline (h :: t)).
  - split; [discriminate|]. intros _ Hmode.
    apply String.eqb_neq in Hmode. rewrite Hmode.
    destruct (pass1_healthy boards [EvStage TodayHis; EvBoardList] [] []) as [Htr Hf].
    destruct (pass1 w boards [EvStage TodayHis; EvBoardList] [] [])
      as [[rows_today fails] tr1]. simpl in Htr, Hf. subst tr1 fails.
    destruct rows_today as [|r0 rs]; [reflexivity|].
    now destruct (patch_today _ _ (today_col w)).
Qed.

End HealthyFacts.
(** ** The columns and the names that [main] reads *)

Lemma In_insert_pair (p x : string * Z) (l : list (string * Z)) :
  In p (bk_top_range.insert_pair x l) <-> p = x \/ In p l.
Proof.
  induction l as [|h t IH]; simpl; [intuition|].
  destruct (snd x <=? snd h)%Z; simpl; [intuition|]. rewrite IH. intuition.
Qed.

Lemma In_sort_pairs (p : string * Z) (l : list (string * Z)) :
  In p (bk_top_range.sort_pairs l) <-> In p l.
Proof.
  unfold bk_top_range.sort_pairs. induction l as [|h t IH]; simpl; [tauto|].
  rewrite In_insert_pair, IH. intuition.
Qed.

Lemma insert_pair_length (x : string * Z) (l : list (string * Z)) :
  List.length (bk_top_range.insert_pair x l) = S (List.length l).
Proof.
  induction l as [|h t IH]; simpl; [reflexivity|].
  destruct (snd x <=? snd h)%Z; simpl; [reflexivity | now rewrite IH].
Qed.

Lemma sort_pairs_length (l : list (string * Z)) :
  List.length (bk_top_range.sort_pairs l) = List.length l.
Proof.
  unfold bk_top_range.sort_pairs. induction l as [|h t IH]; simpl; [reflexivity|].
  now rewrite insert_pair_length, IH.
Qed.

Lemma insert_pair_sorted (x : string * Z) (l : list (string * Z)) :
  StronglySorted (fun a b => (snd a <= snd b)%Z) l ->
  StronglySorted (fun a b => (snd a <= snd b)%Z) (bk_top_range.insert_pair x l).
Proof.
  induction 1 as [|h t Ht IH Hh]; simpl.
  - constructor; constructor.
  - destruct (Z.leb_spec (snd x) (snd h)).
    + constructor; [now constructor|]. constructor; [assumption|].
      rewrite Forall_forall in *. intros y Hy. specialize (Hh y Hy). lia.
    + constructor; [assumption|]. apply Forall_forall. intros y Hy.
      apply In_insert_pair in Hy. destruct Hy as [->|Hy]; [lia|].
      rewrite Forall_forall in Hh. now apply Hh.
Qed.

Lemma sort_pairs_sorted (l : list (string * Z)) :
  StronglySorted (fun a b => (snd a <= snd b)%Z) (bk_top_range.sort_pairs l).
Proof.
  unfold bk_top_range.sort_pairs. induction l as [|h t IH]; simpl;
    [constructor | now apply insert_pair_sorted].
Qed.

Lemma StronglySorted_app {A : Type} (R : A -> A -> Prop) (l1 l2 : list A) :
  StronglySorted R (l1 ++ l2) ->
  StronglySorted R l2 /\ forall a b, In a l1 -> In b l2 -> R a b.
Proof.
  induction l1 as [|h t IH]; simpl; intros H.
  - split; [assumption | intros a b []].
  - inversion H as [|? ? Ht Hh]; subst. destruct (IH Ht) as [H2 Hab].
    split; [assumption|]. intros a b [<-|Ha] Hb; [|now apply Hab].
    rewrite Forall_forall in Hh. apply Hh. apply in_or_app. now right.
Qed.

(** [l[-n:]] is a suffix of [l], the last [n] elements for a positive
    [n]. *)
Lemma last_n_suffix {A : Type} (n : Z) (l : list A) :
  exists pre, l = pre ++ last_n n l
              /\ ((0 < n)%Z ->
                  List.length (last_n n l) = Nat.min (Z.to_nat n) (List.length l)).
Proof.
  unfold last_n. destruct (Z.ltb_spec 0 n).
  - exists (firstn (List.length l - Z.to_nat n) l).
    split; [now rewrite firstn_skipn|]. intros _. rewrite length_skipn. lia.
  - exists (firstn (Z.to_nat (- n)) l). split; [now rewrite firstn_skipn | lia].
Qed.

Lemma valid_pairs_In (c : string) (d : Z) (l : list (string * option Z)) :
  In (c, d) (bk_top_range.valid_pairs l) <-> In (c, Some d) l.
Proof.
  induction l as [|[c' [d'|]] t IH]; simpl; [tauto | |].
  - rewrite IH. split; intros [H|H]; auto; left; congruence.
  - rewrite IH. split; [auto | intros [H|H]; [discriminate | assumption]].
Qed.

Section SplitOnce.

Local Open Scope string_scope.

Lemma split1_free (c : ascii) (s : string) :
  free_of c s -> bk_top_range.split1 c s = (s, None).
Proof.
  unfold free_of. induction s as [|a t IH]; simpl; [reflexivity|].
  destruct (Ascii.eqb a c); [discriminate|]. simpl. intros H. now rewrite IH.
Qed.

Lemma split1_app (c : ascii) (s rest : string) :
  free_of c s -> bk_top_range.split1 c (s ++ String c rest) = (s, Some rest).
Proof.
  unfold free_of. induction s as [|a t IH]; simpl.
  - now rewrite Ascii.eqb_refl.
  - destruct (Ascii.eqb a c); [discriminate|]. simpl. intros H. now rewrite IH.
Qed.

Lemma split1_row_key (code name : string) :
  free_of "|" code ->
  bk_top_range.split1 "|" (row_key code name) = (code, Some name).
Proof. intros H. unfold row_key. simpl. now apply split1_app. Qed.

End SplitOnce.
(** ** What an interrupted run hands to [patch_today] *)

Lemma dict_set_not_empty (d : list (string * board_row)) (code : string)
    (row : board_row) :
  Pipeline.dict_set d code row <> [].
Proof.
  destruct d as [|[c r] t]; simpl; [discriminate|].
  destruct (String.eqb c code); discriminate.
Qed.

Lemma dict_set_In (d : list (string * board_row)) (code : string) (row : board_row)
    (kr : string * board_row) :
  In kr (Pipeline.dict_set d code row) -> kr = (code, row) \/ In kr d.
Proof.
  induction d as [|[c r] t IH]; simpl.
  - intros [H|[]]. now left.
  - destruct (String.eqb_spec c code) as [->|Hne]; simpl.
    + intros [H|H]; [now left | right; now right].
    + intros [H|H]; [right; now left|].
      destruct (IH H) as [H'|H']; [now left | right; now right].
Qed.

Lemma dict_set_keys (d : list (string * board_row)) (code : string) (row : board_row) :
  NoDup (map fst d) -> NoDup (map fst (Pipeline.dict_set d code row)).
Proof.
  induction d as [|[c r] t IH]; simpl; intros Hnd.
  - constructor; [intros [] | constructor].
  - inversion Hnd as [|? ? Hn Ht]; subst.
    destruct (String.eqb_spec c code) as [->|Hne]; simpl; [assumption|].
    constructor; [|now apply IH].
    intros Hin. apply in_map_iff in Hin. destruct Hin as [[k v] [Hk Hkv]].
    simpl in Hk. subst k.
    destruct (dict_set_In _ _ _ _ Hkv) as [H|H].
    + injection H as H1 _. contradiction.
    + apply Hn. apply in_map_iff. now exists (c, v).
Qed.

Section FlushFacts.

Import Pipeline.

Variable w : world.
Variable boards0 : list (string * string).

Lemma his_asked_more (tr evs : list event) (kr : string * board_row) :
  his_asked w boards0 tr kr -> his_asked w boards0 (tr ++ evs) kr.
Proof.
  intros (name & o & Hin & Hr & Hev). exists name, o.
  repeat split; try assumption. apply in_or_app. now left.
Qed.

Lemma dict_set_asked (tr evs : list event) (d : list (string * board_row))
    (code name : string) (o : option krec) :
  In (code, name) boards0 ->
  In (EvKline code (today w) (today w)) evs ->
  Forall (his_asked w boards0 tr) d ->
  Forall (his_asked w boards0 (tr ++ evs)) (dict_set d code (his_row code name o)).
Proof.
  intros Hin Hev Hd. apply Forall_forall. intros kr Hkr.
  destruct (dict_set_In _ _ _ _ Hkr) as [->|Hold].
  - exists name, o. repeat split; try assumption. apply in_or_app. now right.
  - apply his_asked_more. rewrite Forall_forall in Hd. now apply Hd.
Qed.

Lemma pass1_asked (boards : list (string * string)) (tr : list event)
    (rows_today : list (string * board_row)) (fails : list (string * string)) :
  incl boards boards0 -> incl fails boards0 ->
  NoDup (map fst rows_today) -> Forall (his_asked w boards0 tr) rows_today ->
  let p := pass1 w boards tr rows_today fails in
  NoDup (map fst (fst (fst p)))
  /\ Forall (his_asked w boards0 (snd p)) (fst (fst p))
  /\ incl (snd (fst p)) boards0
  /\ (rows_today <> [] -> fst (fst p) <> [])
  /\ (fst (fst p) = [] -> snd p = tr /\ snd (fst p) = fails).
Proof.
  revert tr rows_today fails.
  induction boards as [|[code name] rest IH]; intros tr rows_today fails Hb Hf Hnd Hr.
  - simpl. repeat split; try assumption. tauto.
  - cbv zeta. rewrite pass1_cons. destruct (interrupted w (List.length tr)).
    + simpl. repeat split; try assumption. tauto.
    + assert (Hin : In (code, name) boards0) by (apply Hb; now left).
      assert (Hrest : incl rest boards0) by (intros x Hx; apply Hb; now right).
      destruct (fetch_retry_trace w RETRY_TIMES tr code (today w) (today w))
        as (evs & Heq & _ & Hev).
      specialize (Hev ltac:(discriminate)).
      destruct (fetch_retry w RETRY_TIMES tr code (today w) (today w))
        as [r tr'] eqn:Hfr. simpl in Heq. subst tr'.
      assert (Hgo : forall o fails',
                 incl fails' boards0 ->
                 let p := pass1 w rest (tr ++ evs)
                            (dict_set rows_today code (his_row code name o)) fails' in
                 NoDup (map fst (fst (fst p)))
                 /\ Forall (his_asked w boards0 (snd p)) (fst (fst p))
                 /\ incl (snd (fst p)) boards0
                 /\ (rows_today <> [] -> fst (fst p) <> [])
                 /\ (fst (fst p) = [] -> snd p = tr /\ snd (fst p) = fails)).
      { intros o fails' Hf'.
        destruct (IH (tr ++ evs) (dict_set rows_today code (his_row code name o)) fails'
                    Hrest Hf' (dict_set_keys _ _ _ Hnd)
                    (dict_set_asked tr evs _ code name o Hin Hev Hr))
          as (H1 & H2 & H3 & H4 & _).
        pose proof (H4 (dict_set_not_empty _ _ _)) as Hne.
        repeat split; try assumption; [tauto | contradiction | contradiction]. }
      destruct r as [[|rec recs]|].
      * apply Hgo. intros x Hx. apply in_app_or in Hx.
        destruct Hx as [Hx|[<-|[]]]; auto.
      * now apply Hgo.
      * apply Hgo. intros x Hx. apply in_app_or in Hx.
        destruct Hx as [Hx|[<-|[]]]; auto.
Qed.

Lemma pass2_asked (fails : list (string * string)) (tr : list event)
    (rows_today : list (string * board_row)) :
  incl fails boards0 ->
  NoDup (map fst rows_today) -> Forall (his_asked w boards0 tr) rows_today ->
  let p := pass2 w fails tr rows_today in
  NoDup (map fst (fst p))
  /\ Forall (his_asked w boards0 (snd p)) (fst p)
  /\ (rows_today <> [] -> fst p <> []).
Proof.
  revert tr rows_today.
  induction fails as [|[code name] rest IH]; intros tr rows_today Hf Hnd Hr.
  - simpl. repeat split; try assumption. tauto.
  - cbv zeta. rewrite pass2_cons. destruct (interrupted w (List.length tr)).
    + simpl. repeat split; try assumption. tauto.
    + assert (Hin : In (code, name) boards0) by (apply Hf; now left).
      assert (Hrest : incl rest boards0) by (intros x Hx; apply Hf; now right).
      destruct (fetch_retry_trace w (S RETRY_TIMES) tr code (today w) (today w))
        as (evs & Heq & _ & Hev).
      specialize (Hev ltac:(discriminate)).
      destruct (fetch_retry w (S RETRY_TIMES) tr code (today w) (today w))
        as [r tr'] eqn:Hfr. simpl in Heq. subst tr'.
      assert (Hkeep : let p := pass2 w rest (tr ++ evs) rows_today in
                 NoDup (map fst (fst p))
                 /\ Forall (his_asked w boards0 (snd p)) (fst p)
                 /\ (rows_today <> [] -> fst p <> [])).
      { apply IH; try assumption.
        eapply Forall_impl; [|exact Hr]. intros kr. apply his_asked_more. }
      destruct r as [[|rec recs]|]; try exact Hkeep.
      destruct (IH (tr ++ evs) (dict_set rows_today code (his_row code name (Some rec)))
                  Hrest (dict_set_keys _ _ _ Hnd)
                  (dict_set_asked tr evs _ code name (Some rec) Hin Hev Hr))
        as (H1 & H2 & H3).
      pose proof (H3 (dict_set_not_empty _ _ _)) as Hne.
      repeat split; try assumption. tauto.
Qed.

Hypothesis codes_free : forall c n, In (c, n) boards0 -> free_of "|" c.

Lemma his_row_key (code name : string) (o : option krec) :
  row_key (bk_code (his_row code name o)) (bk_name (his_row code name o))
  = row_key code name.
Proof. destruct o as [[[d p] cl]|]; reflexivity. Qed.

Lemma asked_keys_NoDup (tr : list event) (d : list (string * board_row)) :
  NoDup (map fst d) -> Forall (his_asked w boards0 tr) d ->
  NoDup (today_keys (mkToday (map snd d) false)).
Proof.
  unfold today_keys. simpl. induction d as [|[c r] t IH]; simpl; intros Hnd Hall.
  - constructor.
  - inversion Hnd as [|? ? Hn Ht]; subst. inversion Hall as [|? ? Hh Hall']; subst.
    constructor; [|now apply IH].
    intros Hin. apply in_map_iff in Hin. destruct Hin as [r' [Hk Hr']].
    apply in_map_iff in Hr'. destruct Hr' as [[c' r''] [Heq Hin']]. simpl in Heq.
    subst r''. rewrite Forall_forall in Hall'.
    destruct (Hall' _ Hin') as (n' & o' & Hb' & Hrow' & _).
    destruct Hh as (n & o & Hb & Hrow & _). simpl in *. subst r r'.
    rewrite !his_row_key in Hk.
    destruct (row_key_inj _ _ _ _ (codes_free _ _ Hb') (codes_free _ _ Hb) Hk)
      as [-> _].
    apply Hn. apply in_map_iff. now exists (c, his_row c n' o').
Qed.

Lemma skipped_key_missing (tr : list event) (d : list (string * board_row))
    (code name : string) :
  In (code, name) boards0 ->
  ~ In (EvKline code (today w) (today w)) tr ->
  Forall (his_asked w boards0 tr) d ->
  ~ In (row_key code name) (today_keys (mkToday (map snd d) false)).
Proof.
  intros Hb Hno Hall Hin. unfold today_keys in Hin. simpl in Hin.
  apply in_map_iff in Hin. destruct Hin as [r [Hk Hr]].
  apply in_map_iff in Hr. destruct Hr as [[c r'] [Heq Hin]]. simpl in Heq. subst r'.
  rewrite Forall_forall in Hall.
  destruct (Hall _ Hin) as (n & o & Hb' & Hrow & Hev). simpl in *. subst r.
  rewrite his_row_key in Hk.
  destruct (row_key_inj _ _ _ _ (codes_free _ _ Hb') (codes_free _ _ Hb) Hk)
    as [-> _].
  contradiction.
Qed.

End FlushFacts.

Section FlushRun.

Import Pipeline.

Variable write_baseline : list board_hist -> exc frame.
Variable patch_today : frame -> today_df -> string -> exc frame.

(** The per-board mode hands [patch_today] a snapshot of rows the run has
    asked for, one per code; nothing is handed over when no kline was
    asked. *)
Lemma his_mode_run (w : world) (n_days : Z) (today_mode : string) (f : frame)
    (boards : list (string * string)) :
  RunSpec.needs_baseline (Some f) = false ->
  today_mode <> "list" ->
  board_list w = Ok boards ->
  let r := build_csv write_baseline patch_today w n_days today_mode (Some f) in
  exists d,
    NoDup (map fst d)
    /\ Forall (his_asked w boards (trace r)) d
    /\ match d with
       | [] => r = mkRun [EvStage TodayHis; EvBoardList] (Some f) None
       | _ :: _ =>
           match patch_today
                   (reindex (read_csv f) (map (fun b => row_key (fst b) (snd b)) boards))
                   (mkToday (map snd d) false) (today_col w) with
           | Ok t => csv r = Some t /\ error r = None
           | Raise e => csv r = Some f /\ error r = Some e
           end
       end.
Proof.
  intros Hnb Hmode Hb. simpl in Hnb. apply String.eqb_neq in Hmode.
  cbv zeta. unfold build_csv. rewrite Hnb, Hmode, Hb.
  set (tr0 := [EvStage TodayHis; EvBoardList]).
  destruct (pass1_asked w boards boards tr0 [] [] (incl_refl _) (incl_nil_l _)
              (NoDup_nil _) (Forall_nil _))
    as (H1 & H2 & H3 & _ & H5).
  destruct (pass1 w boards tr0 [] []) as [[rows_today fails] tr1] eqn:Hp1.
  simpl in H1, H2, H3, H5.
  destruct fails as [|fl fls].
  - exists rows_today. split; [assumption|].
    destruct rows_today as [|kr rest].
    + destruct (H5 eq_refl) as [-> _]. split; [constructor | reflexivity].
    + destruct (patch_today _ _ _); simpl; split; try assumption; now split.
  - destruct (interrupted w (List.length tr1)).
    + exists rows_today. split; [assumption|].
      destruct rows_today as [|kr rest].
      * destruct (H5 eq_refl) as [_ Hfl]. discriminate Hfl.
      * destruct (patch_today _ _ _); simpl; split; try assumption; now split.
    + destruct (pass2_asked w boards (fl :: fls) tr1 rows_today H3 H1 H2)
        as (G1 & G2 & G3).
      destruct (pass2 w (fl :: fls) tr1 rows_today) as [rows2 tr2] eqn:Hp2.
      simpl in G1, G2, G3.
      exists rows2. split; [assumption|].
      destruct rows2 as [|kr rest].
      * destruct rows_today as [|kr0 rest0].
        -- destruct (H5 eq_refl) as [_ Hfl]. discriminate Hfl.
        -- exfalso. apply G3; [discriminate | reflexivity].
      * destruct (patch_today _ _ _); simpl; split; try assumption; now split.
Qed.

End FlushRun.
(** * Further properties of the code *)

(** ** The fetchers *)

Lemma somes_map_filter {A B C : Type} (f : A -> option B) (g : B -> C) (h : A -> C)
    (p : A -> bool) (l : list A) :
  (forall a, f a = None <-> p a = false) ->
  (forall a b, f a = Some b -> g b = h a) ->
  map g (somes (map f l)) = map h (filter p l).
Proof.
  intros Hn Hs. induction l as [|a t IH]; simpl; [reflexivity|].
  destruct (f a) as [b|] eqn:Hf.
  - destruct (p a) eqn:Hp; [|apply Hn in Hp; congruence].
    simpl. now rewrite IH, (Hs a b Hf).
  - apply Hn in Hf. now rewrite Hf.
Qed.

(** X1.  [_parse_klines] keeps, in their order, exactly the rows that have
    at least eleven comma-separated fields (nine in
    [rank_get_value.py]), whatever their numbers are: the date of each
    record is the text of its row before the first comma.  A missing
    [klines] gives no record. *)
Theorem parse_klines_keeps_long_rows (float_of_str : string -> option pyfloat)
    (kl : list string) :
  map (fun r : krec => fst (fst r)) (bk_fetch_data._parse_klines float_of_str (Some kl))
  = map (before ",") (filter (fun row => (10 <=? count_char "," row)%nat) kl)
  /\ map (fun r : krec => fst (fst r))
       (bk_data_ind._parse_klines float_of_str (Some kl))
     = map (before ",") (filter (fun row => (10 <=? count_char "," row)%nat) kl)
  /\ map fst (rank_get_value._parse_klines float_of_str (Some kl))
     = map (before ",") (filter (fun row => (8 <=? count_char "," row)%nat) kl)
  /\ bk_fetch_data._parse_klines float_of_str None = []
  /\ bk_data_ind._parse_klines float_of_str None = []
  /\ rank_get_value._parse_klines float_of_str None = [].
Proof.
  assert (H11 : map (fun r : krec => fst (fst r))
                  (Eastmoney._parse_klines float_of_str (Some kl))
                = map (before ",") (filter (fun row => (10 <=? count_char "," row)%nat) kl)).
  { unfold Eastmoney._parse_klines. rewrite parse_klines_from_app. cbn [app].
    apply somes_map_filter.
    - intros row. cbv beta. rewrite kline_rec_none, Nat.leb_gt. reflexivity.
    - intros row r H. unfold Eastmoney.kline_rec in H.
      destruct (11 <=? _)%nat; [|discriminate]. injection H as <-. simpl.
      apply split_head. }
  split; [exact H11|]. split; [exact H11|]. split; [|repeat split].
  unfold rank_get_value._parse_klines. rewrite rank_parse_klines_from_app. cbn [app].
  apply somes_map_filter.
  - intros row. cbv beta. rewrite rank_kline_rec_none, Nat.leb_gt. reflexivity.
  - intros row r H. unfold rank_get_value.kline_rec in H.
    destruct (9 <=? _)%nat; [|discriminate]. injection H as <-. simpl.
    apply split_head.
Qed.

Example parse_klines_sample :
  bk_fetch_data._parse_klines ex_float (Some ex_klines)
  = [("2024-01-02", of_Z 3, FNaN); ("2024-01-04", FNaN, FNaN)]
  /\ rank_get_value._parse_klines ex_float (Some ex_klines)
     = [("2024-01-02", of_Z 3); ("2024-01-04", FNaN)].
Proof. split; reflexivity. Qed.

(** X2.  The paged [fetch_board_list_basic] of [round/bk_data_ind.py]
    returns no board twice, and returns exactly the (code, name) pairs of
    the items, on the pages it asked for, whose code and name are both
    non-empty. *)
Theorem paged_board_list_distinct (http : nat -> exc Eastmoney.body)
    (max_pages : nat) (boards : list (string * string)) (asked : list nat) :
  bk_data_ind.fetch_board_list_basic http max_pages = (Returns boards, asked) ->
  NoDup boards
  /\ (forall code name,
        In (code, name) boards <->
        exists it, on_pages http asked it
                   /\ Eastmoney.f12 it = Some code /\ Eastmoney.f14 it = Some name
                   /\ code <> EmptyString /\ name <> EmptyString).
Proof.
  intros H. unfold bk_data_ind.fetch_board_list_basic in H.
  destruct (paged_spec _ _ _ _ _ _ H) as (seen & Hnd & Hf & Hin).
  assert (Heq : boards = seen).
  { clear -Hf. induction Hf as [|r k t t' Hrk Ht IH]; [reflexivity|].
    destruct Hrk as (it & _ & _ & ->). destruct k. simpl. now f_equal. }
  subst seen. split; [assumption|].
  intros code name. rewrite Hin. split.
  - intros (it & Hp & Hn). exists it. split; [assumption|].
    now apply named_nonempty.
  - intros (it & Hp & H12 & H14 & Hc & Hn). exists it. split; [assumption|].
    unfold Eastmoney.named. rewrite H12, H14.
    destruct (String.eqb_spec code EmptyString); [contradiction|].
    destruct (String.eqb_spec name EmptyString); [contradiction|]. reflexivity.
Qed.

Lemma paged_board_list_distinct_witness :
  bk_data_ind.fetch_board_list_basic ex_http 50
  = (Returns [("BK1", "A"); ("BK2", "B"); ("BK3", "C")], [1; 2])
  /\ NoDup [("BK1", "A"); ("BK2", "B"); ("BK3", "C")].
Proof.
  split; [reflexivity|].
  exact (proj1 (paged_board_list_distinct ex_http 50 _ _ eq_refl)).
Defined.

(** X3.  Both paged fetchers of [round/bk_data_ind.py] ask for the pages
    1, 2, ... in turn and for at most [max_pages] of them; every page
    before the last one asked was answered and had items; the call raises
    exactly when the last request failed, with that exception (whatever
    the pages before gave); and it stops before [max_pages] only on a
    page without items (["data": null] is one) or once [total] rows are
    in hand. *)
Theorem paged_requests (float_of_str : string -> option pyfloat)
    (float_of_int : Z -> option pyfloat)
    (http : nat -> exc Eastmoney.body) (max_pages : nat) :
  (let res := fst (bk_data_ind.fetch_board_list_basic http max_pages) in
   let asked := snd (bk_data_ind.fetch_board_list_basic http max_pages) in
   asked = seq 1 (last_asked asked)
   /\ last_asked asked <= max_pages
   /\ (forall pn, In pn asked -> pn <> last_asked asked ->
         exists b, http pn = Ok b /\ page_items http pn <> [])
   /\ (forall e, res = Raises e <->
                 exists e', e = Lib e' /\ asked <> []
                            /\ http (last_asked asked) = Raise e')
   /\ (forall boards, res = Returns boards -> last_asked asked < max_pages ->
         exists b, asked <> [] /\ http (last_asked asked) = Ok b
           /\ (page_items http (last_asked asked) = []
               \/ bk_data_ind.got_all
                    (Eastmoney.total (Eastmoney.data_or_empty b)) boards = true)))
  /\ (let res := fst (bk_data_ind.fetch_board_list_today float_of_str float_of_int
                        http max_pages) in
      let asked := snd (bk_data_ind.fetch_board_list_today float_of_str float_of_int
                          http max_pages) in
      asked = seq 1 (last_asked asked)
      /\ last_asked asked <= max_pages
      /\ (forall pn, In pn asked -> pn <> last_asked asked ->
            exists b, http pn = Ok b /\ page_items http pn <> [])
      /\ (forall e, res = Raises e <->
                    exists e', e = Lib e' /\ asked <> []
                               /\ http (last_asked asked) = Raise e')
      /\ (forall D, res = Returns D -> last_asked asked < max_pages ->
            exists b, asked <> [] /\ http (last_asked asked) = Ok b
              /\ (page_items http (last_asked asked) = []
                  \/ bk_data_ind.got_all
                       (Eastmoney.total (Eastmoney.data_or_empty b)) (rows D) = true))).
Proof.
  split.
  - unfold bk_data_ind.fetch_board_list_basic.
    destruct (bk_data_ind.paged _ http max_pages) as [res asked] eqn:Hp.
    exact (paged_pages _ _ _ _ _ Hp).
  - unfold bk_data_ind.fetch_board_list_today.
    destruct (bk_data_ind.paged _ http max_pages) as [res asked] eqn:Hp.
    destruct (paged_pages _ _ _ _ _ Hp) as (H1 & H2 & H3 & H4 & H5).
    destruct res as [rows|e]; simpl.
    + split; [assumption|]. split; [assumption|]. split; [assumption|]. split.
      * intros e. split; [discriminate|].
        intros He. apply H4 in He. discriminate.
      * intros D HD Hlt. injection HD as <-. simpl. now apply H5.
    + split; [assumption|]. split; [assumption|]. split; [assumption|]. split.
      * intros e0. split.
        -- intros H. injection H as <-. now apply H4.
        -- intros H. apply H4 in H. injection H as <-. reflexivity.
      * discriminate.
Qed.

Example paged_requests_sample :
  snd (bk_data_ind.fetch_board_list_basic ex_http 50) = [1; 2]
  /\ bk_data_ind.fetch_board_list_basic (fun _ => Ok Eastmoney.NullData) 50
     = (Returns [], [1])
  /\ bk_data_ind.fetch_board_list_basic
       (fun pn => if (pn =? 2)%nat then Raise HTTPError else ex_http pn) 50
     = (Raises (Lib HTTPError), [1; 2])
  /\ bk_fetch_data.fetch_board_list_basic (Ok Eastmoney.NullData)
     = Raises AttributeError.
Proof. repeat split. Qed.

(** X4.  The snapshot of the paged [fetch_board_list_today] has a row for
    each distinct (code, name); when no code has a ['|'] its row keys are
    distinct too, and [patch_today] of [round/bk_data_ind.py] then writes
    a table for every such snapshot that has rows: it cannot raise on it.
    On a snapshot without rows, which has no column, it raises
    [KeyError]. *)
Theorem paged_snapshot_always_patches
    (float_of_str : string -> option pyfloat) (float_of_int : Z -> option pyfloat)
    (http : nat -> exc Eastmoney.body) (max_pages : nat)
    (D : today_df) (asked : list nat) :
  bk_data_ind.fetch_board_list_today float_of_str float_of_int http max_pages
  = (Returns D, asked) ->
  (forall it code name,
      on_pages http asked it -> Eastmoney.named it = Some (code, name) ->
      free_of "|" code) ->
  NoDup (map (fun r => (bk_code r, bk_name r)) (rows D))
  /\ NoDup (today_keys D)
  /\ forall to_dt W today,
       (rows D <> [] -> exists W', bk_data_ind.patch_today to_dt W D today = Ok W')
       /\ (rows D = [] -> bk_data_ind.patch_today to_dt W D today = Raise KeyError).
Proof.
  intros H Hfree.
  destruct (round_today_spec _ _ _ _ _ _ H) as (seen & Hnd & Hf & Hin & _).
  assert (Hkeys : map (fun r => (bk_code r, bk_name r)) (rows D) = seen).
  { clear -Hf. induction Hf as [|r k t t' Hrk Ht IH]; [reflexivity|].
    destruct Hrk as (it & _ & _ & ->). destruct k. simpl. now f_equal. }
  assert (Hk : NoDup (today_keys D)).
  { unfold today_keys.
    replace (map (fun r => row_key (bk_code r) (bk_name r)) (rows D))
      with (map (fun k => row_key (fst k) (snd k))
              (map (fun r => (bk_code r, bk_name r)) (rows D)))
      by (rewrite map_map; reflexivity).
    rewrite Hkeys. apply NoDup_map_NoDup_ForallPairs; [|assumption].
    intros [c1 n1] [c2 n2] H1 H2 Heq. simpl in Heq.
    apply Hin in H1, H2. destruct H1 as (it1 & Hp1 & Hn1), H2 as (it2 & Hp2 & Hn2).
    destruct (row_key_inj c1 n1 c2 n2) as [-> ->]; eauto. }
  split; [now rewrite Hkeys|]. split; [assumption|].
  intros to_dt W today. split.
  - intros Hne. apply round_patch_total; [assumption | now apply has_dup_NoDup].
  - intros He. unfold bk_data_ind.patch_today. now rewrite He.
Qed.

Lemma paged_snapshot_always_patches_witness :
  exists D W',
    bk_data_ind.fetch_board_list_today ex_float ex_float_of_int ex_http 50
    = (Returns D, [1; 2])
    /\ today_keys D = ["BK1|A"; "BK2|B"; "BK3|C"]
    /\ bk_data_ind.patch_today iso_day ex_wide D "2024-01-04" = Ok W'.
Proof.
  eexists.
  assert (Hfree : forall it code name,
             on_pages ex_http [1; 2] it ->
             Eastmoney.named it = Some (code, name) -> free_of "|" code).
  { intros it code name (pn & Hpn & Hit) Hn.
    destruct Hpn as [<-|[<-|[]]]; simpl in Hit;
      repeat (destruct Hit as [<-|Hit]; [try discriminate Hn;
                                         injection Hn as <- <-; reflexivity|]);
      destruct Hit. }
  destruct (proj1 (proj2 (proj2 (paged_snapshot_always_patches ex_float
                                   ex_float_of_int ex_http 50 _ _ eq_refl Hfree))
                     iso_day ex_wide "2024-01-04")) as [W' HW]; [discriminate|].
  exists W'. split; [reflexivity|]. split; [reflexivity | exact HW].
Defined.

(** X5.  A board that the list answers without price and change ([null],
    [""] or ["--"] in [f2] and [f3]) keeps the today cell it has in the
    table: [fetch_board_list_today] reads both as NaN, the board gets no
    rank and an empty new cell, and [patch_today] leaves the cell alone.
    In [round/bk_data_ind.py] this holds when the item has none of the
    other four fields either (a count of 0 counts as none). *)
Theorem blank_quote_keeps_today_cell
    (float_of_str : string -> option pyfloat) (float_of_int : Z -> option pyfloat)
    (to_dt : string -> option Z) :
  (forall p D it code name W today W',
      bk_fetch_data.fetch_board_list_today float_of_str float_of_int
        (Ok (Eastmoney.Data p)) = Returns D ->
      In it (Eastmoney.items p) ->
      Eastmoney.named it = Some (code, name) ->
      no_quote it ->
      bk_fetch_data.patch_today to_dt W D today = Ok W' ->
      In (row_key code name) (index W) -> In today (columns W) ->
      cell_at W' (row_key code name) today = cell_at W (row_key code name) today)
  /\ (forall http max_pages D asked code name W today W',
        bk_data_ind.fetch_board_list_today float_of_str float_of_int http max_pages
        = (Returns D, asked) ->
        (exists it, on_pages http asked it
                    /\ Eastmoney.named it = Some (code, name)) ->
        (forall it, on_pages http asked it ->
                    Eastmoney.named it = Some (code, name) -> no_fields it) ->
        bk_data_ind.patch_today to_dt W D today = Ok W' ->
        In (row_key code name) (index W) -> In today (columns W) ->
        cell_at W' (row_key code name) today = cell_at W (row_key code name) today).
Proof.
  split.
  - intros p D it code name W today W' HD Hit Hn [H2 H3] HW Hk Hc.
    simpl in HD. injection HD as <-.
    destruct (vis_patch_inv to_dt _ _ _ _ HW)
      as (Hdup & _ & _ & _ & Htoday & _ & _ & _).
    rewrite vis_keys in Hdup. apply has_dup_NoDup in Hdup.
    set (D := mkToday (bk_fetch_data.today_rows float_of_str float_of_int
                         (Eastmoney.items p) []) false) in *.
    set (r := bk_fetch_data.today_row float_of_str float_of_int it code name).
    assert (Hr : In r (rows D)).
    { apply vis_today_rows_In. now exists it, code, name. }
    assert (Hcell : vis_new_cell D (row_key code name) = Some EmptyString).
    { apply (vis_blank_row D r Hdup Hr); simpl; now rewrite num_field_blank. }
    rewrite (Htoday _ Hk). apply mem_In in Hc. rewrite Hc.
    unfold vis_new_cell in Hcell. now rewrite Hcell.
  - intros http max_pages D asked code name W today W' HD (it & Hp & Hn) Hall
      HW Hk Hc.
    destruct (round_today_spec _ _ _ _ _ _ HD) as (seen & _ & Hf & Hin & _).
    destruct (round_patch_inv to_dt _ _ _ _ HW)
      as (Hdup & Hidx & _ & _ & Htoday & _ & _).
    rewrite round_keys in Hdup. apply has_dup_NoDup in Hdup.
    assert (Hs : In (code, name) seen) by (apply Hin; now exists it).
    destruct (Forall2_In_r _ _ _ _ Hf Hs) as (r & Hr & it0 & Hp0 & Hn0 & Hr0).
    simpl in Hr0.
    destruct (Hall it0 Hp0 Hn0) as ([H2 H3] & H8 & H104 & H105 & H128).
    assert (Hcell : round_new_cell D (row_key code name) = Some EmptyString).
    { replace (row_key code name) with (row_key (bk_code r) (bk_name r))
        by now subst r.
      apply (round_blank_row D r Hdup Hr); subst r; simpl;
        try now rewrite num_field_blank.
      intros _. rewrite num_field_blank by assumption.
      rewrite !or_empty_falsy by assumption. now repeat split. }
    assert (Hk' : In (row_key code name) (index W')).
    { rewrite Hidx. apply in_or_app. now left. }
    rewrite (Htoday _ Hk'). apply mem_In in Hc. rewrite Hc.
    unfold round_new_cell in Hcell. now rewrite Hcell.
Qed.

Lemma blank_quote_keeps_today_cell_witness :
  (exists D W',
      bk_fetch_data.fetch_board_list_today ex_float ex_float_of_int
        (Ok (Eastmoney.Data ex_page)) = Returns D
      /\ bk_fetch_data.patch_today iso_day ex_wide D "2024-01-03" = Ok W'
      /\ cell_at W' "BK2|B" "2024-01-03" = Some "1|3.00|20")
  /\ (exists D W',
        bk_data_ind.fetch_board_list_today ex_float ex_float_of_int ex_http 50
        = (Returns D, [1; 2])
        /\ bk_data_ind.patch_today iso_day ex_wide D "2024-01-03" = Ok W'
        /\ cell_at W' "BK2|B" "2024-01-03" = Some "1|3.00|20").
Proof.
  pose proof (blank_quote_keeps_today_cell ex_float ex_float_of_int iso_day)
    as [Hvis Hround].
  split.
  - eexists. eexists. split; [reflexivity|]. split; [reflexivity|].
    refine (Hvis ex_page _
              (ex_item "BK2" "B" (Eastmoney.NStr "--") (Eastmoney.NStr "--"))
              "BK2" "B" ex_wide "2024-01-03" _ eq_refl _ eq_refl _ eq_refl _ _).
    + simpl. tauto.
    + split; reflexivity.
    + simpl. tauto.
    + simpl. tauto.
  - eexists. eexists. split; [reflexivity|]. split; [reflexivity|].
    refine (Hround ex_http 50 _ [1; 2] "BK2" "B" ex_wide "2024-01-03" _
              eq_refl _ _ eq_refl _ _).
    + exists (ex_item "BK2" "B" (Eastmoney.NStr "--") (Eastmoney.NStr "--")).
      split; [|reflexivity]. exists 1. simpl. tauto.
    + intros it (pn & Hpn & Hit) Hn.
      destruct Hpn as [<-|[<-|[]]]; simpl in Hit;
        repeat (destruct Hit as [<-|Hit]; [try discriminate Hn;
                                           repeat split|]);
        destruct Hit.
    + simpl. tauto.
    + simpl. tauto.
Defined.

(** ** The trading day *)

(** X6.  [get_latest_trade_date] returns today or a day of the calendar
    that is before today as a string, hence never a day after today.  It
    returns today when the calendar lists today, when the calendar cannot
    be had, and when the calendar has no earlier day; else it returns the
    last day of the calendar that is before today, which in a calendar in
    ascending order is the greatest such day. *)
Theorem latest_trade_date_not_after_today (today : string) (cal : exc (list string)) :
  let d := bk_data_ind.get_latest_trade_date today cal in
  String.leb d today = true
  /\ (d = today
      \/ exists trade_dates,
           cal = Ok trade_dates /\ In d trade_dates /\ String.ltb d today = true)
  /\ (forall e, cal = Raise e -> d = today)
  /\ (forall trade_dates, cal = Ok trade_dates -> In today trade_dates -> d = today)
  /\ (forall trade_dates,
        cal = Ok trade_dates ->
        (forall x, In x trade_dates -> String.ltb x today = false) -> d = today)
  /\ (forall trade_dates x,
        cal = Ok trade_dates -> ~ In today trade_dates ->
        StronglySorted (fun a b => String.leb a b = true) trade_dates ->
        In x trade_dates -> String.ltb x today = true ->
        In d trade_dates /\ String.ltb d today = true /\ String.leb x d = true).
Proof.
  destruct cal as [trade_dates|e].
  - pose proof (latest_cases today trade_dates) as Hc. cbv zeta in *.
    set (d := bk_data_ind.get_latest_trade_date today (Ok trade_dates)) in *.
    split; [|split; [|split; [|split; [|split]]]].
    + destruct Hc as [[_ ->]|[(_ & -> & _)|(_ & Hlt & _)]];
        try apply leb_refl. now apply ltb_leb.
    + destruct Hc as [[_ ->]|[(_ & -> & _)|(_ & Hlt & l1 & l2 & Hl & _)]];
        [now left | now left |].
      right. exists trade_dates. split; [reflexivity|]. split; [|assumption].
      rewrite Hl. apply in_or_app. right. now left.
    + discriminate.
    + intros l Hl Hin. injection Hl as <-.
      destruct Hc as [[_ ->]|[(Hn & _)|(Hn & _)]]; [reflexivity | |]; contradiction.
    + intros l Hl Hall. injection Hl as <-.
      destruct Hc as [[_ ->]|[(_ & -> & _)|(_ & Hlt & l1 & l2 & Hl & _)]];
        [reflexivity | reflexivity |].
      rewrite (Hall d) in Hlt; [discriminate|].
      rewrite Hl. apply in_or_app. right. now left.
    + intros l x Hl Hn Hs Hx Hxt. injection Hl as <-.
      destruct Hc as [[Hin _]|[(_ & _ & Hall)|(_ & Hlt & l1 & l2 & Hl & Hl2)]].
      * contradiction.
      * rewrite (Hall x Hx) in Hxt. discriminate.
      * split; [rewrite Hl; apply in_or_app; right; now left|].
        split; [assumption|].
        rewrite Hl in Hx, Hs. apply in_app_or in Hx. destruct Hx as [Hx|[<-|Hx]].
        -- clear -Hs Hx. induction l1 as [|a t IH]; [destruct Hx|].
           simpl in Hs. inversion Hs as [|? ? Ht Ha]; subst.
           destruct Hx as [<-|Hx]; [|now apply IH].
           rewrite Forall_forall in Ha. apply Ha. apply in_or_app. right. now left.
        -- apply leb_refl.
        -- rewrite (Hl2 x Hx) in Hxt. discriminate.
  - simpl. split; [apply leb_refl|]. split; [now left|].
    split; [reflexivity|]. repeat split; discriminate.
Qed.

Example latest_trade_date_samples :
  bk_data_ind.get_latest_trade_date "2024-01-06"
    (Ok ["2024-01-03"; "2024-01-04"; "2024-01-05"; "2024-01-08"]) = "2024-01-05"
  /\ bk_data_ind.get_latest_trade_date "2024-01-04"
       (Ok ["2024-01-03"; "2024-01-04"; "2024-01-05"]) = "2024-01-04"
  /\ bk_data_ind.get_latest_trade_date "2024-01-01" (Ok ["2024-01-03"]) = "2024-01-01"
  /\ bk_data_ind.get_latest_trade_date "2024-01-06" (Raise HTTPError) = "2024-01-06".
Proof. repeat split. Qed.

(** X7.  On a board list that fits one page and names no board twice the
    paged [fetch_board_list_basic] of [round/bk_data_ind.py] returns what
    the one-request [fetch_board_list_basic] of
    [bk_vis/bk_fetch_data.py] and [fetch_board_list] of
    [rank_get_value.py] return for that page: the (code, name) pairs of
    the items that have both, in the order of the answer.  It stops after
    that page when [total] is reached, after the next page when that one
    is empty. *)
Theorem one_page_board_lists_agree (http : nat -> exc Eastmoney.body)
    (max_pages : nat) (p : Eastmoney.page) :
  http 1 = Ok (Eastmoney.Data p) ->
  Eastmoney.items p <> [] ->
  NoDup (somes (map Eastmoney.named (Eastmoney.items p))) ->
  2 <= max_pages ->
  (exists b, http 2 = Ok b /\ page_items http 2 = []) ->
  fst (bk_data_ind.fetch_board_list_basic http max_pages)
  = bk_fetch_data.fetch_board_list_basic (http 1)
  /\ bk_fetch_data.fetch_board_list_basic (http 1)
     = rank_get_value.fetch_board_list (http 1)
  /\ bk_fetch_data.fetch_board_list_basic (http 1)
     = Returns (somes (map Eastmoney.named (Eastmoney.items p)))
  /\ (snd (bk_data_ind.fetch_board_list_basic http max_pages) = [1]
      \/ snd (bk_data_ind.fetch_board_list_basic http max_pages) = [1; 2]).
Proof.
  intros H1 Hne Hnd Hmax (b & H2 & Hempty).
  assert (Hsimple : bk_fetch_data.fetch_board_list_basic (http 1)
                    = Returns (somes (map Eastmoney.named (Eastmoney.items p)))).
  { rewrite H1. simpl. f_equal. apply flat_map_named. }
  assert (Hpaged :
            bk_data_ind.fetch_board_list_basic http max_pages
            = (Returns (somes (map Eastmoney.named (Eastmoney.items p))), [1])
            \/ bk_data_ind.fetch_board_list_basic http max_pages
               = (Returns (somes (map Eastmoney.named (Eastmoney.items p))), [1; 2])).
  { unfold bk_data_ind.fetch_board_list_basic, bk_data_ind.paged.
    destruct max_pages as [|[|m]]; try lia.
    rewrite pages_S, H1. cbn [Eastmoney.data_or_empty].
    rewrite (fold_add_distinct (Eastmoney.items p) ([], []) eq_refl Hnd).
    cbn [fst snd app].
    destruct (Eastmoney.items p) as [|it0 its] eqn:Hit; [now contradiction Hne|].
    destruct (bk_data_ind.got_all _ _); [now left|].
    right. rewrite pages_S, H2. unfold page_items in Hempty. rewrite H2 in Hempty.
    now rewrite Hempty. }
  split; [|split; [|split]].
  - rewrite Hsimple. now destruct Hpaged as [-> | ->].
  - now rewrite H1.
  - exact Hsimple.
  - destruct Hpaged as [-> | ->]; [now left | now right].
Qed.

Lemma one_page_board_lists_agree_witness :
  fst (bk_data_ind.fetch_board_list_basic
         (fun pn => match pn with
                    | 1 => Ok (Eastmoney.Data ex_page)
                    | _ => Ok Eastmoney.NullData
                    end) 50)
  = Returns [("BK1", "A"); ("BK2", "B")].
Proof.
  pose proof (one_page_board_lists_agree
                (fun pn => match pn with
                           | 1 => Ok (Eastmoney.Data ex_page)
                           | _ => Ok Eastmoney.NullData
                           end) 50 ex_page eq_refl) as H.
  destruct H as (Hp & _ & Hs & _).
  - discriminate.
  - simpl. repeat constructor; simpl; intuition discriminate.
  - lia.
  - exists Eastmoney.NullData. now split.
  - rewrite Hp. exact Hs.
Defined.

(** ** The cell, written and read back *)

(** X8.  The fields of a cell can be read back by splitting it at ['|']:
    a three-field cell that is not empty splits into the renderings of
    its rank, [pct] and value; a seven-field cell that is not empty has
    these and the turnover as its first four fields, and splits into its
    seven fields when the counts and the leader have no ['|']. *)
Theorem fmt_cell_fields_back :
  (forall rank pct close,
      bk_fetch_data.fmt_cell rank pct close <> EmptyString ->
      PyStr.split "|" (bk_fetch_data.fmt_cell rank pct close)
      = [CellSpec.render_rank rank; CellSpec.render_pct pct;
         CellSpec.render_value close])
  /\ (forall rank pct close turnover up down leader,
        bk_data_ind.fmt_cell rank pct close turnover up down leader <> EmptyString ->
        exists rest,
          PyStr.split "|" (bk_data_ind.fmt_cell rank pct close turnover up down leader)
          = CellSpec.render_rank rank :: CellSpec.render_pct pct
            :: CellSpec.render_value close :: CellSpec.render_pct turnover :: rest
          /\ (free_of "|" (CellSpec.render_val up) ->
              free_of "|" (CellSpec.render_val down) ->
              free_of "|" (CellSpec.render_str leader) ->
              rest = [CellSpec.render_val up; CellSpec.render_val down;
                      CellSpec.render_str leader])).
Proof.
  split.
  - intros rank pct close. rewrite fmt_cell3_spec. apply split_cell3.
  - intros rank pct close turnover up down leader. rewrite fmt_cell7_spec.
    intros Hne. eexists. split; [now apply split_cell7|].
    intros Hu Hd Hl. rewrite split_app by assumption.
    rewrite split_app by assumption. now rewrite split_free by assumption.
Qed.

Lemma fmt_cell_fields_back_witness :
  PyStr.split "|" (bk_fetch_data.fmt_cell None (Some FNaN) (Some (of_Z 1000)))
  = [EmptyString; EmptyString; "1000"].
Proof.
  exact (proj1 fmt_cell_fields_back None (Some FNaN) (Some (of_Z 1000))
           (fun H => eq_ind "||1000"
                       (fun s => match s with EmptyString => False | _ => True end)
                       I _ H)).
Defined.

Section ReadBack.

Variable float_of_str : string -> option pyfloat.
Variable div100 : pyfloat -> pyfloat.

Lemma parse_triplet_body (s s' : string) :
  bk_top_range.parse_body float_of_str div100 s
  = bk_top_range.parse_body float_of_str div100 s' ->
  bk_top_range.parse_triplet float_of_str div100 (Some s)
  = bk_top_range.parse_triplet float_of_str div100 (Some s').
Proof. unfold bk_top_range.parse_triplet. now intros ->. Qed.

Lemma parse_triplet_empty :
  float_of_str EmptyString = None ->
  bk_top_range.parse_triplet float_of_str div100 (Some EmptyString)
  = Ok bk_top_range.nan3.
Proof.
  intros H. apply parse_malformed. left. simpl. lia.
Qed.

Lemma parse_triplet_blank_field (s p0 p1 p2 : string) (rest : list string) :
  float_of_str EmptyString = None ->
  PyStr.split "|" s = p0 :: p1 :: p2 :: rest ->
  p0 = EmptyString \/ p1 = EmptyString \/ p2 = EmptyString ->
  bk_top_range.parse_triplet float_of_str div100 (Some s) = Ok bk_top_range.nan3.
Proof.
  intros Hf Hs Hb. apply parse_malformed. unfold TripletSpec.malformed.
  rewrite Hs. right. destruct Hb as [Hb | [Hb | Hb]]; subst.
  - exists 0, EmptyString. repeat split; [lia | assumption].
  - exists 1, EmptyString. repeat split; [lia | assumption].
  - exists 2, EmptyString. repeat split; [lia | assumption].
Qed.

Lemma cell3_empty (rank : option Z) (pct close : option pyfloat) :
  CellSpec.cell3 rank pct close = EmptyString ->
  rank = None /\ CellSpec.absent pct = true /\ CellSpec.absent close = true.
Proof.
  unfold CellSpec.cell3. destruct rank.
  - intros H. now apply join_nonempty in H.
  - destruct (CellSpec.absent pct), (CellSpec.absent close); cbn [andb]; intros H;
      try (now apply join_nonempty in H). now repeat split.
Qed.

Lemma cell7_empty (rank : option Z) (pct close turnover : option pyfloat)
    (up down : pyval) (leader : option string) :
  CellSpec.cell7 rank pct close turnover up down leader = EmptyString ->
  CellSpec.cell3 rank pct close = EmptyString.
Proof.
  unfold CellSpec.cell7, CellSpec.cell3. destruct rank.
  - intros H. now apply join_nonempty in H.
  - destruct (CellSpec.absent pct), (CellSpec.absent close); cbn [andb];
      try reflexivity; intros H; now apply join_nonempty in H.
Qed.

End ReadBack.

(** X9.  [parse_triplet] reads back what [fmt_cell] wrote: for a cell
    made of a rank [k >= 1], a [pct] and a value, it returns the int [k],
    the number [float] reads in the [pct] field divided by 100, and the
    number [float] reads in the value field; the four fields that
    [round/bk_data_ind.py] adds change nothing.  [float] must read the
    digits of [k] as [k], which it does below [2^53]. *)
Theorem parse_triplet_reads_fmt_cell
    (float_of_str : string -> option pyfloat) (div100 : pyfloat -> pyfloat)
    (k : Z) (pct close x1 x2 : pyfloat) :
  (0 < k)%Z ->
  float_of_str (PyStr.str_int k) = Some (of_Z k) ->
  isnan pct = false -> isnan close = false ->
  float_of_str (format_fixed 2 pct) = Some x1 ->
  float_of_str (PyStr.rstrip "." (PyStr.rstrip "0" (format_fixed 4 close))) = Some x2 ->
  bk_top_range.parse_triplet float_of_str div100
    (Some (bk_fetch_data.fmt_cell (Some k) (Some pct) (Some close)))
  = Ok (bk_top_range.RankInt k, div100 x1, x2)
  /\ forall turnover up down leader,
       bk_top_range.parse_triplet float_of_str div100
         (Some (bk_data_ind.fmt_cell (Some k) (Some pct) (Some close)
                  turnover up down leader))
       = Ok (bk_top_range.RankInt k, div100 x1, x2).
Proof.
  intros Hk Hf0 Hp Hc Hf1 Hf2.
  assert (Hrank : TripletSpec.rank_of (of_Z k) = bk_top_range.RankInt k).
  { apply rank_of_int; [now apply of_Z_gt0 | apply of_Z_is_int]. }
  assert (Hinf : of_Z k <> FInf false) by discriminate.
  assert (Hr1 : CellSpec.render_pct (Some pct) = format_fixed 2 pct).
  { rewrite render_pct_eq. now rewrite Hp. }
  assert (Hr2 : CellSpec.render_value (Some close)
                = PyStr.rstrip "." (PyStr.rstrip "0" (format_fixed 4 close))).
  { rewrite render_value_eq. now rewrite Hc. }
  split.
  - rewrite <- Hrank. eapply parse_valid; try eassumption.
    rewrite fmt_cell3_spec, split_cell3; [|apply join_nonempty].
    rewrite Hr1, Hr2. reflexivity.
  - intros turnover up down leader.
    rewrite <- Hrank. eapply parse_valid; try eassumption.
    rewrite fmt_cell7_spec, split_cell7; [|apply join_nonempty].
    rewrite Hr1, Hr2. reflexivity.
Qed.

Lemma parse_triplet_reads_fmt_cell_witness :
  bk_fetch_data.fmt_cell (Some 3%Z) (Some (of_Z 150)) (Some (of_scaled 2049 1))
  = "3|150.00|1024.5"
  /\ bk_top_range.parse_triplet ex_float_cell ex_div100 (Some "3|150.00|1024.5")
     = Ok (bk_top_range.RankInt 3, of_scaled 3 1, of_scaled 2049 1).
Proof.
  split; [reflexivity|].
  exact (proj1 (parse_triplet_reads_fmt_cell ex_float_cell ex_div100 3
                  (of_Z 150) (of_scaled 2049 1) (of_Z 150) (of_scaled 2049 1)
                  eq_refl eq_refl eq_refl eq_refl eq_refl eq_refl)).
Defined.

(** X10.  To [parse_triplet] a seven-field cell of
    [round/bk_data_ind.py] is the three-field cell of the same rank, [pct]
    and value: it reads the first three fields and ignores the others,
    whatever they hold ([float("")] raising, as it does). *)
Theorem parse_triplet_ignores_extra_fields
    (float_of_str : string -> option pyfloat) (div100 : pyfloat -> pyfloat)
    (rank : option Z) (pct close turnover : option pyfloat)
    (up down : pyval) (leader : option string) :
  float_of_str EmptyString = None ->
  bk_top_range.parse_triplet float_of_str div100
    (Some (bk_data_ind.fmt_cell rank pct close turnover up down leader))
  = bk_top_range.parse_triplet float_of_str div100
      (Some (bk_fetch_data.fmt_cell rank pct close)).
Proof.
  intros Hf. rewrite fmt_cell7_spec, fmt_cell3_spec.
  destruct (string_dec (CellSpec.cell7 rank pct close turnover up down leader)
              EmptyString) as [H7|H7].
  - rewrite H7. now rewrite (cell7_empty _ _ _ _ _ _ _ H7).
  - pose proof (split_cell7 _ _ _ _ _ _ _ H7) as Hs7.
    destruct (string_dec (CellSpec.cell3 rank pct close) EmptyString) as [H3|H3].
    + rewrite H3, (parse_triplet_empty _ _ Hf).
      destruct (cell3_empty _ _ _ H3) as (-> & _ & _).
      eapply parse_triplet_blank_field; [assumption | exact Hs7 | now left].
    + apply parse_triplet_body.
      rewrite (parse_body_fields _ _ _ _ _ _ _ Hs7).
      now rewrite (parse_body_fields _ _ _ _ _ _ [] (split_cell3 _ _ _ H3)).
Qed.

Lemma parse_triplet_ignores_extra_fields_witness :
  bk_data_ind.fmt_cell (Some 3%Z) (Some (of_Z 150)) (Some (of_scaled 2049 1))
    None (VInt 5) (VStr "x|y") (Some "L") = "3|150.00|1024.5||5|x|y|L"
  /\ bk_top_range.parse_triplet ex_float_cell ex_div100
       (Some "3|150.00|1024.5||5|x|y|L")
     = bk_top_range.parse_triplet ex_float_cell ex_div100 (Some "3|150.00|1024.5").
Proof.
  split; [reflexivity|].
  exact (parse_triplet_ignores_extra_fields ex_float_cell ex_div100 (Some 3%Z)
           (Some (of_Z 150)) (Some (of_scaled 2049 1)) None (VInt 5) (VStr "x|y")
           (Some "L") eq_refl).
Defined.

(** X11.  A cell that lacks its rank, its [pct] or its value is read as
    (NaN, NaN, NaN): [parse_triplet] gives up the fields the cell does
    have, since [float("")] raises.  So is the empty cell. *)
Theorem parse_triplet_needs_three_fields
    (float_of_str : string -> option pyfloat) (div100 : pyfloat -> pyfloat)
    (rank : option Z) (pct close : option pyfloat) :
  float_of_str EmptyString = None ->
  rank = None \/ CellSpec.absent pct = true \/ CellSpec.absent close = true ->
  bk_top_range.parse_triplet float_of_str div100
    (Some (bk_fetch_data.fmt_cell rank pct close)) = Ok bk_top_range.nan3
  /\ forall turnover up down leader,
       bk_top_range.parse_triplet float_of_str div100
         (Some (bk_data_ind.fmt_cell rank pct close turnover up down leader))
       = Ok bk_top_range.nan3.
Proof.
  intros Hf Habs.
  assert (H3 : bk_top_range.parse_triplet float_of_str div100
                 (Some (bk_fetch_data.fmt_cell rank pct close))
               = Ok bk_top_range.nan3).
  { rewrite fmt_cell3_spec.
    destruct (string_dec (CellSpec.cell3 rank pct close) EmptyString) as [He|Hne].
    - rewrite He. now apply parse_triplet_empty.
    - eapply parse_triplet_blank_field;
        [assumption | exact (split_cell3 _ _ _ Hne) |].
      destruct Habs as [Hr | [H | H]]; [subst; now left | right; left | right; right].
      + rewrite <- render_pct_eqb in H. now apply eqb_empty.
      + rewrite <- render_value_eqb in H. now apply eqb_empty. }
  split; [assumption|].
  intros turnover up down leader.
  now rewrite parse_triplet_ignores_extra_fields.
Qed.

Lemma parse_triplet_needs_three_fields_witness :
  bk_fetch_data.fmt_cell None (Some FNaN) (Some (of_Z 1000)) = "||1000"
  /\ bk_top_range.parse_triplet ex_float ex_div100 (Some "||1000")
     = Ok bk_top_range.nan3.
Proof.
  split; [reflexivity|].
  exact (proj1 (parse_triplet_needs_three_fields ex_float ex_div100 None
                  (Some FNaN) (Some (of_Z 1000)) eq_refl (or_introl eq_refl))).
Defined.

(** X12.  A cell never has a rank without a [pct_chg] or a [pct_chg]
    without a rank.  Every new cell of [patch_today] and every cell of
    [write_baseline] (both files) is empty or has its rank field empty
    exactly when its [pct] field is empty; a cell of [rank_get_value.py]
    is empty or the rank, from 1 up, and the [pct_chg] of its row with
    two decimals. *)
Theorem cells_rank_iff_pct :
  (forall D k cell, In (k, cell) (bk_fetch_data.series_new D) -> rank_with_pct cell)
  /\ (forall D k cell, In (k, cell) (bk_data_ind.new_series D) -> rank_with_pct cell)
  /\ (forall rows k d cell,
        In (k, d, cell) (Long.cells bk_fetch_data.fmt_cell rows) ->
        rank_with_pct cell)
  /\ (forall rows k d cell,
        In (k, d, cell)
          (Long.cells (fun rank pct close =>
                         bk_data_ind.fmt_cell rank pct close None VNone VNone None)
             rows) ->
        rank_with_pct cell)
  /\ (forall rows cell,
        In cell (rank_get_value.cells rows) ->
        cell = EmptyString
        \/ exists n p,
             1 <= n /\ isnan p = false
             /\ cell = (PyStr.str_int (Z.of_nat n) ++ "|" ++ format_fixed 2 p)%string).
Proof.
  split; [|split; [|split; [|split]]].
  - intros D k cell H. unfold bk_fetch_data.series_new in H.
    apply in_map_iff in H. destruct H as ([r rk] & Heq & Hin).
    injection Heq as _ <-. rewrite fmt_cell3_spec.
    apply cell3_rank_with_pct, rank_arg_fits.
    exact (Forall2_combine_In _ _ _ _ _ (today_ranks_fit D) Hin).
  - intros D k cell H. unfold bk_data_ind.new_series in H.
    apply in_map_iff in H. destruct H as ([r rk] & Heq & Hin).
    injection Heq as _ <-.
    pose proof (Forall2_combine_In _ _ _ _ _ (today_ranks_fit D) Hin) as Hfit.
    destruct (extra_cols D); rewrite fmt_cell7_spec;
      now apply cell7_rank_with_pct, rank_arg_fits.
  - intros rows k d cell H. unfold Long.cells in H.
    apply in_map_iff in H. destruct H as ([r rk] & Heq & Hin).
    injection Heq as _ _ <-. rewrite fmt_cell3_spec.
    apply cell3_rank_with_pct, rank_arg_fits.
    exact (Forall2_combine_In _ _ _ _ _ (long_ranks_fit rows) Hin).
  - intros rows k d cell H. unfold Long.cells in H.
    apply in_map_iff in H. destruct H as ([r rk] & Heq & Hin).
    injection Heq as _ _ <-. rewrite fmt_cell7_spec.
    apply cell7_rank_with_pct, rank_arg_fits.
    exact (Forall2_combine_In _ _ _ _ _ (long_ranks_fit rows) Hin).
  - intros rows cell H. unfold rank_get_value.cells in H.
    apply in_map_iff in H. destruct H as ([r rk] & <- & Hin). simpl.
    unfold rank_get_value.ranks in Hin.
    destruct (Forall2_combine_In _ _ _ _ _
                (long_ranks_fit (rank_get_value.sort_values rows)) Hin) as [H1 H2].
    unfold rank_get_value.fmt_cell. destruct (isnan (l_pct r)) eqn:Hn.
    + rewrite (H1 eq_refl). now left.
    + destruct (H2 eq_refl) as (n & -> & Hge). right. exists n, (l_pct r).
      split; [assumption|]. split; [assumption|].
      rewrite (eqb_empty_false _ (str_int_nonempty _)). reflexivity.
Qed.

Example cells_rank_iff_pct_sample :
  rank_get_value.cells ex_long = ["2|1.00"; "1|3.00"; EmptyString; "1|2.00"]
  /\ map snd (bk_fetch_data.series_new ex_today) = ["2|2.50|7"; "1|4.00|11"; EmptyString].
Proof. split; reflexivity. Qed.

(** X13.  A count of 0 is written like a missing count.  In
    [round/bk_data_ind.py] the snapshot keeps [f104 or ""] and
    [f105 or ""], so that for a board with no rising (or no falling)
    stock the fifth (or sixth) field of the cell is empty, as it is when
    the API sends no count; any other integer count is written in
    decimal. *)
Theorem zero_count_written_empty
    (float_of_str : string -> option pyfloat) (float_of_int : Z -> option pyfloat)
    (it : Eastmoney.list_item) (code name : string) (rank : option Z) :
  let r := bk_data_ind.today_row float_of_str float_of_int it code name in
  let cell := bk_data_ind.fmt_cell rank (Some (pct_chg r)) (Some (close r))
                (Some (turnover r)) (up_count r) (down_count r) (Some (leader r)) in
  cell <> EmptyString ->
  (falsy_count (Eastmoney.f104 it) = true ->
   nth 4 (PyStr.split "|" cell) "?" = EmptyString)
  /\ (forall z, Eastmoney.f104 it = VInt z -> z <> 0%Z ->
        nth 4 (PyStr.split "|" cell) "?" = PyStr.str_int z)
  /\ (forall z, Eastmoney.f104 it = VInt z ->
        (falsy_count (Eastmoney.f105 it) = true ->
         nth 5 (PyStr.split "|" cell) "?" = EmptyString)
        /\ (forall z', Eastmoney.f105 it = VInt z' -> z' <> 0%Z ->
              nth 5 (PyStr.split "|" cell) "?" = PyStr.str_int z')).
Proof.
  intros r cell Hne. unfold cell in *. rewrite fmt_cell7_spec in *.
  rewrite (split_cell7 _ _ _ _ _ _ _ Hne). simpl nth.
  assert (Hup : forall z, Eastmoney.f104 it = VInt z ->
            free_of "|" (CellSpec.render_val (up_count r))).
  { intros z Hz. unfold r. simpl. rewrite Hz. simpl.
    destruct (z =? 0)%Z; [reflexivity | apply str_int_free]. }
  split; [|split].
  - intros Hf. unfold r. simpl. rewrite (or_empty_falsy _ Hf). reflexivity.
  - intros z Hz Hz0. rewrite split_app by now apply (Hup z).
    unfold r. simpl. rewrite Hz. simpl.
    destruct (Z.eqb_spec z 0); [contradiction | reflexivity].
  - intros z Hz. rewrite split_app by now apply (Hup z). simpl nth. split.
    + intros Hf. unfold r. simpl. rewrite (or_empty_falsy _ Hf). reflexivity.
    + intros z' Hz' Hz0.
      assert (Hd : free_of "|" (CellSpec.render_val (down_count r))).
      { unfold r. simpl. rewrite Hz'. simpl.
        destruct (z' =? 0)%Z; [reflexivity | apply str_int_free]. }
      rewrite split_app by exact Hd.
      unfold r. simpl. rewrite Hz'. simpl.
      destruct (Z.eqb_spec z' 0); [contradiction | reflexivity].
Qed.

Lemma zero_count_written_empty_witness :
  bk_data_ind.fmt_cell (Some 1%Z) (Some (of_Z 4)) (Some (of_Z 11)) (Some FNaN)
    (VStr EmptyString) (VInt 7) (Some "L") = "1|4.00|11|||7|L"
  /\ nth 4 (PyStr.split "|" "1|4.00|11|||7|L") "?" = EmptyString.
Proof.
  split; [reflexivity|].
  exact (proj1 (zero_count_written_empty ex_float ex_float_of_int
                  (Eastmoney.mkItem (Some "BK1") (Some "A") (Eastmoney.NInt 11)
                     (Eastmoney.NInt 4) Eastmoney.NNull (VInt 0) (VInt 7) (Some "L"))
                  "BK1" "A" (Some 1%Z)
                  (fun H => eq_ind "1|4.00|11|||7|L"
                              (fun s => match s with EmptyString => False | _ => True end)
                              I _ H))
           eq_refl).
Defined.

(** ** The runs of [build_csv] *)

(** X14.  The kline requests of a run are bounded by the board list: a
    baseline run makes at most [RETRY_TIMES] of them for each board, a
    run in the list mode none, and a run in the per-board mode at most
    [RETRY_TIMES] for each board in the first pass and one more than that
    in the second, hence no more than [2 * RETRY_TIMES + 1] for each
    board; none at all when the board list cannot be had. *)
Theorem kline_request_budget
    (to_dt : string -> option Z) (to_date : string -> option date)
    (w : Pipeline.world) (n_days : Z) (today_mode : string) (file : option frame) :
  (let r := bk_fetch_data.build_csv to_dt to_date w n_days today_mode file in
   (RunSpec.needs_baseline file = true ->
    kline_requests r <= Pipeline.RETRY_TIMES * listed w)
   /\ (RunSpec.needs_baseline file = false -> today_mode = "list" ->
       kline_requests r = 0)
   /\ (RunSpec.needs_baseline file = false ->
       kline_requests r <= (2 * Pipeline.RETRY_TIMES + 1) * listed w))
  /\ (let r := bk_data_ind.build_csv to_dt to_date w n_days today_mode file in
      (RunSpec.needs_baseline file = true ->
       kline_requests r <= Pipeline.RETRY_TIMES * listed w)
      /\ (RunSpec.needs_baseline file = false -> today_mode = "list" ->
          kline_requests r = 0)
      /\ (RunSpec.needs_baseline file = false ->
          kline_requests r <= (2 * Pipeline.RETRY_TIMES + 1) * listed w)).
Proof.
  split; apply build_csv_budget.
Qed.

Example kline_request_budget_sample :
  kline_requests (bk_data_ind.build_csv iso_day iso_date ex_world 2 "his"
                    (Some ex_wide)) = 2
  /\ kline_requests
       (bk_data_ind.build_csv iso_day iso_date
          (Pipeline.mkWorld 19727 "2024-01-04" (Ok [("BK1", "A"); ("BK3", "C")])
             (Ok ex_today) (fun _ _ _ _ => Raise HTTPError) (fun _ => false))
          2 "his" (Some ex_wide)) = 18.
Proof. split; reflexivity. Qed.

(** X15.  The baseline is built once: a baseline run leaves the CSV file
    as it was (nothing was fetched, or the writer raised) or leaves a
    table that has rows and columns when read back, so that the next run
    patches it instead of bootstrapping again. *)
Theorem baseline_built_once
    (to_dt : string -> option Z) (to_date : string -> option date)
    (w : Pipeline.world) (n_days : Z) (today_mode : string) (file : option frame) :
  RunSpec.needs_baseline file = true ->
  (let r := bk_fetch_data.build_csv to_dt to_date w n_days today_mode file in
   Pipeline.csv r = file \/ RunSpec.needs_baseline (Pipeline.csv r) = false)
  /\ (let r := bk_data_ind.build_csv to_dt to_date w n_days today_mode file in
      Pipeline.csv r = file \/ RunSpec.needs_baseline (Pipeline.csv r) = false).
Proof.
  intros Hnb.
  assert (Hw : Frame.empty (match file with
                            | Some f => read_csv f
                            | None => empty_frame
                            end) = true)
    by (destruct file; [exact Hnb | reflexivity]).
  assert (Hgen : forall fmt,
             let r := Pipeline.build_csv (Long.write_baseline fmt to_date)
                        (fun _ _ _ => Raise ValueError) w n_days today_mode file in
             Pipeline.csv r = file \/ RunSpec.needs_baseline (Pipeline.csv r) = false).
  { intros fmt. unfold Pipeline.build_csv. rewrite Hw.
    destruct (Pipeline.board_list w) as [boards|e]; [|now left].
    pose proof (baseline_loop_records w n_days boards
                  [Pipeline.EvStage Pipeline.Bootstrap; Pipeline.EvBoardList] []
                  (Forall_nil _)) as Hrec.
    destruct (Pipeline.baseline_loop w n_days boards _ []) as [all_rows tr'].
    simpl in Hrec. destruct all_rows as [|h t]; [now left|].
    destruct (Long.write_baseline fmt to_date (h :: t)) as [tb|e] eqn:Hwb;
      [|now left].
    right. simpl. eapply write_baseline_not_empty; try eassumption. discriminate. }
  split.
  - pose proof (Hgen bk_fetch_data.fmt_cell) as H.
    unfold bk_fetch_data.build_csv, bk_fetch_data.write_baseline.
    unfold Pipeline.build_csv in *. rewrite Hw in *. exact H.
  - pose proof (Hgen (fun rank pct close =>
                        bk_data_ind.fmt_cell rank pct close None VNone VNone None))
      as H.
    unfold bk_data_ind.build_csv, bk_data_ind.write_baseline.
    unfold Pipeline.build_csv in *. rewrite Hw in *. exact H.
Qed.

Lemma baseline_built_once_witness :
  exists t,
    Pipeline.csv (bk_data_ind.build_csv iso_day iso_date ex_world 2 "list" None)
    = Some t
    /\ RunSpec.needs_baseline (Some t) = false.
Proof.
  eexists. split; [reflexivity|].
  destruct (proj2 (baseline_built_once iso_day iso_date ex_world 2 "list" None
                     eq_refl)) as [H|H].
  - discriminate H.
  - exact H.
Defined.

(** X16.  In the list mode of [bk_vis/bk_fetch_data.py] a board of the
    table that the list no longer has blocks the whole update once the
    today column exists: [patch_today] raises on the boolean mask that
    lacks the board, [build_csv] swallows the exception, and the run ends
    without error and without having changed the CSV file, for any board.
    [round/bk_data_ind.py], which aligns the new cells on the table first,
    writes the patched table for the same input whenever the snapshot has
    rows of distinct keys. *)
Theorem vis_list_mode_blocked_by_missing_board
    (to_dt : string -> option Z) (to_date : string -> option date)
    (w : Pipeline.world) (n_days : Z) (f : frame) (D : today_df) (k : string) :
  RunSpec.needs_baseline (Some f) = false ->
  Pipeline.list_today w = Ok D ->
  In (Pipeline.today_col w) (columns f) ->
  In k (index f) -> ~ In k (today_keys D) ->
  (let r := bk_fetch_data.build_csv to_dt to_date w n_days "list" (Some f) in
   Pipeline.csv r = Some f /\ Pipeline.error r = None
   /\ Pipeline.trace r = [Pipeline.EvStage Pipeline.TodayList; Pipeline.EvListToday])
  /\ (rows D <> [] -> NoDup (today_keys D) ->
      let r := bk_data_ind.build_csv to_dt to_date w n_days "list" (Some f) in
      exists t,
        bk_data_ind.patch_today to_dt (read_csv f) D (Pipeline.today_col w) = Ok t
        /\ Pipeline.csv r = Some t /\ Pipeline.error r = None).
Proof.
  intros Hnb HD Hc Hk Hn. simpl in Hnb. split.
  - unfold bk_fetch_data.build_csv, Pipeline.build_csv. rewrite Hnb, HD.
    cbn [String.eqb Ascii.eqb Bool.eqb].
    destruct (rows D) as [|r0 rs] eqn:Hrows; [now repeat split|].
    assert (Hp : exists e, bk_fetch_data.patch_today to_dt (read_csv f) D
                             (Pipeline.today_col w) = Raise e).
    { unfold bk_fetch_data.patch_today. rewrite Hrows, vis_keys.
      assert (Hm : PyStr.mem (Pipeline.today_col w) (columns (read_csv f)) = true)
        by now apply mem_In.
      rewrite Hm. cbn [negb].
      destruct (PyStr.has_dup (today_keys D)); [now exists ValueError|].
      assert (Hall : forallb (fun k0 => PyStr.mem k0 (today_keys D))
                       (index (read_csv f)) = false).
      { destruct (forallb _ _) eqn:Hf; [|reflexivity].
        rewrite forallb_forall in Hf. specialize (Hf k Hk).
        apply mem_In in Hf. contradiction. }
      rewrite Hall. now exists IndexingError. }
    destruct Hp as [e Hp]. rewrite Hp. now repeat split.
  - intros Hrows Hnd.
    destruct (round_patch_total to_dt (read_csv f) D (Pipeline.today_col w))
      as [t Ht]; [assumption | now apply has_dup_NoDup|].
    exists t. split; [assumption|].
    unfold bk_data_ind.build_csv, Pipeline.build_csv. rewrite Hnb, HD.
    cbn [String.eqb Ascii.eqb Bool.eqb].
    destruct (rows D) as [|r0 rs]; [now contradiction Hrows|].
    rewrite Ht. now split.
Qed.

Lemma vis_list_mode_blocked_by_missing_board_witness :
  Pipeline.csv (bk_fetch_data.build_csv iso_day iso_date ex_world 2 "list"
                  (Some ex_patched))
  = Some ex_patched.
Proof.
  refine (proj1 (proj1 (vis_list_mode_blocked_by_missing_board iso_day iso_date
                          ex_world 2 ex_patched ex_today "BK2|B"
                          eq_refl eq_refl _ _ _))).
  - simpl. tauto.
  - simpl. tauto.
  - simpl. intuition discriminate.
Defined.

(** X17.  The failure protection of the per-board mode: a board of the
    list for which no kline request gives a record keeps the today cell
    it has in the CSV file.  Its row of the snapshot has neither
    [pct_chg] nor [close], its new cell is empty, and the table that
    [patch_today] writes (or the file left as it was, when nothing is
    written) reads back with the same today cell for that board.  The
    codes of the list have no ['|'], as [BKxxxx] has none. *)
Theorem his_mode_failed_board_keeps_today
    (to_dt : string -> option Z) (to_date : string -> option date)
    (w : Pipeline.world) (n_days : Z) (today_mode : string) (f : frame)
    (boards : list (string * string)) (code name : string) :
  RunSpec.needs_baseline (Some f) = false ->
  today_mode <> "list" ->
  Pipeline.board_list w = Ok boards ->
  In (code, name) boards ->
  (forall c n, In (c, n) boards -> free_of "|" c) ->
  no_kline w code ->
  In (row_key code name) (index f) ->
  In (Pipeline.today_col w) (columns f) ->
  (forall t,
      Pipeline.csv (bk_fetch_data.build_csv to_dt to_date w n_days today_mode (Some f))
      = Some t ->
      cell_at (read_csv t) (row_key code name) (Pipeline.today_col w)
      = cell_at (read_csv f) (row_key code name) (Pipeline.today_col w))
  /\ (forall t,
        Pipeline.csv (bk_data_ind.build_csv to_dt to_date w n_days today_mode (Some f))
        = Some t ->
        cell_at (read_csv t) (row_key code name) (Pipeline.today_col w)
        = cell_at (read_csv f) (row_key code name) (Pipeline.today_col w)).
Proof.
  intros Hnb Hmode Hb Hin Hfree Hno Hk Hc. split; intros t Ht.
  - eapply (his_mode_keeps (bk_fetch_data.write_baseline to_date)
              (bk_fetch_data.patch_today to_dt) vis_new_cell); try eassumption.
    + intros W D today W' k Hp HkW HcW.
      destruct (vis_patch_inv to_dt _ _ _ _ Hp)
        as (Hdup & _ & _ & _ & Htoday & _ & _ & _).
      rewrite vis_keys in Hdup. split; [now apply has_dup_NoDup|].
      rewrite (Htoday k HkW). apply mem_In in HcW. now rewrite HcW.
    + intros D r _. apply vis_blank_row.
    + intros D k Hn. unfold vis_new_cell. apply assoc_notin. now rewrite vis_keys.
  - eapply (his_mode_keeps (bk_data_ind.write_baseline to_date)
              (bk_data_ind.patch_today to_dt) round_new_cell); try eassumption.
    + intros W D today W' k Hp HkW HcW.
      destruct (round_patch_inv to_dt _ _ _ _ Hp)
        as (Hdup & Hidx & _ & _ & Htoday & _ & _).
      rewrite round_keys in Hdup. split; [now apply has_dup_NoDup|].
      rewrite (Htoday k) by (rewrite Hidx; apply in_or_app; now left).
      apply mem_In in HcW. now rewrite HcW.
    + intros D r Hx Hnd Hr Hp Hcl. apply round_blank_row; try assumption.
      intros Hx'. congruence.
    + intros D k Hn. unfold round_new_cell. apply assoc_notin. now rewrite round_keys.
Qed.

Lemma his_mode_failed_board_keeps_today_witness :
  exists t,
    Pipeline.csv (bk_fetch_data.build_csv iso_day iso_date ex_world_down 2 "his"
                    (Some ex_patched)) = Some t
    /\ cell_at t "BK2|B" "2024-01-04" = Some "1|3.00|21"
    /\ cell_at (read_csv t) "BK1|A" "2024-01-04" = Some "1|1.00|10".
Proof.
  eexists. split; [reflexivity|]. split; [reflexivity|].
  refine (proj1 (his_mode_failed_board_keeps_today iso_day iso_date ex_world_down 2
                   "his" ex_patched [("BK1", "A"); ("BK2", "B")] "BK1" "A"
                   eq_refl _ eq_refl _ _ _ _ _) _ eq_refl).
  - discriminate.
  - simpl. tauto.
  - intros c n [H|[H|[]]]; injection H as <- <-; reflexivity.
  - intros n b e. reflexivity.
  - simpl. tauto.
  - simpl. tauto.
Defined.

(** X18.  When every kline request gives records and nothing interrupts
    the run, [build_csv] asks exactly once for each board of the list, in
    the order of the list: for the history in a baseline run, for the
    current day in the per-board mode, where the second pass then does
    not run. *)
Theorem one_request_per_board
    (to_dt : string -> option Z) (to_date : string -> option date)
    (w : Pipeline.world) (n_days : Z) (today_mode : string) (file : option frame)
    (boards : list (string * string)) :
  healthy w ->
  Pipeline.board_list w = Ok boards ->
  (let r := bk_fetch_data.build_csv to_dt to_date w n_days today_mode file in
   (RunSpec.needs_baseline file = true ->
    Pipeline.trace r
    = Pipeline.EvStage Pipeline.Bootstrap :: Pipeline.EvBoardList
      :: map (fun b => Pipeline.EvKline (fst b)
                         (Pipeline.today w - n_days * 2) (Pipeline.today w)) boards)
   /\ (RunSpec.needs_baseline file = false -> today_mode <> "list" ->
       Pipeline.trace r
       = Pipeline.EvStage Pipeline.TodayHis :: Pipeline.EvBoardList
         :: map (fun b => Pipeline.EvKline (fst b)
                            (Pipeline.today w) (Pipeline.today w)) boards))
  /\ (let r := bk_data_ind.build_csv to_dt to_date w n_days today_mode file in
      (RunSpec.needs_baseline file = true ->
       Pipeline.trace r
       = Pipeline.EvStage Pipeline.Bootstrap :: Pipeline.EvBoardList
         :: map (fun b => Pipeline.EvKline (fst b)
                            (Pipeline.today w - n_days * 2) (Pipeline.today w)) boards)
      /\ (RunSpec.needs_baseline file = false -> today_mode <> "list" ->
          Pipeline.trace r
          = Pipeline.EvStage Pipeline.TodayHis :: Pipeline.EvBoardList
            :: map (fun b => Pipeline.EvKline (fst b)
                               (Pipeline.today w) (Pipeline.today w)) boards)).
Proof.
  intros Hw Hb. split; now apply build_csv_healthy.
Qed.

Lemma one_request_per_board_witness :
  Pipeline.trace (bk_data_ind.build_csv iso_day iso_date ex_world 2 "his" (Some ex_wide))
  = [Pipeline.EvStage Pipeline.TodayHis; Pipeline.EvBoardList;
     Pipeline.EvKline "BK1" 19727 19727; Pipeline.EvKline "BK3" 19727 19727].
Proof.
  assert (Hw : healthy ex_world).
  { split; [|reflexivity]. intros n code b e. now eexists; eexists. }
  refine (proj2 (proj2 (one_request_per_board iso_day iso_date ex_world 2 "his"
                          (Some ex_wide) _ Hw eq_refl)) eq_refl _).
  discriminate.
Defined.

(** X19.  The list mode is idempotent on the bytes of the CSV file: when
    a run of [build_csv] in the list mode has left a file, a second run
    that gets the same answer on the same day leaves a file of the same
    bytes, in both files (in [bk_vis/bk_fetch_data.py] because the second
    [patch_today] writes the same table or raises). *)
Theorem list_mode_run_twice
    (to_dt : string -> option Z) (to_date : string -> option date)
    (w : Pipeline.world) (n_days : Z) (f : frame) :
  RunSpec.needs_baseline (Some f) = false ->
  (forall t1,
      Pipeline.csv (bk_fetch_data.build_csv to_dt to_date w n_days "list" (Some f))
      = Some t1 ->
      exists t2,
        Pipeline.csv (bk_fetch_data.build_csv to_dt to_date w n_days "list" (Some t1))
        = Some t2
        /\ bk_fetch_data.to_csv t2 = bk_fetch_data.to_csv t1)
  /\ (forall t1,
        Pipeline.csv (bk_data_ind.build_csv to_dt to_date w n_days "list" (Some f))
        = Some t1 ->
        exists t2,
          Pipeline.csv (bk_data_ind.build_csv to_dt to_date w n_days "list" (Some t1))
          = Some t2
          /\ bk_data_ind.to_csv t2 = bk_data_ind.to_csv t1).
Proof.
  intros Hnb. simpl in Hnb.
  assert (Hkeep : forall W t : frame,
             Frame.empty W = false -> index t = index W \/ (exists l, index t = index W ++ l) ->
             (forall c, In c (columns W) -> In c (columns t)) ->
             Frame.empty (read_csv t) = false).
  { intros W t He Hi Hc. unfold Frame.empty in *. simpl.
    destruct (index W) as [|k ks] eqn:HiW; [discriminate|].
    destruct (columns W) as [|c cs] eqn:HcW; [discriminate|].
    assert (Hit : index t <> []).
    { destruct Hi as [Hi|[l Hi]]; rewrite Hi; discriminate. }
    assert (Hct : columns t <> []).
    { intros Hn. specialize (Hc c (or_introl eq_refl)). rewrite Hn in Hc.
      destruct Hc. }
    destruct (index t); [now contradiction Hit|].
    destruct (columns t); [now contradiction Hct | reflexivity]. }
  split; intros t1.
  - unfold bk_fetch_data.build_csv, Pipeline.build_csv. rewrite Hnb.
    cbn [String.eqb Ascii.eqb Bool.eqb].
    destruct (Pipeline.list_today w) as [D|e] eqn:HD.
    + destruct (rows D) as [|r0 rs] eqn:Hrows.
      * intros H. injection H as <-. rewrite Hnb. exists f. now split.
      * destruct (bk_fetch_data.patch_today to_dt (read_csv f) D
                    (Pipeline.today_col w)) as [t|e] eqn:Hp.
        -- intros H. injection H as <-.
           destruct (vis_patch_inv to_dt _ _ _ _ Hp)
             as (_ & Hidx & Hcols & _ & _ & _ & _ & _).
           rewrite (Hkeep (read_csv f) t Hnb (or_introl Hidx)
                      (fun c Hc => proj2 (Hcols c) (or_intror Hc))).
           destruct (bk_fetch_data.patch_today to_dt (read_csv t) D
                       (Pipeline.today_col w)) as [t2|e] eqn:Hp2.
           ++ exists t2. split; [reflexivity|].
              exact (vis_patch_reread to_dt _ _ _ _ _ Hp Hp2).
           ++ exists t. now split.
        -- intros H. injection H as <-. rewrite Hnb, Hp. exists f. now split.
    + intros H. injection H as <-. rewrite Hnb. exists f. now split.
  - unfold bk_data_ind.build_csv, Pipeline.build_csv. rewrite Hnb.
    cbn [String.eqb Ascii.eqb Bool.eqb].
    destruct (Pipeline.list_today w) as [D|e] eqn:HD.
    + destruct (rows D) as [|r0 rs] eqn:Hrows.
      * intros H. injection H as <-. rewrite Hnb. exists f. now split.
      * destruct (bk_data_ind.patch_today to_dt (read_csv f) D
                    (Pipeline.today_col w)) as [t|e] eqn:Hp.
        -- intros H. injection H as <-.
           destruct (round_patch_inv to_dt _ _ _ _ Hp)
             as (_ & Hidx & Hcols & _ & _ & _ & _).
           rewrite (Hkeep (read_csv f) t Hnb (or_intror (ex_intro _ _ Hidx))
                      (fun c Hc => proj2 (Hcols c) (or_intror Hc))).
           destruct (round_patch_reread to_dt _ _ _ _ Hp) as (t2 & Hp2 & Hb).
           rewrite Hp2. exists t2. now split.
        -- intros H. injection H as <-. rewrite Hnb, Hp. exists f. now split.
    + intros H. injection H as <-. rewrite Hnb. exists f. now split.
Qed.

Lemma list_mode_run_twice_witness :
  exists t1 t2,
    Pipeline.csv (bk_data_ind.build_csv iso_day iso_date ex_world 2 "list"
                    (Some ex_wide)) = Some t1
    /\ Pipeline.csv (bk_data_ind.build_csv iso_day iso_date ex_world 2 "list"
                       (Some t1)) = Some t2
    /\ bk_data_ind.to_csv t2 = bk_data_ind.to_csv t1.
Proof.
  eexists.
  destruct (proj2 (list_mode_run_twice iso_day iso_date ex_world 2 ex_wide eq_refl)
              _ eq_refl) as (t2 & H2 & Hb).
  exists t2. split; [reflexivity|]. split; assumption.
Defined.

(** ** The reader [bk_top_range.py] *)

(** X20.  The date columns that [main] shows are read from the column
    names alone: they are columns of the table other than [row_key],
    [board_code] and [board_name] whose name reads as a date, they come
    in ascending date order, they are at most [N_DAYS], and a dated
    column that is left out is not later than any column shown.  [main]
    raises exactly when no column reads as a date. *)
Theorem date_columns_latest (to_datetime : list string -> list (option Z))
    (all_cols : list string) :
  let raw := filter (fun c => negb (PyStr.mem c ["row_key"; "board_code"; "board_name"]))
               all_cols in
  let dated := bk_top_range.valid_pairs (combine raw (to_datetime raw)) in
  (bk_top_range.date_columns to_datetime all_cols = Raises RuntimeError <-> dated = [])
  /\ forall shown,
       bk_top_range.date_columns to_datetime all_cols = Returns shown ->
       StronglySorted (fun a b => (snd a <= snd b)%Z) shown
       /\ (Z.of_nat (List.length shown) <= bk_top_range.N_DAYS)%Z
       /\ shown <> []
       /\ (forall c d, In (c, d) shown ->
             In (c, d) dated /\ In c all_cols
             /\ c <> "row_key" /\ c <> "board_code" /\ c <> "board_name")
       /\ (forall p, In p dated -> ~ In p shown ->
             forall q, In q shown -> (snd p <= snd q)%Z).
Proof.
  intros raw dated. unfold bk_top_range.date_columns. fold raw. fold dated.
  assert (Hcols : forall c d, In (c, d) dated ->
             In c all_cols /\ c <> "row_key" /\ c <> "board_code"
             /\ c <> "board_name").
  { intros c d Hin. unfold dated in Hin. apply valid_pairs_In in Hin.
    apply in_combine_l in Hin. unfold raw in Hin. apply filter_In in Hin.
    destruct Hin as [Hc Hm]. split; [assumption|].
    apply negb_true_iff, mem_notin in Hm. simpl in Hm. intuition congruence. }
  clearbody dated. clear raw.
  destruct dated as [|p0 ps].
  - split; [tauto | discriminate].
  - split; [split; discriminate|].
    intros shown H.
    assert (Hsh : shown = last_n bk_top_range.N_DAYS
                            (bk_top_range.sort_pairs (p0 :: ps)))
      by (injection H as <-; reflexivity).
    clear H. subst shown. set (dated := p0 :: ps) in *.
    destruct (last_n_suffix bk_top_range.N_DAYS (bk_top_range.sort_pairs dated))
      as (pre & Hpre & Hlen).
    specialize (Hlen eq_refl). rewrite sort_pairs_length in Hlen.
    pose proof (sort_pairs_sorted dated) as Hs. rewrite Hpre in Hs.
    destruct (StronglySorted_app _ _ _ Hs) as [Hs2 Hle].
    split; [exact Hs2|]. split; [|split; [|split]].
    + rewrite Hlen. unfold bk_top_range.N_DAYS. lia.
    + intros Hnil. rewrite Hnil in Hlen. simpl in Hlen.
      unfold bk_top_range.N_DAYS in Hlen. lia.
    + intros c d Hin.
      assert (Hin' : In (c, d) dated).
      { apply In_sort_pairs. rewrite Hpre. apply in_or_app. now right. }
      split; [assumption | now apply (Hcols c d)].
    + intros p Hp Hn q Hq. apply Hle; [|assumption].
      apply In_sort_pairs in Hp. rewrite Hpre in Hp. apply in_app_or in Hp.
      destruct Hp as [Hp|Hp]; [assumption | contradiction].
Qed.

Example date_columns_sample :
  bk_top_range.date_columns (map iso_day)
    ["row_key"; "2024-01-03"; "note"; "2024-01-02"; "board_name"]
  = Returns [("2024-01-02", 20240102%Z); ("2024-01-03", 20240103%Z)]
  /\ bk_top_range.date_columns (map iso_day) ["row_key"; "note"] = Raises RuntimeError.
Proof. split; reflexivity. Qed.

(** X21.  The board names that [main] derives from the row keys: for the
    keys [code|name] that the fetchers write (the code without ['|']) the
    name of each board is [name.strip()], also when the name itself holds
    a ['|'].  [main] raises [RuntimeError] on a table without the column
    [row_key], and [KeyError] when no key at all has a ['|'] (the split
    frame then has no column [1]), as on a table without rows. *)
Theorem board_names_from_row_keys (strip : string -> string) (cols : list string) :
  (forall keys, ~ In "row_key" cols ->
                bk_top_range.board_names strip cols keys = Raises RuntimeError)
  /\ (forall keys, In "row_key" cols -> Forall (free_of "|") keys ->
                   bk_top_range.board_names strip cols keys = Raises KeyError)
  /\ (forall boards : list (string * string),
        In "row_key" cols -> boards <> [] ->
        (forall code name, In (code, name) boards -> free_of "|" code) ->
        bk_top_range.board_names strip cols
          (map (fun b => row_key (fst b) (snd b)) boards)
        = Returns (map (fun b => strip (snd b)) boards)).
Proof.
  split; [|split].
  - intros keys Hn. unfold bk_top_range.board_names.
    apply mem_notin in Hn. now rewrite Hn.
  - intros keys Hin Hall. unfold bk_top_range.board_names.
    apply mem_In in Hin. rewrite Hin. cbn [negb].
    assert (He : existsb (fun p : string * option string =>
                            match snd p with Some _ => true | None => false end)
                   (map (bk_top_range.split1 "|") keys) = false).
    { induction Hall as [|k t Hk Ht IH]; [reflexivity|]. simpl.
      now rewrite (split1_free _ _ Hk), IH. }
    now rewrite He.
  - intros boards Hin Hne Hfree. unfold bk_top_range.board_names.
    apply mem_In in Hin. rewrite Hin. cbn [negb]. rewrite !map_map.
    assert (Hs : forall b, In b boards ->
               bk_top_range.split1 "|" (row_key (fst b) (snd b))
               = (fst b, Some (snd b))).
    { intros [c n] Hb. apply split1_row_key. now apply (Hfree c n). }
    assert (He : existsb (fun p : string * option string =>
                            match snd p with Some _ => true | None => false end)
                   (map (fun b => bk_top_range.split1 "|" (row_key (fst b) (snd b)))
                      boards) = true).
    { destruct boards as [|b t]; [now contradiction Hne|]. simpl.
      now rewrite (Hs b (or_introl eq_refl)). }
    rewrite He. f_equal. apply map_ext_in. intros b Hb. now rewrite (Hs b Hb).
Qed.

Example board_names_sample :
  bk_top_range.board_names (fun s => s) ["row_key"; "2024-01-02"]
    ["BK1|A"; "BK2"; "BK3|C|D"] = Returns ["A"; "BK2"; "C|D"]
  /\ bk_top_range.board_names (fun s => s) ["row_key"] ["BK1"; "BK2"] = Raises KeyError.
Proof. split; reflexivity. Qed.

(** X22.  [_fetch_beg_end] of [rank_get_value.py] cuts the history to its
    last [n] records (all of them when there are fewer) for [n >= 1];
    asked for [n = 0] days it returns the whole history, since
    [recs[-0:]] is [recs]. *)
Theorem fetch_beg_end_keeps_last (float_of_str : string -> option pyfloat)
    (resp : exc (option (list string))) (n : Z) :
  match rank_get_value._fetch_beg_end float_of_str resp n,
        rank_get_value._fetch_lmt float_of_str resp with
  | Ok recs, Ok all =>
      (exists pre, all = pre ++ recs)
      /\ ((0 < n)%Z -> List.length recs = Nat.min (Z.to_nat n) (List.length all))
      /\ (n = 0%Z -> recs = all)
  | Raise e, Raise e' => e = e'
  | _, _ => False
  end.
Proof.
  unfold rank_get_value._fetch_beg_end, rank_get_value._fetch_lmt.
  destruct resp as [kl|e]; simpl; [|reflexivity].
  destruct (rank_get_value._parse_klines float_of_str kl) as [|r t] eqn:Hp.
  - split; [now exists []|]. split; [intros _; simpl; lia | reflexivity].
  - destruct (last_n_suffix n (r :: t)) as (pre & Hpre & Hlen).
    split; [now exists pre|]. split; [assumption|]. now intros ->.
Qed.

Example fetch_beg_end_sample :
  rank_get_value._fetch_beg_end ex_float
    (Ok (Some ["d1,,,,,,,,3"; "d2,,,,,,,,x"; "d3,,,,,,,,150"])) 2
  = Ok [("d2", FNaN); ("d3", of_Z 150)]
  /\ rank_get_value._fetch_beg_end ex_float
       (Ok (Some ["d1,,,,,,,,3"; "d2,,,,,,,,x"; "d3,,,,,,,,150"])) 0
     = Ok [("d1", of_Z 3); ("d2", FNaN); ("d3", of_Z 150)].
Proof. split; reflexivity. Qed.
(** ** The flush of an interrupted run *)

Section FlushTrace.

Import Pipeline.

Variables write_baseline1 write_baseline2 : list board_hist -> exc frame.
Variables patch_today1 patch_today2 : frame -> today_df -> string -> exc frame.

(** The requests of the per-board mode do not depend on the writers. *)
Lemma his_mode_trace (w : world) (n_days : Z) (today_mode : string) (f : frame) :
  RunSpec.needs_baseline (Some f) = false ->
  today_mode <> "list" ->
  trace (build_csv write_baseline1 patch_today1 w n_days today_mode (Some f))
  = trace (build_csv write_baseline2 patch_today2 w n_days today_mode (Some f)).
Proof.
  intros Hnb Hmode. simpl in Hnb. apply String.eqb_neq in Hmode.
  unfold build_csv. rewrite Hnb, Hmode.
  destruct (board_list w) as [boards|e]; [|reflexivity].
  destruct (pass1 w boards _ [] []) as [[rows_today fails] tr1].
  destruct (match fails with
            | [] => (rows_today, tr1)
            | _ :: _ => if interrupted w (List.length tr1) then (rows_today, tr1)
                        else pass2 w fails tr1 rows_today
            end) as [rows2 tr2].
  destruct rows2 as [|kr rest]; [reflexivity|].
  destruct (patch_today1 _ _ _), (patch_today2 _ _ _); reflexivity.
Qed.

End FlushTrace.

(** X23.  What becomes of the rows fetched so far when the per-board mode
    is interrupted.  A board of the list that the run did not reach has
    no row in the snapshot; once the today column exists,
    [patch_today] of [bk_vis/bk_fetch_data.py] raises on the boolean mask
    that lacks the board, so the run ends in [IndexingError] with the CSV
    file as it was and the fetched rows are lost.
    [round/bk_data_ind.py] makes the same requests and writes the table
    patched with the rows it has.  The list has no board twice and no
    code with a ['|']. *)
Theorem interrupted_run_flush
    (to_dt : string -> option Z) (to_date : string -> option date)
    (w : Pipeline.world) (n_days : Z) (today_mode : string) (f : frame)
    (boards : list (string * string)) (code name : string) :
  RunSpec.needs_baseline (Some f) = false ->
  today_mode <> "list" ->
  Pipeline.board_list w = Ok boards ->
  NoDup boards ->
  (forall c n, In (c, n) boards -> free_of "|" c) ->
  In (Pipeline.today_col w) (columns f) ->
  In (code, name) boards ->
  let r1 := bk_fetch_data.build_csv to_dt to_date w n_days today_mode (Some f) in
  let r2 := bk_data_ind.build_csv to_dt to_date w n_days today_mode (Some f) in
  ~ In (Pipeline.EvKline code (Pipeline.today w) (Pipeline.today w))
       (Pipeline.trace r1) ->
  kline_requests r1 <> 0 ->
  (Pipeline.csv r1 = Some f /\ Pipeline.error r1 = Some IndexingError)
  /\ Pipeline.trace r2 = Pipeline.trace r1
  /\ exists D t,
       rows D <> []
       /\ bk_data_ind.patch_today to_dt
            (reindex (read_csv f) (map (fun b => row_key (fst b) (snd b)) boards))
            D (Pipeline.today_col w) = Ok t
       /\ Pipeline.csv r2 = Some t /\ Pipeline.error r2 = None.
Proof.
  intros Hnb Hmode Hb Hnd Hfree Hc Hin r1 r2 Hskip Hreq.
  assert (Htr : Pipeline.trace r2 = Pipeline.trace r1).
  { unfold r1, r2, bk_fetch_data.build_csv, bk_data_ind.build_csv.
    now apply his_mode_trace. }
  split; [|split; [exact Htr|]].
  - destruct (his_mode_run (bk_fetch_data.write_baseline to_date)
                (bk_fetch_data.patch_today to_dt) w n_days today_mode f boards
                Hnb Hmode Hb) as (d & Hkeys & Hall & Hrun).
    fold (bk_fetch_data.build_csv to_dt to_date) in Hall, Hrun.
    fold r1 in Hall, Hrun.
    destruct d as [|kr rest].
    { exfalso. apply Hreq. unfold kline_requests. now rewrite Hrun. }
    set (d := kr :: rest) in *.
    set (D := mkToday (map snd d) false) in *.
    set (W := reindex (read_csv f) _) in *.
    assert (Hp : bk_fetch_data.patch_today to_dt W D (Pipeline.today_col w)
                 = Raise IndexingError).
    { unfold bk_fetch_data.patch_today.
      destruct (rows D) as [|r0 rs] eqn:Hr; [discriminate Hr|]. rewrite vis_keys.
      assert (Hm : PyStr.mem (Pipeline.today_col w) (columns W) = true)
        by now apply mem_In.
      rewrite Hm. cbn [negb].
      assert (Hdup : PyStr.has_dup (today_keys D) = false).
      { apply has_dup_NoDup. now apply (asked_keys_NoDup w boards Hfree
                                          (Pipeline.trace r1)). }
      rewrite Hdup.
      assert (Hall' : forallb (fun k0 => PyStr.mem k0 (today_keys D)) (index W) = false).
      { destruct (forallb _ _) eqn:Hf; [|reflexivity].
        rewrite forallb_forall in Hf.
        assert (Hk : In (row_key code name) (index W)).
        { unfold W. simpl. apply in_map_iff. now exists (code, name). }
        specialize (Hf _ Hk). apply mem_In in Hf.
        exfalso. revert Hf.
        now apply (skipped_key_missing w boards Hfree (Pipeline.trace r1)). }
      now rewrite Hall'. }
    rewrite Hp in Hrun. exact Hrun.
  - destruct (his_mode_run (bk_data_ind.write_baseline to_date)
                (bk_data_ind.patch_today to_dt) w n_days today_mode f boards
                Hnb Hmode Hb) as (d & Hkeys & Hall & Hrun).
    fold (bk_data_ind.build_csv to_dt to_date) in Hall, Hrun.
    fold r2 in Hall, Hrun.
    destruct d as [|kr rest].
    { exfalso. apply Hreq. unfold kline_requests. rewrite <- Htr. now rewrite Hrun. }
    set (d := kr :: rest) in *.
    set (D := mkToday (map snd d) false) in *.
    set (W := reindex (read_csv f) _) in *.
    destruct (round_patch_total to_dt W D (Pipeline.today_col w)) as [t Ht].
    { discriminate. }
    { apply has_dup_NoDup. now apply (asked_keys_NoDup w boards Hfree
                                        (Pipeline.trace r2)). }
    rewrite Ht in Hrun. exists D, t. split; [discriminate|]. now split.
Qed.

Lemma interrupted_run_flush_witness :
  let r1 := bk_fetch_data.build_csv iso_day iso_date ex_world_stopped 2 "his"
              (Some ex_patched) in
  Pipeline.csv r1 = Some ex_patched /\ Pipeline.error r1 = Some IndexingError.
Proof.
  refine (proj1 (interrupted_run_flush iso_day iso_date ex_world_stopped 2 "his"
                   ex_patched [("BK1", "A"); ("BK2", "B")] "BK2" "B"
                   eq_refl _ eq_refl _ _ _ _ _ _)).
  - discriminate.
  - repeat constructor; simpl; intuition discriminate.
  - intros c n [H|[H|[]]]; injection H as <- <-; reflexivity.
  - simpl. tauto.
  - simpl. tauto.
  - vm_compute. intuition discriminate.
  - vm_compute. discriminate.
Defined.
